(** * FedNLP: experiment scripts and the span-extraction trainer

    A shallow embedding of the parts of the FedNLP repository that its
    specification talks about:

    - [experiments/distributed/bilstm_exps/main_fedavg.py]
      ([load_data], [preprocess_data], [create_model],
      [init_training_device] and the script body);
    - [experiments/distributed/transformer_exps/obsolete/text_classification_fedavg.py],
      [experiments/centralized/transformer_exps/obsolete/text_classification.py]
      and [.../question_answering.py] ([load_data], [main]);
    - [training/se_transformer_trainer.py]
      ([SpanExtractionTrainer.train_model], [build_optimizer],
      [calculate_results], [eval_model], [evaluate], [_get_inputs_dict]).

    Python integers are [Z] ([//] and [%] are [Z.div] and [Z.modulo], which
    round the same way; a zero divisor raises).  Python dictionaries are
    [gmap]s where only lookups matter and insertion-ordered association
    lists where iteration order is observable.  Python floats that are only
    stored, compared and averaged are rationals ([Qc]); no claim below
    depends on rounding.  Calls into PyTorch, transformers, FedML, wandb and
    the data loaders are recorded as events of a trace. *)

From stdpp Require Import base decidable option numbers list strings functions gmap fin_maps fin_sets.
From Stdlib Require Import ZArith QArith Qcanon Qround Ascii String DecimalString.

#[local] Open Scope string_scope.
#[local] Open Scope list_scope.
#[local] Open Scope Z_scope.

(** ** Python exceptions and results *)

Inductive exn : Type :=
  | KeyError
  | ZeroDivisionError
  | TypeError
  | ValueError
  | IndexError
  | AssertionError
  | Exception (msg : string).

#[global] Instance exn_eq_dec : EqDecision exn.
Proof. solve_decision. Defined.

(** A computation either returns a value or raises. *)
Inductive result (A : Type) : Type :=
  | Ok (a : A)
  | Raise (e : exn).
Arguments Ok {A} a.
Arguments Raise {A} e.

#[global] Instance result_ret : MRet result := @Ok.
#[global] Instance result_bind : MBind result := fun A B f m =>
  match m with
  | Ok a => f a
  | Raise e => Raise e
  end.

Definition is_ok {A} (r : result A) : bool :=
  match r with Ok _ => true | Raise _ => false end.

(** [d[k]] on a dictionary: a missing key raises [KeyError]. *)
Definition getitem `{Countable K} {V} (d : gmap K V) (k : K) : result V :=
  match d !! k with
  | Some v => Ok v
  | None => Raise KeyError
  end.

(** [range(n)] as a list of integers; empty when [n <= 0]. *)
Definition range (n : Z) : list Z := Z.of_nat <$> seq 0 (Z.to_nat n).

(** [a % b] *)
Definition py_mod (a b : Z) : result Z :=
  if decide (b = 0) then Raise ZeroDivisionError else Ok (a mod b).

(** [a // b] *)
Definition py_floordiv (a b : Z) : result Z :=
  if decide (b = 0) then Raise ZeroDivisionError else Ok (a / b).

(** ** Dictionaries whose iteration order is observed

    Kept as the list of their items in insertion order. *)

(** [d[k] = v]: a key that is already there keeps its place and takes the
    new value. *)
Fixpoint dict_set `{EqDecision K} {V} (d : list (K * V)) (k : K) (v : V) : list (K * V) :=
  match d with
  | [] => [(k, v)]
  | (k', v') :: rest =>
      if decide (k = k') then (k, v) :: rest else (k', v') :: dict_set rest k v
  end.

(** [d[k]] *)
Fixpoint dict_get `{EqDecision K} {V} (d : list (K * V)) (k : K) : result V :=
  match d with
  | [] => Raise KeyError
  | (k', v) :: rest => if decide (k = k') then Ok v else dict_get rest k
  end.

(** * main_fedavg.py: [init_training_device] *)

Module Device.

(** What is handed to [torch.device]: ["cuda:" + str(i)] or ["cpu"]. *)
Inductive device : Type :=
  | Cuda (gpu_index : Z)
  | Cpu.

#[global] Instance device_eq_dec : EqDecision device.
Proof. solve_decision. Defined.

(** The loop
<<
    process_gpu_dict = dict()
    for client_index in range(fl_worker_num):
        gpu_index = client_index % gpu_num_per_machine
        process_gpu_dict[client_index] = gpu_index
>>
    over the remaining client indices. *)
Fixpoint fill_process_gpu_dict (gpu_num_per_machine : Z) (clients : list Z)
    (process_gpu_dict : gmap Z Z) : result (gmap Z Z) :=
  match clients with
  | [] => Ok process_gpu_dict
  | client_index :: rest =>
      gpu_index ← py_mod client_index gpu_num_per_machine;
      fill_process_gpu_dict gpu_num_per_machine rest
        (<[client_index := gpu_index]> process_gpu_dict)
  end.

(** [cuda_is_available] is the answer of [torch.cuda.is_available()].  The
    conditional expression [A if c else B] evaluates [A] only when [c]
    holds, so the dictionary is read only on a CUDA machine. *)
Definition init_training_device (cuda_is_available : bool)
    (process_ID fl_worker_num gpu_num_per_machine : Z) : result device :=
  if decide (process_ID = 0) then
    Ok (if cuda_is_available then Cuda 0 else Cpu)
  else
    process_gpu_dict ← fill_process_gpu_dict gpu_num_per_machine (range fl_worker_num) ∅;
    if cuda_is_available then
      gpu_index ← getitem process_gpu_dict (process_ID - 1);
      Ok (Cuda gpu_index)
    else Ok Cpu.

End Device.

(** ** Calls into libraries: a trace of events and an outcome *)

Record Py (E A : Type) : Type := MkPy { trace : list E; outcome : result A }.
Arguments MkPy {E A} trace outcome.
Arguments trace {E A} _.
Arguments outcome {E A} _.

#[global] Instance Py_ret {E} : MRet (Py E) := fun A a => MkPy [] (Ok a).
#[global] Instance Py_bind {E} : MBind (Py E) := fun A B f m =>
  match outcome m with
  | Ok a => MkPy (trace m ++ trace (f a)) (outcome (f a))
  | Raise e => MkPy (trace m) (Raise e)
  end.

Definition emit {E} (e : E) : Py E unit := MkPy [e] (Ok tt).
Definition raise {E A} (e : exn) : Py E A := MkPy [] (Raise e).
Definition lift {E A} (r : result A) : Py E A := MkPy [] r.

(** [if c: m] *)
Definition py_when {E} (c : bool) (m : Py E unit) : Py E unit :=
  if c then m else mret tt.

(** [for x in xs: body x], stopping at the first exception. *)
Fixpoint py_for {E A} (xs : list A) (body : A → Py E unit) : Py E unit :=
  match xs with
  | [] => mret tt
  | x :: rest => body x ;; py_for rest body
  end.

(** [[f(x) for x in xs]] when [f] has effects. *)
Fixpoint py_map {E A B} (xs : list A) (f : A → Py E B) : Py E (list B) :=
  match xs with
  | [] => mret []
  | x :: rest => y ← f x; ys ← py_map rest f; mret (y :: ys)
  end.

(** * The experiment scripts: [load_data] *)

Module Loaders.

(** The packages under [data_preprocessing] that the scripts import. *)
Inductive data_loader_module : Type :=
  | news_20
  | AGNews
  | SemEval2010Task8
  | Sentiment140
  | SST_2
  | SQuAD_1_1.

#[global] Instance data_loader_module_eq_dec : EqDecision data_loader_module.
Proof. solve_decision. Defined.

(** One call [<module>.data_loader.ClientDataLoader(data_file, partition_file,
    partition_method=..., tokenize=..., client_idx=...)]; a call that leaves
    [client_idx] out has [None] there. *)
Record loader : Type := ClientDataLoader {
  loader_module : data_loader_module;
  loader_data_file : string;
  loader_partition_file : string;
  loader_partition_method : string;
  loader_tokenize : bool;
  loader_client_idx : option Z
}.

(** The arguments [load_data] reads. *)
Record Args : Type := {
  data_file : string;
  partition_file : string;
  partition_method : string;
  batch_size : Z;
  train_batch_size : Z;
  eval_batch_size : Z
}.

Section load_data.

(** What the loaders answer is outside this repository's scripts: the
    methods of a constructed loader are functions of the loader. *)
Context {data attrs : Type}.
Variable abspath : string → string.
Variable get_attributes : loader → attrs.
Variable n_clients : attrs → Z.
Variable get_train_data_num get_test_data_num : loader → Z.
Variable get_train_batch_data get_test_batch_data : loader → option Z → data.

(** ** bilstm_exps/main_fedavg.py *)

Record bilstm_dataset : Type := {
  bd_train_data_num : Z;
  bd_test_data_num : Z;
  bd_train_data_global : data;
  bd_test_data_global : data;
  bd_train_data_local_num_dict : list (Z * Z);
  bd_train_data_local_dict : gmap Z data;
  bd_test_data_local_dict : gmap Z data;
  bd_attributes : attrs
}.

(** One branch of the [if]/[elif] chain: the server loader, then one
    loader per client index. *)
Definition bilstm_branch (m : data_loader_module) (args : Args)
    : Py loader (loader * list loader) :=
  let mk idx := ClientDataLoader m (abspath (data_file args))
                  (abspath (partition_file args)) (partition_method args) true idx in
  let server_data_loader := mk None in
  emit server_data_loader ;;
  client_data_loaders ←
    py_map (range (n_clients (get_attributes server_data_loader)))
      (λ client_index, let l := mk (Some client_index) in emit l ;; mret l);
  mret (server_data_loader, client_data_loaders).

(** [client_data_loaders[idx]] *)
Definition list_getitem {A} (l : list A) (idx : Z) : result A :=
  match l !! Z.to_nat idx with
  | Some a => Ok a
  | None => Raise IndexError
  end.

Fixpoint bilstm_fill_local (server_data_loader : loader) (client_data_loaders : list loader)
    (args : Args) (idxs : list Z) (acc : list (Z * Z) * gmap Z data * gmap Z data)
    : result (list (Z * Z) * gmap Z data * gmap Z data) :=
  match idxs with
  | [] => Ok acc
  | idx :: rest =>
      let '(train_data_local_num_dict, train_data_local_dict, test_data_local_dict) := acc in
      l ← list_getitem client_data_loaders idx;
      bilstm_fill_local server_data_loader client_data_loaders args rest
        (dict_set train_data_local_num_dict idx (get_train_data_num l),
         <[idx := get_train_batch_data l (Some (batch_size args))]> train_data_local_dict,
         <[idx := get_test_batch_data server_data_loader (Some (batch_size args))]>
           test_data_local_dict)
  end.

(** Lines 178-190: the dictionaries of the clients and the returned list. *)
Definition bilstm_collect (args : Args) (loaders : loader * list loader)
    : Py loader bilstm_dataset :=
  let '(server_data_loader, client_data_loaders) := loaders in
  let attributes := get_attributes server_data_loader in
  '(train_data_local_num_dict, train_data_local_dict, test_data_local_dict) ←
    lift (bilstm_fill_local server_data_loader client_data_loaders args
            (range (n_clients attributes)) ([], ∅, ∅));
  mret {| bd_train_data_num := get_train_data_num server_data_loader;
          bd_test_data_num := get_test_data_num server_data_loader;
          bd_train_data_global := get_train_batch_data server_data_loader (Some (batch_size args));
          bd_test_data_global := get_test_batch_data server_data_loader (Some (batch_size args));
          bd_train_data_local_num_dict := train_data_local_num_dict;
          bd_train_data_local_dict := train_data_local_dict;
          bd_test_data_local_dict := test_data_local_dict;
          bd_attributes := attributes |}.

Definition bilstm_load_data (args : Args) (dataset_name : string)
    : Py loader bilstm_dataset :=
  loaders ←
    (if decide (dataset_name = "20news") then bilstm_branch news_20 args
     else if decide (dataset_name = "agnews") then bilstm_branch AGNews args
     else if decide (dataset_name = "semeval_2010_task8") then bilstm_branch SemEval2010Task8 args
     else if decide (dataset_name = "sentiment140") then bilstm_branch Sentiment140 args
     else if decide (dataset_name = "sst_2") then bilstm_branch SST_2 args
     else raise (Exception "No such dataset"));
  bilstm_collect args loaders.

(** ** centralized/transformer_exps/obsolete/text_classification.py *)

Definition centralized_load_data (args : Args) (dataset : string)
    : Py loader (data * data * attrs) :=
  let mk m := ClientDataLoader m (data_file args) (partition_file args)
                (partition_method args) false None in
  data_loader ←
    (if decide (dataset = "20news") then emit (mk news_20) ;; mret (mk news_20)
     else if decide (dataset = "agnews") then emit (mk AGNews) ;; mret (mk AGNews)
     else if decide (dataset = "semeval_2010_task8") then
       emit (mk SemEval2010Task8) ;; mret (mk SemEval2010Task8)
     else if decide (dataset = "sentiment140") then
       emit (mk Sentiment140) ;; mret (mk Sentiment140)
     else if decide (dataset = "sst_2") then emit (mk SST_2) ;; mret (mk SST_2)
     else raise (Exception "No such dataset"));
  mret (get_train_batch_data data_loader None, get_test_batch_data data_loader None,
        get_attributes data_loader).

(** ** centralized/transformer_exps/obsolete/question_answering.py *)

Definition question_answering_load_data (args : Args) (dataset : string)
    : Py loader (data * data * attrs) :=
  (if decide (dataset ∈ ["squad_1.1"]) then mret tt else raise AssertionError) ;;
  let data_loader := ClientDataLoader SQuAD_1_1 (data_file args) (partition_file args)
                       (partition_method args) false None in
  emit data_loader ;;
  mret (get_train_batch_data data_loader None, get_test_batch_data data_loader None,
        get_attributes data_loader).

(** ** distributed/transformer_exps/obsolete/text_classification_fedavg.py *)

Record fedavg_dataset : Type := {
  fd_train_data_num : Z;
  fd_test_data_num : Z;
  fd_train_data_global : data;
  fd_test_data_global : data;
  fd_train_data_local_num_dict : list (Z * Z);
  fd_train_data_local_dict : gmap Z data;
  fd_test_data_local_dict : gmap Z data;
  fd_data_attr : attrs
}.

Fixpoint fedavg_fill_local (client_data_loaders : list loader)
    (args : Args) (idxs : list Z) (acc : list (Z * Z) * gmap Z data * gmap Z data)
    : result (list (Z * Z) * gmap Z data * gmap Z data) :=
  match idxs with
  | [] => Ok acc
  | idx :: rest =>
      let '(train_data_local_num_dict, train_data_local_dict, test_data_local_dict) := acc in
      l ← list_getitem client_data_loaders idx;
      fedavg_fill_local client_data_loaders args rest
        (dict_set train_data_local_num_dict idx (get_train_data_num l),
         <[idx := get_train_batch_data l (Some (train_batch_size args))]> train_data_local_dict,
         <[idx := get_test_batch_data l (Some (eval_batch_size args))]> test_data_local_dict)
  end.

(** Lines 146-177: the loaders of the chosen module and the returned tuple. *)
Definition fedavg_collect (args : Args) (data_loader_class : data_loader_module)
    : Py loader fedavg_dataset :=
  let mk idx := ClientDataLoader data_loader_class (data_file args) (partition_file args)
                  (partition_method args) false idx in
  let server_data_loader := mk None in
  emit server_data_loader ;;
  client_data_loaders ←
    py_map (range (n_clients (get_attributes server_data_loader)))
      (λ client_index, let l := mk (Some client_index) in emit l ;; mret l);
  let data_attr := get_attributes server_data_loader in
  '(train_data_local_num_dict, train_data_local_dict, test_data_local_dict) ←
    lift (fedavg_fill_local client_data_loaders args (range (n_clients data_attr)) ([], ∅, ∅));
  mret {| fd_train_data_num := get_train_data_num server_data_loader;
          fd_test_data_num := get_test_data_num server_data_loader;
          fd_train_data_global := get_train_batch_data server_data_loader None;
          fd_test_data_global := get_test_batch_data server_data_loader None;
          fd_train_data_local_num_dict := train_data_local_num_dict;
          fd_train_data_local_dict := train_data_local_dict;
          fd_test_data_local_dict := test_data_local_dict;
          fd_data_attr := data_attr |}.

Definition fedavg_load_data (args : Args) (dataset : string)
    : Py loader fedavg_dataset :=
  data_loader_class ←
    (if decide (dataset = "20news") then mret news_20
     else if decide (dataset = "agnews") then mret AGNews
     else if decide (dataset = "semeval_2010_task8") then mret SemEval2010Task8
     else if decide (dataset = "sentiment140") then mret Sentiment140
     else if decide (dataset = "sst_2") then mret SST_2
     else raise (Exception "No such dataset"));
  fedavg_collect args data_loader_class.

End load_data.

(** The module that carries a dataset name, when there is one. *)
Definition module_of_name (name : string) : option data_loader_module :=
  if decide (name = "20news") then Some news_20
  else if decide (name = "agnews") then Some AGNews
  else if decide (name = "semeval_2010_task8") then Some SemEval2010Task8
  else if decide (name = "sentiment140") then Some Sentiment140
  else if decide (name = "sst_2") then Some SST_2
  else None.

End Loaders.

(** * main_fedavg.py: [preprocess_data] *)

Module Preprocess.

(** A batch is a Python dictionary with the keys ["X"] (token sequences) and
    ["Y"] (labels).  [preprocess_data] assigns to [batch["X"]] in place, and
    the same batch object may sit in several of the lists it walks, so the
    batches live in a store and the lists hold references. *)
Abbreviation loc := nat (only parsing).

Record batch : Type := Batch {
  X : list (list string);
  Y : list string
}.

Abbreviation store := (nat → batch) (only parsing).

(** [batch["X"] = new_X] on the object at [l]. *)
Definition set_X (l : loc) (new_X : list (list string)) (h : store) : store :=
  <[l := Batch new_X (Y (h l))]> h.

(** The fields of [args] that [preprocess_data] reads.  [embedding_name] and
    [embedding_file] are declared with [nargs="?"] and no default, so they
    may be [None]. *)
Record Args : Type := {
  do_remove_low_freq_words : Z;
  do_remove_stop_words : bool;
  embedding_name : option string;
  embedding_file : option string;
  embedding_length : Z;
  max_seq_len : Z
}.

(** The list that [load_data] returns.  [train_data_local_num_dict] is kept
    in insertion order because its keys are iterated. *)
Record dataset {tvocab : Type} : Type := {
  train_data_num : Z;
  test_data_num : Z;
  train_data_global : list loc;
  test_data_global : list loc;
  train_data_local_num_dict : list (Z * Z);
  train_data_local_dict : gmap Z (list loc);
  test_data_local_dict : gmap Z (list loc);
  target_vocab : tvocab
}.
Arguments dataset : clear implicits.

(** Python's truth test on an optional string: [None] and [""] are false. *)
Definition truthy (s : option string) : bool :=
  match s with
  | None => false
  | Some s => negb (String.eqb s "")
  end.

(** [os.path.abspath(p)]; [None] is not a path. *)
Definition os_path_abspath (abspath : string → string) (p : option string) : result string :=
  match p with
  | Some p => Ok (abspath p)
  | None => Raise TypeError
  end.

(** [max(lengths)] *)
Definition py_max (lengths : list Z) : result Z :=
  match lengths with
  | [] => Raise ValueError
  | n :: rest => Ok (foldl Z.max n rest)
  end.

Section preprocess_data.

(** The helpers of [data_preprocessing.base.utils] and the spaCy stop-word
    set are imported, not defined, by the script. *)
Context {tvocab weights token_idx label_idx : Type}.
Variable build_freq_vocab : list (list string) → gmap string Z.
Variable remove_words : list (list string) → gset string → list (list string).
Variable build_vocab : list (list string) → gmap string Z.
Variable load_word2vec_embedding :
  string → gmap string Z → result (gmap string Z * weights).
Variable load_glove_embedding :
  string → gmap string Z → Z → result (gmap string Z * weights).
Variable padding_data : list (list string) → Z → list (list string) * list Z.
Variable token_to_idx : list (list string) → gmap string Z → token_idx.
Variable label_to_idx : list string → tvocab → label_idx.
Variable STOP_WORDS : gset string.
Variable abspath : string → string.

(** [torch.tensor(embedding_weights, dtype=torch.float)] *)
Inductive tensor : Type := torch_tensor (w : weights).

(** The loop [for batch_data in bs: x.extend(batch_data["X"])]. *)
Definition extend_X (h : store) (bs : list loc) : list (list string) :=
  flat_map (λ l, X (h l)) bs.

(** The list [x] of lines 205-209 and again of lines 242-246: the sequences
    of the global train batches, then those of the global test batches. *)
Definition collect_x (ds : dataset tvocab) (h : store) : list (list string) :=
  extend_X h (train_data_global ds) ++ extend_X h (test_data_global ds).

(** The loop
    [for i, batch_data in enumerate(bs): bs[i]["X"] = remove_words(batch_data["X"], word_set)]. *)
Definition remove_in (word_set : gset string) (bs : list loc) (h : store) : store :=
  foldl (λ h l, set_X l (remove_words (X (h l)) word_set) h) h bs.

(** The loop over [train_data_local_num_dict.keys()] of [__remove_words]. *)
Fixpoint remove_in_clients (word_set : gset string) (ds : dataset tvocab)
    (clients : list Z) (h : store) : result store :=
  match clients with
  | [] => Ok h
  | client_index :: rest =>
      train ← getitem (train_data_local_dict ds) client_index;
      let h := remove_in word_set train h in
      test ← getitem (test_data_local_dict ds) client_index;
      let h := remove_in word_set test h in
      remove_in_clients word_set ds rest h
  end.

Definition __remove_words (ds : dataset tvocab) (word_set : gset string) (h : store)
    : result store :=
  let h := remove_in word_set (train_data_global ds) h in
  let h := remove_in word_set (test_data_global ds) h in
  remove_in_clients word_set ds (train_data_local_num_dict ds).*1 h.

(** The set built by
    [for token, freq in freq_vocab.items(): if freq <= k: low_freq_words.add(token)]. *)
Definition low_freq_words (freq_vocab : gmap string Z) (k : Z) : gset string :=
  dom (filter (λ kv : string * Z, (kv.2 ≤ k)%Z) freq_vocab).

(** Lines 203-239: the frequency vocabulary and the two removals. *)
Definition remove_stage (args : Args) (ds : dataset tvocab) (h : store) : result store :=
  let x := collect_x ds h in
  let freq_vocab := build_freq_vocab x in
  h ← (if decide (do_remove_low_freq_words args > 0) then
         __remove_words ds (low_freq_words freq_vocab (do_remove_low_freq_words args)) h
       else Ok h);
  if do_remove_stop_words args then __remove_words ds STOP_WORDS h else Ok h.

(** Lines 241-247: the source vocabulary of the global batches as they are
    after the removals. *)
Definition source_vocab_of (ds : dataset tvocab) (h : store) : gmap string Z :=
  build_vocab (collect_x ds h).

(** Lines 250-262: the pretrained embeddings. *)
Definition embedding_stage (args : Args) (source_vocab : gmap string Z)
    : result (gmap string Z * option tensor) :=
  if truthy (embedding_name args) then
    '(source_vocab, embedding_weights) ←
      (if decide (embedding_name args = Some "word2vec") then
         path ← os_path_abspath abspath (embedding_file args);
         load_word2vec_embedding path source_vocab
       else if decide (embedding_name args = Some "glove") then
         path ← os_path_abspath abspath (embedding_file args);
         load_glove_embedding path source_vocab (embedding_length args)
       else Raise (Exception "No such embedding"));
    Ok (source_vocab, Some (torch_tensor embedding_weights))
  else Ok (source_vocab, None).

(** One padded and indexed batch: the dictionary with ["X"], ["Y"] and
    ["seq_lens"]. *)
Record new_batch : Type := {
  new_X : token_idx;
  new_Y : label_idx;
  seq_lens : list Z
}.

Definition pad_batch (max_seq_len : Z) (source_vocab : gmap string Z) (target_vocab : tvocab)
    (b : batch) : new_batch :=
  let '(padding_x, seq_lens) := padding_data (X b) max_seq_len in
  {| new_X := token_to_idx padding_x source_vocab;
     new_Y := label_to_idx (Y b) target_vocab;
     seq_lens := seq_lens |}.

Definition pad_list (max_seq_len : Z) (source_vocab : gmap string Z) (target_vocab : tvocab)
    (h : store) (bs : list loc) : list new_batch :=
  (λ l, pad_batch max_seq_len source_vocab target_vocab (h l)) <$> bs.

Fixpoint pad_clients (max_seq_len : Z) (source_vocab : gmap string Z) (ds : dataset tvocab)
    (h : store) (clients : list Z) (acc : gmap Z (list new_batch) * gmap Z (list new_batch))
    : result (gmap Z (list new_batch) * gmap Z (list new_batch)) :=
  match clients with
  | [] => Ok acc
  | client_index :: rest =>
      train ← getitem (train_data_local_dict ds) client_index;
      let new_train := pad_list max_seq_len source_vocab (target_vocab ds) h train in
      test ← getitem (test_data_local_dict ds) client_index;
      let new_test := pad_list max_seq_len source_vocab (target_vocab ds) h test in
      pad_clients max_seq_len source_vocab ds h rest
        (<[client_index := new_train]> acc.1, <[client_index := new_test]> acc.2)
  end.

(** The list that [preprocess_data] returns. *)
Record preprocessed : Type := {
  out_train_data_num : Z;
  out_test_data_num : Z;
  new_train_data_global : list new_batch;
  new_test_data_global : list new_batch;
  out_train_data_local_num_dict : list (Z * Z);
  new_train_data_local_dict : gmap Z (list new_batch);
  new_test_data_local_dict : gmap Z (list new_batch);
  source_vocab : gmap string Z;
  out_target_vocab : tvocab;
  embedding_weights : option tensor
}.

(** Lines 250-313: the embeddings, the padding and the returned list, from
    the store and the source vocabulary that the removals leave. *)
Definition finish_stage (args : Args) (ds : dataset tvocab) (h : store)
    (source_vocab : gmap string Z) : result (store * preprocessed) :=
  '(source_vocab, embedding_weights) ← embedding_stage args source_vocab;
  max_seq_len ←
    (if decide (max_seq_len args = -1) then
       py_max (flat_map (λ l, (λ single_x, Z.of_nat (List.length single_x)) <$> X (h l))
                 (train_data_global ds))
     else Ok (max_seq_len args));
  '(new_train_data_local_dict, new_test_data_local_dict) ←
    pad_clients max_seq_len source_vocab ds h (train_data_local_num_dict ds).*1 (∅, ∅);
  Ok (h,
      {| out_train_data_num := train_data_num ds;
         out_test_data_num := test_data_num ds;
         new_train_data_global :=
           pad_list max_seq_len source_vocab (target_vocab ds) h (train_data_global ds);
         new_test_data_global :=
           pad_list max_seq_len source_vocab (target_vocab ds) h (test_data_global ds);
         out_train_data_local_num_dict := train_data_local_num_dict ds;
         new_train_data_local_dict := new_train_data_local_dict;
         new_test_data_local_dict := new_test_data_local_dict;
         source_vocab := source_vocab;
         out_target_vocab := target_vocab ds;
         embedding_weights := embedding_weights |}).

(** [preprocess_data(args, dataset)]: the store it leaves behind and the
    list it returns. *)
Definition preprocess_data (args : Args) (ds : dataset tvocab) (h : store)
    : result (store * preprocessed) :=
  h ← remove_stage args ds h;
  finish_stage args ds h (source_vocab_of ds h).

End preprocess_data.

End Preprocess.

(** * Python strings *)

Module PyStr.

(** [sub in s] *)
Fixpoint contains (sub s : string) : bool :=
  String.prefix sub s ||
  match s with
  | EmptyString => false
  | String _ rest => contains sub rest
  end.

(** [c.isspace()] for a character below 256. *)
Definition isspace (c : ascii) : bool :=
  let n := N_of_ascii c in
  ((9 <=? n) && (n <=? 13) || (28 <=? n) && (n <=? 32) || (n =? 133) || (n =? 160))%N.

Fixpoint lstrip (s : string) : string :=
  match s with
  | EmptyString => EmptyString
  | String c rest => if isspace c then lstrip rest else s
  end.

Fixpoint rstrip (s : string) : string :=
  match s with
  | EmptyString => EmptyString
  | String c rest =>
      match rstrip rest with
      | EmptyString => if isspace c then EmptyString else String c EmptyString
      | r => String c r
      end
  end.

(** [s.strip()] *)
Definition strip (s : string) : string := rstrip (lstrip s).

(** [str(n)] for an integer. *)
Definition str (n : Z) : string := NilZero.string_of_int (Z.to_int n).

End PyStr.

(** * training/se_transformer_trainer.py: the inputs of the model *)

Module Inputs.

(** The model types of line 448 (and of lines 269-277), for which
    ["token_type_ids"] is deleted, and those of line 451 (and 282), which
    take ["cls_index"] and ["p_mask"]. *)
Definition without_token_type_ids : list string :=
  ["xlm"; "roberta"; "distilbert"; "camembert"; "electra"; "xlmroberta"; "bart"].

Definition with_cls_index : list string := ["xlnet"; "xlm"].

Section inputs.

(** A batch is a tuple of tensors; what a tensor holds plays no part here. *)
Context {tensor : Type}.

(** [batch[k]] on a tuple, for a constant [k >= 0]. *)
Definition tuple_getitem (batch : list tensor) (k : nat) : result tensor :=
  match batch !! k with
  | Some t => Ok t
  | None => Raise IndexError
  end.

(** [_get_inputs_dict(batch)], used by the training loop.  The dictionary
    display reads the five entries before anything is deleted. *)
Definition _get_inputs_dict (model_type : string) (batch : list tensor)
    : result (gmap string tensor) :=
  input_ids ← tuple_getitem batch 1;
  attention_mask ← tuple_getitem batch 2;
  token_type_ids ← tuple_getitem batch 3;
  start_positions ← tuple_getitem batch 4;
  end_positions ← tuple_getitem batch 5;
  let inputs : gmap string tensor :=
    <["input_ids" := input_ids]>
      (<["attention_mask" := attention_mask]>
         (<["token_type_ids" := token_type_ids]>
            (<["start_positions" := start_positions]>
               {["end_positions" := end_positions]}))) in
  let inputs :=
    if decide (model_type ∈ without_token_type_ids)
    then delete "token_type_ids" inputs else inputs in
  if decide (model_type ∈ with_cls_index) then
    cls_index ← tuple_getitem batch 6;
    p_mask ← tuple_getitem batch 7;
    Ok (<["cls_index" := cls_index]> (<["p_mask" := p_mask]> inputs))
  else Ok inputs.

(** Lines 263-283 of [evaluate]: the inputs of one evaluation batch and
    [example_indices]. *)
Definition evaluate_inputs (model_type : string) (batch : list tensor)
    : result (gmap string tensor * tensor) :=
  input_ids ← tuple_getitem batch 1;
  attention_mask ← tuple_getitem batch 2;
  token_type_ids ← tuple_getitem batch 3;
  let inputs : gmap string tensor :=
    <["input_ids" := input_ids]>
      (<["attention_mask" := attention_mask]>
         {["token_type_ids" := token_type_ids]}) in
  let inputs :=
    if decide (model_type ∈ without_token_type_ids)
    then delete "token_type_ids" inputs else inputs in
  example_indices ← tuple_getitem batch 4;
  inputs ←
    (if decide (model_type ∈ with_cls_index) then
       cls_index ← tuple_getitem batch 5;
       p_mask ← tuple_getitem batch 6;
       Ok (<["cls_index" := cls_index]> (<["p_mask" := p_mask]> inputs))
     else Ok inputs);
  Ok (inputs, example_indices).

End inputs.

End Inputs.

(** * training/se_transformer_trainer.py: [SpanExtractionTrainer] *)

Module Trainer.

Import Inputs.

(** A parameter tensor of the model, by identity. *)
Abbreviation param := nat (only parsing).

(** A dictionary of [args.custom_parameter_groups]: the names under
    ["params"] and the optimizer options under the other keys. *)
Record custom_group : Type := {
  cg_params : list string;
  cg_options : gmap string Qc
}.

(** A dictionary of [args.custom_layer_parameters]: the number under
    ["layer"] and the optimizer options under the other keys. *)
Record layer_group : Type := {
  lg_layer : Z;
  lg_options : gmap string Qc
}.

(** A dictionary of [optimizer_grouped_parameters]: the tensors under
    ["params"] and the options under the other keys. *)
Record param_group : Type := ParamGroup {
  pg_params : list param;
  pg_options : gmap string Qc
}.

#[global] Instance param_group_eq_dec : EqDecision param_group.
Proof. solve_decision. Defined.

Record Args : Type := {
  custom_parameter_groups : list custom_group;
  custom_layer_parameters : list layer_group;
  train_custom_parameters_only : bool;
  weight_decay : Qc;
  learning_rate : Qc;
  adam_epsilon : Qc;
  warmup_ratio : Qc;
  warmup_steps : Z;
  max_grad_norm : Qc;
  gradient_accumulation_steps : Z;
  num_train_epochs : Z;
  n_gpu : Z;
  fp16 : bool;
  evaluate_during_training : bool;
  evaluate_during_training_steps : Z;
  model_type : string
}.

(** ** The optimizer grouping of [train_model] (lines 73-125) *)

Definition no_decay : list string := ["bias"; "LayerNorm.weight"].

(** [any(nd in n for nd in no_decay)] *)
Definition any_no_decay (n : string) : bool :=
  existsb (λ nd, PyStr.contains nd n) no_decay.

(** The state of the two grouping loops. *)
Record grouping : Type := Grouping {
  optimizer_grouped_parameters : list param_group;
  custom_parameter_names : gset string
}.

(** One turn of [for group in args.custom_parameter_groups]. *)
Definition custom_group_step (named_parameters : list (string * param))
    (st : grouping) (group : custom_group) : grouping :=
  let params := cg_params group in
  let names := custom_parameter_names st ∪ list_to_set params in
  let param_group :=
    {| pg_params :=
         (filter (λ np : string * param, np.1 ∈ params) named_parameters).*2;
       pg_options := cg_options group |} in
  Grouping (optimizer_grouped_parameters st ++ [param_group]) names.

(** The state of the loop over [named_parameters()] inside one layer group. *)
Record layer_scan : Type := LayerScan {
  params_d : list param;
  params_nd : list param;
  scan_names : gset string
}.

Definition layer_scan_step (layer : string) (sc : layer_scan) (np : string * param)
    : layer_scan :=
  let '(n, p) := np in
  if bool_decide (n ∉ scan_names sc) && PyStr.contains layer n then
    if any_no_decay n then
      LayerScan (params_d sc) (params_nd sc ++ [p]) ({[n]} ∪ scan_names sc)
    else
      LayerScan (params_d sc ++ [p]) (params_nd sc) ({[n]} ∪ scan_names sc)
  else sc.

(** [f"layer.{layer_number}."] *)
Definition layer_pattern (layer_number : Z) : string :=
  "layer." +:+ PyStr.str layer_number +:+ ".".

(** One turn of [for group in args.custom_layer_parameters]. *)
Definition layer_group_step (named_parameters : list (string * param))
    (st : grouping) (group : layer_group) : grouping :=
  let layer := layer_pattern (lg_layer group) in
  let group_d := lg_options group in
  let group_nd := <["weight_decay" := 0%Qc]> (lg_options group) in
  let sc := foldl (layer_scan_step layer)
              (LayerScan [] [] (custom_parameter_names st)) named_parameters in
  Grouping
    (optimizer_grouped_parameters st ++
       [ParamGroup (params_d sc) group_d; ParamGroup (params_nd sc) group_nd])
    (scan_names sc).

(** The two groups added when [args.train_custom_parameters_only] is false. *)
Definition default_groups (named_parameters : list (string * param)) (args : Args)
    (names : gset string) : list param_group :=
  [ {| pg_params :=
         (filter (λ np : string * param, (np.1 ∉ names) ∧ ¬ any_no_decay np.1)
            named_parameters).*2;
       pg_options := {["weight_decay" := weight_decay args]} |};
    {| pg_params :=
         (filter (λ np : string * param, (np.1 ∉ names) ∧ any_no_decay np.1)
            named_parameters).*2;
       pg_options := {["weight_decay" := 0%Qc]} |} ].

(** Lines 73-125 as a whole: the value of [optimizer_grouped_parameters] and
    of [custom_parameter_names] when line 127 is reached. *)
Definition group_parameters (named_parameters : list (string * param)) (args : Args)
    : grouping :=
  let st := Grouping [] ∅ in
  let st := foldl (custom_group_step named_parameters) st (custom_parameter_groups args) in
  let st := foldl (layer_group_step named_parameters) st (custom_layer_parameters args) in
  if train_custom_parameters_only args then st
  else Grouping
         (optimizer_grouped_parameters st ++
            default_groups named_parameters args (custom_parameter_names st))
         (custom_parameter_names st).

(** ** [build_optimizer] and the training loop *)

(** The first argument of an optimizer constructor: an iterable of tensors
    or an iterable of parameter-group dictionaries. *)
Inductive optimizer_params : Type :=
  | Tensors (ps : list param)
  | Groups (gs : list param_group).

#[global] Instance optimizer_params_eq_dec : EqDecision optimizer_params.
Proof. solve_decision. Defined.

(** [torch.optim.Optimizer.__init__]: a bare iterable of tensors becomes one
    group that carries no option of its own. *)
Definition param_groups (ps : optimizer_params) : list param_group :=
  match ps with
  | Tensors ps => [ParamGroup ps ∅]
  | Groups gs => gs
  end.

(** What the trainer asks of PyTorch and transformers, in order. *)
Inductive event : Type :=
  | model_to_device
  | AdamW (params : optimizer_params) (lr eps : Qc)
  | get_linear_schedule_with_warmup (num_warmup_steps num_training_steps : Z)
  | DataParallel
  | model_zero_grad
  | create_training_progress_scores
  | GradScaler
  | model_train
  | model_forward (autocast : bool) (epoch batch_idx : Z)
  | loss_mean
  | loss_div (by_steps : Z)
  | scaler_scale_backward
  | loss_backward
  | scaler_unscale_
  | clip_grad_norm_ (max_norm : Qc)
  | scaler_step
  | scaler_update
  | optimizer_step
  | scheduler_step
  | eval_model (epoch global_step : Z).

#[global] Instance event_eq_dec : EqDecision event.
Proof. solve_decision. Defined.

(** [math.ceil(x)] *)
Definition math_ceil (x : Qc) : Z := Qceiling x.

(** [build_optimizer(model, iteration_in_total)]: the optimizer is built
    from [model.parameters()].  Returns the updated [args.warmup_steps]. *)
Definition build_optimizer (args : Args) (model_parameters : list param)
    (iteration_in_total : Z) : Py event Z :=
  let warmup_steps' := math_ceil (Q2Qc (inject_Z iteration_in_total) * warmup_ratio args)%Qc in
  let warmup_steps := if decide (warmup_steps args = 0) then warmup_steps' else warmup_steps args in
  emit (AdamW (Tensors model_parameters) (learning_rate args) (adam_epsilon args)) ;;
  emit (get_linear_schedule_with_warmup warmup_steps iteration_in_total) ;;
  mret warmup_steps.

(** The running totals [global_step] and [tr_loss]. *)
Record progress : Type := Progress {
  global_step : Z;
  tr_loss : Qc
}.

Section train_model.

(** A batch of [self.train_dl] is a tuple of tensors. *)
Context {tensor : Type}.

(** The tuple that the loader yields for [batch_idx] in [epoch]. *)
Variable batch_of : Z → Z → list tensor.

(** The scalar that [loss.item()] reads at line 178, for each epoch and
    batch index. *)
Variable loss_of : Z → Z → Qc.

(** What the call [self.eval_model(epoch, global_step)] of line 209 does
    when it is made at the end of batch [batch_idx] of [epoch]: it returns
    (the loop only logs its value) or it raises.  The method itself is
    [Evaluation.eval_model]; what it finds depends on the weights of the
    model at that moment. *)
Variable eval_model_at : Z → Z → result unit.

(** The body of [for batch_idx, batch in enumerate(self.train_dl)].  An
    exception of [self._get_inputs_dict(batch)] (line 163) or of
    [self.eval_model(epoch, global_step)] (line 209) ends the loop and
    leaves [train_model]. *)
Definition batch_body (args : Args) (epoch : Z) (st : progress) (batch_idx : Z)
    : Py event progress :=
  let batch := batch_of epoch batch_idx in
  inputs ← lift (_get_inputs_dict (model_type args) batch);
  emit (model_forward (fp16 args) epoch batch_idx) ;;
  py_when (bool_decide (n_gpu args > 1)) (emit loss_mean) ;;
  let current_loss := loss_of epoch batch_idx in
  loss ←
    (if decide (gradient_accumulation_steps args > 1) then
       emit (loss_div (gradient_accumulation_steps args)) ;;
       mret (current_loss / Q2Qc (inject_Z (gradient_accumulation_steps args)))%Qc
     else mret current_loss);
  (if fp16 args then emit scaler_scale_backward else emit loss_backward) ;;
  let tr_loss := (tr_loss st + loss)%Qc in
  r ← lift (py_mod (batch_idx + 1) (gradient_accumulation_steps args));
  global_step ←
    (if decide (r = 0) then
       py_when (fp16 args) (emit scaler_unscale_) ;;
       emit (clip_grad_norm_ (max_grad_norm args)) ;;
       (if fp16 args then emit scaler_step ;; emit scaler_update
        else emit optimizer_step) ;;
       emit scheduler_step ;;
       emit model_zero_grad ;;
       mret (global_step st + 1)
     else mret (global_step st));
  py_when (evaluate_during_training args &&
           (bool_decide (evaluate_during_training_steps args > 0) &&
            bool_decide (global_step mod evaluate_during_training_steps args = 0)))
    (emit (eval_model epoch global_step) ;;
     lift (eval_model_at epoch batch_idx)) ;;
  mret (Progress global_step tr_loss).

(** [for x in xs: st = body st x] *)
Fixpoint py_fold {E A S} (body : S → A → Py E S) (st : S) (xs : list A) : Py E S :=
  match xs with
  | [] => mret st
  | x :: rest => st ← body st x; py_fold body st rest
  end.

(** The body of [for epoch in range(0, args.num_train_epochs)]. *)
Definition epoch_body (args : Args) (len_train_dl : Z) (st : progress) (epoch : Z)
    : Py event progress :=
  emit model_train ;;
  py_fold (batch_body args epoch) st (range len_train_dl).

(** [train_model]: [named_parameters] is [self.model.named_parameters()] and
    [len_train_dl] is [len(self.train_dl)]. *)
Definition train_model (named_parameters : list (string * param)) (args : Args)
    (len_train_dl : Z) : Py event (Z * Qc) :=
  emit model_to_device ;;
  let optimizer_grouped_parameters :=
    optimizer_grouped_parameters (group_parameters named_parameters args) in
  per_epoch ← lift (py_floordiv len_train_dl (gradient_accumulation_steps args));
  let iteration_in_total := per_epoch * num_train_epochs args in
  _ ← build_optimizer args named_parameters.*2 iteration_in_total;
  py_when (bool_decide (n_gpu args > 1)) (emit DataParallel) ;;
  emit model_zero_grad ;;
  py_when (evaluate_during_training args) (emit create_training_progress_scores) ;;
  py_when (fp16 args) (emit GradScaler) ;;
  st ← py_fold (epoch_body args len_train_dl) (Progress 0 0%Qc) (range (num_train_epochs args));
  if decide (global_step st = 0) then raise ZeroDivisionError
  else mret (global_step st, (tr_loss st / Q2Qc (inject_Z (global_step st)))%Qc).

End train_model.

(** ** [calculate_results] (lines 361-411) *)

(** An example of [self.test_dl.examples]. *)
Record example : Type := {
  guid : string;
  answer_text : string;
  question_text : string
}.

(** The dictionary stored for a similar or an incorrect answer. *)
Record mismatch : Type := {
  truth : string;
  predicted : string;
  question : string
}.

(** The locals of the classification loop. *)
Record tally : Type := Tally {
  correct : Z;
  incorrect : Z;
  similar : Z;
  correct_text : list (string * string);
  incorrect_text : list (string * mismatch);
  similar_text : list (string * mismatch);
  predicted_answers : list string;
  true_answers : list string
}.

(** The three outcomes of the [if]/[elif]/[else] on the stripped strings. *)
Inductive bucket : Type := IsCorrect | IsSimilar | IsIncorrect.

#[global] Instance bucket_eq_dec : EqDecision bucket.
Proof. solve_decision. Defined.

Definition classify (prediction answer : string) : bucket :=
  if decide (PyStr.strip prediction = PyStr.strip answer) then IsCorrect
  else if PyStr.contains (PyStr.strip prediction) (PyStr.strip answer) ||
          PyStr.contains (PyStr.strip answer) (PyStr.strip prediction)
  then IsSimilar
  else IsIncorrect.

(** The body of [for q_id, answer in truth_dict.items()]. *)
Definition tally_step (predictions : gmap string string)
    (questions_dict : list (string * string)) (t : tally) (item : string * string)
    : result tally :=
  let '(q_id, answer) := item in
  prediction ← getitem predictions q_id;
  let predicted_answers := predicted_answers t ++ [prediction] in
  let true_answers := true_answers t ++ [answer] in
  match classify prediction answer with
  | IsCorrect =>
      Ok (Tally (correct t + 1) (incorrect t) (similar t)
            (dict_set (correct_text t) q_id answer) (incorrect_text t) (similar_text t)
            predicted_answers true_answers)
  | IsSimilar =>
      question ← dict_get questions_dict q_id;
      Ok (Tally (correct t) (incorrect t) (similar t + 1)
            (correct_text t) (incorrect_text t)
            (dict_set (similar_text t) q_id
               {| truth := answer; predicted := prediction; question := question |})
            predicted_answers true_answers)
  | IsIncorrect =>
      question ← dict_get questions_dict q_id;
      Ok (Tally (correct t) (incorrect t + 1) (similar t)
            (correct_text t)
            (dict_set (incorrect_text t) q_id
               {| truth := answer; predicted := prediction; question := question |})
            (similar_text t)
            predicted_answers true_answers)
  end.

Fixpoint tally_loop (predictions : gmap string string)
    (questions_dict : list (string * string)) (t : tally) (items : list (string * string))
    : result tally :=
  match items with
  | [] => Ok t
  | item :: rest =>
      t ← tally_step predictions questions_dict t item;
      tally_loop predictions questions_dict t rest
  end.

Section calculate_results.

(** The value of an extra metric, computed by a function passed in
    [kwargs]. *)
Context {metric : Type}.

(** A value of the returned [result] dictionary. *)
Inductive result_value : Type :=
  | Count (n : Z)
  | Metric (m : metric).

(** The returned [texts] dictionary. *)
Record texts : Type := {
  texts_correct_text : list (string * string);
  texts_similar_text : list (string * mismatch);
  texts_incorrect_text : list (string * mismatch)
}.

(** The two dictionaries filled by [for example in all_examples]. *)
Definition truth_dict_of (all_examples : list example) : list (string * string) :=
  foldl (λ d example, dict_set d (guid example) (answer_text example)) [] all_examples.

Definition questions_dict_of (all_examples : list example) : list (string * string) :=
  foldl (λ d example, dict_set d (guid example) (question_text example)) [] all_examples.

(** [calculate_results(predictions, **kwargs)]; [all_examples] is
    [self.test_dl.examples]. *)
Definition calculate_results (all_examples : list example)
    (predictions : gmap string string)
    (kwargs : list (string * (list string → list string → metric)))
    : result (gmap string result_value * texts) :=
  let truth_dict := truth_dict_of all_examples in
  let questions_dict := questions_dict_of all_examples in
  t ← tally_loop predictions questions_dict (Tally 0 0 0 [] [] [] [] []) truth_dict;
  let extra_metrics : gmap string result_value :=
    foldl (λ extra_metrics kw,
             <[kw.1 := Metric (kw.2 (true_answers t) (predicted_answers t))]> extra_metrics)
      ∅ kwargs in
  let result : gmap string result_value :=
    extra_metrics ∪
    <["correct" := Count (correct t)]>
      (<["similar" := Count (similar t)]> {["incorrect" := Count (incorrect t)]}) in
  Ok (result,
      {| texts_correct_text := correct_text t;
         texts_similar_text := similar_text t;
         texts_incorrect_text := incorrect_text t |}).

End calculate_results.

End Trainer.

(** * The distributed entry points *)

Module Scripts.

Import Device Loaders.

(** What the scripts ask of FedML, wandb, the loaders and the model
    classes, in order. *)
Inductive call : Type :=
  | FedML_init
  | add_args
  | setproctitle
  | logging_basicConfig
  | wandb_init
  | manual_seeds
  | new_loader (l : loader)
  | BiLSTM_TextClassification (attention : bool)
  | TextClassificationBiLSTMTrainer
  | mapping_processes_to_gpu_device_from_yaml_file
  | ClassificationModel
  | TransformerTrainer
  | FedML_FedAvg_distributed (process_id worker_number : Z) (comm_round : Z).

Definition is_FedAvg (c : call) : bool :=
  match c with
  | FedML_FedAvg_distributed _ _ _ => true
  | _ => false
  end.

(** The calls of a callee seen as calls of the script. *)
Definition py_embed {E F A} (f : E → F) (m : Py E A) : Py F A :=
  MkPy (f <$> trace m) (outcome m).

(** The command line of either script, as far as the script body and the
    functions it calls read it. *)
Record Args : Type := {
  model : string;
  dataset : string;
  gpu_num_per_server : Z;
  comm_round : Z;
  loader_args : Loaders.Args;
  preprocess_args : Preprocess.Args
}.

(** [create_model] of main_fedavg.py. *)
Definition create_model (model_name : string) : Py call unit :=
  if decide (model_name = "bilstm_attention") then emit (BiLSTM_TextClassification true)
  else if decide (model_name = "bilstm") then emit (BiLSTM_TextClassification false)
  else raise (Exception "No such model").

Section entry_points.

(** The environment: the loaders' answers (batches are references into a
    store), the helpers of [data_preprocessing.base.utils], CUDA. *)
Context {attrs tvocab weights token_idx label_idx : Type}.
Variable abspath : string → string.
Variable get_attributes : loader → attrs.
Variable n_clients : attrs → Z.
Variable attr_target_vocab : attrs → tvocab.
Variable get_train_data_num get_test_data_num : loader → Z.
Variable get_train_batch_data get_test_batch_data : loader → option Z → list nat.
Variable batches : nat → Preprocess.batch.
Variable build_freq_vocab : list (list string) → gmap string Z.
Variable remove_words : list (list string) → gset string → list (list string).
Variable build_vocab : list (list string) → gmap string Z.
Variable load_word2vec_embedding :
  string → gmap string Z → result (gmap string Z * weights).
Variable load_glove_embedding :
  string → gmap string Z → Z → result (gmap string Z * weights).
Variable padding_data : list (list string) → Z → list (list string) * list Z.
Variable token_to_idx : list (list string) → gmap string Z → token_idx.
Variable label_to_idx : list string → tvocab → label_idx.
Variable STOP_WORDS : gset string.
Variable cuda_is_available : bool.

(** The list returned by [load_data], as [preprocess_data] unpacks it. *)
Definition unpack (d : bilstm_dataset) : Preprocess.dataset tvocab :=
  {| Preprocess.train_data_num := bd_train_data_num d;
     Preprocess.test_data_num := bd_test_data_num d;
     Preprocess.train_data_global := bd_train_data_global d;
     Preprocess.test_data_global := bd_test_data_global d;
     Preprocess.train_data_local_num_dict := bd_train_data_local_num_dict d;
     Preprocess.train_data_local_dict := bd_train_data_local_dict d;
     Preprocess.test_data_local_dict := bd_test_data_local_dict d;
     Preprocess.target_vocab := attr_target_vocab (bd_attributes d) |}.

(** The body of bilstm_exps/main_fedavg.py under [if __name__ == "__main__"];
    [process_id] and [worker_number] are what [FedML_init()] returns. *)
Definition main_fedavg (process_id worker_number : Z) (args : Args) : Py call unit :=
  emit FedML_init ;;
  emit add_args ;;
  emit setproctitle ;;
  emit logging_basicConfig ;;
  py_when (bool_decide (process_id = 0)) (emit wandb_init) ;;
  emit manual_seeds ;;
  device ← lift (init_training_device cuda_is_available process_id (worker_number - 1)
                   (gpu_num_per_server args));
  dataset ← py_embed new_loader
              (bilstm_load_data abspath get_attributes n_clients get_train_data_num
                 get_test_data_num get_train_batch_data get_test_batch_data
                 (loader_args args) (dataset args));
  dataset ← lift (Preprocess.preprocess_data build_freq_vocab remove_words build_vocab
                    load_word2vec_embedding load_glove_embedding padding_data
                    token_to_idx label_to_idx STOP_WORDS abspath
                    (preprocess_args args) (unpack dataset) batches);
  create_model (model args) ;;
  emit TextClassificationBiLSTMTrainer ;;
  emit (FedML_FedAvg_distributed process_id worker_number (comm_round args)).

(** [main(process_id, worker_number, args)] of text_classification_fedavg.py. *)
Definition main (process_id worker_number : Z) (args : Args) : Py call unit :=
  emit mapping_processes_to_gpu_device_from_yaml_file ;;
  _ ← py_embed new_loader
        (fedavg_load_data get_attributes n_clients get_train_data_num
           get_test_data_num get_train_batch_data get_test_batch_data
           (loader_args args) (dataset args));
  emit ClassificationModel ;;
  emit TransformerTrainer ;;
  emit (FedML_FedAvg_distributed process_id worker_number (comm_round args)).

(** The body of text_classification_fedavg.py under
    [if __name__ == "__main__"]. *)
Definition text_classification_fedavg (process_id worker_number : Z) (args : Args)
    : Py call unit :=
  emit add_args ;;
  emit manual_seeds ;;
  emit FedML_init ;;
  emit logging_basicConfig ;;
  py_when (bool_decide (process_id = 0)) (emit wandb_init) ;;
  main process_id worker_number args.

End entry_points.

End Scripts.


(** * training/se_transformer_trainer.py: [evaluate] and [eval_model] *)

Module Evaluation.

Import Inputs.

(** The fields of [args] that [evaluate] and [eval_model] read. *)
Record Args : Type := {
  output_dir : string;
  model_type : string;
  n_gpu : Z;
  fp16 : bool;
  n_best_size : Z;
  max_answer_length : Z;
  do_lower_case : bool;
  null_score_diff_threshold : Qc
}.

(** [features[i]] on a list: a negative index counts from the end. *)
Definition py_list_getitem {A} (l : list A) (i : Z) : result A :=
  let n := Z.of_nat (List.length l) in
  let j := if decide (i < 0) then i + n else i in
  if decide (0 ≤ j < n) then
    match l !! Z.to_nat j with
    | Some a => Ok a
    | None => Raise IndexError
    end
  else Raise IndexError.

Section evaluate.

Context {tensor logits nbest scores out_eval tokenizer : Type}.

(** A feature of [self.test_dl.features], as far as [evaluate] reads it. *)
Record feature : Type := { unique_id : Z }.

Inductive raw_result : Type :=
  | RawResult (unique_id : Z) (start_logits end_logits : logits)
  | RawResultExtended (unique_id : Z)
      (start_top_log_probs start_top_index end_top_log_probs end_top_index
       cls_logits : logits).

Definition raw_unique_id (r : raw_result) : Z :=
  match r with
  | RawResult u _ _ => u
  | RawResultExtended u _ _ _ _ _ => u
  end.

(** The arguments of [write_predictions], in the order of lines 344-357. *)
Record write_predictions_args : Type := WritePredictions {
  wp_examples : list Trainer.example;
  wp_features : list feature;
  wp_all_results : list raw_result;
  wp_n_best_size : Z;
  wp_max_answer_length : Z;
  wp_do_lower_case : bool;
  wp_output_prediction_file : string;
  wp_output_nbest_file : string;
  wp_output_null_log_odds_file : string;
  wp_verbose_logging : bool;
  wp_eleventh : bool;
  wp_null_score_diff_threshold : Qc
}.

(** The arguments of [write_predictions_extended], in the order of lines
    327-342; the ninth one, [None], is left out. *)
Record write_predictions_extended_args : Type := WritePredictionsExtended {
  wpe_examples : list Trainer.example;
  wpe_features : list feature;
  wpe_all_results : list raw_result;
  wpe_n_best_size : Z;
  wpe_max_answer_length : Z;
  wpe_output_prediction_file : string;
  wpe_output_nbest_file : string;
  wpe_output_null_log_odds_file : string;
  wpe_start_n_top : Z;
  wpe_end_n_top : Z;
  wpe_twelfth : bool;
  wpe_tokenizer : tokenizer;
  wpe_verbose_logging : bool
}.

(** What [evaluate] asks of PyTorch, the file system and
    [span_extraction_utils], in order. *)
Inductive eval_event : Type :=
  | model_to_device
  | model_eval
  | DataParallel
  | model_call (autocast : bool) (inputs : gmap string tensor)
  | os_makedirs (path : string)
  | write_predictions_call (a : write_predictions_args)
  | write_predictions_extended_call (a : write_predictions_extended_args).

(** The answers of the model and of the imported helpers.  [model_outputs]
    is the tuple that the call of the model on [inputs] returns (under
    [amp.autocast()] or not); [mean_item t] is [t.mean().item()]; [to_list_at t i] is
    [to_list(t[i])]; [items t] lists [e.item()] for the entries [e] of a
    tensor that is iterated; [model_config wrapped] is
    [(model.config.start_n_top, model.config.end_n_top)], asked of the
    model itself or of its [DataParallel] wrapper. *)
Variable model_outputs : bool → gmap string tensor → list tensor.
Variable mean_item : tensor → Qc.
Variable to_list_at : tensor → nat → result logits.
Variable items : tensor → list Z.
Variable os_path_join : string → string → string.
Variable model_config : bool → result (Z * Z).
Variable write_predictions :
  write_predictions_args → gmap string string * nbest * scores.
Variable write_predictions_extended :
  write_predictions_extended_args → gmap string string * nbest * scores * out_eval.

(** [to_list(outputs[k][i])] *)
Definition output_at (outputs : list tensor) (k i : nat) : result logits :=
  t ← tuple_getitem outputs k;
  to_list_at t i.

(** The body of [for i, example_index in enumerate(example_indices)]. *)
Definition example_step (args : Args) (features : list feature) (outputs : list tensor)
    (all_results : list raw_result) (i : nat) (example_index : Z)
    : result (list raw_result) :=
  eval_feature ← py_list_getitem features example_index;
  let unique_id := unique_id eval_feature in
  result ←
    (if decide (model_type args ∈ with_cls_index) then
       start_top_log_probs ← output_at outputs 0 i;
       start_top_index ← output_at outputs 1 i;
       end_top_log_probs ← output_at outputs 2 i;
       end_top_index ← output_at outputs 3 i;
       cls_logits ← output_at outputs 4 i;
       Ok (RawResultExtended unique_id start_top_log_probs start_top_index
             end_top_log_probs end_top_index cls_logits)
     else
       start_logits ← output_at outputs 0 i;
       end_logits ← output_at outputs 1 i;
       Ok (RawResult unique_id start_logits end_logits));
  Ok (all_results ++ [result]).

Fixpoint example_loop (args : Args) (features : list feature) (outputs : list tensor)
    (all_results : list raw_result) (i : nat) (example_indices : list Z)
    : result (list raw_result) :=
  match example_indices with
  | [] => Ok all_results
  | example_index :: rest =>
      all_results ← example_step args features outputs all_results i example_index;
      example_loop args features outputs all_results (S i) rest
  end.

(** The locals that the loop over [self.test_dl] updates. *)
Record eval_state : Type := EvalState {
  eval_loss : Qc;
  nb_eval_steps : Z;
  all_results : list raw_result
}.

(** The body of [for batch in tqdm(self.test_dl, ...)]. *)
Definition eval_batch (args : Args) (features : list feature) (st : eval_state)
    (batch : list tensor) : Py eval_event eval_state :=
  '(inputs, example_indices) ← lift (evaluate_inputs (model_type args) batch);
  emit (model_call (fp16 args) inputs) ;;
  let outputs := model_outputs (fp16 args) inputs in
  loss ← lift (tuple_getitem outputs 0);
  let eval_loss := (eval_loss st + mean_item loss)%Qc in
  all_results ← lift (example_loop args features outputs (all_results st) 0
                        (items example_indices));
  mret (EvalState eval_loss (nb_eval_steps st + 1) all_results).

(** [evaluate(output_dir)]; [test_dl] lists the batches of [self.test_dl]. *)
Definition evaluate (args : Args) (self_tokenizer : tokenizer)
    (examples : list Trainer.example)
    (features : list feature) (test_dl : list (list tensor)) (output_dir : string)
    (verbose_logging : bool)
    : Py eval_event (gmap string string * nbest * scores * Qc) :=
  emit model_eval ;;
  py_when (bool_decide (n_gpu args > 1)) (emit DataParallel) ;;
  st ← Trainer.py_fold (eval_batch args features) (EvalState 0%Qc 0 []) test_dl;
  eval_loss ←
    (if decide (nb_eval_steps st = 0) then raise ZeroDivisionError
     else mret (eval_loss st / Q2Qc (inject_Z (nb_eval_steps st)))%Qc);
  emit (os_makedirs output_dir) ;;
  let output_prediction_file := os_path_join output_dir "predictions_test.json" in
  let output_nbest_file := os_path_join output_dir "nbest_predictions_test.json" in
  let output_null_log_odds_file := os_path_join output_dir "null_odds_test.json" in
  if decide (model_type args ∈ with_cls_index) then
    '(start_n_top, end_n_top) ← lift (model_config (bool_decide (n_gpu args > 1)));
    let a := WritePredictionsExtended examples features (all_results st)
               (n_best_size args) (max_answer_length args)
               output_prediction_file output_nbest_file output_null_log_odds_file
               start_n_top end_n_top true self_tokenizer verbose_logging in
    emit (write_predictions_extended_call a) ;;
    let '(all_predictions, all_nbest_json, scores_diff_json, _) :=
      write_predictions_extended a in
    mret (all_predictions, all_nbest_json, scores_diff_json, eval_loss)
  else
    let a := WritePredictions examples features (all_results st)
               (n_best_size args) (max_answer_length args) (do_lower_case args)
               output_prediction_file output_nbest_file output_null_log_odds_file
               verbose_logging true (null_score_diff_threshold args) in
    emit (write_predictions_call a) ;;
    let '(all_predictions, all_nbest_json, scores_diff_json) := write_predictions a in
    mret (all_predictions, all_nbest_json, scores_diff_json, eval_loss).

(** A value of [self.results] and of the dictionary that [eval_model]
    returns: a count or the evaluation loss. *)
Abbreviation value := (Trainer.result_value (metric:=Qc)) (only parsing).

(** [eval_model(epoch, global_step)]: the new [self.results] and the
    returned triple.  [self_results] is [self.results] at the call. *)
Definition eval_model (args : Args) (self_tokenizer : tokenizer)
    (examples : list Trainer.example)
    (features : list feature) (test_dl : list (list tensor))
    (self_results : gmap string value)
    : Py eval_event
        (gmap string value *
         (gmap string value * gmap string string * list (string * Trainer.mismatch))) :=
  let output_dir := output_dir args in
  emit model_to_device ;;
  '(all_predictions, all_nbest_json, scores_diff_json, eval_loss) ←
    evaluate args self_tokenizer examples features test_dl output_dir false;
  '(result, texts) ← lift (Trainer.calculate_results examples all_predictions []);
  let result := <["eval_loss" := Trainer.Metric eval_loss]> result in
  let self_results := result ∪ self_results in
  mret (self_results, (result, all_predictions, Trainer.texts_incorrect_text texts)).

End evaluate.

End Evaluation.


(** * training/se_transformer_trainer.py: what [train_model] does to [args]

    The two grouping loops take ["params"] and ["layer"] out of the
    dictionaries of [args.custom_parameter_groups] and
    [args.custom_layer_parameters] with [dict.pop], and the trainer keeps
    [args] from one call of [train_model] to the next. *)

Module GroupDicts.

Import Trainer.

(** A dictionary of [args.custom_parameter_groups] as an object: the key
    ["params"] is there or not. *)
Record custom_group_dict : Type := CustomGroupDict {
  cgd_params : option (list string);
  cgd_options : gmap string Qc
}.

(** A dictionary of [args.custom_layer_parameters] as an object: the key
    ["layer"] is there or not. *)
Record layer_group_dict : Type := LayerGroupDict {
  lgd_layer : option Z;
  lgd_options : gmap string Qc
}.

(** The dictionaries after a loop has gone over them (entirely or up to
    an exception) and what the loop gave. *)
Record consumed (D : Type) : Type := Consumed {
  dicts_after : list D;
  loop_result : result grouping
}.
Arguments Consumed {D} dicts_after loop_result.
Arguments dicts_after {D} _.
Arguments loop_result {D} _.

Section loops.

Variable named_parameters : list (string * nat).

(** [for group in args.custom_parameter_groups] (lines 77-82), on
    dictionaries that are distinct objects.  [group.pop("params")] raises
    [KeyError] when the key is gone and removes it otherwise;
    [{**group}] copies what is left. *)
Fixpoint custom_groups_loop (st : grouping) (groups : list custom_group_dict)
    : consumed custom_group_dict :=
  match groups with
  | [] => Consumed [] (Ok st)
  | group :: rest =>
      match cgd_params group with
      | None => Consumed (group :: rest) (Raise KeyError)
      | Some params =>
          let group' := CustomGroupDict None (cgd_options group) in
          let st' := custom_group_step named_parameters st
                       {| cg_params := params; cg_options := cgd_options group' |} in
          let r := custom_groups_loop st' rest in
          Consumed (group' :: dicts_after r) (loop_result r)
      end
  end.

(** [for group in args.custom_layer_parameters] (lines 84-103). *)
Fixpoint layer_groups_loop (st : grouping) (groups : list layer_group_dict)
    : consumed layer_group_dict :=
  match groups with
  | [] => Consumed [] (Ok st)
  | group :: rest =>
      match lgd_layer group with
      | None => Consumed (group :: rest) (Raise KeyError)
      | Some layer_number =>
          let group' := LayerGroupDict None (lgd_options group) in
          let st' := layer_group_step named_parameters st
                       {| lg_layer := layer_number; lg_options := lgd_options group' |} in
          let r := layer_groups_loop st' rest in
          Consumed (group' :: dicts_after r) (loop_result r)
      end
  end.

(** Lines 73-125 on the dictionaries of [args]: the two lists as the call
    leaves them, and the grouping or the exception.  [args] gives
    [train_custom_parameters_only] and [weight_decay]. *)
Definition group_parameters (args : Args)
    (custom_parameter_groups : list custom_group_dict)
    (custom_layer_parameters : list layer_group_dict)
    : list custom_group_dict * list layer_group_dict * result grouping :=
  let r1 := custom_groups_loop (Grouping [] ∅) custom_parameter_groups in
  match loop_result r1 with
  | Raise e => (dicts_after r1, custom_layer_parameters, Raise e)
  | Ok st =>
      let r2 := layer_groups_loop st custom_layer_parameters in
      match loop_result r2 with
      | Raise e => (dicts_after r1, dicts_after r2, Raise e)
      | Ok st =>
          (dicts_after r1, dicts_after r2,
           Ok (if train_custom_parameters_only args then st
               else Grouping
                      (optimizer_grouped_parameters st ++
                         default_groups named_parameters args
                           (custom_parameter_names st))
                      (custom_parameter_names st)))
      end
  end.

End loops.

(** The dictionaries with their keys in place, as the configuration gives
    them. *)
Definition custom_group_dict_of (group : custom_group) : custom_group_dict :=
  CustomGroupDict (Some (cg_params group)) (cg_options group).

Definition layer_group_dict_of (group : layer_group) : layer_group_dict :=
  LayerGroupDict (Some (lg_layer group)) (lg_options group).

End GroupDicts.

(** * Properties *)

(** ** Generic facts about [range] and the call traces *)

Lemma elem_of_range (n k : Z) : k ∈ range n ↔ 0 ≤ k < n.
Proof.
  unfold range. rewrite list_elem_of_fmap. split.
  - intros (i & -> & Hi). apply elem_of_seq in Hi. lia.
  - intros Hk. exists (Z.to_nat k). split; [lia|]. apply elem_of_seq. lia.
Qed.

Lemma range_nonpos (n : Z) : n ≤ 0 → range n = [].
Proof. intros Hn. unfold range. by replace (Z.to_nat n) with 0%nat by lia. Qed.

Lemma length_range (n : Z) : List.length (range n) = Z.to_nat n.
Proof. unfold range. by rewrite length_fmap, length_seq. Qed.

Lemma filter_none {A} (P : A → Prop) `{∀ x, Decision (P x)} (l : list A) :
  (∀ x, x ∈ l → ¬ P x) → filter P l = [].
Proof.
  intros Hno. destruct (filter P l) as [|x l'] eqn:Hf; [done|].
  assert (x ∈ filter P l) as [HP Hx]%list_elem_of_filter
    by (rewrite Hf; apply list_elem_of_here).
  by destruct (Hno x Hx).
Qed.

Lemma range_cons (n : Z) : 0 < n → ∃ rest, range n = 0 :: rest.
Proof.
  intros Hn. unfold range. destruct (Z.to_nat n) as [|k] eqn:Hk; [lia|].
  simpl. eauto.
Qed.

(** ** [init_training_device] *)

Module DeviceFacts.

Import Device.

Lemma py_mod_ok (a b : Z) : b ≠ 0 → py_mod a b = Ok (a mod b).
Proof. intros Hb. unfold py_mod. by case_decide. Qed.

(** With a non-zero divisor the filling loop ends, and the dictionary it
    leaves maps each client index it walked over to its remainder. *)
Lemma fill_process_gpu_dict_ok (g : Z) (clients : list Z) (d : gmap Z Z) :
  g ≠ 0 →
  ∃ d', fill_process_gpu_dict g clients d = Ok d' ∧
        ∀ k, d' !! k = if decide (k ∈ clients) then Some (k mod g) else d !! k.
Proof.
  intros Hg. revert d. induction clients as [|c rest IH]; intros d.
  - exists d. split; [done|]. intros k. case_decide as Hk; [|done].
    by apply elem_of_nil in Hk.
  - simpl. rewrite py_mod_ok by done. simpl.
    destruct (IH (<[c := c mod g]> d)) as (d' & -> & Hd').
    exists d'. split; [done|]. intros k. rewrite Hd'.
    destruct (decide (k ∈ rest)) as [Hin|Hnin].
    + rewrite decide_True; [done|]. by apply list_elem_of_further.
    + destruct (decide (k = c)) as [->|Hne].
      * rewrite decide_True by apply list_elem_of_here. by rewrite lookup_insert_eq.
      * rewrite decide_False; [by rewrite lookup_insert_ne|].
        intros [?|?]%elem_of_cons; done.
Qed.

(** The first client index meets a zero divisor. *)
Lemma fill_process_gpu_dict_zero (clients : list Z) (d : gmap Z Z) :
  clients ≠ [] → fill_process_gpu_dict 0 clients d = Raise ZeroDivisionError.
Proof. by destruct clients. Qed.

Lemma init_training_device_process_0 (cuda : bool) (n g : Z) :
  init_training_device cuda 0 n g = Ok (if cuda then Cuda 0 else Cpu).
Proof. done. Qed.

Lemma init_training_device_worker (cuda : bool) (pid n g : Z) :
  1 ≤ pid ≤ n → g ≠ 0 →
  init_training_device cuda pid n g = Ok (if cuda then Cuda ((pid - 1) mod g) else Cpu).
Proof.
  intros Hpid Hg. unfold init_training_device.
  rewrite decide_False by lia.
  destruct (fill_process_gpu_dict_ok g (range n) ∅ Hg) as (d & -> & Hd). simpl.
  destruct cuda; [|done].
  unfold getitem. rewrite Hd, decide_True; [done|]. apply elem_of_range. lia.
Qed.

Lemma init_training_device_beyond (cuda : bool) (pid n g : Z) :
  pid ≠ 0 → pid - 1 >= n → n ≤ 0 ∨ g ≠ 0 →
  init_training_device cuda pid n g = if cuda then Raise KeyError else Ok Cpu.
Proof.
  intros Hpid Hge Hng. unfold init_training_device.
  rewrite decide_False by done.
  assert (∃ d, fill_process_gpu_dict g (range n) ∅ = Ok d ∧ d !! (pid - 1) = None)
    as (d & -> & Hd).
  { destruct (decide (g = 0)) as [->|Hg].
    - exists ∅. rewrite range_nonpos by lia. done.
    - destruct (fill_process_gpu_dict_ok g (range n) ∅ Hg) as (d & Hfill & Hd).
      exists d. split; [done|]. rewrite Hd, decide_False; [done|].
      rewrite elem_of_range. lia. }
  simpl. destruct cuda; [|done]. unfold getitem. by rewrite Hd.
Qed.

(** C10, as amended.  On a machine with CUDA, process 0 gets GPU 0, a
    process [1 <= process_ID <= fl_worker_num] gets GPU
    [(process_ID - 1) mod gpu_num_per_machine] when
    [gpu_num_per_machine > 0], and a non-zero process with
    [process_ID - 1 >= fl_worker_num] fails with [KeyError] (provided the
    filling loop itself does not divide by zero).  Without CUDA no lookup
    takes place and each of these calls returns the cpu device. *)
Theorem init_training_device_spec (cuda : bool) (process_ID fl_worker_num g : Z) :
  (process_ID = 0 →
     init_training_device cuda process_ID fl_worker_num g
     = Ok (if cuda then Cuda 0 else Cpu)) ∧
  (1 ≤ process_ID ≤ fl_worker_num → g > 0 →
     init_training_device cuda process_ID fl_worker_num g
     = Ok (if cuda then Cuda ((process_ID - 1) mod g) else Cpu)) ∧
  (process_ID ≠ 0 → process_ID - 1 >= fl_worker_num → fl_worker_num ≤ 0 ∨ g ≠ 0 →
     init_training_device cuda process_ID fl_worker_num g
     = if cuda then Raise KeyError else Ok Cpu).
Proof.
  split; [|split].
  - intros ->. apply init_training_device_process_0.
  - intros Hpid Hg. apply init_training_device_worker; lia.
  - apply init_training_device_beyond.
Qed.

(** The amended statement at work: nine processes on machines with four
    GPUs; process 6 is the sixth client and lands on GPU 1. *)
Lemma init_training_device_spec_witness :
  init_training_device true 6 8 4 = Ok (Cuda 1) ∧
  init_training_device true 9 8 4 = Raise KeyError ∧
  init_training_device true 0 8 4 = Ok (Cuda 0).
Proof.
  split; [|split].
  - apply (proj1 (proj2 (init_training_device_spec true 6 8 4))); lia.
  - apply (proj2 (proj2 (init_training_device_spec true 9 8 4))); lia.
  - apply (proj1 (init_training_device_spec true 0 8 4)); reflexivity.
Defined.

(** C10 as stated fails without CUDA: process 5 of a run with two workers
    has [process_ID - 1 >= fl_worker_num], yet the call returns the cpu
    device, and process 0 is not sent to a GPU either. *)
Lemma init_training_device_no_cuda_counterexample :
  5 - 1 >= 2 ∧
  init_training_device false 5 2 4 = Ok Cpu ∧
  init_training_device false 5 2 4 ≠ Raise KeyError ∧
  init_training_device false 0 2 4 ≠ Ok (Cuda 0).
Proof. repeat split; [lia|done..]. Qed.

(** The other way the lookup is never reached: a zero
    [gpu_num_per_machine] stops the filling loop at its first turn. *)
Lemma init_training_device_zero_gpus (cuda : bool) (pid n : Z) :
  pid ≠ 0 → 0 < n → init_training_device cuda pid n 0 = Raise ZeroDivisionError.
Proof.
  intros Hpid Hn. unfold init_training_device. rewrite decide_False by done.
  rewrite fill_process_gpu_dict_zero; [done|].
  intros Hnil. assert (0 ∈ range n) as Hin by (apply elem_of_range; lia).
  rewrite Hnil in Hin. by apply elem_of_nil in Hin.
Qed.

End DeviceFacts.


(** ** [load_data] *)

Module LoadersFacts.

Import Loaders.

(** The dataset names of the text-classification scripts and the module
    each one stands for. *)
Definition dataset_names : list (string * data_loader_module) :=
  [("20news", news_20); ("agnews", AGNews); ("semeval_2010_task8", SemEval2010Task8);
   ("sentiment140", Sentiment140); ("sst_2", SST_2)].

(** A run of [load_data] dispatches to module [m]: it returns, it
    constructs at least one loader, and every loader it constructs is a
    [ClientDataLoader] of [m]. *)
Definition dispatches_to {A} (run : Py loader A) (m : data_loader_module) : Prop :=
  is_ok (outcome run) = true ∧ trace run ≠ [] ∧
  Forall (λ l, loader_module l = m) (trace run).

(** A run raises [e] before any loader is constructed. *)
Definition raises_unloaded {A} (run : Py loader A) (e : exn) : Prop :=
  trace run = [] ∧ outcome run = Raise e.

Lemma module_of_name_Some (name : string) (m : data_loader_module) :
  (name, m) ∈ dataset_names → module_of_name name = Some m.
Proof.
  unfold dataset_names. rewrite !elem_of_cons, elem_of_nil.
  intros [H|[H|[H|[H|[H|[]]]]]]; by inversion H.
Qed.

Lemma module_of_name_None (name : string) :
  name ∉ dataset_names.*1 → module_of_name name = None.
Proof.
  simpl. rewrite !not_elem_of_cons. intros (?&?&?&?&?&_).
  unfold module_of_name. by repeat case_decide.
Qed.

(** A comprehension that constructs one loader per element. *)
Lemma py_map_emit {A} (mk : A → loader) (xs : list A) :
  py_map xs (λ x, emit (mk x) ;; mret (mk x)) = MkPy (mk <$> xs) (Ok (mk <$> xs)).
Proof.
  induction xs as [|x rest IH]; [done|].
  cbn [py_map]. rewrite IH. cbn. by rewrite app_nil_r.
Qed.

Lemma list_getitem_range {A} (l : list A) (n idx : Z) :
  List.length l = Z.to_nat n → idx ∈ range n → ∃ a, list_getitem l idx = Ok a.
Proof.
  intros Hlen Hidx%elem_of_range. unfold list_getitem.
  destruct (lookup_lt_is_Some_2 l (Z.to_nat idx)) as [a ->]; [lia|by exists a].
Qed.

(** The client loaders of one module, in construction order. *)
Definition client_loaders (m : data_loader_module) (df pf pm : string) (tokenize : bool)
    (n : Z) : list loader :=
  (λ i, ClientDataLoader m df pf pm tokenize (Some i)) <$> range n.

Lemma length_client_loaders m df pf pm tk n :
  List.length (client_loaders m df pf pm tk n) = Z.to_nat n.
Proof. unfold client_loaders. by rewrite length_fmap, length_range. Qed.

Lemma Forall_client_loaders m df pf pm tk n :
  Forall (λ l, loader_module l = m) (client_loaders m df pf pm tk n).
Proof. unfold client_loaders. by apply Forall_fmap, Forall_forall. Qed.

Section facts.

Context {data attrs : Type}.
Variable abspath : string → string.
Variable get_attributes : loader → attrs.
Variable n_clients : attrs → Z.
Variable get_train_data_num get_test_data_num : loader → Z.
Variable get_train_batch_data get_test_batch_data : loader → option Z → data.

Abbreviation bilstm := (bilstm_load_data abspath get_attributes n_clients get_train_data_num
  get_test_data_num get_train_batch_data get_test_batch_data).
Abbreviation centralized := (centralized_load_data (attrs:=attrs) get_attributes
  get_train_batch_data get_test_batch_data).
Abbreviation fedavg := (fedavg_load_data get_attributes n_clients get_train_data_num
  get_test_data_num get_train_batch_data get_test_batch_data).
Abbreviation question_answering := (question_answering_load_data (attrs:=attrs) get_attributes
  get_train_batch_data get_test_batch_data).

(** *** main_fedavg.py *)

Lemma bilstm_fill_local_ok (server : loader) (clients : list loader) (args : Args)
    (n : Z) (idxs : list Z) acc :
  List.length clients = Z.to_nat n → idxs ⊆ range n →
  ∃ r, bilstm_fill_local get_train_data_num get_train_batch_data get_test_batch_data
         server clients args idxs acc = Ok r.
Proof.
  intros Hlen. revert acc. induction idxs as [|idx rest IH]; intros acc Hsub.
  - by exists acc.
  - destruct acc as [[d1 d2] d3]. simpl.
    destruct (list_getitem_range clients n idx Hlen) as [l ->]; [set_solver|].
    simpl. apply IH. set_solver.
Qed.

Lemma bilstm_branch_eq (m : data_loader_module) (args : Args) :
  let server := ClientDataLoader m (abspath (data_file args))
                  (abspath (partition_file args)) (partition_method args) true None in
  let clients := client_loaders m (abspath (data_file args))
                   (abspath (partition_file args)) (partition_method args) true
                   (n_clients (get_attributes server)) in
  bilstm_branch abspath get_attributes n_clients m args
  = MkPy (server :: clients) (Ok (server, clients)).
Proof.
  intros server clients. unfold bilstm_branch. cbv zeta.
  rewrite (py_map_emit (λ i, ClientDataLoader m (abspath (data_file args))
             (abspath (partition_file args)) (partition_method args) true (Some i))).
  cbn. by rewrite app_nil_r.
Qed.

(** The tail of [load_data] constructs nothing and returns, whatever the
    module of the loaders it is given. *)
Lemma bilstm_collect_ok (args : Args) (server : loader) (clients : list loader) :
  List.length clients = Z.to_nat (n_clients (get_attributes server)) →
  ∃ d, bilstm_collect get_attributes n_clients get_train_data_num get_test_data_num
         get_train_batch_data get_test_batch_data args (server, clients)
       = MkPy [] (Ok d).
Proof.
  intros Hlen. unfold bilstm_collect. cbv zeta.
  destruct (bilstm_fill_local_ok server clients args (n_clients (get_attributes server))
              (range (n_clients (get_attributes server))) ([], ∅, ∅) Hlen)
    as [[[d1 d2] d3] ->]; [done|].
  cbn. eauto.
Qed.

Lemma bilstm_load_data_dispatch (args : Args) (name : string) (m : data_loader_module) :
  module_of_name name = Some m → dispatches_to (bilstm args name) m.
Proof.
  intros Hm. unfold bilstm_load_data.
  assert (∀ m', dispatches_to
            (bilstm_branch abspath get_attributes n_clients m' args ≫=
             bilstm_collect get_attributes n_clients get_train_data_num get_test_data_num
               get_train_batch_data get_test_batch_data args) m') as Hbranch.
  { intros m'. rewrite bilstm_branch_eq. cbn [mbind Py_bind trace outcome].
    edestruct bilstm_collect_ok as [d ->]; [apply length_client_loaders|].
    cbn. rewrite app_nil_r. repeat split; [done|].
    constructor; [done|]. apply Forall_client_loaders. }
  unfold module_of_name in Hm.
  repeat case_decide; simplify_eq; apply Hbranch.
Qed.

Lemma bilstm_load_data_unknown (args : Args) (name : string) :
  module_of_name name = None →
  raises_unloaded (bilstm args name) (Exception "No such dataset").
Proof.
  intros Hm. unfold bilstm_load_data. unfold module_of_name in Hm.
  repeat case_decide; simplify_eq. done.
Qed.

(** *** centralized text_classification.py *)

Lemma centralized_load_data_dispatch (args : Args) (name : string) (m : data_loader_module) :
  module_of_name name = Some m → dispatches_to (centralized args name) m.
Proof.
  intros Hm. unfold centralized_load_data. unfold module_of_name in Hm.
  repeat case_decide; simplify_eq; cbn; repeat split; try done;
    by repeat constructor.
Qed.

Lemma centralized_load_data_unknown (args : Args) (name : string) :
  module_of_name name = None →
  raises_unloaded (centralized args name) (Exception "No such dataset").
Proof.
  intros Hm. unfold centralized_load_data. unfold module_of_name in Hm.
  repeat case_decide; simplify_eq. done.
Qed.

(** *** distributed text_classification_fedavg.py *)

Lemma fedavg_fill_local_ok (clients : list loader) (args : Args)
    (n : Z) (idxs : list Z) acc :
  List.length clients = Z.to_nat n → idxs ⊆ range n →
  ∃ r, fedavg_fill_local get_train_data_num get_train_batch_data get_test_batch_data
         clients args idxs acc = Ok r.
Proof.
  intros Hlen. revert acc. induction idxs as [|idx rest IH]; intros acc Hsub.
  - by exists acc.
  - destruct acc as [[d1 d2] d3]. simpl.
    destruct (list_getitem_range clients n idx Hlen) as [l ->]; [set_solver|].
    simpl. apply IH. set_solver.
Qed.

Lemma fedavg_collect_dispatch (args : Args) (m : data_loader_module) :
  dispatches_to (fedavg_collect get_attributes n_clients get_train_data_num
                   get_test_data_num get_train_batch_data get_test_batch_data args m) m.
Proof.
  unfold fedavg_collect. cbv zeta.
  rewrite (py_map_emit (λ i, ClientDataLoader m (data_file args) (partition_file args)
             (partition_method args) false (Some i))).
  set (server := ClientDataLoader m _ _ _ false None).
  pose (clients := client_loaders m (data_file args) (partition_file args)
                     (partition_method args) false (n_clients (get_attributes server))).
  change (_ <$> range _) with clients.
  destruct (fedavg_fill_local_ok clients args (n_clients (get_attributes server))
              (range (n_clients (get_attributes server))) ([], ∅, ∅))
    as [[[d1 d2] d3] Hfill]; [apply length_client_loaders|done|].
  cbn. rewrite Hfill. cbn. rewrite !app_nil_r. repeat split; [done|].
  constructor; [done|]. apply Forall_client_loaders.
Qed.

Lemma fedavg_load_data_dispatch (args : Args) (name : string) (m : data_loader_module) :
  module_of_name name = Some m → dispatches_to (fedavg args name) m.
Proof.
  intros Hm. unfold fedavg_load_data. unfold module_of_name in Hm.
  pose proof (fedavg_collect_dispatch args m) as (Hok & Hne & Hall).
  repeat case_decide; simplify_eq; cbn; done.
Qed.

Lemma fedavg_load_data_unknown (args : Args) (name : string) :
  module_of_name name = None →
  raises_unloaded (fedavg args name) (Exception "No such dataset").
Proof.
  intros Hm. unfold fedavg_load_data. unfold module_of_name in Hm.
  repeat case_decide; simplify_eq. done.
Qed.

(** *** question_answering.py *)

Lemma question_answering_load_data_squad (args : Args) :
  dispatches_to (question_answering args "squad_1.1") SQuAD_1_1.
Proof. cbn. repeat split; [done|]. by repeat constructor. Qed.

Lemma question_answering_load_data_other (args : Args) (name : string) :
  name ≠ "squad_1.1" → raises_unloaded (question_answering args name) AssertionError.
Proof.
  intros Hne. unfold question_answering_load_data.
  rewrite decide_False; [done|]. by intros ->%list_elem_of_singleton.
Qed.

(** C3, as amended.  In each of the three text-classification scripts
    (main_fedavg.py, text_classification.py, text_classification_fedavg.py)
    [load_data] dispatches every name of the fixed set to the
    [ClientDataLoader] of the module matching it, and raises
    ["No such dataset"] for any other name before a loader is constructed.
    The span-extraction script question_answering.py has a set of its own:
    its [load_data] accepts ["squad_1.1"] alone and fails an assertion
    otherwise. *)
Theorem load_data_dispatch (args : Args) (name : string) :
  (∀ m, (name, m) ∈ dataset_names →
        dispatches_to (bilstm args name) m ∧
        dispatches_to (centralized args name) m ∧
        dispatches_to (fedavg args name) m) ∧
  (name ∉ dataset_names.*1 →
        raises_unloaded (bilstm args name) (Exception "No such dataset") ∧
        raises_unloaded (centralized args name) (Exception "No such dataset") ∧
        raises_unloaded (fedavg args name) (Exception "No such dataset")) ∧
  (name = "squad_1.1" → dispatches_to (question_answering args name) SQuAD_1_1) ∧
  (name ≠ "squad_1.1" → raises_unloaded (question_answering args name) AssertionError).
Proof.
  split; [|split; [|split]].
  - intros m Hm%module_of_name_Some.
    auto using bilstm_load_data_dispatch, centralized_load_data_dispatch,
      fedavg_load_data_dispatch.
  - intros Hm%module_of_name_None.
    auto using bilstm_load_data_unknown, centralized_load_data_unknown,
      fedavg_load_data_unknown.
  - intros ->. apply question_answering_load_data_squad.
  - apply question_answering_load_data_other.
Qed.

End facts.

(** A small environment to run the scripts in: three clients, and loaders
    that answer with nothing. *)
Definition toy_loader_args : Args :=
  {| data_file := "data.h5"; partition_file := "partition.h5";
     partition_method := "uniform"; batch_size := 8; train_batch_size := 8;
     eval_batch_size := 8 |}.

Definition toy_bilstm : string → Py loader (bilstm_dataset (data:=unit) (attrs:=unit)) :=
  bilstm_load_data id (λ _, ()) (λ _, 3) (λ _, 0) (λ _, 0) (λ _ _, ()) (λ _ _, ()) toy_loader_args.

Definition toy_centralized : string → Py loader (unit * unit * unit) :=
  centralized_load_data (λ _, ()) (λ _ _, ()) (λ _ _, ()) toy_loader_args.

Definition toy_fedavg : string → Py loader (fedavg_dataset (data:=unit) (attrs:=unit)) :=
  fedavg_load_data (λ _, ()) (λ _, 3) (λ _, 0) (λ _, 0) (λ _ _, ()) (λ _ _, ()) toy_loader_args.

Definition toy_question_answering : string → Py loader (unit * unit * unit) :=
  question_answering_load_data (λ _, ()) (λ _ _, ()) (λ _ _, ()) toy_loader_args.

Example toy_bilstm_agnews :
  loader_client_idx <$> trace (toy_bilstm "agnews") = [None; Some 0; Some 1; Some 2].
Proof. reflexivity. Qed.

(** The amended statement at work on ["agnews"] and on a name outside the
    set. *)
Lemma load_data_dispatch_witness :
  (dispatches_to (toy_bilstm "agnews") AGNews ∧
   dispatches_to (toy_centralized "agnews") AGNews ∧
   dispatches_to (toy_fedavg "agnews") AGNews) ∧
  (raises_unloaded (toy_bilstm "squad_1.1") (Exception "No such dataset") ∧
   raises_unloaded (toy_centralized "squad_1.1") (Exception "No such dataset") ∧
   raises_unloaded (toy_fedavg "squad_1.1") (Exception "No such dataset")) ∧
  dispatches_to (toy_question_answering "squad_1.1") SQuAD_1_1 ∧
  raises_unloaded (toy_question_answering "agnews") AssertionError.
Proof.
  split; [|split; [|split]].
  - apply (proj1 (load_data_dispatch id (λ _, ()) (λ _, 3) (λ _, 0) (λ _, 0)
                    (λ _ _, ()) (λ _ _, ()) toy_loader_args "agnews") AGNews).
    apply list_elem_of_further, list_elem_of_here.
  - apply (proj1 (proj2 (load_data_dispatch id (λ _, ()) (λ _, 3) (λ _, 0) (λ _, 0)
                           (λ _ _, ()) (λ _ _, ()) toy_loader_args "squad_1.1"))).
    simpl. rewrite !not_elem_of_cons. repeat split; try discriminate.
    apply not_elem_of_nil.
  - apply (proj1 (proj2 (proj2 (load_data_dispatch id (λ _, ()) (λ _, 3) (λ _, 0)
                     (λ _, 0) (λ _ _, ()) (λ _ _, ()) toy_loader_args "squad_1.1")))).
    reflexivity.
  - apply (proj2 (proj2 (proj2 (load_data_dispatch id (λ _, ()) (λ _, 3) (λ _, 0)
                     (λ _, 0) (λ _ _, ()) (λ _ _, ()) toy_loader_args "agnews")))).
    discriminate.
Defined.

(** C3 as stated fails on question_answering.py: ["squad_1.1"] is outside
    the fixed set, yet that script's [load_data] constructs a loader and
    returns instead of raising ["No such dataset"]; and on ["20news"] it
    fails an assertion instead of reaching the 20news loader. *)
Lemma load_data_question_answering_counterexample :
  ("squad_1.1" ∉ dataset_names.*1) ∧
  ¬ raises_unloaded (toy_question_answering "squad_1.1") (Exception "No such dataset") ∧
  ("20news", news_20) ∈ dataset_names ∧
  ¬ dispatches_to (toy_question_answering "20news") news_20.
Proof.
  split; [|split; [|split]].
  - simpl. rewrite !not_elem_of_cons. repeat split; try discriminate.
    apply not_elem_of_nil.
  - intros [Htrace _]. discriminate Htrace.
  - apply list_elem_of_here.
  - intros [Hok _]. discriminate Hok.
Qed.

End LoadersFacts.

(** ** [preprocess_data] *)

Module PreprocessFacts.

Import Preprocess.

(** Token [t] occurs in one of the sequences [x]. *)
Definition occurs (t : string) (x : list (list string)) : Prop :=
  ∃ single_x, single_x ∈ x ∧ t ∈ single_x.

(** How often [t] occurs in the sequences [x]. *)
Definition total_frequency (t : string) (x : list (list string)) : Z :=
  Z.of_nat (List.length (filter (λ t', t' = t) (List.concat x))).

Lemma occurs_app (t : string) (x y : list (list string)) :
  occurs t (x ++ y) ↔ occurs t x ∨ occurs t y.
Proof.
  unfold occurs. split.
  - intros (s & [Hs|Hs]%elem_of_app & Ht); [left|right]; by exists s.
  - intros [(s & Hs & Ht)|(s & Hs & Ht)]; exists s; rewrite elem_of_app; auto.
Qed.

Section facts.

Context {tvocab weights token_idx label_idx : Type}.
Variable build_freq_vocab : list (list string) → gmap string Z.
Variable remove_words : list (list string) → gset string → list (list string).
Variable build_vocab : list (list string) → gmap string Z.
Variable load_word2vec_embedding :
  string → gmap string Z → result (gmap string Z * weights).
Variable load_glove_embedding :
  string → gmap string Z → Z → result (gmap string Z * weights).
Variable padding_data : list (list string) → Z → list (list string) * list Z.
Variable token_to_idx : list (list string) → gmap string Z → token_idx.
Variable label_to_idx : list string → tvocab → label_idx.
Variable STOP_WORDS : gset string.
Variable abspath : string → string.

Abbreviation remove_in := (remove_in remove_words).
Abbreviation remove_in_clients := (remove_in_clients (tvocab:=tvocab) remove_words).
Abbreviation remove_words_all := (__remove_words (tvocab:=tvocab) remove_words).
Abbreviation remove_stage := (remove_stage (tvocab:=tvocab) build_freq_vocab remove_words
  STOP_WORDS).
Abbreviation source_vocab_of := (source_vocab_of (tvocab:=tvocab) build_vocab).
Abbreviation embedding_stage := (embedding_stage load_word2vec_embedding
  load_glove_embedding abspath).
Abbreviation finish_stage := (finish_stage load_word2vec_embedding load_glove_embedding
  padding_data token_to_idx label_to_idx abspath).
Abbreviation preprocess_data := (preprocess_data build_freq_vocab remove_words build_vocab
  load_word2vec_embedding load_glove_embedding padding_data token_to_idx label_to_idx
  STOP_WORDS abspath).

(** What the script relies on from the imported helpers.  [remove_words]
    returns sequences made of tokens of its input that are outside the
    word set; [build_freq_vocab] maps each token of its input to its
    number of occurrences; the keys of [build_vocab] are tokens of its
    input or entries the vocabulary reserves for itself. *)
Variable reserved : gset string.
Hypothesis remove_words_spec : ∀ x word_set t,
  occurs t (remove_words x word_set) → (t ∉ word_set) ∧ occurs t x.
Hypothesis build_freq_vocab_spec : ∀ x t,
  occurs t x → build_freq_vocab x !! t = Some (total_frequency t x).
Hypothesis build_vocab_spec : ∀ x t,
  is_Some (build_vocab x !! t) → occurs t x ∨ t ∈ reserved.

(** Every client that is iterated has its two lists. *)
Definition keys_consistent (ds : dataset tvocab) : Prop :=
  ∀ c, c ∈ (train_data_local_num_dict ds).*1 →
       is_Some (train_data_local_dict ds !! c) ∧ is_Some (test_data_local_dict ds !! c).

(** The batches that [preprocess_data] walks: the global ones and those of
    the iterated clients. *)
Definition walked (ds : dataset tvocab) (l : loc) : Prop :=
  l ∈ train_data_global ds ∨ l ∈ test_data_global ds ∨
  ∃ c bs, c ∈ (train_data_local_num_dict ds).*1 ∧ l ∈ bs ∧
          (train_data_local_dict ds !! c = Some bs ∨ test_data_local_dict ds !! c = Some bs).

(** No token of the batch at [l] is in [W]. *)
Definition clean (W : gset string) (h : store) (l : loc) : Prop :=
  ∀ t, occurs t (X (h l)) → t ∉ W.

(** Going from [h] to [h'] only removes tokens. *)
Definition shrinks (h h' : store) : Prop :=
  ∀ l t, occurs t (X (h' l)) → occurs t (X (h l)).

Lemma shrinks_refl (h : store) : shrinks h h.
Proof. by intros l t. Qed.

Lemma shrinks_trans (h1 h2 h3 : store) : shrinks h1 h2 → shrinks h2 h3 → shrinks h1 h3.
Proof. intros H12 H23 l t Ht. by apply H12, H23. Qed.

Lemma clean_shrinks (W : gset string) (h h' : store) (l : loc) :
  shrinks h h' → clean W h l → clean W h' l.
Proof. intros Hs Hc t Ht. by apply Hc, Hs. Qed.

Lemma set_X_remove_words (W : gset string) (h : store) (l : loc) :
  let h' := set_X l (remove_words (X (h l)) W) h in
  shrinks h h' ∧ clean W h' l.
Proof.
  split.
  - intros l' t. unfold set_X. destruct (decide (l = l')) as [<-|Hne].
    + rewrite fn_lookup_insert. simpl. intros Ht. by apply remove_words_spec in Ht as [_ ?].
    + by rewrite fn_lookup_insert_ne.
  - intros t. unfold set_X. rewrite fn_lookup_insert. simpl.
    intros Ht. by apply remove_words_spec in Ht as [? _].
Qed.

(** One removal loop over a list: tokens only go away, and the batches of
    the list end up without a token of the word set, however often a batch
    is met. *)
Lemma remove_in_spec (W : gset string) (bs : list loc) (h : store) :
  shrinks h (remove_in W bs h) ∧ ∀ l, l ∈ bs → clean W (remove_in W bs h) l.
Proof.
  revert h. induction bs as [|b rest IH]; intros h.
  - split; [apply shrinks_refl|]. by intros l ?%elem_of_nil.
  - unfold Preprocess.remove_in. simpl.
    destruct (set_X_remove_words W h b) as [Hs Hc].
    destruct (IH (set_X b (remove_words (X (h b)) W) h)) as [Hs' Hc'].
    split; [by eapply shrinks_trans|].
    intros l [->|Hl]%elem_of_cons; [|by apply Hc'].
    by eapply clean_shrinks.
Qed.

Lemma remove_in_clients_spec (W : gset string) (ds : dataset tvocab) (clients : list Z)
    (h : store) :
  (∀ c, c ∈ clients →
        is_Some (train_data_local_dict ds !! c) ∧ is_Some (test_data_local_dict ds !! c)) →
  ∃ h', remove_in_clients W ds clients h = Ok h' ∧ shrinks h h' ∧
        ∀ c bs l, c ∈ clients → l ∈ bs →
          train_data_local_dict ds !! c = Some bs ∨ test_data_local_dict ds !! c = Some bs →
          clean W h' l.
Proof.
  revert h. induction clients as [|c rest IH]; intros h Hkeys.
  - exists h. split; [done|]. split; [apply shrinks_refl|]. by intros c bs l ?%elem_of_nil.
  - destruct (Hkeys c) as [[train Htrain] [test Htest]]; [apply list_elem_of_here|].
    simpl. unfold getitem. rewrite Htrain, Htest. simpl.
    destruct (remove_in_spec W train h) as [Hs1 Hc1].
    destruct (remove_in_spec W test (remove_in W train h)) as [Hs2 Hc2].
    destruct (IH (remove_in W test (remove_in W train h))) as (h' & -> & Hs3 & Hc3).
    { intros c' Hc'. apply Hkeys. by apply list_elem_of_further. }
    exists h'. split; [done|]. split; [eauto using shrinks_trans|].
    intros c' bs l [->|Hc']%elem_of_cons Hl Hbs; [|by eapply Hc3].
    destruct Hbs as [Hbs|Hbs]; simplify_eq.
    + eapply clean_shrinks; [exact Hs3|]. eapply clean_shrinks; [exact Hs2|]. by apply Hc1.
    + eapply clean_shrinks; [exact Hs3|]. by apply Hc2.
Qed.

(** [__remove_words] ends when the keys are consistent, and leaves every
    batch it walks without a token of the word set. *)
Lemma remove_words_all_spec (W : gset string) (ds : dataset tvocab) (h : store) :
  keys_consistent ds →
  ∃ h', remove_words_all ds W h = Ok h' ∧ shrinks h h' ∧ ∀ l, walked ds l → clean W h' l.
Proof.
  intros Hkeys. unfold __remove_words.
  destruct (remove_in_spec W (train_data_global ds) h) as [Hs1 Hc1].
  destruct (remove_in_spec W (test_data_global ds)
              (remove_in W (train_data_global ds) h)) as [Hs2 Hc2].
  destruct (remove_in_clients_spec W ds (train_data_local_num_dict ds).*1
              (remove_in W (test_data_global ds) (remove_in W (train_data_global ds) h))
              Hkeys) as (h' & -> & Hs3 & Hc3).
  exists h'. split; [done|]. split; [eauto using shrinks_trans|].
  intros l [Hl|[Hl|(c & bs & Hc & Hl & Hbs)]].
  - eapply clean_shrinks; [exact Hs3|]. eapply clean_shrinks; [exact Hs2|]. by apply Hc1.
  - eapply clean_shrinks; [exact Hs3|]. by apply Hc2.
  - by eapply Hc3.
Qed.

(** The sequences collected from a list of batches are those of its
    batches. *)
Lemma occurs_extend_X (t : string) (h : store) (bs : list loc) :
  occurs t (extend_X h bs) ↔ ∃ l, l ∈ bs ∧ occurs t (X (h l)).
Proof.
  unfold occurs, extend_X. split.
  - intros (s & Hs & Ht). apply list_elem_of_In, in_flat_map in Hs as (l & Hl & Hs).
    exists l. split; [by apply list_elem_of_In|]. exists s. by rewrite list_elem_of_In.
  - intros (l & Hl & s & Hs & Ht). exists s. split; [|done].
    apply list_elem_of_In, in_flat_map. exists l. by rewrite <-!list_elem_of_In.
Qed.

Abbreviation collect_x := (collect_x (tvocab:=tvocab)).

Lemma low_freq_words_elem (x : list (list string)) (k : Z) (t : string) :
  occurs t x → total_frequency t x ≤ k → t ∈ low_freq_words (build_freq_vocab x) k.
Proof.
  intros Hocc Hle. unfold low_freq_words. apply elem_of_dom.
  exists (total_frequency t x). apply map_lookup_filter_Some. split; [|done].
  by apply build_freq_vocab_spec.
Qed.

(** Lines 203-239 end when the keys are consistent.  Tokens only go away,
    and with [do_remove_low_freq_words = k > 0] the walked batches keep no
    token of the low-frequency set. *)
Lemma remove_stage_spec (args : Args) (ds : dataset tvocab) (h : store) :
  keys_consistent ds →
  ∃ h', remove_stage args ds h = Ok h' ∧ shrinks h h' ∧
        (do_remove_low_freq_words args > 0 →
         ∀ l, walked ds l →
              clean (low_freq_words (build_freq_vocab (collect_x ds h))
                       (do_remove_low_freq_words args)) h' l).
Proof.
  intros Hkeys. unfold Preprocess.remove_stage. cbv zeta.
  set (W := low_freq_words _ _).
  assert (∃ h1, (if decide (do_remove_low_freq_words args > 0)
                 then remove_words_all ds W h else Ok h) = Ok h1 ∧ shrinks h h1 ∧
                (do_remove_low_freq_words args > 0 → ∀ l, walked ds l → clean W h1 l))
    as (h1 & -> & Hs1 & Hc1).
  { case_decide as Hk.
    - destruct (remove_words_all_spec W ds h Hkeys) as (h1 & Hrm & Hs & Hc). eauto.
    - exists h. split; [done|]. split; [apply shrinks_refl|done]. }
  simpl. destruct (do_remove_stop_words args).
  - destruct (remove_words_all_spec STOP_WORDS ds h1 Hkeys) as (h2 & -> & Hs2 & _).
    exists h2. split; [done|]. split; [eauto using shrinks_trans|].
    intros Hk l Hl. eapply clean_shrinks; [exact Hs2|]. by apply Hc1.
  - exists h1. eauto.
Qed.

(** C6.  With [args.do_remove_low_freq_words = k > 0] (and a dataset in
    which every client of [train_data_local_num_dict] has its two lists, as
    [load_data] builds it), the removal ends; every token of the global
    train and test batches whose total frequency there is at most [k] is
    gone from every global batch and from every local train and test batch
    of every such client; the source vocabulary that the rest of
    [preprocess_data] works with is what [build_vocab] makes of the global
    batches as they are after the removal, and it has no removed token
    among its keys (other than entries [build_vocab] reserves for itself,
    if any). *)
Theorem preprocess_data_removes_low_freq (args : Args) (ds : dataset tvocab) (h : store) :
  do_remove_low_freq_words args > 0 →
  keys_consistent ds →
  ∃ h', remove_stage args ds h = Ok h' ∧
    preprocess_data args ds h = finish_stage args ds h' (build_vocab (collect_x ds h')) ∧
    ∀ t, occurs t (collect_x ds h) →
         total_frequency t (collect_x ds h) ≤ do_remove_low_freq_words args →
      (∀ l, walked ds l → ¬ occurs t (X (h' l))) ∧
      ¬ occurs t (collect_x ds h') ∧
      (t ∉ reserved → build_vocab (collect_x ds h') !! t = None).
Proof.
  intros Hk Hkeys.
  destruct (remove_stage_spec args ds h Hkeys) as (h' & Hrm & Hs & Hc).
  exists h'. split; [done|]. split.
  - unfold Preprocess.preprocess_data. by rewrite Hrm.
  - intros t Hocc Hfreq.
    pose proof (low_freq_words_elem _ _ _ Hocc Hfreq) as Hlow.
    assert (∀ l, walked ds l → ¬ occurs t (X (h' l))) as Hwalked.
    { intros l Hl Ht. by eapply (Hc Hk l Hl t Ht). }
    assert (¬ occurs t (collect_x ds h')) as Hglobal.
    { unfold Preprocess.collect_x. rewrite occurs_app, !occurs_extend_X.
      intros [(l & Hl & Ht)|(l & Hl & Ht)]; eapply Hwalked; try exact Ht.
      - by left.
      - by right; left. }
    split; [done|]. split; [done|].
    intros Hres. apply eq_None_not_Some. intros Hsome.
    apply build_vocab_spec in Hsome as [?|?]; done.
Qed.

(** *** The embeddings (lines 250-262) and the rest of [preprocess_data] *)

Lemma remove_in_clients_ok (W : gset string) (ds : dataset tvocab) (clients : list Z)
    (h : store) :
  (∀ c, c ∈ clients →
        is_Some (train_data_local_dict ds !! c) ∧ is_Some (test_data_local_dict ds !! c)) →
  ∃ h', remove_in_clients W ds clients h = Ok h'.
Proof.
  revert h. induction clients as [|c rest IH]; intros h Hkeys; [by exists h|].
  destruct (Hkeys c) as [[train Htrain] [test Htest]]; [apply list_elem_of_here|].
  simpl. unfold getitem. rewrite Htrain, Htest. simpl.
  apply IH. intros c' Hc'. apply Hkeys. by apply list_elem_of_further.
Qed.

Lemma remove_stage_ok (args : Args) (ds : dataset tvocab) (h : store) :
  keys_consistent ds → ∃ h', remove_stage args ds h = Ok h'.
Proof.
  intros Hkeys. unfold Preprocess.remove_stage, __remove_words. cbv zeta.
  case_decide.
  - edestruct remove_in_clients_ok as [h1 ->]; [exact Hkeys|]. simpl.
    destruct (do_remove_stop_words args); [|by eauto].
    by apply remove_in_clients_ok.
  - simpl. destruct (do_remove_stop_words args); [|by eauto].
    by apply remove_in_clients_ok.
Qed.

Lemma pad_clients_ok (n : Z) (v : gmap string Z) (ds : dataset tvocab) (h : store)
    (clients : list Z) acc :
  (∀ c, c ∈ clients →
        is_Some (train_data_local_dict ds !! c) ∧ is_Some (test_data_local_dict ds !! c)) →
  ∃ r, pad_clients padding_data token_to_idx label_to_idx n v ds h clients acc = Ok r.
Proof.
  revert acc. induction clients as [|c rest IH]; intros acc Hkeys; [by exists acc|].
  destruct (Hkeys c) as [[train Htrain] [test Htest]]; [apply list_elem_of_here|].
  simpl. unfold getitem. rewrite Htrain, Htest. simpl.
  apply IH. intros c' Hc'. apply Hkeys. by apply list_elem_of_further.
Qed.

(** [max(lengths)] has something to look at. *)
Definition max_len_defined (args : Args) (ds : dataset tvocab) (h : store) : Prop :=
  max_seq_len args = -1 → extend_X h (train_data_global ds) ≠ [].

Lemma flat_map_fmap_nil {A B C} (f : A → list B) (g : B → C) (l : list A) :
  flat_map (λ a, g <$> f a) l = [] → flat_map f l = [].
Proof.
  induction l as [|a l IH]; [done|]. simpl.
  intros [Ha Hl]%app_eq_nil. apply fmap_nil_inv in Ha. rewrite Ha. simpl. auto.
Qed.

(** Once the embeddings are loaded the rest returns, with the vocabulary
    and the weights of the embedding stage. *)
Lemma finish_stage_returns (args : Args) (ds : dataset tvocab) (h : store)
    (sv v : gmap string Z) (w : option (tensor (weights:=weights))) :
  keys_consistent ds → max_len_defined args ds h →
  embedding_stage args sv = Ok (v, w) →
  ∃ out, finish_stage args ds h sv = Ok (h, out) ∧
         source_vocab out = v ∧ embedding_weights out = w.
Proof.
  intros Hkeys Hmax Hemb. unfold Preprocess.finish_stage. rewrite Hemb. simpl.
  assert (∃ n, (if decide (max_seq_len args = -1)
                then py_max (flat_map (λ l, (λ single_x, Z.of_nat (List.length single_x))
                                              <$> X (h l)) (train_data_global ds))
                else Ok (max_seq_len args)) = Ok n) as [n ->].
  { case_decide as Hm; [|by eauto].
    destruct (flat_map _ _) as [|n rest] eqn:Hflat; [|by simpl; eauto].
    apply flat_map_fmap_nil in Hflat. by destruct (Hmax Hm). }
  simpl.
  edestruct pad_clients_ok as [[d1 d2] ->]; [exact Hkeys|].
  simpl. eauto.
Qed.

Lemma finish_stage_raises (args : Args) (ds : dataset tvocab) (h : store)
    (sv : gmap string Z) (e : exn) :
  embedding_stage args sv = Raise e → finish_stage args ds h sv = Raise e.
Proof. intros Hemb. unfold Preprocess.finish_stage. by rewrite Hemb. Qed.

Lemma embedding_stage_word2vec (args : Args) (sv v : gmap string Z) (f : string) w :
  embedding_name args = Some "word2vec" → embedding_file args = Some f →
  load_word2vec_embedding (abspath f) sv = Ok (v, w) →
  embedding_stage args sv = Ok (v, Some (torch_tensor w)).
Proof.
  intros Hname Hfile Hload. unfold Preprocess.embedding_stage.
  rewrite Hname, Hfile. simpl. by rewrite Hload.
Qed.

Lemma embedding_stage_glove (args : Args) (sv v : gmap string Z) (f : string) w :
  embedding_name args = Some "glove" → embedding_file args = Some f →
  load_glove_embedding (abspath f) sv (embedding_length args) = Ok (v, w) →
  embedding_stage args sv = Ok (v, Some (torch_tensor w)).
Proof.
  intros Hname Hfile Hload. unfold Preprocess.embedding_stage.
  rewrite Hname, Hfile. simpl. by rewrite Hload.
Qed.

Lemma embedding_stage_other (args : Args) (sv : gmap string Z) :
  truthy (embedding_name args) = true →
  embedding_name args ≠ Some "word2vec" → embedding_name args ≠ Some "glove" →
  embedding_stage args sv = Raise (Exception "No such embedding").
Proof.
  intros Htruthy Hw Hg. unfold Preprocess.embedding_stage.
  rewrite Htruthy. by rewrite !decide_False.
Qed.

Lemma embedding_stage_not_given (args : Args) (sv : gmap string Z) :
  truthy (embedding_name args) = false → embedding_stage args sv = Ok (sv, None).
Proof. intros Htruthy. unfold Preprocess.embedding_stage. by rewrite Htruthy. Qed.

(** C7.  [args.embedding_name] counts as given when it passes Python's
    truth test ([if args.embedding_name:]), that is when it is a non-empty
    string.  For a dataset whose iterated clients have their two lists,
    the removals end with a store [h'] and a source vocabulary [sv], and
    - if the name is ["word2vec"] (or ["glove"]) and the loader returns
      [(v, w)] for [sv], [preprocess_data] returns with vocabulary [v] and
      [embedding_weights] the tensor of [w];
    - if the name is given but is another value, [preprocess_data] raises
      [Exception("No such embedding")];
    - if the name is not given, [preprocess_data] returns with
      [embedding_weights] [None] (and the vocabulary [sv]). *)
Theorem preprocess_data_embedding (args : Args) (ds : dataset tvocab) (h : store) :
  keys_consistent ds →
  ∃ h', remove_stage args ds h = Ok h' ∧
    (∀ f v w, embedding_file args = Some f → max_len_defined args ds h' →
       (embedding_name args = Some "word2vec" ∧
        load_word2vec_embedding (abspath f) (source_vocab_of ds h') = Ok (v, w)) ∨
       (embedding_name args = Some "glove" ∧
        load_glove_embedding (abspath f) (source_vocab_of ds h') (embedding_length args)
        = Ok (v, w)) →
       ∃ out, preprocess_data args ds h = Ok (h', out) ∧
              source_vocab out = v ∧ embedding_weights out = Some (torch_tensor w)) ∧
    (truthy (embedding_name args) = true →
     embedding_name args ≠ Some "word2vec" → embedding_name args ≠ Some "glove" →
       preprocess_data args ds h = Raise (Exception "No such embedding")) ∧
    (truthy (embedding_name args) = false → max_len_defined args ds h' →
       ∃ out, preprocess_data args ds h = Ok (h', out) ∧
              source_vocab out = source_vocab_of ds h' ∧ embedding_weights out = None).
Proof.
  intros Hkeys. destruct (remove_stage_ok args ds h Hkeys) as [h' Hrm].
  exists h'. split; [done|].
  unfold Preprocess.preprocess_data. rewrite Hrm. simpl.
  split; [|split].
  - intros f v w Hfile Hmax [[Hname Hload]|[Hname Hload]];
      apply finish_stage_returns; try done.
    + by eapply embedding_stage_word2vec.
    + by eapply embedding_stage_glove.
  - intros Htruthy Hw Hg. by apply finish_stage_raises, embedding_stage_other.
  - intros Htruthy Hmax. apply finish_stage_returns; try done.
    by apply embedding_stage_not_given.
Qed.

End facts.

(** *** Helpers that meet the contracts

    Straightforward versions of the imported helpers, to run
    [preprocess_data] on an example. *)

Definition ref_remove_words (x : list (list string)) (removed_words : gset string)
    : list (list string) :=
  (λ single_x, filter (λ token, token ∉ removed_words) single_x) <$> x.

Definition ref_build_freq_vocab (x : list (list string)) : gmap string Z :=
  foldl (λ freq_vocab token, <[token := default 0 (freq_vocab !! token) + 1]> freq_vocab)
    ∅ (List.concat x).

Definition PAD_TOKEN : string := "<PAD>".
Definition UNK_TOKEN : string := "<UNK>".

Definition ref_build_vocab (x : list (list string)) : gmap string Z :=
  let vocab :=
    foldl (λ vocab token,
             if decide (is_Some (vocab !! token)) then vocab
             else <[token := Z.of_nat (size vocab)]> vocab)
      (∅ : gmap string Z) (List.concat x) in
  let vocab := <[PAD_TOKEN := Z.of_nat (size vocab)]> vocab in
  <[UNK_TOKEN := Z.of_nat (size vocab)]> vocab.

Lemma occurs_concat (t : string) (x : list (list string)) :
  occurs t x ↔ t ∈ List.concat x.
Proof.
  unfold occurs. rewrite list_elem_of_In, in_concat.
  split; intros (s & Hs & Ht); exists s.
  - by rewrite <-!list_elem_of_In.
  - by rewrite !list_elem_of_In.
Qed.

Lemma ref_remove_words_spec (x : list (list string)) (word_set : gset string) (t : string) :
  occurs t (ref_remove_words x word_set) → (t ∉ word_set) ∧ occurs t x.
Proof.
  unfold occurs, ref_remove_words.
  intros (s & (s0 & -> & Hs0)%list_elem_of_fmap & [Ht Hin]%list_elem_of_filter).
  split; [done|]. by exists s0.
Qed.

Lemma ref_count_step (tokens : list string) (m : gmap string Z) (t : string) :
  foldl (λ freq_vocab token, <[token := default 0 (freq_vocab !! token) + 1]> freq_vocab)
    m tokens !! t
  = match List.length (filter (λ t', t' = t) tokens) with
    | O => m !! t
    | S n => Some (default 0 (m !! t) + Z.of_nat (S n))
    end.
Proof.
  revert m. induction tokens as [|a rest IH]; intros m; [done|].
  simpl. rewrite IH. rewrite filter_cons. destruct (decide (a = t)) as [->|Hne].
  - rewrite lookup_insert_eq. simpl.
    destruct (List.length (filter _ rest)); simpl; f_equal; lia.
  - by rewrite lookup_insert_ne.
Qed.

Lemma ref_build_freq_vocab_spec (x : list (list string)) (t : string) :
  occurs t x → ref_build_freq_vocab x !! t = Some (total_frequency t x).
Proof.
  intros Hocc%occurs_concat. unfold ref_build_freq_vocab, total_frequency.
  rewrite ref_count_step.
  destruct (filter _ (List.concat x)) as [|a l] eqn:Hf.
  - assert (t ∈ filter (λ t', t' = t) (List.concat x)) as Hin
      by by apply list_elem_of_filter.
    rewrite Hf in Hin. by apply elem_of_nil in Hin.
  - simpl. rewrite lookup_empty. simpl. f_equal; lia.
Qed.

Lemma ref_vocab_step (tokens : list string) (m : gmap string Z) (t : string) :
  is_Some (foldl (λ vocab token,
             if decide (is_Some (vocab !! token)) then vocab
             else <[token := Z.of_nat (size vocab)]> vocab) m tokens !! t) →
  is_Some (m !! t) ∨ t ∈ tokens.
Proof.
  revert m. induction tokens as [|a rest IH]; intros m; [by left|].
  simpl. intros [Hm|Hin]%IH.
  - case_decide; [by left|].
    destruct (decide (a = t)) as [->|Hne]; [right; apply list_elem_of_here|].
    left. by rewrite lookup_insert_ne in Hm.
  - right. by apply list_elem_of_further.
Qed.

Lemma ref_build_vocab_spec (x : list (list string)) (t : string) :
  is_Some (ref_build_vocab x !! t) → occurs t x ∨ t ∈ ({[PAD_TOKEN; UNK_TOKEN]} : gset string).
Proof.
  unfold ref_build_vocab. cbv zeta.
  destruct (decide (t = UNK_TOKEN)) as [->|Hunk]; [set_solver|].
  rewrite lookup_insert_ne by done.
  destruct (decide (t = PAD_TOKEN)) as [->|Hpad]; [set_solver|].
  rewrite lookup_insert_ne by done.
  intros [Hm|Hin]%ref_vocab_step.
  - rewrite lookup_empty in Hm. by destruct Hm.
  - left. by apply occurs_concat.
Qed.

(** *** An example run

    One client.  Batch 0 is the global and the client's train batch, batch 1
    the global and the client's test batch; ["a"] occurs four times, ["b"]
    and ["c"] once. *)

Definition toy_store : nat → batch := λ l,
  match l with
  | 0%nat => Batch [["a"; "b"; "a"]; ["a"]] ["pos"; "neg"]
  | 1%nat => Batch [["a"; "c"]] ["pos"]
  | _ => Batch [] []
  end.

Definition toy_dataset : dataset unit :=
  {| train_data_num := 2; test_data_num := 1;
     train_data_global := [0%nat]; test_data_global := [1%nat];
     train_data_local_num_dict := [(0, 2)];
     train_data_local_dict := {[0 := [0%nat]]};
     test_data_local_dict := {[0 := [1%nat]]};
     target_vocab := () |}.

Definition toy_preprocess_args (name : option string) : Args :=
  {| do_remove_low_freq_words := 1; do_remove_stop_words := false;
     embedding_name := name; embedding_file := Some "vectors.bin";
     embedding_length := 300; max_seq_len := 512 |}.

(** Loaders that keep the vocabulary and give one weight per key. *)
Definition toy_word2vec (path : string) (v : gmap string Z)
    : result (gmap string Z * list Z) := Ok (v, (map_to_list v).*2).
Definition toy_glove (path : string) (v : gmap string Z) (n : Z)
    : result (gmap string Z * list Z) := Ok (v, (λ _, n) <$> map_to_list v).

Definition toy_preprocess_data (name : option string) :=
  preprocess_data ref_build_freq_vocab ref_remove_words ref_build_vocab
    toy_word2vec toy_glove (λ x n, (x, [])) (λ x _, x) (λ y _, y) ∅ id
    (toy_preprocess_args name) toy_dataset toy_store.

Lemma toy_keys_consistent : keys_consistent toy_dataset.
Proof.
  intros c. simpl. intros ->%list_elem_of_singleton.
  by rewrite !lookup_singleton_eq.
Qed.

Example toy_remove_stage :
  (λ h', (X (h' 0%nat), X (h' 1%nat))) <$>
    (match remove_stage (tvocab:=unit) ref_build_freq_vocab ref_remove_words ∅
             (toy_preprocess_args None) toy_dataset toy_store with
     | Ok h' => Some h'
     | Raise _ => None
     end)
  = Some ([["a"; "a"]; ["a"]], [["a"]]).
Proof. vm_compute. reflexivity. Qed.

Example toy_preprocess_data_unknown_embedding :
  toy_preprocess_data (Some "fasttext") = Raise (Exception "No such embedding").
Proof. vm_compute. reflexivity. Qed.

Example toy_preprocess_data_empty_name :
  (λ r, embedding_weights r.2) <$>
    (match toy_preprocess_data (Some "") with Ok r => Some r | Raise _ => None end)
  = Some None.
Proof. vm_compute. reflexivity. Qed.

(** C6 at work on the example: ["b"] occurs once in the global batches, so
    with [k = 1] it is gone from batch 0 and from the source vocabulary. *)
Lemma preprocess_data_removes_low_freq_witness :
  ∃ h', remove_stage (tvocab:=unit) ref_build_freq_vocab ref_remove_words ∅
          (toy_preprocess_args None) toy_dataset toy_store = Ok h' ∧
        ¬ occurs "b" (X (h' 0%nat)) ∧
        ref_build_vocab (collect_x toy_dataset h') !! "b" = None.
Proof.
  destruct (preprocess_data_removes_low_freq ref_build_freq_vocab ref_remove_words
              ref_build_vocab toy_word2vec toy_glove (λ x n, (x, [])) (λ x _, x)
              (λ y _, y) ∅ id {[PAD_TOKEN; UNK_TOKEN]}
              ref_remove_words_spec ref_build_freq_vocab_spec ref_build_vocab_spec
              (toy_preprocess_args None) toy_dataset toy_store)
    as (h' & Hrm & _ & Hlow).
  - reflexivity.
  - apply toy_keys_consistent.
  - destruct (Hlow "b") as (Hwalked & _ & Hvocab).
    + exists ["a"; "b"; "a"]. split.
      * apply list_elem_of_here.
      * apply list_elem_of_further, list_elem_of_here.
    + vm_compute. discriminate.
    + exists h'. split; [exact Hrm|]. split.
      * apply Hwalked. left. apply list_elem_of_here.
      * apply Hvocab. rewrite elem_of_union, !elem_of_singleton.
        intros [?|?]; discriminate.
Defined.

(** C7 at work on the example: an unknown name raises, ["glove"] yields a
    tensor, no name yields [None]. *)
Lemma preprocess_data_embedding_witness :
  toy_preprocess_data (Some "fasttext") = Raise (Exception "No such embedding") ∧
  (∃ h' out, toy_preprocess_data (Some "glove") = Ok (h', out) ∧
             ∃ w, embedding_weights out = Some (torch_tensor w)) ∧
  (∃ h' out, toy_preprocess_data None = Ok (h', out) ∧ embedding_weights out = None).
Proof.
  split; [|split].
  - destruct (preprocess_data_embedding ref_build_freq_vocab ref_remove_words
                ref_build_vocab toy_word2vec toy_glove (λ x n, (x, [])) (λ x _, x)
                (λ y _, y) ∅ id (toy_preprocess_args (Some "fasttext")) toy_dataset toy_store
                toy_keys_consistent) as (h' & _ & _ & Hraise & _).
    apply Hraise; [reflexivity|discriminate..].
  - destruct (preprocess_data_embedding ref_build_freq_vocab ref_remove_words
                ref_build_vocab toy_word2vec toy_glove (λ x n, (x, [])) (λ x _, x)
                (λ y _, y) ∅ id (toy_preprocess_args (Some "glove")) toy_dataset toy_store
                toy_keys_consistent) as (h' & _ & Hload & _ & _).
    edestruct (Hload "vectors.bin") as (out & Hout & _ & Hw).
    + reflexivity.
    + intros Hmax. discriminate Hmax.
    + right. split; reflexivity.
    + exists h', out. split; [exact Hout|]. eexists. exact Hw.
  - destruct (preprocess_data_embedding ref_build_freq_vocab ref_remove_words
                ref_build_vocab toy_word2vec toy_glove (λ x n, (x, [])) (λ x _, x)
                (λ y _, y) ∅ id (toy_preprocess_args None) toy_dataset toy_store
                toy_keys_consistent) as (h' & _ & _ & _ & Hnone).
    destruct Hnone as (out & Hout & _ & Hw).
    + reflexivity.
    + intros Hmax. discriminate Hmax.
    + exists h', out. split; [exact Hout|exact Hw].
Defined.

End PreprocessFacts.

(** ** The optimizer grouping of [train_model] *)

Module GroupingFacts.

Import Trainer.

(** The tensors of all groups, group after group. *)
Definition placed (groups : list param_group) : list nat :=
  List.concat (pg_params <$> groups).

(** [n] is named by one of [args.custom_parameter_groups]. *)
Definition is_custom (args : Args) (n : string) : Prop :=
  ∃ group, group ∈ custom_parameter_groups args ∧ n ∈ cg_params group.

(** No name is listed by two custom groups. *)
Fixpoint pairwise_disjoint (groups : list custom_group) : Prop :=
  match groups with
  | [] => True
  | group :: rest =>
      (∀ group' n, group' ∈ rest → n ∈ cg_params group → n ∉ cg_params group') ∧
      pairwise_disjoint rest
  end.

(** What a group says about weight decay. *)
Definition group_weight_decay (g : param_group) : option Qc :=
  pg_options g !! "weight_decay".

(** *** Splitting a filter *)

Lemma filter_split {A} (R P Q : A → Prop)
    `{∀ x, Decision (R x)} `{∀ x, Decision (P x)} `{∀ x, Decision (Q x)} (l : list A) :
  (∀ x, x ∈ l → R x ↔ P x ∨ Q x) → (∀ x, x ∈ l → ¬ (P x ∧ Q x)) →
  filter R l ≡ₚ filter P l ++ filter Q l.
Proof.
  induction l as [|a l IH]; intros HR Hdisj; [done|].
  rewrite !filter_cons.
  assert (filter R l ≡ₚ filter P l ++ filter Q l) as IH'.
  { apply IH; intros x Hx; [apply HR|apply Hdisj]; by apply list_elem_of_further. }
  pose proof (HR a (list_elem_of_here _ _)) as HRa.
  pose proof (Hdisj a (list_elem_of_here _ _)) as Hda.
  destruct (decide (R a)), (decide (P a)), (decide (Q a)); try tauto.
  - simpl. by rewrite IH'.
  - rewrite IH'. by rewrite Permutation_middle.
Qed.

Lemma placed_snoc (groups : list param_group) (g : param_group) :
  placed (groups ++ [g]) = placed groups ++ pg_params g.
Proof. unfold placed. rewrite fmap_app, concat_app. simpl. by rewrite app_nil_r. Qed.

Lemma placed_app (groups1 groups2 : list param_group) :
  placed (groups1 ++ groups2) = placed groups1 ++ placed groups2.
Proof. unfold placed. by rewrite fmap_app, concat_app. Qed.

Section grouping.

Variable named : list (string * nat).
Hypothesis NoDup_names : NoDup named.*1.

(** The parameters whose name is in [names]. *)
Definition taken (names : gset string) : list nat :=
  (filter (λ np : string * nat, np.1 ∈ names) named).*2.

(** *** The custom groups *)

Lemma custom_group_step_spec (st : grouping) (group : custom_group) :
  (∀ n, n ∈ cg_params group → n ∉ custom_parameter_names st) →
  placed (optimizer_grouped_parameters st) ≡ₚ taken (custom_parameter_names st) →
  let st' := custom_group_step named st group in
  placed (optimizer_grouped_parameters st') ≡ₚ taken (custom_parameter_names st') ∧
  custom_parameter_names st'
  = custom_parameter_names st ∪ list_to_set (cg_params group).
Proof.
  intros Hfresh Hinv st'. subst st'. unfold custom_group_step. simpl.
  split; [|done]. rewrite placed_snoc. simpl. rewrite Hinv. unfold taken.
  rewrite <-fmap_app. apply fmap_Permutation. symmetry.
  apply filter_split.
  - intros [n p] _. simpl. rewrite elem_of_union, elem_of_list_to_set. done.
  - intros [n p] _. simpl. intros [Hn Hp]. by apply (Hfresh n).
Qed.

Lemma custom_groups_spec (groups : list custom_group) (st : grouping) :
  pairwise_disjoint groups →
  (∀ group n, group ∈ groups → n ∈ cg_params group → n ∉ custom_parameter_names st) →
  placed (optimizer_grouped_parameters st) ≡ₚ taken (custom_parameter_names st) →
  let st' := foldl (custom_group_step named) st groups in
  placed (optimizer_grouped_parameters st') ≡ₚ taken (custom_parameter_names st') ∧
  (∀ n, n ∈ custom_parameter_names st' ↔
        n ∈ custom_parameter_names st ∨ ∃ group, group ∈ groups ∧ n ∈ cg_params group).
Proof.
  revert st. induction groups as [|group rest IH]; intros st Hdisj Hfresh Hinv.
  - simpl. split; [done|]. intros n. split; [by left|].
    intros [?|(g & []%elem_of_nil & _)]. done.
  - destruct Hdisj as [Hhead Hrest]. simpl.
    destruct (custom_group_step_spec st group) as [Hinv' Hnames']; [|done|].
    { intros n Hn. by apply (Hfresh group n); [apply list_elem_of_here|]. }
    destruct (IH (custom_group_step named st group) Hrest) as [Hinv'' Hnames'']; [|done|].
    { intros g n Hg Hn. rewrite Hnames', elem_of_union, elem_of_list_to_set.
      intros [Hst|Hgroup].
      - apply (Hfresh g n); [by apply list_elem_of_further|done..].
      - by apply (Hhead g n). }
    split; [done|]. intros n. rewrite Hnames'', Hnames', elem_of_union, elem_of_list_to_set.
    split.
    + intros [[?|?]|(g & Hg & Hn)]; [by left| |].
      * right. exists group. split; [apply list_elem_of_here|done].
      * right. exists g. split; [by apply list_elem_of_further|done].
    + intros [?|(g & [->|Hg]%elem_of_cons & Hn)]; [by left; left|by left; right|].
      right. by exists g.
Qed.

(** *** The layer groups *)

(** The test of line 93 against the names taken when the scan starts. *)
Definition matched (layer : string) (names0 : gset string) (np : string * nat) : Prop :=
  (np.1 ∉ names0) ∧ PyStr.contains layer np.1.

#[local] Instance matched_dec layer names0 np : Decision (matched layer names0 np).
Proof. unfold matched. apply _. Defined.

Lemma layer_scan_spec (layer : string) (names0 : gset string) (l : list (string * nat))
    (sc : layer_scan) :
  NoDup l.*1 →
  (∀ np, np ∈ l → np.1 ∈ scan_names sc ↔ np.1 ∈ names0) →
  let res := foldl (layer_scan_step layer) sc l in
  params_d res
  = params_d sc ++
    (filter (λ np, matched layer names0 np ∧ ¬ any_no_decay np.1) l).*2 ∧
  params_nd res
  = params_nd sc ++
    (filter (λ np, matched layer names0 np ∧ any_no_decay np.1) l).*2 ∧
  (∀ n, n ∈ scan_names res ↔
        n ∈ scan_names sc ∨ ∃ p, (n, p) ∈ l ∧ matched layer names0 (n, p)).
Proof.
  revert sc. induction l as [|[n p] rest IH]; intros sc Hnodup Hnames.
  - simpl. rewrite !app_nil_r. repeat split; [by left|].
    intros [?|(p & []%elem_of_nil & _)]. done.
  - rewrite fmap_cons in Hnodup. apply NoDup_cons in Hnodup as [Hn Hnodup].
    assert (∀ sc', params_d sc' = params_d sc ++
                     (if decide (matched layer names0 (n, p) ∧ ¬ any_no_decay n)
                      then [p] else []) →
                   params_nd sc' = params_nd sc ++
                     (if decide (matched layer names0 (n, p) ∧ any_no_decay n)
                      then [p] else []) →
                   (∀ n', n' ∈ scan_names sc' ↔
                          n' ∈ scan_names sc ∨ (n' = n ∧ matched layer names0 (n, p))) →
                   let res := foldl (layer_scan_step layer) sc' rest in
                   params_d res = params_d sc ++
                     (filter (λ np, matched layer names0 np ∧ ¬ any_no_decay np.1)
                        ((n, p) :: rest)).*2 ∧
                   params_nd res = params_nd sc ++
                     (filter (λ np, matched layer names0 np ∧ any_no_decay np.1)
                        ((n, p) :: rest)).*2 ∧
                   (∀ n', n' ∈ scan_names res ↔
                          n' ∈ scan_names sc ∨
                          ∃ p', (n', p') ∈ (n, p) :: rest ∧ matched layer names0 (n', p')))
      as Hstep.
    { intros sc' Hd Hnd Hsc'.
      destruct (IH sc' Hnodup) as (Hd' & Hnd' & Hnames').
      { intros [n' p'] Hin. simpl. rewrite Hsc'.
        rewrite <-(Hnames (n', p')) by by apply list_elem_of_further. simpl.
        split; [|by left]. intros [?|[-> _]]; [done|].
        destruct Hn. apply list_elem_of_fmap. by exists (n, p'). }
      cbv zeta. rewrite Hd', Hnd', Hd, Hnd, !filter_cons. simpl.
      split; [|split].
      - destruct (decide (matched layer names0 (n, p) ∧ ¬ any_no_decay n));
          simpl; by rewrite <-?app_assoc, ?app_nil_r.
      - destruct (decide (matched layer names0 (n, p) ∧ any_no_decay n));
          simpl; by rewrite <-?app_assoc, ?app_nil_r.
      - intros n'. rewrite Hnames', Hsc'. split.
        + intros [[?|[-> Hm]]|(p' & Hin & Hm)]; [by left| |].
          * right. exists p. split; [apply list_elem_of_here|done].
          * right. exists p'. split; [by apply list_elem_of_further|done].
        + intros [?|(p' & [[= -> ->]|Hin]%elem_of_cons & Hm)]; [by left; left| |].
          * left. right. done.
          * right. by exists p'. }
    cbv zeta.
    change (foldl (layer_scan_step layer) sc ((n, p) :: rest))
      with (foldl (layer_scan_step layer) (layer_scan_step layer sc (n, p)) rest).
    pose proof (Hnames (n, p) (list_elem_of_here _ _)) as Hhead. simpl in Hhead.
    destruct (bool_decide (n ∉ scan_names sc) && PyStr.contains layer n) eqn:Hcond.
    + apply andb_prop in Hcond as Hcond'.
      destruct Hcond' as [Hfresh%bool_decide_eq_true Hlayer].
      assert (matched layer names0 (n, p)) as Hm.
      { split; simpl; [by rewrite <-Hhead|by rewrite Hlayer]. }
      destruct (any_no_decay n) eqn:Hnd.
      * assert (layer_scan_step layer sc (n, p)
                = LayerScan (params_d sc) (params_nd sc ++ [p]) ({[n]} ∪ scan_names sc))
          as -> by (unfold layer_scan_step; by rewrite Hcond, Hnd).
        apply Hstep; simpl.
        -- rewrite decide_False by (intros [_ Hx]; by apply Hx). by rewrite app_nil_r.
        -- by rewrite decide_True.
        -- intros n'. rewrite elem_of_union, elem_of_singleton. tauto.
      * assert (layer_scan_step layer sc (n, p)
                = LayerScan (params_d sc ++ [p]) (params_nd sc) ({[n]} ∪ scan_names sc))
          as -> by (unfold layer_scan_step; by rewrite Hcond, Hnd).
        apply Hstep; simpl.
        -- by rewrite decide_True by (split; [done|by intros ?]).
        -- rewrite decide_False by (by intros [_ ?]). by rewrite app_nil_r.
        -- intros n'. rewrite elem_of_union, elem_of_singleton. tauto.
    + assert (¬ matched layer names0 (n, p)) as Hm.
      { intros [Hfresh Hlayer]. simpl in *.
        apply andb_false_iff in Hcond as [Hc%bool_decide_eq_false|Hc].
        - apply Hc. by rewrite Hhead.
        - by rewrite Hc in Hlayer. }
      assert (layer_scan_step layer sc (n, p) = sc) as ->
        by (unfold layer_scan_step; by rewrite Hcond).
      apply Hstep.
      * rewrite decide_False by (by intros [? _]). by rewrite app_nil_r.
      * rewrite decide_False by (by intros [? _]). by rewrite app_nil_r.
      * intros n'. tauto.
Qed.

Lemma matched_name (layer : string) (names0 : gset string) (n : string) (p p' : nat) :
  matched layer names0 (n, p) ↔ matched layer names0 (n, p').
Proof. done. Qed.

(** One layer group: the two new groups hold the matched parameters, with
    and without decay, and the matched names are taken. *)
Lemma layer_group_step_spec (st : grouping) (group : layer_group) :
  let layer := layer_pattern (lg_layer group) in
  let names0 := custom_parameter_names st in
  let st' := layer_group_step named st group in
  optimizer_grouped_parameters st'
  = optimizer_grouped_parameters st ++
    [ParamGroup (filter (λ np, matched layer names0 np ∧ ¬ any_no_decay np.1) named).*2
       (lg_options group);
     ParamGroup (filter (λ np, matched layer names0 np ∧ any_no_decay np.1) named).*2
       (<["weight_decay" := 0%Qc]> (lg_options group))] ∧
  (∀ n, n ∈ custom_parameter_names st' ↔
        n ∈ names0 ∨ ∃ p, (n, p) ∈ named ∧ matched layer names0 (n, p)).
Proof.
  intros layer names0 st'. subst st'. unfold layer_group_step. cbv zeta.
  destruct (layer_scan_spec layer names0 named (LayerScan [] [] names0) NoDup_names)
    as (Hd & Hnd & Hnames); [done|].
  fold layer names0. cbv zeta in Hd, Hnd, Hnames. simpl in *.
  rewrite Hd, Hnd. split; [done|]. apply Hnames.
Qed.

Lemma layer_group_step_taken (st : grouping) (group : layer_group) :
  placed (optimizer_grouped_parameters st) ≡ₚ taken (custom_parameter_names st) →
  placed (optimizer_grouped_parameters (layer_group_step named st group))
  ≡ₚ taken (custom_parameter_names (layer_group_step named st group)).
Proof.
  intros Hinv. destruct (layer_group_step_spec st group) as [Hgroups Hnames].
  cbv zeta in *. rewrite Hgroups, placed_app, Hinv.
  set (layer := layer_pattern (lg_layer group)) in *.
  set (names0 := custom_parameter_names st) in *.
  set (names' := custom_parameter_names (layer_group_step named st group)) in *.
  unfold placed, taken. simpl.
  rewrite app_nil_r, <-!fmap_app. apply fmap_Permutation.
  rewrite <-(filter_split (matched layer names0) _ _ named).
  - symmetry. apply filter_split.
    + intros [n p] Hin. simpl. rewrite Hnames. split; [|intros [?|?]; eauto].
      intros [?|(p' & _ & Hm)]; [by left|right]. by apply (matched_name _ _ _ p').
    + intros [n p] _ [Hn [Hfresh _]]. done.
  - intros [n p] _. simpl. destruct (any_no_decay n); simpl; tauto.
  - intros [n p] _. tauto.
Qed.

(** *** All of lines 73-125 *)

Lemma taken_empty : taken ∅ = [].
Proof.
  unfold taken. rewrite (filter_none _ named); [done|].
  intros np _. apply not_elem_of_empty.
Qed.

Lemma layer_groups_taken (groups : list layer_group) (st : grouping) :
  placed (optimizer_grouped_parameters st) ≡ₚ taken (custom_parameter_names st) →
  placed (optimizer_grouped_parameters (foldl (layer_group_step named) st groups))
  ≡ₚ taken (custom_parameter_names (foldl (layer_group_step named) st groups)).
Proof.
  revert st. induction groups as [|group rest IH]; intros st Hinv; [done|].
  simpl. by apply IH, layer_group_step_taken.
Qed.

Lemma default_groups_complement (args : Args) (names : gset string) :
  taken names ++ placed (default_groups named args names) ≡ₚ named.*2.
Proof.
  unfold taken, placed, default_groups. simpl. rewrite app_nil_r, <-!fmap_app.
  apply fmap_Permutation.
  etransitivity;
    [|apply (filter_app_complement (λ np : string * nat, np.1 ∈ names) named)].
  apply Permutation_app_head. symmetry. apply filter_split.
  - intros [n p] _. simpl. destruct (any_no_decay n); simpl; tauto.
  - intros [n p] _. tauto.
Qed.

(** *** Where a parameter lands *)

Section landing.

Variable args : Args.
Variable n : string.
Variable p : nat.
Hypothesis n_p_named : (n, p) ∈ named.

(** Group [g] holds [p] and decays it as lines 84-125 mean to: no decay
    for a no-decay name; otherwise the decay of [args] (default group) or
    the options of a layer group whose pattern the name contains. *)
Definition lands_in (g : param_group) : Prop :=
  p ∈ pg_params g ∧
  (any_no_decay n → group_weight_decay g = Some 0%Qc) ∧
  (¬ any_no_decay n →
     group_weight_decay g = Some (weight_decay args) ∨
     ∃ group, group ∈ custom_layer_parameters args ∧
              PyStr.contains (layer_pattern (lg_layer group)) n ∧
              pg_options g = lg_options group).

Definition landed (st : grouping) : Prop :=
  n ∈ custom_parameter_names st → ∃ g, g ∈ optimizer_grouped_parameters st ∧ lands_in g.

Lemma layer_group_step_landed (st : grouping) (group : layer_group) :
  group ∈ custom_layer_parameters args →
  landed st → landed (layer_group_step named st group).
Proof.
  intros Hgroup Hst. unfold landed.
  destruct (layer_group_step_spec st group) as [-> Hnames]. cbv zeta in Hnames.
  rewrite Hnames.
  destruct (decide (n ∈ custom_parameter_names st)) as [Hold|Hnew].
  { intros _. destruct (Hst Hold) as (g & Hg & Hlands).
    exists g. split; [|done]. apply elem_of_app. by left. }
  intros [?|(p' & _ & Hm)]; [done|].
  apply (matched_name _ _ _ p' p) in Hm.
  destruct (any_no_decay n) eqn:Hnd.
  - eexists. split.
    + apply elem_of_app. right. apply list_elem_of_further, list_elem_of_here.
    + split; [|split].
      * simpl. apply list_elem_of_fmap. exists (n, p). split; [done|].
        apply list_elem_of_filter. simpl. by rewrite Hnd.
      * intros _. unfold group_weight_decay. simpl. apply lookup_insert_eq.
      * intros Hx. destruct Hx. by rewrite Hnd.
  - eexists. split.
    + apply elem_of_app. right. apply list_elem_of_here.
    + split; [|split].
      * simpl. apply list_elem_of_fmap. exists (n, p). split; [done|].
        apply list_elem_of_filter. simpl. rewrite Hnd. by split; [split; [|intros ?]|].
      * intros Hx. by rewrite Hnd in Hx.
      * intros _. right. exists group. split; [done|]. split; [apply Hm|done].
Qed.

Lemma layer_groups_landed (groups : list layer_group) (st : grouping) :
  groups ⊆ custom_layer_parameters args →
  landed st → landed (foldl (layer_group_step named) st groups).
Proof.
  revert st. induction groups as [|group rest IH]; intros st Hsub Hst; [done|].
  simpl. apply IH; [set_solver|]. apply layer_group_step_landed; [set_solver|done].
Qed.

Lemma default_groups_landed (names : gset string) :
  n ∉ names → ∃ g, g ∈ default_groups named args names ∧ lands_in g.
Proof.
  intros Hn. unfold default_groups. destruct (any_no_decay n) eqn:Hnd.
  - eexists. split; [apply list_elem_of_further, list_elem_of_here|].
    split; [|split].
    + simpl. apply list_elem_of_fmap. exists (n, p). split; [done|].
      apply list_elem_of_filter. simpl. by rewrite Hnd.
    + intros _. unfold group_weight_decay. simpl. apply lookup_singleton_eq.
    + intros Hx. destruct Hx. by rewrite Hnd.
  - eexists. split; [apply list_elem_of_here|].
    split; [|split].
    + simpl. apply list_elem_of_fmap. exists (n, p). split; [done|].
      apply list_elem_of_filter. simpl. rewrite Hnd. by split; [split; [|intros ?]|].
    + intros Hx. by rewrite Hnd in Hx.
    + intros _. left. unfold group_weight_decay. simpl. apply lookup_singleton_eq.
Qed.

End landing.

End grouping.

(** Lists whose concatenation has no duplicate share no element. *)
Lemma NoDup_concat_unique {A} (ls : list (list A)) (i j : nat) (l1 l2 : list A) (x : A) :
  NoDup (List.concat ls) → ls !! i = Some l1 → ls !! j = Some l2 →
  x ∈ l1 → x ∈ l2 → i = j.
Proof.
  revert i j. induction ls as [|l ls IH]; intros i j Hnodup Hi Hj Hx1 Hx2; [done|].
  simpl in Hnodup. apply NoDup_app in Hnodup as (_ & Hdisj & Hrest).
  assert (∀ k l', ls !! k = Some l' → x ∈ l' → x ∈ List.concat ls) as Hconcat.
  { intros k l' Hk Hx. apply list_elem_of_In, in_concat. exists l'.
    split; apply list_elem_of_In; [|done]. by eapply list_elem_of_lookup_2. }
  destruct i as [|i], j as [|j]; simpl in *; simplify_eq; [done| | |].
  - destruct (Hdisj x); eauto.
  - destruct (Hdisj x); eauto.
  - f_equal. by eapply IH.
Qed.

(** The groups of lines 73-125, as a whole. *)
Lemma group_parameters_spec (named : list (string * nat)) (args : Args) :
  NoDup named.*1 → NoDup named.*2 →
  train_custom_parameters_only args = false →
  pairwise_disjoint (custom_parameter_groups args) →
  let groups := optimizer_grouped_parameters (group_parameters named args) in
  placed groups ≡ₚ named.*2 ∧
  (∀ n p, (n, p) ∈ named →
     ∃ i g, groups !! i = Some g ∧ p ∈ pg_params g ∧
            ∀ j g', groups !! j = Some g' → p ∈ pg_params g' → j = i) ∧
  (∀ n p, (n, p) ∈ named → ¬ is_custom args n →
     ∃ g, g ∈ groups ∧ lands_in args n p g).
Proof.
  intros Hnames Hparams Honly Hdisj groups. subst groups.
  unfold group_parameters. rewrite Honly. cbv zeta.
  cbn [optimizer_grouped_parameters custom_parameter_names].
  set (st1 := foldl (custom_group_step named) (Grouping [] ∅) (custom_parameter_groups args)).
  set (st2 := foldl (layer_group_step named) st1 (custom_layer_parameters args)).
  destruct (custom_groups_spec named (custom_parameter_groups args) (Grouping [] ∅))
    as [Hinv1 Hnames1]; [done| |by rewrite taken_empty|].
  { intros group n _ _. apply not_elem_of_empty. }
  fold st1 in Hinv1, Hnames1.
  pose proof (layer_groups_taken named Hnames (custom_layer_parameters args) st1 Hinv1)
    as Hinv2.
  fold st2 in Hinv2.
  assert (placed (optimizer_grouped_parameters st2 ++
                  default_groups named args (custom_parameter_names st2)) ≡ₚ named.*2)
    as Hperm.
  { rewrite placed_app, Hinv2. apply default_groups_complement. }
  assert (NoDup (placed (optimizer_grouped_parameters st2 ++
                         default_groups named args (custom_parameter_names st2))))
    as Hnodup by by rewrite Hperm.
  split; [done|]. split.
  - intros n p Hin.
    assert (p ∈ placed (optimizer_grouped_parameters st2 ++
                        default_groups named args (custom_parameter_names st2))) as Hp.
    { rewrite Hperm. apply list_elem_of_fmap. by exists (n, p). }
    unfold placed in Hp. apply list_elem_of_In, in_concat in Hp as (ps & Hps & Hp).
    apply list_elem_of_In, list_elem_of_fmap in Hps as (g & -> & Hg).
    apply list_elem_of_lookup in Hg as [i Hi].
    exists i, g. split; [done|]. split; [by apply list_elem_of_In|].
    intros j g' Hj Hp'.
    eapply (NoDup_concat_unique _ j i (pg_params g') (pg_params g) p).
    + exact Hnodup.
    + by rewrite list_lookup_fmap, Hj.
    + by rewrite list_lookup_fmap, Hi.
    + done.
    + by apply list_elem_of_In.
  - intros n p Hin Hcustom.
    assert (landed args n p st1) as Hst1.
    { intros Hn. apply Hnames1 in Hn as [[]%not_elem_of_empty|Hn]. by destruct Hcustom. }
    pose proof (layer_groups_landed named Hnames args n p Hin
                  (custom_layer_parameters args) st1 (reflexivity _) Hst1) as Hst2.
    fold st2 in Hst2.
    destruct (decide (n ∈ custom_parameter_names st2)) as [Hn|Hn].
    + destruct (Hst2 Hn) as (g & Hg & Hlands). exists g. split; [|done].
      apply elem_of_app. by left.
    + destruct (default_groups_landed named args n p Hin _ Hn) as (g & Hg & Hlands).
      exists g. split; [|done]. apply elem_of_app. by right.
Qed.

(** C4, as amended.  [named] is [self.model.named_parameters()], which
    yields each name and each tensor once.  With
    [train_custom_parameters_only] false and custom groups that list no
    name twice, the groups partition the named parameters of the model:
    their tensors put together are the model's,
    and each parameter sits in exactly one group.  A parameter that no
    custom group names lands in a group with weight decay 0.0 when its
    name contains ["bias"] or ["LayerNorm.weight"]; otherwise its group
    carries the configured decay, that is [args.weight_decay] in the
    default group and the layer group's own options when a layer pattern
    matched the name. *)
Theorem group_parameters_partition (named : list (string * nat)) (args : Args) :
  NoDup named.*1 → NoDup named.*2 →
  train_custom_parameters_only args = false →
  pairwise_disjoint (custom_parameter_groups args) →
  let groups := optimizer_grouped_parameters (group_parameters named args) in
  placed groups ≡ₚ named.*2 ∧
  (∀ n p, (n, p) ∈ named →
     ∃ i g, groups !! i = Some g ∧ p ∈ pg_params g ∧
            ∀ j g', groups !! j = Some g' → p ∈ pg_params g' → j = i) ∧
  (∀ n p, (n, p) ∈ named → ¬ is_custom args n →
     ∃ g, g ∈ groups ∧ lands_in args n p g).
Proof. apply group_parameters_spec. Qed.

(** When every configured decay is non-zero the claim holds as it is
    stated: a parameter that no custom group names is in a group with
    weight decay 0.0 exactly when its name is a no-decay name. *)
Corollary group_parameters_no_decay_iff (named : list (string * nat)) (args : Args)
    (n : string) (p : nat) (g : param_group) :
  NoDup named.*1 → NoDup named.*2 →
  train_custom_parameters_only args = false →
  pairwise_disjoint (custom_parameter_groups args) →
  weight_decay args ≠ 0%Qc →
  (∀ group, group ∈ custom_layer_parameters args →
            lg_options group !! "weight_decay" ≠ Some 0%Qc) →
  (n, p) ∈ named → ¬ is_custom args n →
  g ∈ optimizer_grouped_parameters (group_parameters named args) → p ∈ pg_params g →
  group_weight_decay g = Some 0%Qc ↔ any_no_decay n.
Proof.
  intros Hnames Hparams Honly Hdisj Hwd Hlayers Hin Hcustom Hg Hp.
  destruct (group_parameters_spec named args Hnames Hparams Honly Hdisj)
    as (_ & Hunique & Hland).
  destruct (Hland n p Hin Hcustom) as (g0 & Hg0 & Hp0 & Hnd & Hd).
  destruct (Hunique n p Hin) as (i & gi & Hi & _ & Hi').
  apply list_elem_of_lookup in Hg as [j Hj]. apply list_elem_of_lookup in Hg0 as [j0 Hj0].
  assert (g = g0) as ->.
  { pose proof (Hi' j g Hj Hp) as ->. pose proof (Hi' j0 g0 Hj0 Hp0) as ->. congruence. }
  split; [|done]. intros Hzero.
  destruct (any_no_decay n) eqn:Hno; [done|].
  destruct Hd as [Hd|(group & Hgroup & _ & Hopts)]; [by intros ?| |].
  - rewrite Hzero in Hd. by simplify_eq.
  - destruct (Hlayers group Hgroup). unfold group_weight_decay in Hzero.
    by rewrite <-Hopts.
Qed.

(** *** Example *)

Definition example_model : list (string * nat) :=
  [("encoder.layer.0.attention.bias", 0%nat);
   ("encoder.layer.0.attention.weight", 1%nat);
   ("encoder.layer.1.LayerNorm.weight", 2%nat);
   ("qa_outputs.weight", 3%nat);
   ("qa_outputs.bias", 4%nat)].

(** The span head's bias has a learning rate of its own, layer 0 a decay of
    its own; [decay] is [args.weight_decay]. *)
Definition example_args (decay : Qc) : Args :=
  {| custom_parameter_groups :=
       [{| cg_params := ["qa_outputs.bias"];
           cg_options := {["lr" := Q2Qc (1 # 1000)]} |}];
     custom_layer_parameters :=
       [{| lg_layer := 0; lg_options := {["weight_decay" := Q2Qc (5 # 100)]} |}];
     train_custom_parameters_only := false;
     weight_decay := decay;
     learning_rate := Q2Qc (4 # 100000);
     adam_epsilon := Q2Qc (1 # 100000000);
     warmup_ratio := Q2Qc (6 # 100); warmup_steps := 0;
     max_grad_norm := 1%Qc;
     gradient_accumulation_steps := 1;
     num_train_epochs := 1; n_gpu := 1; fp16 := false;
     evaluate_during_training := false; evaluate_during_training_steps := 2000;
     model_type := "distilbert" |}.

Example example_groups :
  (λ g, (pg_params g, group_weight_decay g)) <$>
    optimizer_grouped_parameters (group_parameters example_model (example_args (Q2Qc (1 # 100))))
  = [([4%nat], None);
     ([1%nat], Some (Q2Qc (5 # 100)));
     ([0%nat], Some 0%Qc);
     ([3%nat], Some (Q2Qc (1 # 100)));
     ([2%nat], Some 0%Qc)].
Proof. vm_compute. reflexivity. Qed.

(** C4 at work on the example. *)
Lemma group_parameters_partition_witness :
  placed (optimizer_grouped_parameters
            (group_parameters example_model (example_args (Q2Qc (1 # 100)))))
  ≡ₚ example_model.*2 ∧
  ∃ g, g ∈ optimizer_grouped_parameters
             (group_parameters example_model (example_args (Q2Qc (1 # 100)))) ∧
       lands_in (example_args (Q2Qc (1 # 100))) "encoder.layer.1.LayerNorm.weight" 2%nat g.
Proof.
  destruct (group_parameters_partition example_model (example_args (Q2Qc (1 # 100))))
    as (Hperm & _ & Hland).
  - refine (bool_decide_unpack _ _). vm_compute. exact I.
  - refine (bool_decide_unpack _ _). vm_compute. exact I.
  - reflexivity.
  - simpl. split; [|exact I]. intros group' n Hin. by apply elem_of_nil in Hin.
  - split; [exact Hperm|]. apply Hland.
    + do 2 apply list_elem_of_further. apply list_elem_of_here.
    + intros (group & Hgroup & Hn). simpl in Hgroup.
      apply list_elem_of_singleton in Hgroup as ->. simpl in Hn.
      apply list_elem_of_singleton in Hn. discriminate Hn.
Defined.

(** C4 as stated fails when the configured decay is itself 0.0: with
    [args.weight_decay = 0.0] the span head's weight, which no custom
    group names and whose name contains neither ["bias"] nor
    ["LayerNorm.weight"], is in a group with weight decay 0.0. *)
Lemma group_parameters_zero_decay_counterexample :
  ("qa_outputs.weight", 3%nat) ∈ example_model ∧
  ¬ is_custom (example_args 0%Qc) "qa_outputs.weight" ∧
  any_no_decay "qa_outputs.weight" = false ∧
  ∃ g, g ∈ optimizer_grouped_parameters (group_parameters example_model (example_args 0%Qc)) ∧
       3%nat ∈ pg_params g ∧ group_weight_decay g = Some 0%Qc.
Proof.
  split; [|split; [|split]].
  - do 3 apply list_elem_of_further. apply list_elem_of_here.
  - intros (group & Hgroup & Hn). simpl in Hgroup.
    apply list_elem_of_singleton in Hgroup as ->. simpl in Hn.
    apply list_elem_of_singleton in Hn. discriminate Hn.
  - reflexivity.
  - exists (ParamGroup [3%nat] {["weight_decay" := 0%Qc]}). split; [|split].
    + refine (bool_decide_unpack _ _). vm_compute. exact I.
    + apply list_elem_of_here.
    + reflexivity.
Qed.

End GroupingFacts.

(** ** [SpanExtractionTrainer.train_model] *)

Module TrainerFacts.

Import Inputs Trainer.

(** How often event [e] is in a trace. *)
Definition occurrences (e : event) (tr : list event) : nat :=
  List.length (filter (λ e', e' = e) tr).

Lemma occurrences_app (e : event) (tr1 tr2 : list event) :
  occurrences e (tr1 ++ tr2) = (occurrences e tr1 + occurrences e tr2)%nat.
Proof. unfold occurrences. by rewrite filter_app, length_app. Qed.

Lemma occurrences_cons (e e' : event) (tr : list event) :
  occurrences e (e' :: tr)
  = ((if decide (e' = e) then 1 else 0) + occurrences e tr)%nat.
Proof. unfold occurrences. rewrite filter_cons. by case_decide. Qed.

(** *** Loops whose turns do not raise *)

(** The events of a loop from the events [ev] and the next state [next]
    of one turn. *)
Fixpoint loop_trace {E A S} (ev : S → A → list E) (next : S → A → S) (st : S)
    (xs : list A) : list E :=
  match xs with
  | [] => []
  | x :: rest => ev st x ++ loop_trace ev next (next st x) rest
  end.

Lemma py_fold_total {E A S} (body : S → A → Py E S) (ev : S → A → list E)
    (next : S → A → S) (xs : list A) (st : S) :
  (∀ st x, x ∈ xs → body st x = MkPy (ev st x) (Ok (next st x))) →
  py_fold body st xs = MkPy (loop_trace ev next st xs) (Ok (foldl next st xs)).
Proof.
  revert st. induction xs as [|x rest IH]; intros st Hbody; [done|].
  cbn [py_fold]. rewrite Hbody by apply list_elem_of_here.
  cbn [mbind Py_bind outcome trace].
  rewrite IH by (intros; apply Hbody; by apply list_elem_of_further). done.
Qed.

(** When a turn has [c x] occurrences of [e] whatever the state, the loop
    has their sum. *)
Lemma occurrences_loop_trace {A S} (e : event) (ev : S → A → list event)
    (next : S → A → S) (c : A → nat) (xs : list A) (st : S) :
  (∀ st x, occurrences e (ev st x) = c x) →
  occurrences e (loop_trace ev next st xs) = sum_list (c <$> xs).
Proof.
  intros Hc. revert st. induction xs as [|x rest IH]; intros st; [done|].
  simpl. by rewrite occurrences_app, Hc, IH.
Qed.

Lemma sum_list_const {A} (n : nat) (xs : list A) :
  sum_list ((λ _, n) <$> xs) = (List.length xs * n)%nat.
Proof.
  induction xs as [|x rest IH]; [done|].
  rewrite fmap_cons. cbn [sum_list sum_list_with List.length]. rewrite IH.
  unfold id. lia.
Qed.

Lemma sum_list_indicator {A} (P : A → Prop) `{∀ x, Decision (P x)} (xs : list A) :
  sum_list ((λ x, if decide (P x) then 1%nat else 0%nat) <$> xs)
  = List.length (filter P xs).
Proof.
  induction xs as [|x rest IH]; [done|].
  rewrite fmap_cons, filter_cons. cbn [sum_list sum_list_with]. rewrite IH.
  unfold id. by case_decide.
Qed.

(** *** Loops in which a turn may raise

    A turn that returns has the events [ev] and the next state [next]; a
    turn that raises has some of these events. *)

Lemma py_fold_cons {E A S} (body : S → A → Py E S) (st : S) (x : A) (rest : list A) :
  py_fold body st (x :: rest)
  = match outcome (body st x) with
    | Ok st' => MkPy (trace (body st x) ++ trace (py_fold body st' rest))
                  (outcome (py_fold body st' rest))
    | Raise e => MkPy (trace (body st x)) (Raise e)
    end.
Proof. reflexivity. Qed.

Lemma py_fold_returned {E A S} (body : S → A → Py E S) (ev : S → A → list E)
    (next : S → A → S) (xs : list A) (st st' : S) :
  (∀ st x st', x ∈ xs → outcome (body st x) = Ok st' →
     body st x = MkPy (ev st x) (Ok (next st x))) →
  outcome (py_fold body st xs) = Ok st' →
  py_fold body st xs = MkPy (loop_trace ev next st xs) (Ok (foldl next st xs)).
Proof.
  revert st. induction xs as [|x rest IH]; intros st Hbody; [done|].
  rewrite py_fold_cons.
  destruct (outcome (body st x)) as [st1|e] eqn:Hturn; [|done].
  rewrite (Hbody st x st1) in * by (done || apply list_elem_of_here).
  cbn [outcome trace] in *. injection Hturn as <-. intros Hrest.
  rewrite IH; [done| |done]. intros. eapply Hbody; [by apply list_elem_of_further|done].
Qed.

Lemma py_fold_prefix {E A S} (body : S → A → Py E S) (ev : S → A → list E)
    (next : S → A → S) (xs : list A) (st : S) :
  (∀ st x st', x ∈ xs → outcome (body st x) = Ok st' →
     body st x = MkPy (ev st x) (Ok (next st x))) →
  (∀ st x, x ∈ xs → trace (body st x) `prefix_of` ev st x) →
  trace (py_fold body st xs) `prefix_of` loop_trace ev next st xs.
Proof.
  revert st. induction xs as [|x rest IH]; intros st Hbody Hprefix; [done|].
  rewrite py_fold_cons.
  destruct (outcome (body st x)) as [st1|e] eqn:Hturn.
  - rewrite (Hbody st x st1) in * by (done || apply list_elem_of_here).
    cbn [outcome trace loop_trace] in *. injection Hturn as <-.
    apply prefix_app, IH.
    + intros. eapply Hbody; [by apply list_elem_of_further|done].
    + intros. apply Hprefix. by apply list_elem_of_further.
  - cbn [trace loop_trace]. apply prefix_app_r, Hprefix, list_elem_of_here.
Qed.

Lemma py_fold_closed {E A S} (P : list E → Prop) (body : S → A → Py E S)
    (xs : list A) (st : S) :
  P [] → (∀ tr1 tr2, P tr1 → P tr2 → P (tr1 ++ tr2)) →
  (∀ st x, x ∈ xs → P (trace (body st x))) →
  P (trace (py_fold body st xs)).
Proof.
  intros Hnil Happ. revert st. induction xs as [|x rest IH]; intros st Hbody; [done|].
  rewrite py_fold_cons.
  destruct (outcome (body st x)) as [st1|e] eqn:Hturn; cbn [trace].
  - apply Happ; [apply Hbody, list_elem_of_here|].
    apply IH. intros. apply Hbody. by apply list_elem_of_further.
  - apply Hbody, list_elem_of_here.
Qed.

Lemma py_fold_raised {E A S} (body : S → A → Py E S) (xs : list A) (st : S) (e : exn) :
  outcome (py_fold body st xs) = Raise e →
  ∃ st' x, x ∈ xs ∧ outcome (body st' x) = Raise e.
Proof.
  revert st. induction xs as [|x rest IH]; intros st; [done|].
  rewrite py_fold_cons.
  destruct (outcome (body st x)) as [st1|e'] eqn:Hturn; cbn [outcome].
  - intros (st' & y & Hy & Hraise)%IH. exists st', y.
    split; [by apply list_elem_of_further|done].
  - intros [= ->]. exists st, x. split; [apply list_elem_of_here|done].
Qed.

(** A count of events that adds up over the parts of a trace. *)
Definition additive (m : list event → nat) : Prop :=
  ∀ tr1 tr2, m (tr1 ++ tr2) = (m tr1 + m tr2)%nat.

Lemma additive_nil (m : list event → nat) : additive m → m [] = 0%nat.
Proof. intros Hm. specialize (Hm [] []). simpl in Hm. lia. Qed.

Lemma additive_occurrences (e : event) : additive (occurrences e).
Proof. intros tr1 tr2. apply occurrences_app. Qed.

Lemma additive_filter (P : event → Prop) `{∀ e, Decision (P e)} :
  additive (λ tr, List.length (filter P tr)).
Proof. intros tr1 tr2. by rewrite filter_app, length_app. Qed.

Lemma additive_if (b : bool) (m : list event → nat) :
  additive m → additive (λ tr, if b then m tr else 0%nat).
Proof. intros Hm tr1 tr2. destruct b; [apply Hm|done]. Qed.

Lemma additive_loop_trace {A S} (m : list event → nat) (ev : S → A → list event)
    (next : S → A → S) (c : A → nat) (xs : list A) (st : S) :
  additive m → (∀ st x, m (ev st x) = c x) →
  m (loop_trace ev next st xs) = sum_list (c <$> xs).
Proof.
  intros Hm Hc. revert st. induction xs as [|x rest IH]; intros st.
  - by apply additive_nil.
  - simpl. by rewrite Hm, Hc, IH.
Qed.

Lemma prefix_filter_length (P : event → Prop) `{∀ e, Decision (P e)} (tr1 tr2 : list event) :
  tr1 `prefix_of` tr2 → (List.length (filter P tr1) ≤ List.length (filter P tr2))%nat.
Proof. intros [k ->]. rewrite filter_app, length_app. lia. Qed.

(** *** One batch *)

(** The batch at [batch_idx] ends an accumulation window. *)
Definition steps (args : Args) (batch_idx : Z) : Prop :=
  (batch_idx + 1) mod gradient_accumulation_steps args = 0.

#[global] Instance steps_dec args batch_idx : Decision (steps args batch_idx).
Proof. unfold steps. apply _. Defined.

Section loop.

Context {tensor : Type}.
Variable batch_of : Z → Z → list tensor.
Variable loss_of : Z → Z → Qc.
Variable eval_model_at : Z → Z → result unit.

Abbreviation batch_body := (batch_body batch_of loss_of eval_model_at).
Abbreviation epoch_body := (epoch_body batch_of loss_of eval_model_at).
Abbreviation train_model := (train_model batch_of loss_of eval_model_at).

(** The loss that is back-propagated and added to [tr_loss]. *)
Definition scaled_loss (args : Args) (epoch batch_idx : Z) : Qc :=
  if decide (gradient_accumulation_steps args > 1) then
    (loss_of epoch batch_idx / Q2Qc (inject_Z (gradient_accumulation_steps args)))%Qc
  else loss_of epoch batch_idx.

Definition batch_next (args : Args) (epoch : Z) (st : progress) (batch_idx : Z) : progress :=
  Progress (if decide (steps args batch_idx) then global_step st + 1 else global_step st)
           (tr_loss st + scaled_loss args epoch batch_idx)%Qc.

(** The test of line 207 at the end of a batch. *)
Definition evaluates (args : Args) (epoch : Z) (st : progress) (batch_idx : Z) : bool :=
  evaluate_during_training args &&
  (bool_decide (evaluate_during_training_steps args > 0) &&
   bool_decide (global_step (batch_next args epoch st batch_idx)
                  mod evaluate_during_training_steps args = 0)).

(** The events of a batch that is not cut short. *)
Definition batch_events (args : Args) (epoch : Z) (st : progress) (batch_idx : Z)
    : list event :=
  [model_forward (fp16 args) epoch batch_idx] ++
  (if bool_decide (n_gpu args > 1) then [loss_mean] else []) ++
  (if decide (gradient_accumulation_steps args > 1)
   then [loss_div (gradient_accumulation_steps args)] else []) ++
  [if fp16 args then scaler_scale_backward else loss_backward] ++
  (if decide (steps args batch_idx) then
     (if fp16 args then [scaler_unscale_] else []) ++
     [clip_grad_norm_ (max_grad_norm args)] ++
     (if fp16 args then [scaler_step; scaler_update] else [optimizer_step]) ++
     [scheduler_step; model_zero_grad]
   else []) ++
  (if evaluates args epoch st batch_idx
   then [eval_model epoch (global_step (batch_next args epoch st batch_idx))] else []).

(** A batch in full: a tuple too short for [_get_inputs_dict] ends it
    before the model is called, and a raising [eval_model] after all its
    events. *)
Lemma batch_body_cases (args : Args) (epoch : Z) (st : progress) (batch_idx : Z) :
  gradient_accumulation_steps args ≠ 0 →
  batch_body args epoch st batch_idx
  = match _get_inputs_dict (model_type args) (batch_of epoch batch_idx) with
    | Raise e => MkPy [] (Raise e)
    | Ok _ =>
        MkPy (batch_events args epoch st batch_idx)
          (if evaluates args epoch st batch_idx then
             match eval_model_at epoch batch_idx with
             | Ok _ => Ok (batch_next args epoch st batch_idx)
             | Raise e => Raise e
             end
           else Ok (batch_next args epoch st batch_idx))
    end.
Proof.
  intros Hgas.
  unfold Trainer.batch_body, batch_events, evaluates, batch_next, scaled_loss, steps,
    py_when, py_mod.
  rewrite (decide_False (P := gradient_accumulation_steps args = 0)) by done.
  destruct (_get_inputs_dict _ _) as [inputs|e]; [|reflexivity].
  destruct (bool_decide (n_gpu args > 1));
    destruct (decide (gradient_accumulation_steps args > 1));
    destruct (fp16 args);
    cbn [mbind Py_bind emit lift trace outcome mret Py_ret app];
    destruct (decide ((batch_idx + 1) mod gradient_accumulation_steps args = 0));
    cbn [mbind Py_bind emit lift trace outcome mret Py_ret app global_step];
    destruct (evaluate_during_training args && _);
    cbn [mbind Py_bind emit lift trace outcome mret Py_ret app];
    try destruct (eval_model_at epoch batch_idx) as [[]|err];
    cbn [mbind Py_bind emit lift trace outcome mret Py_ret app];
    rewrite ?app_nil_r; reflexivity.
Qed.

(** The calls of one batch return. *)
Definition batch_returns (args : Args) (epoch batch_idx : Z) : Prop :=
  is_ok (_get_inputs_dict (model_type args) (batch_of epoch batch_idx)) = true ∧
  (evaluate_during_training args = true → is_ok (eval_model_at epoch batch_idx) = true).

(** The exception [e] comes from a call of the batch. *)
Definition batch_raises (args : Args) (epoch batch_idx : Z) (e : exn) : Prop :=
  _get_inputs_dict (model_type args) (batch_of epoch batch_idx) = Raise e ∨
  (evaluate_during_training args = true ∧ eval_model_at epoch batch_idx = Raise e).

Lemma batch_body_eq (args : Args) (epoch : Z) (st : progress) (batch_idx : Z) :
  gradient_accumulation_steps args ≠ 0 → batch_returns args epoch batch_idx →
  batch_body args epoch st batch_idx
  = MkPy (batch_events args epoch st batch_idx) (Ok (batch_next args epoch st batch_idx)).
Proof.
  intros Hgas [Hinputs Heval]. rewrite batch_body_cases by done.
  destruct (_get_inputs_dict _ _) as [inputs|e]; [|done].
  destruct (evaluates args epoch st batch_idx) eqn:Hcond; [|done].
  apply andb_prop in Hcond as [Hon _].
  specialize (Heval Hon). by destruct (eval_model_at epoch batch_idx).
Qed.

Lemma batch_body_returned (args : Args) (epoch : Z) (st st' : progress) (batch_idx : Z) :
  gradient_accumulation_steps args ≠ 0 →
  outcome (batch_body args epoch st batch_idx) = Ok st' →
  batch_body args epoch st batch_idx
  = MkPy (batch_events args epoch st batch_idx) (Ok (batch_next args epoch st batch_idx)).
Proof.
  intros Hgas. rewrite batch_body_cases by done.
  destruct (_get_inputs_dict _ _) as [inputs|e]; [|done]. cbn [outcome].
  destruct (evaluates args epoch st batch_idx); [|done].
  by destruct (eval_model_at epoch batch_idx).
Qed.

Lemma batch_body_prefix (args : Args) (epoch : Z) (st : progress) (batch_idx : Z) :
  gradient_accumulation_steps args ≠ 0 →
  trace (batch_body args epoch st batch_idx) `prefix_of` batch_events args epoch st batch_idx.
Proof.
  intros Hgas. rewrite batch_body_cases by done.
  destruct (_get_inputs_dict _ _) as [inputs|e]; [done|apply prefix_nil].
Qed.

(** What holds of no events and of the events of a whole batch holds of
    the events of a batch as it runs. *)
Lemma batch_body_closed (P : list event → Prop) (args : Args) (epoch : Z) (st : progress)
    (batch_idx : Z) :
  gradient_accumulation_steps args ≠ 0 →
  P [] → P (batch_events args epoch st batch_idx) →
  P (trace (batch_body args epoch st batch_idx)).
Proof.
  intros Hgas Hnil Hbatch. rewrite batch_body_cases by done.
  by destruct (_get_inputs_dict _ _).
Qed.

Lemma batch_body_raised (args : Args) (epoch : Z) (st : progress) (batch_idx : Z) (e : exn) :
  gradient_accumulation_steps args ≠ 0 →
  outcome (batch_body args epoch st batch_idx) = Raise e →
  batch_raises args epoch batch_idx e.
Proof.
  intros Hgas. rewrite batch_body_cases by done. unfold batch_raises.
  destruct (_get_inputs_dict _ _) as [inputs|e']; cbn [outcome]; [|intros [= ->]; by left].
  destruct (evaluates args epoch st batch_idx) eqn:Hcond; [|done].
  apply andb_prop in Hcond as [Hon _].
  destruct (eval_model_at epoch batch_idx) as [[]|e']; [done|]. intros [= ->]. by right.
Qed.

Lemma global_step_batches (args : Args) (epoch : Z) (xs : list Z) (st : progress) :
  global_step (foldl (batch_next args epoch) st xs)
  = global_step st + Z.of_nat (List.length (filter (steps args) xs)).
Proof.
  revert st. induction xs as [|x rest IH]; intros st; [simpl; lia|].
  simpl. rewrite IH, filter_cons. unfold batch_next. simpl.
  case_decide; simpl; lia.
Qed.

(** *** One epoch and the whole loop *)

Definition epoch_next (args : Args) (len_train_dl : Z) (st : progress) (epoch : Z)
    : progress :=
  foldl (batch_next args epoch) st (range len_train_dl).

Definition epoch_events (args : Args) (len_train_dl : Z) (st : progress) (epoch : Z)
    : list event :=
  model_train ::
  loop_trace (batch_events args epoch) (batch_next args epoch) st (range len_train_dl).

Lemma epoch_body_bind (args : Args) (len_train_dl : Z) (st : progress) (epoch : Z) :
  epoch_body args len_train_dl st epoch
  = MkPy (model_train :: trace (py_fold (batch_body args epoch) st (range len_train_dl)))
      (outcome (py_fold (batch_body args epoch) st (range len_train_dl))).
Proof.
  unfold Trainer.epoch_body. cbn [mbind Py_bind emit outcome trace app].
  by destruct (outcome (py_fold _ _ _)).
Qed.

Lemma epoch_body_eq (args : Args) (len_train_dl : Z) (st : progress) (epoch : Z) :
  gradient_accumulation_steps args ≠ 0 →
  (∀ batch_idx, batch_idx ∈ range len_train_dl → batch_returns args epoch batch_idx) →
  epoch_body args len_train_dl st epoch
  = MkPy (epoch_events args len_train_dl st epoch)
      (Ok (epoch_next args len_train_dl st epoch)).
Proof.
  intros Hgas Hreturn. rewrite epoch_body_bind.
  rewrite (py_fold_total _ (batch_events args epoch) (batch_next args epoch))
    by (intros; apply batch_body_eq; auto).
  done.
Qed.

Lemma epoch_body_returned (args : Args) (len_train_dl : Z) (st st' : progress) (epoch : Z) :
  gradient_accumulation_steps args ≠ 0 →
  outcome (epoch_body args len_train_dl st epoch) = Ok st' →
  epoch_body args len_train_dl st epoch
  = MkPy (epoch_events args len_train_dl st epoch)
      (Ok (epoch_next args len_train_dl st epoch)).
Proof.
  intros Hgas. rewrite epoch_body_bind. cbn [outcome]. intros Hok.
  rewrite (py_fold_returned _ (batch_events args epoch) (batch_next args epoch) _ _ st');
    [done| |done].
  intros. by eapply batch_body_returned.
Qed.

Lemma epoch_body_prefix (args : Args) (len_train_dl : Z) (st : progress) (epoch : Z) :
  gradient_accumulation_steps args ≠ 0 →
  trace (epoch_body args len_train_dl st epoch) `prefix_of` epoch_events args len_train_dl st epoch.
Proof.
  intros Hgas. rewrite epoch_body_bind. cbn [trace]. unfold epoch_events.
  apply (prefix_app [model_train]), py_fold_prefix.
  - intros. by eapply batch_body_returned.
  - intros. by apply batch_body_prefix.
Qed.

Lemma epoch_body_closed (P : list event → Prop) (args : Args) (len_train_dl : Z)
    (st : progress) (epoch : Z) :
  gradient_accumulation_steps args ≠ 0 →
  P [] → (∀ tr1 tr2, P tr1 → P tr2 → P (tr1 ++ tr2)) → P [model_train] →
  (∀ st batch_idx, P (batch_events args epoch st batch_idx)) →
  P (trace (epoch_body args len_train_dl st epoch)).
Proof.
  intros Hgas Hnil Happ Htrain Hbatch. rewrite epoch_body_bind. cbn [trace].
  apply (Happ [model_train]); [done|].
  apply (py_fold_closed P); [done..|]. intros. by apply batch_body_closed.
Qed.

Lemma epoch_body_raised (args : Args) (len_train_dl : Z) (st : progress) (epoch : Z)
    (e : exn) :
  gradient_accumulation_steps args ≠ 0 →
  outcome (epoch_body args len_train_dl st epoch) = Raise e →
  ∃ batch_idx, batch_idx ∈ range len_train_dl ∧ batch_raises args epoch batch_idx e.
Proof.
  intros Hgas. rewrite epoch_body_bind. cbn [outcome].
  intros (st' & batch_idx & Hidx & Hraise)%py_fold_raised.
  exists batch_idx. split; [done|]. by eapply batch_body_raised.
Qed.

Lemma global_step_epochs (args : Args) (len_train_dl : Z) (epochs : list Z) (st : progress) :
  global_step (foldl (epoch_next args len_train_dl) st epochs)
  = global_step st +
    Z.of_nat (List.length epochs * List.length (filter (steps args) (range len_train_dl))).
Proof.
  revert st. induction epochs as [|x rest IH]; intros st; [simpl; lia|].
  simpl. rewrite IH. unfold epoch_next. rewrite global_step_batches. lia.
Qed.

(** The number of optimizer steps of a run that is not cut short: one per
    epoch and per batch index that ends an accumulation window. *)
Definition total_steps (args : Args) (len_train_dl : Z) : nat :=
  List.length (range (num_train_epochs args)) *
  List.length (filter (steps args) (range len_train_dl)).

(** The number of batches of such a run. *)
Definition total_batches (args : Args) (len_train_dl : Z) : nat :=
  List.length (range (num_train_epochs args)) * List.length (range len_train_dl).

(** What [train_model] does before the first epoch. *)
Definition setup_events (named_parameters : list (string * nat)) (args : Args)
    (len_train_dl : Z) : list event :=
  let iteration_in_total :=
    len_train_dl / gradient_accumulation_steps args * num_train_epochs args in
  [model_to_device;
   AdamW (Tensors named_parameters.*2) (learning_rate args) (adam_epsilon args);
   get_linear_schedule_with_warmup
     (if decide (warmup_steps args = 0)
      then math_ceil (Q2Qc (inject_Z iteration_in_total) * warmup_ratio args)%Qc
      else warmup_steps args)
     iteration_in_total] ++
  (if bool_decide (n_gpu args > 1) then [DataParallel] else []) ++
  [model_zero_grad] ++
  (if evaluate_during_training args then [create_training_progress_scores] else []) ++
  (if fp16 args then [GradScaler] else []).

Definition final_progress (args : Args) (len_train_dl : Z) : progress :=
  foldl (epoch_next args len_train_dl) (Progress 0 0%Qc) (range (num_train_epochs args)).

(** The events of the epochs of a run that is not cut short. *)
Definition loop_events (args : Args) (len_train_dl : Z) : list event :=
  loop_trace (epoch_events args len_train_dl) (epoch_next args len_train_dl)
    (Progress 0 0%Qc) (range (num_train_epochs args)).

(** The loop over the epochs. *)
Definition epochs_loop (args : Args) (len_train_dl : Z) : Py event progress :=
  py_fold (epoch_body args len_train_dl) (Progress 0 0%Qc) (range (num_train_epochs args)).

(** Every call of the loop returns: no tuple is too short for
    [_get_inputs_dict], and [eval_model] does not raise. *)
Definition calls_return (args : Args) (len_train_dl : Z) : Prop :=
  ∀ epoch batch_idx, epoch ∈ range (num_train_epochs args) →
    batch_idx ∈ range len_train_dl → batch_returns args epoch batch_idx.

(** The exception [e] comes from a call of the loop. *)
Definition call_raises (args : Args) (len_train_dl : Z) (e : exn) : Prop :=
  ∃ epoch batch_idx, epoch ∈ range (num_train_epochs args) ∧
    batch_idx ∈ range len_train_dl ∧ batch_raises args epoch batch_idx e.

Lemma train_model_loop (named_parameters : list (string * nat)) (args : Args)
    (len_train_dl : Z) :
  gradient_accumulation_steps args ≠ 0 →
  train_model named_parameters args len_train_dl
  = MkPy (setup_events named_parameters args len_train_dl ++
          trace (epochs_loop args len_train_dl))
      (match outcome (epochs_loop args len_train_dl) with
       | Ok st =>
           if decide (global_step st = 0) then Raise ZeroDivisionError
           else Ok (global_step st, (tr_loss st / Q2Qc (inject_Z (global_step st)))%Qc)
       | Raise e => Raise e
       end).
Proof.
  intros Hgas. unfold Trainer.train_model, setup_events, build_optimizer, py_floordiv, py_when.
  rewrite (decide_False (P := gradient_accumulation_steps args = 0)) by done.
  fold (epochs_loop args len_train_dl).
  destruct (epochs_loop args len_train_dl) as [tr [st|e]];
    destruct (bool_decide (n_gpu args > 1)), (evaluate_during_training args), (fp16 args);
    cbn [mbind Py_bind emit lift raise trace outcome mret Py_ret app];
    try destruct (decide (global_step st = 0));
    cbn [mbind Py_bind emit lift raise trace outcome mret Py_ret app];
    rewrite ?app_nil_r; reflexivity.
Qed.

Lemma epochs_loop_eq (args : Args) (len_train_dl : Z) :
  gradient_accumulation_steps args ≠ 0 → calls_return args len_train_dl →
  epochs_loop args len_train_dl
  = MkPy (loop_events args len_train_dl) (Ok (final_progress args len_train_dl)).
Proof.
  intros Hgas Hreturn. unfold epochs_loop.
  rewrite (py_fold_total _ (epoch_events args len_train_dl) (epoch_next args len_train_dl));
    [done|].
  intros st epoch Hepoch. apply epoch_body_eq; [done|]. intros. by apply Hreturn.
Qed.

Lemma epochs_loop_returned (args : Args) (len_train_dl : Z) (st : progress) :
  gradient_accumulation_steps args ≠ 0 →
  outcome (epochs_loop args len_train_dl) = Ok st →
  epochs_loop args len_train_dl
  = MkPy (loop_events args len_train_dl) (Ok (final_progress args len_train_dl)).
Proof.
  intros Hgas Hok. unfold epochs_loop in *.
  rewrite (py_fold_returned _ (epoch_events args len_train_dl)
             (epoch_next args len_train_dl) _ _ st); [done| |done].
  intros. by eapply epoch_body_returned.
Qed.

Lemma epochs_loop_prefix (args : Args) (len_train_dl : Z) :
  gradient_accumulation_steps args ≠ 0 →
  trace (epochs_loop args len_train_dl) `prefix_of` loop_events args len_train_dl.
Proof.
  intros Hgas. unfold epochs_loop, loop_events. apply py_fold_prefix.
  - intros. by eapply epoch_body_returned.
  - intros. by apply epoch_body_prefix.
Qed.

Lemma epochs_loop_closed (P : list event → Prop) (args : Args) (len_train_dl : Z) :
  gradient_accumulation_steps args ≠ 0 →
  P [] → (∀ tr1 tr2, P tr1 → P tr2 → P (tr1 ++ tr2)) → P [model_train] →
  (∀ epoch st batch_idx, P (batch_events args epoch st batch_idx)) →
  P (trace (epochs_loop args len_train_dl)).
Proof.
  intros Hgas Hnil Happ Htrain Hbatch. unfold epochs_loop.
  apply (py_fold_closed P); [done..|]. intros. by apply epoch_body_closed.
Qed.

Lemma epochs_loop_raised (args : Args) (len_train_dl : Z) (e : exn) :
  gradient_accumulation_steps args ≠ 0 →
  outcome (epochs_loop args len_train_dl) = Raise e → call_raises args len_train_dl e.
Proof.
  intros Hgas. unfold epochs_loop. intros (st & epoch & Hepoch & Hraise)%py_fold_raised.
  apply epoch_body_raised in Hraise as (batch_idx & Hidx & Hraise); [|done].
  by exists epoch, batch_idx.
Qed.

(** The first batch of a run with an epoch and a batch: the epochs start
    with its events, and an exception of it ends the run. *)
Lemma epochs_loop_first (args : Args) (len_train_dl : Z) :
  0 < num_train_epochs args → 0 < len_train_dl →
  ∃ rest,
    trace (epochs_loop args len_train_dl)
    = model_train :: trace (batch_body args 0 (Progress 0 0%Qc) 0) ++ rest ∧
    ∀ e, outcome (batch_body args 0 (Progress 0 0%Qc) 0) = Raise e →
         rest = [] ∧ outcome (epochs_loop args len_train_dl) = Raise e.
Proof.
  intros Hepochs Hlen. unfold epochs_loop.
  destruct (range_cons _ Hepochs) as [epochs ->].
  rewrite py_fold_cons, epoch_body_bind. cbn [outcome trace].
  destruct (range_cons _ Hlen) as [idxs ->].
  rewrite py_fold_cons.
  destruct (outcome (batch_body args 0 (Progress 0 0%Qc) 0)) as [st|e] eqn:Hfirst.
  - cbn [outcome trace].
    destruct (outcome (py_fold _ st idxs)) as [st'|e]; cbn [trace].
    + eexists. split; [|done]. simpl. by rewrite <-app_assoc.
    + eexists. split; [reflexivity|done].
  - cbn [outcome trace]. exists []. split; [by rewrite app_nil_r|].
    by intros e' [= ->].
Qed.

(** A run in which every call of the loop returns. *)
Lemma train_model_eq (named_parameters : list (string * nat)) (args : Args)
    (len_train_dl : Z) :
  gradient_accumulation_steps args ≠ 0 → calls_return args len_train_dl →
  train_model named_parameters args len_train_dl
  = MkPy (setup_events named_parameters args len_train_dl ++ loop_events args len_train_dl)
      (let st := final_progress args len_train_dl in
       if decide (global_step st = 0) then Raise ZeroDivisionError
       else Ok (global_step st, (tr_loss st / Q2Qc (inject_Z (global_step st)))%Qc)).
Proof.
  intros Hgas Hreturn. rewrite train_model_loop by done.
  by rewrite epochs_loop_eq by done.
Qed.

Lemma train_model_zero_steps (named_parameters : list (string * nat)) (args : Args)
    (len_train_dl : Z) :
  gradient_accumulation_steps args = 0 →
  train_model named_parameters args len_train_dl
  = MkPy [model_to_device] (Raise ZeroDivisionError).
Proof.
  intros Hgas. unfold Trainer.train_model, py_floordiv. rewrite Hgas. reflexivity.
Qed.

Lemma global_step_final (args : Args) (len_train_dl : Z) :
  global_step (final_progress args len_train_dl) = Z.of_nat (total_steps args len_train_dl).
Proof. unfold final_progress. rewrite global_step_epochs. simpl. done. Qed.

(** The trace of any run, cut short or not, starts a run that is not. *)
Lemma train_model_prefix (named_parameters : list (string * nat)) (args : Args)
    (len_train_dl : Z) :
  gradient_accumulation_steps args ≠ 0 →
  trace (train_model named_parameters args len_train_dl)
  `prefix_of` setup_events named_parameters args len_train_dl ++ loop_events args len_train_dl.
Proof.
  intros Hgas. rewrite train_model_loop by done. cbn [trace].
  by apply prefix_app, epochs_loop_prefix.
Qed.

(** A run that returns was not cut short. *)
Lemma train_model_returned (named_parameters : list (string * nat)) (args : Args)
    (len_train_dl : Z) (r : Z * Qc) :
  outcome (train_model named_parameters args len_train_dl) = Ok r →
  gradient_accumulation_steps args ≠ 0 ∧
  total_steps args len_train_dl ≠ 0%nat ∧
  train_model named_parameters args len_train_dl
  = MkPy (setup_events named_parameters args len_train_dl ++ loop_events args len_train_dl)
      (Ok (Z.of_nat (total_steps args len_train_dl),
           (tr_loss (final_progress args len_train_dl) /
            Q2Qc (inject_Z (Z.of_nat (total_steps args len_train_dl))))%Qc)).
Proof.
  intros Hok.
  destruct (decide (gradient_accumulation_steps args = 0)) as [Hgas|Hgas].
  { by rewrite train_model_zero_steps in Hok by done. }
  split; [done|]. rewrite train_model_loop in * by done. cbn [outcome] in Hok.
  destruct (outcome (epochs_loop args len_train_dl)) as [st|e] eqn:Hloop; [|done].
  rewrite (epochs_loop_returned _ _ st) in * by done. cbn [outcome trace] in *.
  injection Hloop as <-. rewrite global_step_final in *.
  case_decide as Hsteps; [done|]. split; [lia|done].
Qed.

(** The outcome of a run in which every call of the loop returns. *)
Lemma train_model_outcome (named_parameters : list (string * nat)) (args : Args)
    (len_train_dl : Z) :
  calls_return args len_train_dl →
  outcome (train_model named_parameters args len_train_dl)
  = if decide (gradient_accumulation_steps args = 0 ∨ total_steps args len_train_dl = 0%nat)
    then Raise ZeroDivisionError
    else Ok (Z.of_nat (total_steps args len_train_dl),
             (tr_loss (final_progress args len_train_dl) /
              Q2Qc (inject_Z (Z.of_nat (total_steps args len_train_dl))))%Qc).
Proof.
  intros Hreturn.
  destruct (decide (gradient_accumulation_steps args = 0)) as [Hgas|Hgas].
  - rewrite train_model_zero_steps by done. rewrite decide_True by auto. done.
  - rewrite train_model_eq by done. cbn [outcome]. rewrite global_step_final.
    destruct (decide (total_steps args len_train_dl = 0%nat)) as [Hz|Hnz].
    + rewrite Hz. rewrite decide_True by done. by rewrite decide_True by auto.
    + rewrite decide_False by lia. rewrite decide_False by (intros [?|?]; done). done.
Qed.

(** An exception of a run is the division by zero of line 127 or 213, or
    comes from a call of the loop. *)
Lemma train_model_raised (named_parameters : list (string * nat)) (args : Args)
    (len_train_dl : Z) (e : exn) :
  outcome (train_model named_parameters args len_train_dl) = Raise e →
  e = ZeroDivisionError ∨ call_raises args len_train_dl e.
Proof.
  destruct (decide (gradient_accumulation_steps args = 0)) as [Hgas|Hgas].
  { rewrite train_model_zero_steps by done. intros [= <-]. by left. }
  rewrite train_model_loop by done. cbn [outcome].
  destruct (outcome (epochs_loop args len_train_dl)) as [st|e'] eqn:Hloop.
  - case_decide; [|done]. intros [= <-]. by left.
  - intros [= ->]. right. by apply epochs_loop_raised.
Qed.

Lemma total_steps_0 (args : Args) (len_train_dl : Z) :
  (∀ epoch batch_idx, epoch ∈ range (num_train_epochs args) →
     batch_idx ∈ range len_train_dl →
     py_mod (batch_idx + 1) (gradient_accumulation_steps args) ≠ Ok 0) →
  gradient_accumulation_steps args ≠ 0 →
  total_steps args len_train_dl = 0%nat.
Proof.
  intros Hno Hgas. unfold total_steps.
  destruct (range (num_train_epochs args)) as [|epoch epochs] eqn:Hepochs; [done|].
  assert (filter (steps args) (range len_train_dl) = []) as ->; [|simpl; lia].
  apply filter_none. intros idx Hidx Hsteps.
  apply (Hno epoch idx); [apply list_elem_of_here|done|].
  unfold py_mod. rewrite decide_False by done. by rewrite Hsteps.
Qed.

(** A run without a batch index that ends an accumulation window has no
    step to divide by: it cannot return. *)
Lemma train_model_without_steps (named_parameters : list (string * nat))
    (args : Args) (len_train_dl : Z) :
  (∀ epoch batch_idx, epoch ∈ range (num_train_epochs args) →
     batch_idx ∈ range len_train_dl →
     py_mod (batch_idx + 1) (gradient_accumulation_steps args) ≠ Ok 0) →
  (∀ r, outcome (train_model named_parameters args len_train_dl) ≠ Ok r) ∧
  (calls_return args len_train_dl →
     outcome (train_model named_parameters args len_train_dl) = Raise ZeroDivisionError) ∧
  (∀ e, outcome (train_model named_parameters args len_train_dl) = Raise e →
        e ≠ ZeroDivisionError → call_raises args len_train_dl e).
Proof.
  intros Hno. split; [|split].
  - intros r (Hgas & Hsteps & _)%train_model_returned.
    by rewrite total_steps_0 in Hsteps.
  - intros Hreturn. rewrite train_model_outcome by done.
    destruct (decide (gradient_accumulation_steps args = 0)) as [Hgas|Hgas].
    + by rewrite decide_True by auto.
    + rewrite decide_True; [done|]. right. by apply total_steps_0.
  - intros e [->|Hcall]%train_model_raised Hne; done.
Qed.

(** *** Counting the calls of a run *)

(** The model is called on a batch. *)
Definition is_forward (e : event) : bool :=
  match e with
  | model_forward _ _ _ => true
  | _ => false
  end.

(** The model is called on a batch that ends an accumulation window. *)
Definition ends_window (args : Args) (e : event) : bool :=
  match e with
  | model_forward _ _ batch_idx => bool_decide (steps args batch_idx)
  | _ => false
  end.

(** The batches on which the model is called in a run, and those among
    them that end an accumulation window. *)
Definition batches_run (tr : list event) : nat := List.length (filter is_forward tr).
Definition windows_run (args : Args) (tr : list event) : nat :=
  List.length (filter (ends_window args) tr).

Lemma additive_batches_run : additive batches_run.
Proof. apply (additive_filter is_forward). Qed.

Lemma additive_windows_run (args : Args) : additive (windows_run args).
Proof. apply (additive_filter (ends_window args)). Qed.

Lemma occurrences_same (e : event) : occurrences e [e] = 1%nat.
Proof. unfold occurrences. rewrite filter_cons, decide_True by done. done. Qed.

(** Case on every condition of the trace, then count. *)
Ltac count_events :=
  intros; unfold batch_events, setup_events; cbv zeta;
  repeat match goal with
         | |- context [if ?b then _ else _] => destruct b
         end;
  rewrite ?occurrences_app, ?occurrences_same; cbn; try reflexivity; try lia.

Lemma batches_run_batch (args : Args) (epoch : Z) (st : progress) (batch_idx : Z) :
  batches_run (batch_events args epoch st batch_idx) = 1%nat.
Proof.
  unfold batches_run, batch_events.
  repeat match goal with
         | |- context [if ?b then _ else _] => destruct b
         end; reflexivity.
Qed.

Lemma windows_run_batch (args : Args) (epoch : Z) (st : progress) (batch_idx : Z) :
  windows_run args (batch_events args epoch st batch_idx)
  = if decide (steps args batch_idx) then 1%nat else 0%nat.
Proof.
  unfold windows_run, batch_events.
  rewrite filter_app, length_app.
  assert (∀ tr, is_forward <$> tr = (λ _, false) <$> tr →
                filter (ends_window args) tr = []) as Hrest.
  { induction tr as [|e tr IH]; [done|]. rewrite !fmap_cons. intros [= He Htr].
    rewrite filter_cons, IH by done. destruct e; done. }
  rewrite (Hrest (_ ++ _)).
  - rewrite filter_cons. cbn [ends_window filter list_filter].
    rewrite Nat.add_0_r.
    destruct (decide (steps args batch_idx)) as [Hsteps|Hsteps].
    + by rewrite decide_True by by apply bool_decide_pack.
    + rewrite decide_False; [done|]. by intros ?%bool_decide_unpack.
  - repeat match goal with
           | |- context [if ?b then _ else _] => destruct b
           end; reflexivity.
Qed.

Lemma run_setup (named_parameters : list (string * nat)) (args : Args) (len_train_dl : Z) :
  batches_run (setup_events named_parameters args len_train_dl) = 0%nat ∧
  windows_run args (setup_events named_parameters args len_train_dl) = 0%nat.
Proof.
  unfold batches_run, windows_run, setup_events. cbv zeta.
  repeat match goal with
         | |- context [if ?b then _ else _] => destruct b
         end; done.
Qed.

(** Two counts that add up and agree before the loop, on [model.train()]
    and on the events of every whole batch agree on every run. *)
Lemma run_measures (m1 m2 : list event → nat) (named_parameters : list (string * nat))
    (args : Args) (len_train_dl : Z) :
  additive m1 → additive m2 → gradient_accumulation_steps args ≠ 0 →
  m1 (setup_events named_parameters args len_train_dl)
  = m2 (setup_events named_parameters args len_train_dl) →
  m1 [model_train] = m2 [model_train] →
  (∀ epoch st batch_idx, m1 (batch_events args epoch st batch_idx)
                         = m2 (batch_events args epoch st batch_idx)) →
  m1 (trace (train_model named_parameters args len_train_dl))
  = m2 (trace (train_model named_parameters args len_train_dl)).
Proof.
  intros Hm1 Hm2 Hgas Hsetup Htrain Hbatch. rewrite train_model_loop by done. cbn [trace].
  rewrite Hm1, Hm2, Hsetup. f_equal.
  apply (epochs_loop_closed (λ tr, m1 tr = m2 tr)); [done| | |done..].
  - by rewrite !additive_nil.
  - intros tr1 tr2 H1 H2. by rewrite Hm1, Hm2, H1, H2.
Qed.

(** The counts of a run that is not cut short. *)
Lemma loop_events_measure (m : list event → nat) (args : Args) (len_train_dl : Z)
    (c : Z → nat) :
  additive m → m [model_train] = 0%nat →
  (∀ epoch st batch_idx, m (batch_events args epoch st batch_idx) = c batch_idx) →
  m (loop_events args len_train_dl)
  = (List.length (range (num_train_epochs args)) * sum_list (c <$> range len_train_dl))%nat.
Proof.
  intros Hm Htrain Hbatch. unfold loop_events.
  rewrite (additive_loop_trace m _ _ (λ _, sum_list (c <$> range len_train_dl))); [|done|].
  - apply sum_list_const.
  - intros st epoch. unfold epoch_events.
    match goal with
    | |- m (model_train :: ?tr) = _ => change (m ([model_train] ++ tr) = sum_list (c <$> range len_train_dl))
    end.
    rewrite Hm, Htrain. simpl. by apply additive_loop_trace.
Qed.

(** The batches and the steps of a run that is not cut short. *)
Lemma ideal_totals (named_parameters : list (string * nat)) (args : Args) (len_train_dl : Z) :
  batches_run (setup_events named_parameters args len_train_dl ++ loop_events args len_train_dl)
  = total_batches args len_train_dl ∧
  windows_run args
    (setup_events named_parameters args len_train_dl ++ loop_events args len_train_dl)
  = total_steps args len_train_dl.
Proof.
  destruct (run_setup named_parameters args len_train_dl) as [Hb Hw].
  rewrite additive_batches_run, additive_windows_run, Hb, Hw. simpl. split.
  - rewrite (loop_events_measure batches_run _ _ (λ _, 1%nat));
      [|apply additive_batches_run|done|apply batches_run_batch].
    rewrite sum_list_const. unfold total_batches. lia.
  - rewrite (loop_events_measure (windows_run args) _ _
               (λ idx, if decide (steps args idx) then 1%nat else 0%nat));
      [|apply additive_windows_run|done|apply windows_run_batch].
    by rewrite sum_list_indicator.
Qed.

Lemma run_totals (named_parameters : list (string * nat)) (args : Args) (len_train_dl : Z) :
  gradient_accumulation_steps args ≠ 0 → calls_return args len_train_dl →
  batches_run (trace (train_model named_parameters args len_train_dl))
  = total_batches args len_train_dl ∧
  windows_run args (trace (train_model named_parameters args len_train_dl))
  = total_steps args len_train_dl.
Proof.
  intros Hgas Hreturn. rewrite train_model_eq by done. cbn [trace]. apply ideal_totals.
Qed.

(** Any run takes at most the steps of a run that is not cut short. *)
Lemma windows_run_le (named_parameters : list (string * nat)) (args : Args)
    (len_train_dl : Z) :
  gradient_accumulation_steps args ≠ 0 →
  (windows_run args (trace (train_model named_parameters args len_train_dl))
   ≤ total_steps args len_train_dl)%nat.
Proof.
  intros Hgas.
  rewrite <-(proj2 (ideal_totals named_parameters args len_train_dl)).
  apply (prefix_filter_length (ends_window args)). by apply train_model_prefix.
Qed.

(** The count of event [e] in any run, from its count [c] in a batch that
    does not end a window and [d] more in one that does. *)
Lemma occurrences_run (e : event) (c d : nat) (named_parameters : list (string * nat))
    (args : Args) (len_train_dl : Z) :
  gradient_accumulation_steps args ≠ 0 →
  occurrences e (setup_events named_parameters args len_train_dl) = 0%nat →
  e ≠ model_train →
  (∀ epoch st batch_idx,
     occurrences e (batch_events args epoch st batch_idx)
     = (c + if decide (steps args batch_idx) then d else 0)%nat) →
  occurrences e (trace (train_model named_parameters args len_train_dl))
  = (c * batches_run (trace (train_model named_parameters args len_train_dl)) +
     d * windows_run args (trace (train_model named_parameters args len_train_dl)))%nat.
Proof.
  intros Hgas Hsetup Hne Hbatch.
  apply (run_measures (occurrences e) (λ tr, c * batches_run tr + d * windows_run args tr)%nat);
    [apply additive_occurrences| |done| | |].
  - intros tr1 tr2. rewrite additive_batches_run, additive_windows_run. lia.
  - destruct (run_setup named_parameters args len_train_dl) as [-> ->]. lia.
  - rewrite occurrences_cons, decide_False by done.
    change (batches_run [model_train]) with 0%nat.
    change (windows_run args [model_train]) with 0%nat.
    change (occurrences e []) with 0%nat. lia.
  - intros. rewrite Hbatch, batches_run_batch, windows_run_batch. case_decide; lia.
Qed.

(** C2, as amended.  The loop of [train_model] does the accumulation and
    drives the scaler itself.  In every run, cut short by an exception or
    not: when [gradient_accumulation_steps > 1] it divides the loss of
    every batch on which the model is called by it; it takes an optimizer
    step (clip, step, scheduler step, zero_grad) exactly for the batches
    with [(batch_idx + 1) % gradient_accumulation_steps == 0]; and under
    [fp16] it calls the scaler's [scale] on every batch and [unscale_],
    [step] and [update] on every step, instead of [loss.backward()] and
    [optimizer.step()].  When no call of the loop raises, the batches are
    all batches of all epochs. *)
Theorem train_model_accumulates_and_scales (named_parameters : list (string * nat))
    (args : Args) (len_train_dl : Z) :
  gradient_accumulation_steps args ≠ 0 →
  let tr := trace (train_model named_parameters args len_train_dl) in
  let batches := batches_run tr in
  let steps := windows_run args tr in
  occurrences (loss_div (gradient_accumulation_steps args)) tr
    = (if decide (gradient_accumulation_steps args > 1) then batches else 0%nat) ∧
  occurrences scaler_scale_backward tr = (if fp16 args then batches else 0%nat) ∧
  occurrences loss_backward tr = (if fp16 args then 0%nat else batches) ∧
  occurrences scheduler_step tr = steps ∧
  occurrences optimizer_step tr = (if fp16 args then 0%nat else steps) ∧
  occurrences scaler_unscale_ tr = (if fp16 args then steps else 0%nat) ∧
  occurrences scaler_step tr = (if fp16 args then steps else 0%nat) ∧
  occurrences scaler_update tr = (if fp16 args then steps else 0%nat) ∧
  (calls_return args len_train_dl →
     batches = total_batches args len_train_dl ∧ steps = total_steps args len_train_dl).
Proof.
  intros Hgas tr batches steps'. subst tr batches steps'.
  repeat split.
  - rewrite (occurrences_run _
               (if decide (gradient_accumulation_steps args > 1) then 1 else 0) 0);
      [case_decide; lia|done|count_events|done|count_events].
  - rewrite (occurrences_run _ (if fp16 args then 1 else 0) 0);
      [destruct (fp16 args); lia|done|count_events|done|count_events].
  - rewrite (occurrences_run _ (if fp16 args then 0 else 1) 0);
      [destruct (fp16 args); lia|done|count_events|done|count_events].
  - rewrite (occurrences_run _ 0 1); [lia|done|count_events|done|count_events].
  - rewrite (occurrences_run _ 0 (if fp16 args then 0 else 1));
      [destruct (fp16 args); lia|done|count_events|done|count_events].
  - rewrite (occurrences_run _ 0 (if fp16 args then 1 else 0));
      [destruct (fp16 args); lia|done|count_events|done|count_events].
  - rewrite (occurrences_run _ 0 (if fp16 args then 1 else 0));
      [destruct (fp16 args); lia|done|count_events|done|count_events].
  - rewrite (occurrences_run _ 0 (if fp16 args then 1 else 0));
      [destruct (fp16 args); lia|done|count_events|done|count_events].
  - by apply run_totals.
  - by apply run_totals.
Qed.

(** *** The division by [global_step] *)

(** C8, as amended.  [train_model] returns [tr_loss / global_step], and
    [global_step] grows only at a batch index with
    [(batch_idx + 1) % gradient_accumulation_steps == 0]; so a run in which
    no batch index of any epoch meets that condition does not return.  It
    raises [ZeroDivisionError] when no call of the loop raises; an
    exception other than [ZeroDivisionError] is that of
    [self._get_inputs_dict] or of [self.eval_model] at some batch, which
    ends the run before the division is reached. *)
Theorem train_model_division_by_zero (named_parameters : list (string * nat))
    (args : Args) (len_train_dl : Z) :
  (∀ epoch batch_idx, epoch ∈ range (num_train_epochs args) →
     batch_idx ∈ range len_train_dl →
     py_mod (batch_idx + 1) (gradient_accumulation_steps args) ≠ Ok 0) →
  (∀ r, outcome (train_model named_parameters args len_train_dl) ≠ Ok r) ∧
  (calls_return args len_train_dl →
     outcome (train_model named_parameters args len_train_dl) = Raise ZeroDivisionError) ∧
  (∀ e, outcome (train_model named_parameters args len_train_dl) = Raise e →
        e ≠ ZeroDivisionError → call_raises args len_train_dl e).
Proof. apply train_model_without_steps. Qed.

(** The three examples of the claim: without an epoch or without a batch
    the loop makes no call. *)
Corollary train_model_no_epochs (named_parameters : list (string * nat)) (args : Args)
    (len_train_dl : Z) :
  num_train_epochs args ≤ 0 →
  outcome (train_model named_parameters args len_train_dl)
  = Raise ZeroDivisionError.
Proof.
  intros Hn. apply train_model_without_steps.
  - intros epoch idx Hepoch.
    rewrite range_nonpos in Hepoch by done. by apply elem_of_nil in Hepoch.
  - intros epoch idx Hepoch.
    rewrite range_nonpos in Hepoch by done. by apply elem_of_nil in Hepoch.
Qed.

Corollary train_model_no_batches (named_parameters : list (string * nat)) (args : Args)
    (len_train_dl : Z) :
  len_train_dl ≤ 0 →
  outcome (train_model named_parameters args len_train_dl)
  = Raise ZeroDivisionError.
Proof.
  intros Hn. apply train_model_without_steps.
  - intros epoch idx _ Hidx.
    rewrite range_nonpos in Hidx by done. by apply elem_of_nil in Hidx.
  - intros epoch idx _ Hidx.
    rewrite range_nonpos in Hidx by done. by apply elem_of_nil in Hidx.
Qed.

Corollary train_model_short_epochs (named_parameters : list (string * nat)) (args : Args)
    (len_train_dl : Z) :
  len_train_dl < gradient_accumulation_steps args → calls_return args len_train_dl →
  outcome (train_model named_parameters args len_train_dl)
  = Raise ZeroDivisionError.
Proof.
  intros Hn Hreturn. apply train_model_without_steps; [|done].
  intros epoch idx _ Hidx%elem_of_range. unfold py_mod.
  rewrite decide_False by lia. intros [= Hmod].
  rewrite Z.mod_small in Hmod; lia.
Qed.

(** Conversely a run with at least one epoch and one batch index that ends
    an accumulation window, in which no call of the loop raises, returns,
    with the number of optimizer steps as [global_step]. *)
Lemma train_model_returns (named_parameters : list (string * nat)) (args : Args)
    (len_train_dl batch_idx : Z) :
  0 < num_train_epochs args → gradient_accumulation_steps args ≠ 0 →
  batch_idx ∈ range len_train_dl → steps args batch_idx →
  calls_return args len_train_dl →
  ∃ avg, outcome (train_model named_parameters args len_train_dl)
         = Ok (Z.of_nat (total_steps args len_train_dl), avg) ∧
         (0 < total_steps args len_train_dl)%nat.
Proof.
  intros Hepochs Hgas Hidx Hsteps Hreturn.
  assert (0 < total_steps args len_train_dl)%nat as Hpos.
  { unfold total_steps. apply Nat.mul_pos_pos.
    - rewrite length_range. lia.
    - assert (batch_idx ∈ filter (steps args) (range len_train_dl)) as Hin
        by by apply list_elem_of_filter.
      destruct (filter _ _); [by apply elem_of_nil in Hin|simpl; lia]. }
  rewrite train_model_outcome by done. rewrite decide_False by (intros [?|?]; lia). eauto.
Qed.

(** *** The optimizer *)

Definition is_AdamW (e : event) : bool :=
  match e with
  | AdamW _ _ _ => true
  | _ => false
  end.

Lemma filter_loop_trace_nil {A S} (P : event → Prop) `{∀ e, Decision (P e)}
    (ev : S → A → list event) (next : S → A → S) (xs : list A) (st : S) :
  (∀ st x, filter P (ev st x) = []) → filter P (loop_trace ev next st xs) = [].
Proof.
  intros Hev. revert st. induction xs as [|x rest IH]; intros st; [done|].
  simpl. by rewrite filter_app, Hev, IH.
Qed.

Lemma batch_events_no_AdamW (args : Args) (epoch : Z) (st : progress) (batch_idx : Z) :
  filter is_AdamW (batch_events args epoch st batch_idx) = [].
Proof.
  unfold batch_events.
  repeat match goal with
         | |- context [if ?b then _ else _] => destruct b
         end; reflexivity.
Qed.

(** What is filtered out of the events before the loop, of [model.train()]
    and of every whole batch is filtered out of the loop of any run. *)
Lemma filter_epochs_loop_nil (P : event → Prop) `{∀ e, Decision (P e)} (args : Args)
    (len_train_dl : Z) :
  gradient_accumulation_steps args ≠ 0 → ¬ P model_train →
  (∀ epoch st batch_idx, filter P (batch_events args epoch st batch_idx) = []) →
  filter P (trace (epochs_loop args len_train_dl)) = [].
Proof.
  intros Hgas Htrain Hbatch.
  apply (epochs_loop_closed (λ tr, filter P tr = [])); [done..| | |done].
  - intros tr1 tr2 H1 H2. by rewrite filter_app, H1, H2.
  - by rewrite filter_cons, decide_False.
Qed.

(** Whatever the grouping computes, the one optimizer of a run is built
    from the bare parameter list of the model. *)
Lemma train_model_optimizer (named_parameters : list (string * nat)) (args : Args)
    (len_train_dl : Z) :
  gradient_accumulation_steps args ≠ 0 →
  filter is_AdamW (trace (train_model named_parameters args len_train_dl))
  = [AdamW (Tensors named_parameters.*2) (learning_rate args) (adam_epsilon args)].
Proof.
  intros Hgas. rewrite train_model_loop by done. cbn [trace]. rewrite filter_app.
  rewrite (filter_epochs_loop_nil is_AdamW); [|done|by intros []|apply batch_events_no_AdamW].
  unfold setup_events. cbv zeta.
  repeat match goal with
         | |- context [if ?b then _ else _] => destruct b
         end; reflexivity.
Qed.

End loop.

(** *** Example runs *)

(** A model with one encoder layer and a span head. *)
Definition toy_model : list (string * nat) :=
  [("encoder.layer.0.attention.bias", 0%nat);
   ("encoder.layer.0.attention.weight", 1%nat);
   ("qa_outputs.weight", 2%nat);
   ("qa_outputs.bias", 3%nat)].

(** One epoch over three batches, accumulating over [gas] batches. *)
Definition toy_train_args (gas : Z) (half_precision : bool) : Args :=
  {| custom_parameter_groups := []; custom_layer_parameters := [];
     train_custom_parameters_only := false;
     weight_decay := Q2Qc (1 # 100);
     learning_rate := Q2Qc (4 # 100000);
     adam_epsilon := Q2Qc (1 # 100000000);
     warmup_ratio := Q2Qc (6 # 100); warmup_steps := 0;
     max_grad_norm := 1%Qc;
     gradient_accumulation_steps := gas;
     num_train_epochs := 1; n_gpu := 1; fp16 := half_precision;
     evaluate_during_training := false; evaluate_during_training_steps := 2000;
     model_type := "distilbert" |}.

(** A tuple of six tensors, by identity: what [_get_inputs_dict] reads for
    a model type other than xlnet and xlm. *)
Definition six_tensors : list nat := [0; 1; 2; 3; 4; 5]%nat.

Definition toy_run (gas : Z) (half_precision : bool) : Py event (Z * Qc) :=
  train_model (λ _ _, six_tensors) (λ _ _, 1%Qc) (λ _ _, Ok ())
    toy_model (toy_train_args gas half_precision) 3.

Lemma toy_calls_return (gas : Z) (half_precision : bool) :
  calls_return (λ _ _, six_tensors) (λ _ _, Ok ()) (toy_train_args gas half_precision) 3.
Proof. intros epoch batch_idx _ _. split; [vm_compute; reflexivity|done]. Qed.

Example toy_run_returns :
  outcome (toy_run 2 true) = Ok (1, Q2Qc (3 # 2)).
Proof. vm_compute. reflexivity. Qed.

(** The batch of seven tensors that the comment of lines 160-161 lists,
    and the configuration of [toy_train_args] for an XLNet model. *)
Definition seven_tensors : list nat := [0; 1; 2; 3; 4; 5; 6]%nat.

Definition xlnet_train_args (gas : Z) : Args :=
  {| custom_parameter_groups := []; custom_layer_parameters := [];
     train_custom_parameters_only := false;
     weight_decay := Q2Qc (1 # 100);
     learning_rate := Q2Qc (4 # 100000);
     adam_epsilon := Q2Qc (1 # 100000000);
     warmup_ratio := Q2Qc (6 # 100); warmup_steps := 0;
     max_grad_norm := 1%Qc;
     gradient_accumulation_steps := gas;
     num_train_epochs := 1; n_gpu := 1; fp16 := false;
     evaluate_during_training := false; evaluate_during_training_steps := 2000;
     model_type := "xlnet" |}.

Lemma no_step_of_three (epoch batch_idx : Z) :
  batch_idx ∈ range 3 → py_mod (batch_idx + 1) 4 ≠ Ok 0.
Proof.
  intros Hidx. change (range 3) with [0; 1; 2] in Hidx.
  repeat (apply elem_of_cons in Hidx as [->|Hidx]; [discriminate|]).
  by apply elem_of_nil in Hidx.
Qed.

(** C8 at work: three batches per epoch and an accumulation over four. *)
Lemma train_model_division_by_zero_witness :
  outcome (toy_run 4 false) = Raise ZeroDivisionError.
Proof.
  apply (train_model_division_by_zero (λ _ _, six_tensors) (λ _ _, 1%Qc) (λ _ _, Ok ())
           toy_model (toy_train_args 4 false) 3).
  - intros epoch batch_idx _ Hidx. by apply (no_step_of_three epoch).
  - apply toy_calls_return.
Defined.

(** C8 as stated fails on this run: no batch index of the three ends a
    window of four, and [train_model] raises [IndexError], not
    [ZeroDivisionError]: for an XLNet model [_get_inputs_dict] reads
    [batch[7]] of the first tuple, which has seven entries. *)
Lemma train_model_division_by_zero_counterexample :
  (∀ epoch batch_idx, epoch ∈ range (num_train_epochs (xlnet_train_args 4)) →
     batch_idx ∈ range 3 →
     py_mod (batch_idx + 1) (gradient_accumulation_steps (xlnet_train_args 4)) ≠ Ok 0) ∧
  outcome (train_model (λ _ _, seven_tensors) (λ _ _, 1%Qc) (λ _ _, Ok ())
             toy_model (xlnet_train_args 4) 3) = Raise IndexError ∧
  outcome (train_model (λ _ _, seven_tensors) (λ _ _, 1%Qc) (λ _ _, Ok ())
             toy_model (xlnet_train_args 4) 3) ≠ Raise ZeroDivisionError.
Proof.
  split; [|split].
  - intros epoch batch_idx _ Hidx. by apply (no_step_of_three epoch).
  - vm_compute. reflexivity.
  - vm_compute. discriminate.
Qed.

(** C2 at work: three batches, accumulation over two, mixed precision. *)
Lemma train_model_accumulates_and_scales_witness :
  occurrences (loss_div 2) (trace (toy_run 2 true)) = 3%nat ∧
  occurrences scaler_scale_backward (trace (toy_run 2 true)) = 3%nat ∧
  occurrences scheduler_step (trace (toy_run 2 true)) = 1%nat ∧
  occurrences scaler_update (trace (toy_run 2 true)) = 1%nat.
Proof.
  destruct (train_model_accumulates_and_scales (λ _ _, six_tensors) (λ _ _, 1%Qc)
              (λ _ _, Ok ()) toy_model (toy_train_args 2 true) 3)
    as (Hdiv & Hscale & _ & Hsched & _ & _ & _ & Hupdate & Htotal).
  - discriminate.
  - destruct (Htotal (toy_calls_return 2 true)) as [Hbatches Hsteps].
    rewrite Hbatches in Hdiv, Hscale. rewrite Hsteps in Hsched, Hupdate.
    split; [exact Hdiv|]. split; [exact Hscale|]. split; [exact Hsched|exact Hupdate].
Defined.

(** C2 as stated fails on this run: the trace of the repository's own loop
    has the division of the loss by [gradient_accumulation_steps], the
    scaler's [scale], [unscale_], [step] and [update], and one optimizer
    step for three batches. *)
Lemma train_model_own_accumulation_counterexample :
  loss_div 2 ∈ trace (toy_run 2 true) ∧
  scaler_scale_backward ∈ trace (toy_run 2 true) ∧
  scaler_unscale_ ∈ trace (toy_run 2 true) ∧
  scaler_update ∈ trace (toy_run 2 true) ∧
  occurrences (model_forward true 0 0) (trace (toy_run 2 true)) = 1%nat ∧
  occurrences (model_forward true 0 1) (trace (toy_run 2 true)) = 1%nat ∧
  occurrences (model_forward true 0 2) (trace (toy_run 2 true)) = 1%nat ∧
  occurrences scaler_step (trace (toy_run 2 true)) = 1%nat.
Proof.
  repeat split; try (vm_compute; reflexivity);
    refine (bool_decide_unpack _ _); vm_compute; exact I.
Qed.

(** C1 on the example: the grouping puts the two weights in a group with
    the configured decay and the two biases in a group without decay, but
    the optimizer is handed the four tensors as one bare list, which makes
    one group with no option of its own. *)
Lemma train_model_optimizer_failing_input :
  pg_params <$> optimizer_grouped_parameters (group_parameters toy_model (toy_train_args 1 false))
    = [[1%nat; 2%nat]; [0%nat; 3%nat]] ∧
  (λ g, pg_options g !! "weight_decay") <$>
    optimizer_grouped_parameters (group_parameters toy_model (toy_train_args 1 false))
    = [Some (Q2Qc (1 # 100)); Some 0%Qc] ∧
  filter is_AdamW (trace (toy_run 1 false))
    = [AdamW (Tensors [0%nat; 1%nat; 2%nat; 3%nat]) (Q2Qc (4 # 100000))
         (Q2Qc (1 # 100000000))] ∧
  param_groups (Tensors [0%nat; 1%nat; 2%nat; 3%nat])
    ≠ optimizer_grouped_parameters (group_parameters toy_model (toy_train_args 1 false)).
Proof.
  split; [|split; [|split]].
  - vm_compute. reflexivity.
  - vm_compute. reflexivity.
  - vm_compute. reflexivity.
  - intros Heq. apply (f_equal List.length) in Heq. vm_compute in Heq. discriminate.
Qed.

End TrainerFacts.

(** ** [calculate_results] *)

Module ResultsFacts.

Import Trainer.

(** *** Insertion-ordered dictionaries *)

Section dict.

Context `{EqDecision K} {V : Type}.
Implicit Types (d : list (K * V)) (k : K) (v : V).

Lemma dict_set_keys d k v :
  (dict_set d k v).*1 = if decide (k ∈ d.*1) then d.*1 else d.*1 ++ [k].
Proof.
  induction d as [|[k' v'] d IH]; [done|]. cbn [dict_set].
  destruct (decide (k = k')) as [->|Hne].
  - rewrite !fmap_cons. cbn [fst]. by rewrite decide_True by apply list_elem_of_here.
  - rewrite !fmap_cons, IH. cbn [fst]. destruct (decide (k ∈ d.*1)) as [Hin|Hnin].
    + by rewrite decide_True by by apply list_elem_of_further.
    + rewrite decide_False; [done|]. by intros [?|?]%elem_of_cons.
Qed.

Lemma dict_set_fresh d k v : k ∉ d.*1 → dict_set d k v = d ++ [(k, v)].
Proof.
  induction d as [|[k' v'] d IH]; [done|]. rewrite fmap_cons, not_elem_of_cons.
  intros [Hne Hnin]. simpl. rewrite decide_False by done. by rewrite IH.
Qed.

Lemma dict_set_NoDup d k v : NoDup d.*1 → NoDup (dict_set d k v).*1.
Proof.
  intros Hd. rewrite dict_set_keys. case_decide; [done|].
  apply NoDup_app. split; [done|]. split; [|apply NoDup_singleton].
  by intros x Hx ->%list_elem_of_singleton.
Qed.

Lemma dict_set_elem_of_keys d k v k' :
  k' ∈ (dict_set d k v).*1 ↔ k' = k ∨ k' ∈ d.*1.
Proof.
  rewrite dict_set_keys. case_decide.
  - split; [by right|]. by intros [->|?].
  - rewrite elem_of_app, list_elem_of_singleton. tauto.
Qed.

Lemma dict_get_elem_of d k v : NoDup d.*1 → (k, v) ∈ d → dict_get d k = Ok v.
Proof.
  induction d as [|[k' v'] d IH]; [by intros _ ?%elem_of_nil|].
  rewrite fmap_cons, NoDup_cons. intros [Hk' Hd] [[= -> ->]|Hin]%elem_of_cons.
  - simpl. by rewrite decide_True.
  - simpl. rewrite decide_False; [by apply IH|].
    intros ->. apply Hk'. apply list_elem_of_fmap. by exists (k', v).
Qed.

Lemma dict_get_is_ok d k : k ∈ d.*1 → ∃ v, dict_get d k = Ok v ∧ (k, v) ∈ d.
Proof.
  induction d as [|[k' v'] d IH]; [by intros ?%elem_of_nil|].
  simpl. destruct (decide (k = k')) as [->|Hne].
  - intros _. exists v'. split; [done|apply list_elem_of_here].
  - intros [?|Hin]%elem_of_cons; [done|]. destruct (IH Hin) as (v & Hv & Hin').
    exists v. split; [done|by apply list_elem_of_further].
Qed.

End dict.

(** The dictionary filled from a list of items: its keys are the distinct
    keys of the items. *)
Lemma foldl_dict_set_keys {A V} (key : A → string) (val : A → V) (xs : list A)
    (d : list (string * V)) :
  NoDup d.*1 →
  let d' := foldl (λ d x, dict_set d (key x) (val x)) d xs in
  NoDup d'.*1 ∧ ∀ k, k ∈ d'.*1 ↔ k ∈ d.*1 ∨ k ∈ key <$> xs.
Proof.
  revert d. induction xs as [|x xs IH]; intros d Hd.
  - simpl. split; [done|]. intros k. rewrite elem_of_nil. tauto.
  - simpl. destruct (IH (dict_set d (key x) (val x))) as [Hnodup Hkeys];
      [by apply dict_set_NoDup|].
    split; [done|]. intros k. rewrite Hkeys, dict_set_elem_of_keys, elem_of_cons. tauto.
Qed.

Lemma truth_dict_keys (all_examples : list example) :
  NoDup (truth_dict_of all_examples).*1 ∧
  ∀ k, k ∈ (truth_dict_of all_examples).*1 ↔ k ∈ guid <$> all_examples.
Proof.
  destruct (foldl_dict_set_keys guid answer_text all_examples []) as [Hnodup Hkeys];
    [apply NoDup_nil_2|].
  split; [done|]. intros k. unfold truth_dict_of. rewrite Hkeys, elem_of_nil. tauto.
Qed.

Lemma questions_dict_keys (all_examples : list example) (k : string) :
  k ∈ (questions_dict_of all_examples).*1 ↔ k ∈ guid <$> all_examples.
Proof.
  destruct (foldl_dict_set_keys guid question_text all_examples []) as [Hnodup Hkeys];
    [apply NoDup_nil_2|].
  unfold questions_dict_of. rewrite Hkeys, elem_of_nil. tauto.
Qed.

(** The number of distinct guids. *)
Definition distinct_guids (all_examples : list example) : nat :=
  size (list_to_set (guid <$> all_examples) : gset string).

Lemma length_truth_dict (all_examples : list example) :
  List.length (truth_dict_of all_examples) = distinct_guids all_examples.
Proof.
  destruct (truth_dict_keys all_examples) as [Hnodup Hkeys].
  unfold distinct_guids. rewrite <-(length_fmap fst).
  rewrite <-(size_list_to_set (C:=gset string)) by done.
  f_equal. apply set_eq. intros k. by rewrite !elem_of_list_to_set.
Qed.

(** *** The classification loop *)

Lemma classify_spec (prediction answer : string) :
  let p := PyStr.strip prediction in
  let a := PyStr.strip answer in
  (classify prediction answer = IsCorrect ↔ p = a) ∧
  (classify prediction answer = IsSimilar ↔
     p ≠ a ∧ (PyStr.contains p a ∨ PyStr.contains a p)) ∧
  (classify prediction answer = IsIncorrect ↔
     p ≠ a ∧ ¬ PyStr.contains p a ∧ ¬ PyStr.contains a p).
Proof.
  intros p a. unfold classify. fold p a.
  destruct (decide (p = a)) as [Heq|Hne].
  - repeat split; try done; by intros [? _].
  - destruct (PyStr.contains p a) eqn:Hpa; destruct (PyStr.contains a p) eqn:Hap; simpl;
      repeat split; try done; try tauto; try (by intros [_ [? ?]]); try (by intros _; tauto).
Qed.

Section tally.

Variable predictions : gmap string string.
Variable questions_dict : list (string * string).

(** The bucket of an item of [truth_dict]. *)
Definition bucket_of (item : string * string) : bucket :=
  classify (default "" (predictions !! item.1)) item.2.

Definition in_bucket (b : bucket) (items : list (string * string)) : list (string * string) :=
  filter (λ item, bucket_of item = b) items.

Lemma in_bucket_cons (b : bucket) (item : string * string) (items : list (string * string)) :
  in_bucket b (item :: items)
  = if decide (bucket_of item = b) then item :: in_bucket b items else in_bucket b items.
Proof. unfold in_bucket. by rewrite filter_cons. Qed.

Lemma length_in_buckets (items : list (string * string)) :
  (List.length (in_bucket IsCorrect items) + List.length (in_bucket IsSimilar items) +
   List.length (in_bucket IsIncorrect items))%nat = List.length items.
Proof.
  induction items as [|item items IH]; [done|].
  rewrite !in_bucket_cons. destruct (bucket_of item); simpl; lia.
Qed.

(** No key of [keys] is in a bucket dictionary of [t] yet. *)
Definition unseen (t : tally) (keys : list string) : Prop :=
  ∀ k, k ∈ keys →
       (k ∉ (correct_text t).*1) ∧ (k ∉ (similar_text t).*1) ∧ (k ∉ (incorrect_text t).*1).

Lemma tally_loop_spec (items : list (string * string)) (t : tally) :
  NoDup items.*1 →
  (∀ k, k ∈ items.*1 → is_Some (predictions !! k) ∧ k ∈ questions_dict.*1) →
  unseen t items.*1 →
  ∃ t', tally_loop predictions questions_dict t items = Ok t' ∧
    correct t' = correct t + Z.of_nat (List.length (in_bucket IsCorrect items)) ∧
    similar t' = similar t + Z.of_nat (List.length (in_bucket IsSimilar items)) ∧
    incorrect t' = incorrect t + Z.of_nat (List.length (in_bucket IsIncorrect items)) ∧
    (correct_text t').*1 = (correct_text t).*1 ++ (in_bucket IsCorrect items).*1 ∧
    (similar_text t').*1 = (similar_text t).*1 ++ (in_bucket IsSimilar items).*1 ∧
    (incorrect_text t').*1 = (incorrect_text t).*1 ++ (in_bucket IsIncorrect items).*1.
Proof.
  revert t. induction items as [|[q_id answer] items IH]; intros t Hnodup Hpred Hunseen.
  - exists t. simpl. rewrite !app_nil_r. repeat split; lia.
  - rewrite fmap_cons in Hnodup, Hpred, Hunseen. cbn [fst] in *.
    apply NoDup_cons in Hnodup as [Hq Hnodup].
    destruct (Hpred q_id) as [[prediction Hp] Hquestion]; [apply list_elem_of_here|].
    destruct (dict_get_is_ok questions_dict q_id Hquestion) as (question & Hget & _).
    destruct (Hunseen q_id) as (Hc & Hs & Hi); [apply list_elem_of_here|].
    assert (∀ t1,
      tally_step predictions questions_dict t (q_id, answer) = Ok t1 →
      correct t1 = correct t + (if decide (bucket_of (q_id, answer) = IsCorrect) then 1 else 0) →
      similar t1 = similar t + (if decide (bucket_of (q_id, answer) = IsSimilar) then 1 else 0) →
      incorrect t1 = incorrect t +
                     (if decide (bucket_of (q_id, answer) = IsIncorrect) then 1 else 0) →
      (correct_text t1).*1 = (correct_text t).*1 ++
        (if decide (bucket_of (q_id, answer) = IsCorrect) then [q_id] else []) →
      (similar_text t1).*1 = (similar_text t).*1 ++
        (if decide (bucket_of (q_id, answer) = IsSimilar) then [q_id] else []) →
      (incorrect_text t1).*1 = (incorrect_text t).*1 ++
        (if decide (bucket_of (q_id, answer) = IsIncorrect) then [q_id] else []) →
      ∃ t', tally_loop predictions questions_dict t ((q_id, answer) :: items) = Ok t' ∧
        correct t' = correct t +
          Z.of_nat (List.length (in_bucket IsCorrect ((q_id, answer) :: items))) ∧
        similar t' = similar t +
          Z.of_nat (List.length (in_bucket IsSimilar ((q_id, answer) :: items))) ∧
        incorrect t' = incorrect t +
          Z.of_nat (List.length (in_bucket IsIncorrect ((q_id, answer) :: items))) ∧
        (correct_text t').*1 = (correct_text t).*1 ++
          (in_bucket IsCorrect ((q_id, answer) :: items)).*1 ∧
        (similar_text t').*1 = (similar_text t).*1 ++
          (in_bucket IsSimilar ((q_id, answer) :: items)).*1 ∧
        (incorrect_text t').*1 = (incorrect_text t).*1 ++
          (in_bucket IsIncorrect ((q_id, answer) :: items)).*1) as Hstep.
    { intros t1 Ht1 Hc1 Hs1 Hi1 Hct1 Hst1 Hit1.
      destruct (IH t1 Hnodup) as (t' & Hloop & Hc' & Hs' & Hi' & Hct' & Hst' & Hit').
      { intros k Hk. apply Hpred. by apply list_elem_of_further. }
      { intros k Hk. rewrite Hct1, Hst1, Hit1, !elem_of_app.
        destruct (Hunseen k) as (? & ? & ?); [by apply list_elem_of_further|].
        assert (k ≠ q_id) by (by intros ->).
        repeat split; intros [?|Hin]; try done;
          case_decide;
          first [by apply elem_of_nil in Hin|by apply list_elem_of_singleton in Hin]. }
      exists t'. cbn [tally_loop]. rewrite Ht1. simpl. split; [done|].
      rewrite Hc', Hs', Hi', Hct', Hst', Hit', Hc1, Hs1, Hi1, Hct1, Hst1, Hit1.
      rewrite !in_bucket_cons.
      repeat split;
        match goal with |- context [decide ?P] => destruct (decide P) end;
        first [cbn [List.length]; lia
              |by rewrite ?fmap_cons, <-?app_assoc, ?app_nil_r]. }
    unfold bucket_of in Hstep. simpl in Hstep. rewrite Hp in Hstep. simpl in Hstep.
    destruct (classify prediction answer) eqn:Hclass;
      (eapply Hstep;
       [unfold tally_step, getitem; rewrite Hp; simpl; rewrite Hclass, ?Hget; done
       |simpl; rewrite ?Z.add_0_r, ?app_nil_r, ?dict_set_fresh, ?fmap_app by done; done..]).
Qed.

Lemma in_bucket_key (b : bucket) (items : list (string * string)) (k a : string) :
  NoDup items.*1 → (k, a) ∈ items →
  k ∈ (in_bucket b items).*1 ↔ bucket_of (k, a) = b.
Proof.
  intros Hnodup Hin. unfold in_bucket. rewrite list_elem_of_fmap. split.
  - intros ([k' a'] & -> & [Hb Hin']%list_elem_of_filter). simpl in *.
    assert (a' = a) as ->; [|done].
    pose proof (dict_get_elem_of items k' a Hnodup Hin) as H1.
    pose proof (dict_get_elem_of items k' a' Hnodup Hin') as H2. congruence.
  - intros Hb. exists (k, a). split; [done|]. by apply list_elem_of_filter.
Qed.

End tally.

Section results.

Context {metric : Type}.

Lemma extra_metrics_lookup_None (true_answers predicted_answers : list string)
    (kwargs : list (string * (list string → list string → metric)))
    (m : gmap string (result_value (metric:=metric))) (k : string) :
  k ∉ kwargs.*1 → m !! k = None →
  foldl (λ extra_metrics kw,
           <[kw.1 := Metric (kw.2 true_answers predicted_answers)]> extra_metrics)
    m kwargs !! k = None.
Proof.
  revert m. induction kwargs as [|[name f] kwargs IH]; intros m Hk Hm; [done|].
  rewrite fmap_cons, not_elem_of_cons in Hk. destruct Hk as [Hne Hk]. simpl.
  apply IH; [done|]. by rewrite lookup_insert_ne.
Qed.

(** C9.  When [predictions] has an entry for the guid of every example
    (and no extra metric is passed under the name of a count),
    [calculate_results] returns; each distinct guid is in exactly one of
    [correct_text], [similar_text] and [incorrect_text], chosen by the
    stripped prediction and the stripped true answer as the claim says;
    the three counts are the sizes of these dictionaries and add up to the
    number of distinct guids. *)
Theorem calculate_results_counts (all_examples : list example)
    (predictions : gmap string string)
    (kwargs : list (string * (list string → list string → metric))) :
  (∀ e, e ∈ all_examples → is_Some (predictions !! guid e)) →
  (∀ name, name ∈ ["correct"; "similar"; "incorrect"] → name ∉ kwargs.*1) →
  ∃ result texts c s i,
    calculate_results all_examples predictions kwargs = Ok (result, texts) ∧
    result !! "correct" = Some (Count c) ∧
    result !! "similar" = Some (Count s) ∧
    result !! "incorrect" = Some (Count i) ∧
    c + s + i = Z.of_nat (distinct_guids all_examples) ∧
    c = Z.of_nat (List.length (texts_correct_text texts)) ∧
    s = Z.of_nat (List.length (texts_similar_text texts)) ∧
    i = Z.of_nat (List.length (texts_incorrect_text texts)) ∧
    ∀ q_id, q_id ∈ guid <$> all_examples →
      ∃ answer prediction,
        dict_get (truth_dict_of all_examples) q_id = Ok answer ∧
        predictions !! q_id = Some prediction ∧
        let p := PyStr.strip prediction in
        let a := PyStr.strip answer in
        (q_id ∈ (texts_correct_text texts).*1 ↔ p = a) ∧
        (q_id ∈ (texts_similar_text texts).*1 ↔
           p ≠ a ∧ (PyStr.contains p a ∨ PyStr.contains a p)) ∧
        (q_id ∈ (texts_incorrect_text texts).*1 ↔
           p ≠ a ∧ ¬ PyStr.contains p a ∧ ¬ PyStr.contains a p).
Proof.
  intros Hpred Hkwargs.
  destruct (truth_dict_keys all_examples) as [Hnodup Hkeys].
  assert (∀ k, k ∈ guid <$> all_examples → is_Some (predictions !! k)) as Hpred'.
  { intros k (e & -> & He)%list_elem_of_fmap. by apply Hpred. }
  destruct (tally_loop_spec predictions (questions_dict_of all_examples)
              (truth_dict_of all_examples) (Tally 0 0 0 [] [] [] [] [])) as
    (t & Hloop & Hc & Hs & Hi & Hct & Hst & Hit); [done| | |].
  { intros k Hk%Hkeys. split; [by apply Hpred'|by apply questions_dict_keys]. }
  { intros k _. repeat split; apply not_elem_of_nil. }
  simpl in Hc, Hs, Hi, Hct, Hst, Hit.
  unfold calculate_results. cbv zeta. rewrite Hloop. simpl.
  eexists _, _, (correct t), (similar t), (incorrect t). split; [reflexivity|].
  assert (∀ name, name ∈ ["correct"; "similar"; "incorrect"] →
            foldl (λ extra_metrics kw,
                     <[kw.1 := Metric (kw.2 (true_answers t) (predicted_answers t))]>
                       extra_metrics) (∅ : gmap string result_value) kwargs !! name = None)
    as Hextra.
  { intros name Hname. apply extra_metrics_lookup_None; [by apply Hkwargs|done]. }
  split; [|split; [|split]].
  - rewrite lookup_union_r by (apply Hextra, list_elem_of_here).
    by rewrite lookup_insert_eq.
  - rewrite lookup_union_r by (apply Hextra, list_elem_of_further, list_elem_of_here).
    rewrite lookup_insert_ne by done. by rewrite lookup_insert_eq.
  - rewrite lookup_union_r
      by (apply Hextra; do 2 apply list_elem_of_further; apply list_elem_of_here).
    rewrite !lookup_insert_ne by done. by rewrite lookup_singleton_eq.
  - split; [|split; [|split; [|split]]].
    + rewrite Hc, Hs, Hi, <-length_truth_dict.
      rewrite <-(length_in_buckets predictions (truth_dict_of all_examples)). lia.
    + cbn [texts_correct_text]. rewrite Hc.
      by rewrite <-(length_fmap fst (correct_text t)), Hct, length_fmap.
    + cbn [texts_similar_text]. rewrite Hs.
      by rewrite <-(length_fmap fst (similar_text t)), Hst, length_fmap.
    + cbn [texts_incorrect_text]. rewrite Hi.
      by rewrite <-(length_fmap fst (incorrect_text t)), Hit, length_fmap.
    + intros q_id Hq. destruct (Hpred' q_id Hq) as [prediction Hp].
      apply Hkeys in Hq.
      destruct (dict_get_is_ok (truth_dict_of all_examples) q_id Hq) as (answer & Hget & Hin).
      exists answer, prediction. split; [done|]. split; [done|].
      destruct (classify_spec prediction answer) as (Hcorrect & Hsimilar & Hincorrect).
      cbv zeta in *. cbn [texts_correct_text texts_similar_text texts_incorrect_text].
      rewrite Hct, Hst, Hit.
      rewrite !(in_bucket_key predictions _ _ q_id answer Hnodup Hin).
      unfold bucket_of. simpl. rewrite Hp. simpl. done.
Qed.

End results.

(** *** Example *)

Definition toy_examples : list example :=
  [{| guid := "q1"; answer_text := "Paris"; question_text := "Capital of France?" |};
   {| guid := "q2"; answer_text := "the Nile"; question_text := "Longest river?" |};
   {| guid := "q3"; answer_text := "1969"; question_text := "First moon landing?" |};
   {| guid := "q1"; answer_text := "Paris "; question_text := "Capital of France?" |}].

Definition toy_predictions : gmap string string :=
  {["q1" := " Paris"; "q2" := "Nile"; "q3" := "1972"]}.

Example toy_calculate_results :
  (λ r, (r.1 !! "correct", r.1 !! "similar", r.1 !! "incorrect")) <$>
    (match calculate_results (metric:=unit) toy_examples toy_predictions [] with
     | Ok r => Some r
     | Raise _ => None
     end)
  = Some (Some (Count 1), Some (Count 1), Some (Count 1)).
Proof. vm_compute. reflexivity. Qed.

(** C9 at work on the example: four examples, three distinct guids. *)
Lemma calculate_results_counts_witness :
  ∃ result texts c s i,
    calculate_results (metric:=unit) toy_examples toy_predictions [] = Ok (result, texts) ∧
    result !! "correct" = Some (Count c) ∧
    result !! "similar" = Some (Count s) ∧
    result !! "incorrect" = Some (Count i) ∧
    c + s + i = 3.
Proof.
  destruct (calculate_results_counts (metric:=unit) toy_examples toy_predictions [])
    as (result & texts & c & s & i & Hrun & Hc & Hs & Hi & Hsum & _).
  - intros e He. refine (bool_decide_unpack _ _).
    unfold toy_examples in He.
    repeat (apply elem_of_cons in He as [->|He]; [vm_compute; exact I|]).
    by apply elem_of_nil in He.
  - intros name _ Hin. by apply elem_of_nil in Hin.
  - exists result, texts, c, s, i. repeat (split; [assumption|]).
    rewrite Hsum. reflexivity.
Defined.

End ResultsFacts.

(** ** The distributed entry points *)

Module ScriptsFacts.

Import Scripts.

Lemma trace_bind {E A B} (m : Py E A) (f : A → Py E B) :
  trace (m ≫= f)
  = trace m ++ match outcome m with Ok a => trace (f a) | Raise _ => [] end.
Proof.
  unfold mbind, Py_bind. destruct (outcome m); simpl; [done|by rewrite app_nil_r].
Qed.

Lemma outcome_bind {E A B} (m : Py E A) (f : A → Py E B) :
  outcome (m ≫= f)
  = match outcome m with Ok a => outcome (f a) | Raise e => Raise e end.
Proof. unfold mbind, Py_bind. by destruct (outcome m). Qed.

(** The calls to [FedML_FedAvg_distributed] of a trace, and the rest. *)
Definition FedAvg_calls (tr : list call) : list call := filter is_FedAvg tr.
Definition other_calls (tr : list call) : list call := filter (λ c, ¬ is_FedAvg c) tr.

Lemma FedAvg_calls_app (tr1 tr2 : list call) :
  FedAvg_calls (tr1 ++ tr2) = FedAvg_calls tr1 ++ FedAvg_calls tr2.
Proof. apply filter_app. Qed.

Lemma other_calls_app (tr1 tr2 : list call) :
  other_calls (tr1 ++ tr2) = other_calls tr1 ++ other_calls tr2.
Proof. apply filter_app. Qed.

Lemma FedAvg_calls_loaders (tr : list Loaders.loader) :
  FedAvg_calls (new_loader <$> tr) = [].
Proof. induction tr as [|l tr IH]; [done|]. by rewrite fmap_cons. Qed.

(** [args] with another number of communication rounds. *)
Definition with_comm_round (r : Z) (args : Args) : Args :=
  {| model := model args; dataset := dataset args;
     gpu_num_per_server := gpu_num_per_server args; comm_round := r;
     loader_args := loader_args args; preprocess_args := preprocess_args args |}.

(** A computation that makes the one call [c], last, when it returns, and
    no call to FedML's averaging when it raises. *)
Definition ends_with (c : call) (m : Py call unit) : Prop :=
  (∀ e, outcome m = Raise e → FedAvg_calls (trace m) = []) ∧
  (outcome m = Ok () → FedAvg_calls (trace m) = [c] ∧ ∃ before, trace m = before ++ [c]).

Lemma ends_with_bind {A} (c : call) (m : Py call A) (f : A → Py call unit) :
  FedAvg_calls (trace m) = [] →
  (∀ a, outcome m = Ok a → ends_with c (f a)) →
  ends_with c (m ≫= f).
Proof.
  intros Hm Hf. unfold ends_with. rewrite trace_bind, outcome_bind, FedAvg_calls_app, Hm.
  destruct (outcome m) as [a|e] eqn:Hout.
  - destruct (Hf a eq_refl) as [Hraise Hok]. split; [done|].
    intros Hfa. destruct (Hok Hfa) as [Hcalls [before Htrace]]. split; [done|].
    exists (trace m ++ before). by rewrite Htrace, app_assoc.
  - split; [done|]. intros [=].
Qed.

Lemma ends_with_emit (c : call) : is_FedAvg c → ends_with c (emit c).
Proof.
  intros Hc. split; [by intros e [=]|]. intros _. split; [|by exists []].
  unfold FedAvg_calls. simpl. by rewrite filter_cons, decide_True.
Qed.

(** Two computations that differ at most in their calls to FedML's
    averaging. *)
Definition same_but_FedAvg (m m' : Py call unit) : Prop :=
  other_calls (trace m) = other_calls (trace m') ∧
  is_ok (outcome m) = is_ok (outcome m').

Lemma same_but_FedAvg_bind {A} (m : Py call A) (f f' : A → Py call unit) :
  (∀ a, outcome m = Ok a → same_but_FedAvg (f a) (f' a)) →
  same_but_FedAvg (m ≫= f) (m ≫= f').
Proof.
  intros Hf. unfold same_but_FedAvg.
  rewrite !trace_bind, !outcome_bind, !other_calls_app.
  destruct (outcome m) as [a|e]; [|done].
  destruct (Hf a eq_refl) as [-> ->]. done.
Qed.

Lemma same_but_FedAvg_emit (c c' : call) :
  is_FedAvg c → is_FedAvg c' → same_but_FedAvg (emit c) (emit c').
Proof.
  intros Hc Hc'. split; [|done]. unfold other_calls. simpl.
  by rewrite !filter_cons, !decide_False by (by intros []).
Qed.

(** A run of an entry point hands the federated averaging over to FedML:
    if it gets through its stages it ends with the one call
    [FedML_FedAvg_distributed], otherwise it makes no such call; and what
    it does before that call does not depend on the number of rounds. *)
Definition delegates (run : Args → Py call unit) (process_id worker_number : Z)
    (args : Args) : Prop :=
  ends_with (FedML_FedAvg_distributed process_id worker_number (comm_round args))
    (run args) ∧
  ∀ r, same_but_FedAvg (run (with_comm_round r args)) (run args).

Section facts.

Context {attrs tvocab weights token_idx label_idx : Type}.
Variable abspath : string → string.
Variable get_attributes : Loaders.loader → attrs.
Variable n_clients : attrs → Z.
Variable attr_target_vocab : attrs → tvocab.
Variable get_train_data_num get_test_data_num : Loaders.loader → Z.
Variable get_train_batch_data get_test_batch_data : Loaders.loader → option Z → list nat.
Variable batches : nat → Preprocess.batch.
Variable build_freq_vocab : list (list string) → gmap string Z.
Variable remove_words : list (list string) → gset string → list (list string).
Variable build_vocab : list (list string) → gmap string Z.
Variable load_word2vec_embedding :
  string → gmap string Z → result (gmap string Z * weights).
Variable load_glove_embedding :
  string → gmap string Z → Z → result (gmap string Z * weights).
Variable padding_data : list (list string) → Z → list (list string) * list Z.
Variable token_to_idx : list (list string) → gmap string Z → token_idx.
Variable label_to_idx : list string → tvocab → label_idx.
Variable STOP_WORDS : gset string.
Variable cuda_is_available : bool.

Abbreviation bilstm_script := (main_fedavg abspath get_attributes n_clients attr_target_vocab
  get_train_data_num get_test_data_num get_train_batch_data get_test_batch_data batches
  build_freq_vocab remove_words build_vocab load_word2vec_embedding load_glove_embedding
  padding_data token_to_idx label_to_idx STOP_WORDS cuda_is_available).
Abbreviation transformer_script := (text_classification_fedavg get_attributes n_clients
  get_train_data_num get_test_data_num get_train_batch_data get_test_batch_data).

Lemma create_model_cases (model_name : string) :
  create_model model_name = MkPy [] (Raise (Exception "No such model")) ∨
  ∃ attention, create_model model_name = MkPy [BiLSTM_TextClassification attention] (Ok ()).
Proof. unfold create_model. repeat case_decide; eauto. Qed.

(** No call to FedML's averaging in a stage. *)
Ltac no_FedAvg :=
  first [ reflexivity
        | destruct (bool_decide _); reflexivity
        | apply FedAvg_calls_loaders
        | match goal with
          | |- context [create_model ?name] =>
              destruct (create_model_cases name) as [->|[? ->]]; reflexivity
          end ].

Ltac stage := apply ends_with_bind; [no_FedAvg|intros ? _].
Ltac same_stage := apply same_but_FedAvg_bind; intros ? _.

Lemma main_fedavg_delegates (process_id worker_number : Z) (args : Args) :
  delegates (bilstm_script process_id worker_number) process_id worker_number args.
Proof.
  split.
  - unfold main_fedavg. do 11 stage. by apply ends_with_emit.
  - intros r. unfold main_fedavg. do 11 same_stage. by apply same_but_FedAvg_emit.
Qed.

Lemma text_classification_fedavg_delegates (process_id worker_number : Z) (args : Args) :
  delegates (transformer_script process_id worker_number) process_id worker_number args.
Proof.
  split.
  - unfold text_classification_fedavg, main. do 9 stage. by apply ends_with_emit.
  - intros r. unfold text_classification_fedavg, main. do 9 same_stage.
    by apply same_but_FedAvg_emit.
Qed.

(** C5.  Each distributed entry point (the body of main_fedavg.py and the
    body of text_classification_fedavg.py with its [main]) leaves the
    federated averaging to FedML: a run that gets through data loading,
    preprocessing and the construction of model and trainer makes exactly
    one call to [FedML_FedAvg_distributed], as its last action; a run
    that raises before makes none; and nothing else the entry point does
    depends on [args.comm_round], so it has no round loop of its own. *)
Theorem entry_points_delegate (process_id worker_number : Z) (args : Args) :
  delegates (bilstm_script process_id worker_number) process_id worker_number args ∧
  delegates (transformer_script process_id worker_number) process_id worker_number args.
Proof.
  split; [apply main_fedavg_delegates|apply text_classification_fedavg_delegates].
Qed.

End facts.

(** *** Example runs *)

Definition toy_script_args (name : string) : Args :=
  {| model := "bilstm"; dataset := name; gpu_num_per_server := 4; comm_round := 10;
     loader_args := LoadersFacts.toy_loader_args;
     preprocess_args := PreprocessFacts.toy_preprocess_args None |}.

(** Process 1 of three, two clients, the batches of the preprocessing
    example. *)
Definition toy_main_fedavg (name : string) : Py call unit :=
  main_fedavg id (λ _, ()) (λ _, 2) (λ _, ()) (λ _, 0) (λ _, 0)
    (λ _ _, [0%nat]) (λ _ _, [1%nat]) PreprocessFacts.toy_store
    PreprocessFacts.ref_build_freq_vocab PreprocessFacts.ref_remove_words
    PreprocessFacts.ref_build_vocab PreprocessFacts.toy_word2vec PreprocessFacts.toy_glove
    (λ x n, (x, [])) (λ x _, x) (λ y _, y) ∅ true 1 3 (toy_script_args name).

Definition toy_text_classification_fedavg (name : string) : Py call unit :=
  text_classification_fedavg (λ _, ()) (λ _, 2) (λ _, 0) (λ _, 0)
    (λ _ _, [0%nat]) (λ _ _, [1%nat]) 1 3 (toy_script_args name).

Example toy_main_fedavg_unknown_dataset :
  toy_main_fedavg "imdb"
  = MkPy [FedML_init; add_args; setproctitle; logging_basicConfig; manual_seeds]
      (Raise (Exception "No such dataset")).
Proof. vm_compute. reflexivity. Qed.

(** C5 at work: one call each, with the rounds passed on. *)
Lemma entry_points_delegate_witness :
  FedAvg_calls (trace (toy_main_fedavg "sst_2")) = [FedML_FedAvg_distributed 1 3 10] ∧
  FedAvg_calls (trace (toy_text_classification_fedavg "sst_2"))
  = [FedML_FedAvg_distributed 1 3 10].
Proof.
  destruct (entry_points_delegate id (λ _, ()) (λ _, 2) (λ _, ()) (λ _, 0) (λ _, 0)
              (λ _ _, [0%nat]) (λ _ _, [1%nat]) PreprocessFacts.toy_store
              PreprocessFacts.ref_build_freq_vocab PreprocessFacts.ref_remove_words
              PreprocessFacts.ref_build_vocab PreprocessFacts.toy_word2vec
              PreprocessFacts.toy_glove (λ x n, (x, [])) (λ x _, x) (λ y _, y) ∅ true
              1 3 (toy_script_args "sst_2"))
    as [[[_ Hbilstm] _] [[_ Htransformer] _]].
  split.
  - apply Hbilstm. vm_compute. reflexivity.
  - apply Htransformer. vm_compute. reflexivity.
Defined.

End ScriptsFacts.

(** ** Sums of losses and windows of batches *)

(** The sum of a list of rationals. *)
Definition sum_Qc (xs : list Qc) : Qc := foldr Qcplus 0%Qc xs.

(** The batch indices below [n] that end a window of [g] batches are
    [n // g] many. *)
Lemma div_succ (a g : Z) :
  0 < g → 0 ≤ a →
  (a + 1) / g = a / g + (if decide ((a + 1) mod g = 0) then 1 else 0).
Proof.
  intros Hg Ha.
  pose proof (Z.div_mod a g ltac:(lia)) as Ha'.
  pose proof (Z.mod_pos_bound a g Hg) as Hr.
  destruct (decide (a mod g + 1 = g)) as [Hfull|Hpart].
  - assert ((a + 1) mod g = 0) as Hmod.
    { symmetry. apply (Z.mod_unique (a + 1) g (a / g + 1) 0); lia. }
    rewrite decide_True by done.
    symmetry. apply (Z.div_unique (a + 1) g (a / g + 1) 0); lia.
  - assert ((a + 1) mod g = a mod g + 1) as Hmod.
    { symmetry. apply (Z.mod_unique (a + 1) g (a / g) (a mod g + 1)); lia. }
    rewrite decide_False by lia.
    rewrite Z.add_0_r. symmetry.
    apply (Z.div_unique (a + 1) g (a / g) (a mod g + 1)); lia.
Qed.

Lemma range_succ (n : nat) : range (Z.of_nat (S n)) = range (Z.of_nat n) ++ [Z.of_nat n].
Proof.
  unfold range. rewrite !Nat2Z.id. rewrite seq_S, fmap_app. done.
Qed.

(** ** More about [init_training_device] *)

Module DeviceMoreFacts.

Import Device DeviceFacts.

(** A process whose predecessor is no client index finds no entry. *)
Lemma init_training_device_outside (cuda : bool) (pid n g : Z) :
  pid ≠ 0 → ¬ (1 ≤ pid ≤ n) → n ≤ 0 ∨ g ≠ 0 →
  init_training_device cuda pid n g = if cuda then Raise KeyError else Ok Cpu.
Proof.
  intros Hpid Hout Hng. unfold init_training_device.
  rewrite decide_False by done.
  assert (∃ d, fill_process_gpu_dict g (range n) ∅ = Ok d ∧ d !! (pid - 1) = None)
    as (d & -> & Hd).
  { destruct (decide (g = 0)) as [->|Hg].
    - exists ∅. rewrite range_nonpos by lia. done.
    - destruct (fill_process_gpu_dict_ok g (range n) ∅ Hg) as (d & Hfill & Hd).
      exists d. split; [done|]. rewrite Hd, decide_False; [done|].
      rewrite elem_of_range. lia. }
  simpl. destruct cuda; [|done]. unfold getitem. by rewrite Hd.
Qed.

(** X1.  [init_training_device] raises [ZeroDivisionError] exactly for a
    non-zero process, at least one worker and [gpu_num_per_machine = 0],
    with or without CUDA, since the dictionary is filled before CUDA is
    asked for; it raises [KeyError] exactly on a CUDA machine for a
    non-zero process outside [1 .. fl_worker_num] (a negative one
    included) when the filling loop does not divide by zero; and it raises
    nothing else. *)
Theorem init_training_device_errors (cuda : bool) (process_ID fl_worker_num g : Z) :
  (init_training_device cuda process_ID fl_worker_num g = Raise ZeroDivisionError ↔
     process_ID ≠ 0 ∧ 0 < fl_worker_num ∧ g = 0) ∧
  (init_training_device cuda process_ID fl_worker_num g = Raise KeyError ↔
     cuda = true ∧ process_ID ≠ 0 ∧ (fl_worker_num ≤ 0 ∨ g ≠ 0) ∧
     ¬ (1 ≤ process_ID ≤ fl_worker_num)) ∧
  (∀ e, init_training_device cuda process_ID fl_worker_num g = Raise e →
        e = ZeroDivisionError ∨ e = KeyError).
Proof.
  destruct (decide (process_ID = 0)) as [->|Hpid].
  { rewrite init_training_device_process_0.
    split; [|split]; [split; [done|by intros [? _]]|split; [done|by intros (_ & ? & _)]|done]. }
  destruct (decide (0 < fl_worker_num ∧ g = 0)) as [[Hn ->]|Hok].
  { rewrite init_training_device_zero_gpus by done.
    split; [|split]; [by split|split; [done|intros (_ & _ & [?|?] & _); lia]|].
    intros e [= <-]. by left. }
  assert (fl_worker_num ≤ 0 ∨ g ≠ 0) as Hng by lia.
  destruct (decide (1 ≤ process_ID ≤ fl_worker_num)) as [Hin|Hout].
  { rewrite init_training_device_worker by lia.
    split; [|split]; [split; [done|intros (_ & ? & ?); lia]|
                      split; [done|by intros (_ & _ & _ & ?)]|done]. }
  rewrite init_training_device_outside by done.
  destruct cuda.
  - split; [|split]; [split; [done|intros (_ & ? & ?); lia]|by split|].
    intros e [= <-]. by right.
  - split; [|split]; [split; [done|intros (_ & ? & ?); lia]|
                      split; [done|by intros (? & _)]|done].
Qed.

(** X2.  On a CUDA machine with [gpu_num_per_machine > 0] the workers
    [1 .. fl_worker_num] are dealt round the GPUs: each one gets an index
    from 0 to [gpu_num_per_machine - 1], and two of them share a GPU
    exactly when their process ids differ by a multiple of
    [gpu_num_per_machine]. *)
Theorem init_training_device_round_robin (pid1 pid2 fl_worker_num g : Z) :
  g > 0 → 1 ≤ pid1 ≤ fl_worker_num → 1 ≤ pid2 ≤ fl_worker_num →
  (∃ i, init_training_device true pid1 fl_worker_num g = Ok (Cuda i) ∧ 0 ≤ i < g) ∧
  (init_training_device true pid1 fl_worker_num g
   = init_training_device true pid2 fl_worker_num g ↔ (pid1 - pid2) mod g = 0).
Proof.
  intros Hg H1 H2. rewrite !init_training_device_worker by lia. split.
  - eexists. split; [reflexivity|]. apply Z.mod_pos_bound. lia.
  - replace (pid1 - pid2) with ((pid1 - 1) - (pid2 - 1)) by lia.
    rewrite <-Z.cong_iff_0. split; [by intros [= ?]|by intros ->].
Qed.

(** Nine processes with four GPUs: workers 2 and 6 share GPU 1, workers 2
    and 3 do not. *)
Lemma init_training_device_round_robin_witness :
  init_training_device true 2 8 4 = init_training_device true 6 8 4 ∧
  init_training_device true 2 8 4 ≠ init_training_device true 3 8 4.
Proof.
  split.
  - apply (init_training_device_round_robin 2 6 8 4); [lia..|]. reflexivity.
  - intros Heq. apply (init_training_device_round_robin 2 3 8 4) in Heq; [|lia..].
    discriminate Heq.
Defined.

End DeviceMoreFacts.

(** ** More about [load_data] *)

Module LoadersMoreFacts.

Import Loaders LoadersFacts.

Lemma fmap_range_lookup {A} (f : Z → A) (n idx : Z) :
  idx ∈ range n → (f <$> range n) !! Z.to_nat idx = Some (f idx).
Proof.
  intros Hidx%elem_of_range. unfold range.
  rewrite !list_lookup_fmap, lookup_seq_lt by lia. simpl.
  by rewrite Z2Nat.id by lia.
Qed.

Lemma NoDup_range (n : Z) : NoDup (range n).
Proof.
  unfold range. apply NoDup_fmap_2; [|apply NoDup_seq].
  intros x y. lia.
Qed.

Section facts.

Context {data attrs : Type}.
Variable abspath : string → string.
Variable get_attributes : loader → attrs.
Variable n_clients : attrs → Z.
Variable get_train_data_num get_test_data_num : loader → Z.
Variable get_train_batch_data get_test_batch_data : loader → option Z → data.

Abbreviation bilstm := (bilstm_load_data abspath get_attributes n_clients get_train_data_num
  get_test_data_num get_train_batch_data get_test_batch_data).
Abbreviation fedavg := (fedavg_load_data get_attributes n_clients get_train_data_num
  get_test_data_num get_train_batch_data get_test_batch_data).

(** The three dictionaries after the loop of lines 182-185 went over
    [idxs]. *)
Lemma bilstm_fill_local_spec (server : loader) (client : Z → loader) (args : Args)
    (n : Z) (idxs : list Z) (d1 : list (Z * Z)) (d2 d3 : gmap Z data) :
  NoDup idxs → idxs ⊆ range n → (∀ i, i ∈ idxs → i ∉ d1.*1) →
  ∃ d2' d3',
    bilstm_fill_local get_train_data_num get_train_batch_data get_test_batch_data
      server (client <$> range n) args idxs (d1, d2, d3)
    = Ok (d1 ++ ((λ i, (i, get_train_data_num (client i))) <$> idxs), d2', d3') ∧
    (∀ i, d2' !! i = if decide (i ∈ idxs)
                     then Some (get_train_batch_data (client i) (Some (batch_size args)))
                     else d2 !! i) ∧
    (∀ i, d3' !! i = if decide (i ∈ idxs)
                     then Some (get_test_batch_data server (Some (batch_size args)))
                     else d3 !! i).
Proof.
  revert d1 d2 d3. induction idxs as [|idx rest IH]; intros d1 d2 d3 Hnodup Hsub Hfresh.
  - exists d2, d3. rewrite fmap_nil, app_nil_r. split; [done|].
    split; intros i; by rewrite decide_False by apply not_elem_of_nil.
  - apply NoDup_cons in Hnodup as [Hidx Hnodup].
    cbn [bilstm_fill_local]. unfold list_getitem.
    rewrite fmap_range_lookup by (apply Hsub, list_elem_of_here). simpl.
    rewrite ResultsFacts.dict_set_fresh by (apply Hfresh, list_elem_of_here).
    destruct (IH (d1 ++ [(idx, get_train_data_num (client idx))])
                (<[idx := get_train_batch_data (client idx) (Some (batch_size args))]> d2)
                (<[idx := get_test_batch_data server (Some (batch_size args))]> d3))
      as (d2' & d3' & -> & Hd2 & Hd3); [done| | |].
    { intros i Hi. apply Hsub. by apply list_elem_of_further. }
    { intros i Hi. rewrite fmap_app, elem_of_app. simpl. rewrite list_elem_of_singleton.
      intros [Hin| ->]; [|done]. apply (Hfresh i); [by apply list_elem_of_further|done]. }
    exists d2', d3'. split; [by rewrite <-app_assoc|].
    split; intros i; [rewrite Hd2|rewrite Hd3];
      (destruct (decide (i ∈ rest)) as [Hin|Hnin];
       [by rewrite decide_True by by apply list_elem_of_further|];
       destruct (decide (i = idx)) as [->|Hne];
       [rewrite decide_True by apply list_elem_of_here; by rewrite lookup_insert_eq|];
       rewrite decide_False by (by intros [?|?]%elem_of_cons);
       by rewrite lookup_insert_ne).
Qed.

Lemma fedavg_fill_local_spec (client : Z → loader) (args : Args)
    (n : Z) (idxs : list Z) (d1 : list (Z * Z)) (d2 d3 : gmap Z data) :
  NoDup idxs → idxs ⊆ range n → (∀ i, i ∈ idxs → i ∉ d1.*1) →
  ∃ d2' d3',
    fedavg_fill_local get_train_data_num get_train_batch_data get_test_batch_data
      (client <$> range n) args idxs (d1, d2, d3)
    = Ok (d1 ++ ((λ i, (i, get_train_data_num (client i))) <$> idxs), d2', d3') ∧
    (∀ i, d2' !! i = if decide (i ∈ idxs)
                     then Some (get_train_batch_data (client i) (Some (train_batch_size args)))
                     else d2 !! i) ∧
    (∀ i, d3' !! i = if decide (i ∈ idxs)
                     then Some (get_test_batch_data (client i) (Some (eval_batch_size args)))
                     else d3 !! i).
Proof.
  revert d1 d2 d3. induction idxs as [|idx rest IH]; intros d1 d2 d3 Hnodup Hsub Hfresh.
  - exists d2, d3. rewrite fmap_nil, app_nil_r. split; [done|].
    split; intros i; by rewrite decide_False by apply not_elem_of_nil.
  - apply NoDup_cons in Hnodup as [Hidx Hnodup].
    cbn [fedavg_fill_local]. unfold list_getitem.
    rewrite fmap_range_lookup by (apply Hsub, list_elem_of_here). simpl.
    rewrite ResultsFacts.dict_set_fresh by (apply Hfresh, list_elem_of_here).
    destruct (IH (d1 ++ [(idx, get_train_data_num (client idx))])
                (<[idx := get_train_batch_data (client idx) (Some (train_batch_size args))]> d2)
                (<[idx := get_test_batch_data (client idx) (Some (eval_batch_size args))]> d3))
      as (d2' & d3' & -> & Hd2 & Hd3); [done| | |].
    { intros i Hi. apply Hsub. by apply list_elem_of_further. }
    { intros i Hi. rewrite fmap_app, elem_of_app. simpl. rewrite list_elem_of_singleton.
      intros [Hin| ->]; [|done]. apply (Hfresh i); [by apply list_elem_of_further|done]. }
    exists d2', d3'. split; [by rewrite <-app_assoc|].
    split; intros i; [rewrite Hd2|rewrite Hd3];
      (destruct (decide (i ∈ rest)) as [Hin|Hnin];
       [by rewrite decide_True by by apply list_elem_of_further|];
       destruct (decide (i = idx)) as [->|Hne];
       [rewrite decide_True by apply list_elem_of_here; by rewrite lookup_insert_eq|];
       rewrite decide_False by (by intros [?|?]%elem_of_cons);
       by rewrite lookup_insert_ne).
Qed.

(** X3.  For a dataset name of the fixed set, [load_data] of main_fedavg.py
    constructs the server loader and then one loader per client index
    [0 .. n_clients - 1], in this order and nothing else, all of the
    dataset's module, with [tokenize=True] and absolute paths.  The list it
    returns has the clients in index order in [train_data_local_num_dict],
    gives client [i] the train batches of its own loader, and gives every
    client the test batches of the server loader, the ones that are also
    [test_data_global]. *)
Theorem bilstm_load_data_result (args : Args) (name : string) (m : data_loader_module) :
  module_of_name name = Some m →
  let mk := ClientDataLoader m (abspath (data_file args)) (abspath (partition_file args))
              (partition_method args) true in
  let server := mk None in
  let client i := mk (Some i) in
  let n := n_clients (get_attributes server) in
  ∃ d, bilstm args name = MkPy (server :: (client <$> range n)) (Ok d) ∧
    bd_train_data_num d = get_train_data_num server ∧
    bd_test_data_num d = get_test_data_num server ∧
    bd_train_data_global d = get_train_batch_data server (Some (batch_size args)) ∧
    bd_test_data_global d = get_test_batch_data server (Some (batch_size args)) ∧
    bd_train_data_local_num_dict d = (λ i, (i, get_train_data_num (client i))) <$> range n ∧
    (∀ i, bd_train_data_local_dict d !! i
          = if decide (0 ≤ i < n)
            then Some (get_train_batch_data (client i) (Some (batch_size args))) else None) ∧
    (∀ i, bd_test_data_local_dict d !! i
          = if decide (0 ≤ i < n) then Some (bd_test_data_global d) else None) ∧
    bd_attributes d = get_attributes server.
Proof.
  intros Hm mk server client n.
  assert (bilstm args name
          = bilstm_branch abspath get_attributes n_clients m args ≫=
            bilstm_collect get_attributes n_clients get_train_data_num get_test_data_num
              get_train_batch_data get_test_batch_data args) as ->.
  { unfold bilstm_load_data. unfold module_of_name in Hm.
    repeat case_decide; by simplify_eq. }
  rewrite bilstm_branch_eq. fold mk server n.
  change (client_loaders m _ _ _ true n) with (client <$> range n).
  unfold bilstm_collect. cbv zeta. fold n.
  destruct (bilstm_fill_local_spec server client args n (range n) [] ∅ ∅)
    as (d2 & d3 & Hfill & Hd2 & Hd3); [apply NoDup_range|done| |].
  { intros i _. apply not_elem_of_nil. }
  cbn [mbind Py_bind outcome trace]. fold n. rewrite Hfill.
  cbn [lift mbind Py_bind outcome trace mret Py_ret app]. rewrite !app_nil_r.
  eexists. split; [reflexivity|]. cbn.
  repeat split; try done.
  - intros i. rewrite Hd2, lookup_empty.
    destruct (decide (0 ≤ i < n)); [by rewrite decide_True by by apply elem_of_range|].
    by rewrite decide_False by by rewrite elem_of_range.
  - intros i. rewrite Hd3, lookup_empty.
    destruct (decide (0 ≤ i < n)); [by rewrite decide_True by by apply elem_of_range|].
    by rewrite decide_False by by rewrite elem_of_range.
Qed.

(** X4.  For a dataset name of the fixed set, [load_data] of
    text_classification_fedavg.py constructs the server loader and then
    one loader per client index, in this order and nothing else, all of
    the dataset's module, with [tokenize=False] and the paths as given.
    Client [i] gets the train batches (of [train_batch_size]) and the test
    batches (of [eval_batch_size]) of its own loader, and the global
    batches are asked of the server loader without a batch size. *)
Theorem fedavg_load_data_result (args : Args) (name : string) (m : data_loader_module) :
  module_of_name name = Some m →
  let mk := ClientDataLoader m (data_file args) (partition_file args)
              (partition_method args) false in
  let server := mk None in
  let client i := mk (Some i) in
  let n := n_clients (get_attributes server) in
  ∃ d, fedavg args name = MkPy (server :: (client <$> range n)) (Ok d) ∧
    fd_train_data_num d = get_train_data_num server ∧
    fd_test_data_num d = get_test_data_num server ∧
    fd_train_data_global d = get_train_batch_data server None ∧
    fd_test_data_global d = get_test_batch_data server None ∧
    fd_train_data_local_num_dict d = (λ i, (i, get_train_data_num (client i))) <$> range n ∧
    (∀ i, fd_train_data_local_dict d !! i
          = if decide (0 ≤ i < n)
            then Some (get_train_batch_data (client i) (Some (train_batch_size args)))
            else None) ∧
    (∀ i, fd_test_data_local_dict d !! i
          = if decide (0 ≤ i < n)
            then Some (get_test_batch_data (client i) (Some (eval_batch_size args)))
            else None) ∧
    fd_data_attr d = get_attributes server.
Proof.
  intros Hm mk server client n.
  assert (fedavg args name
          = fedavg_collect get_attributes n_clients get_train_data_num get_test_data_num
              get_train_batch_data get_test_batch_data args m) as ->.
  { unfold fedavg_load_data. unfold module_of_name in Hm.
    repeat case_decide; by simplify_eq. }
  unfold fedavg_collect. cbv zeta. fold mk server n.
  rewrite (py_map_emit (λ i, mk (Some i))).
  change (λ i, mk (Some i)) with client.
  destruct (fedavg_fill_local_spec client args n (range n) [] ∅ ∅)
    as (d2 & d3 & Hfill & Hd2 & Hd3); [apply NoDup_range|done| |].
  { intros i _. apply not_elem_of_nil. }
  cbn [mbind Py_bind outcome trace emit]. fold n. rewrite Hfill.
  cbn [lift mbind Py_bind outcome trace mret Py_ret app]. rewrite !app_nil_r.
  eexists. split; [reflexivity|]. cbn.
  repeat split; try done.
  - intros i. rewrite Hd2, lookup_empty.
    destruct (decide (0 ≤ i < n)); [by rewrite decide_True by by apply elem_of_range|].
    by rewrite decide_False by by rewrite elem_of_range.
  - intros i. rewrite Hd3, lookup_empty.
    destruct (decide (0 ≤ i < n)); [by rewrite decide_True by by apply elem_of_range|].
    by rewrite decide_False by by rewrite elem_of_range.
Qed.

End facts.

(** Loaders that answer with their own description: the train data of a
    loader is the loader and the batch size. *)
Definition echo_bilstm : string → Py loader (bilstm_dataset (data:=loader * option Z) (attrs:=unit)) :=
  bilstm_load_data id (λ _, ()) (λ _, 3) (λ _, 0) (λ _, 0) (λ l b, (l, b)) (λ l b, (l, b))
    toy_loader_args.

Definition echo_fedavg : string → Py loader (fedavg_dataset (data:=loader * option Z) (attrs:=unit)) :=
  fedavg_load_data (λ _, ()) (λ _, 3) (λ _, 0) (λ _, 0) (λ l b, (l, b)) (λ l b, (l, b))
    toy_loader_args.

Lemma bilstm_load_data_result_witness :
  ∃ d, outcome (echo_bilstm "agnews") = Ok d ∧
    bd_train_data_local_num_dict d = [(0, 0); (1, 0); (2, 0)] ∧
    bd_test_data_local_dict d !! 2
    = Some (ClientDataLoader AGNews "data.h5" "partition.h5" "uniform" true None, Some 8) ∧
    bd_test_data_local_dict d !! 3 = None.
Proof.
  destruct (bilstm_load_data_result id (λ _, ()) (λ _, 3) (λ _, 0) (λ _, 0)
              (λ l b, (l, b)) (λ l b, (l, b)) toy_loader_args "agnews" AGNews)
    as (d & Hrun & _ & _ & _ & Hglobal & Hnum & _ & Htest & _); [reflexivity|].
  exists d. unfold echo_bilstm. rewrite Hrun.
  split; [reflexivity|]. split; [exact Hnum|].
  rewrite !Htest, Hglobal. split; reflexivity.
Defined.

Lemma fedavg_load_data_result_witness :
  ∃ d, outcome (echo_fedavg "agnews") = Ok d ∧
    fd_test_data_local_dict d !! 2
    = Some (ClientDataLoader AGNews "data.h5" "partition.h5" "uniform" false (Some 2), Some 8) ∧
    fd_test_data_global d
    = (ClientDataLoader AGNews "data.h5" "partition.h5" "uniform" false None, None).
Proof.
  destruct (fedavg_load_data_result (λ _, ()) (λ _, 3) (λ _, 0) (λ _, 0)
              (λ l b, (l, b)) (λ l b, (l, b)) toy_loader_args "agnews" AGNews)
    as (d & Hrun & _ & _ & _ & Hglobal & _ & _ & Htest & _); [reflexivity|].
  exists d. unfold echo_fedavg. rewrite Hrun.
  split; [reflexivity|]. rewrite Htest, Hglobal. split; reflexivity.
Defined.

End LoadersMoreFacts.

(** ** The inputs of the model *)

Module InputsFacts.

Import Inputs.

(** The keys of the training inputs for a model type. *)
Definition input_keys (model_type : string) : gset string :=
  {["input_ids"; "attention_mask"; "start_positions"; "end_positions"]} ∪
  (if decide (model_type ∈ without_token_type_ids) then ∅ else {["token_type_ids"]}) ∪
  (if decide (model_type ∈ with_cls_index) then {["cls_index"; "p_mask"]} else ∅).

(** The shortest tuple [_get_inputs_dict] can read. *)
Definition train_tuple_length (model_type : string) : nat :=
  if decide (model_type ∈ with_cls_index) then 8%nat else 6%nat.

(** The shortest tuple [evaluate] can read. *)
Definition eval_tuple_length (model_type : string) : nat :=
  if decide (model_type ∈ with_cls_index) then 7%nat else 5%nat.

Lemma tuple_getitem_lookup {tensor} (batch : list tensor) (k : nat) (t : tensor) :
  batch !! k = Some t → tuple_getitem batch k = Ok t.
Proof. intros H. unfold tuple_getitem. by rewrite H. Qed.

Lemma tuple_getitem_short {tensor} (batch : list tensor) (k : nat) :
  (List.length batch ≤ k)%nat → tuple_getitem batch k = Raise IndexError.
Proof. intros H. unfold tuple_getitem. by rewrite lookup_ge_None_2. Qed.

Section facts.

Context {tensor : Type}.
Implicit Types (batch : list tensor) (model_type : string).

(** X5.  [_get_inputs_dict] returns exactly when the tuple has six entries,
    eight for the model types xlnet and xlm, and raises [IndexError]
    otherwise, also for a model type whose ["token_type_ids"] would be
    deleted anyway.  The dictionary it returns has the keys of the model
    type and takes each value from a fixed position of the tuple. *)
Theorem get_inputs_dict_spec model_type batch :
  ((List.length batch < train_tuple_length model_type)%nat →
     _get_inputs_dict model_type batch = Raise IndexError) ∧
  ((train_tuple_length model_type ≤ List.length batch)%nat →
     ∃ inputs, _get_inputs_dict model_type batch = Ok inputs ∧
       dom inputs = input_keys model_type ∧
       inputs !! "input_ids" = batch !! 1%nat ∧
       inputs !! "attention_mask" = batch !! 2%nat ∧
       inputs !! "token_type_ids"
         = (if decide (model_type ∈ without_token_type_ids) then None else batch !! 3%nat) ∧
       inputs !! "start_positions" = batch !! 4%nat ∧
       inputs !! "end_positions" = batch !! 5%nat ∧
       inputs !! "cls_index"
         = (if decide (model_type ∈ with_cls_index) then batch !! 6%nat else None) ∧
       inputs !! "p_mask"
         = (if decide (model_type ∈ with_cls_index) then batch !! 7%nat else None)).
Proof.
  unfold train_tuple_length, input_keys, _get_inputs_dict.
  split.
  - intros Hlen.
    destruct batch as [|b0 [|b1 [|b2 [|b3 [|b4 [|b5 [|b6 [|b7 rest]]]]]]]];
      try done;
      destruct (decide (model_type ∈ with_cls_index));
      destruct (decide (model_type ∈ without_token_type_ids));
      simpl in Hlen; try lia; done.
  - intros Hlen.
    destruct (decide (model_type ∈ with_cls_index)) as [Hc|Hc];
      destruct (decide (model_type ∈ without_token_type_ids)) as [Hw|Hw];
      destruct batch as [|b0 [|b1 [|b2 [|b3 [|b4 [|b5 rest]]]]]];
      simpl in Hlen; try lia.
    1,2: destruct rest as [|b6 [|b7 rest]]; simpl in Hlen; try lia.
    all: eexists; split; [reflexivity|];
      split; [rewrite ?dom_insert_L, ?dom_delete_L, ?dom_insert_L, ?dom_singleton_L;
              set_solver|];
      repeat split; by simplify_map_eq.
Qed.

(** X6.  [evaluate] builds its inputs like [_get_inputs_dict] without the
    two position keys: it needs five entries (seven for xlnet and xlm),
    raises [IndexError] on a shorter tuple, reads [example_indices] at
    position 4, and takes ["cls_index"] and ["p_mask"] from positions 5 and
    6, one position before those of the training tuple. *)
Theorem evaluate_inputs_spec model_type batch :
  ((List.length batch < eval_tuple_length model_type)%nat →
     evaluate_inputs model_type batch = Raise IndexError) ∧
  ((eval_tuple_length model_type ≤ List.length batch)%nat →
     ∃ inputs example_indices,
       evaluate_inputs model_type batch = Ok (inputs, example_indices) ∧
       batch !! 4%nat = Some example_indices ∧
       dom inputs = input_keys model_type ∖ {["start_positions"; "end_positions"]} ∧
       inputs !! "input_ids" = batch !! 1%nat ∧
       inputs !! "attention_mask" = batch !! 2%nat ∧
       inputs !! "token_type_ids"
         = (if decide (model_type ∈ without_token_type_ids) then None else batch !! 3%nat) ∧
       inputs !! "cls_index"
         = (if decide (model_type ∈ with_cls_index) then batch !! 5%nat else None) ∧
       inputs !! "p_mask"
         = (if decide (model_type ∈ with_cls_index) then batch !! 6%nat else None)).
Proof.
  unfold eval_tuple_length, input_keys, evaluate_inputs.
  split.
  - intros Hlen.
    destruct batch as [|b0 [|b1 [|b2 [|b3 [|b4 [|b5 [|b6 rest]]]]]]];
      try done;
      destruct (decide (model_type ∈ with_cls_index));
      destruct (decide (model_type ∈ without_token_type_ids));
      simpl in Hlen; try lia; done.
  - intros Hlen.
    destruct (decide (model_type ∈ with_cls_index)) as [Hc|Hc];
      destruct (decide (model_type ∈ without_token_type_ids)) as [Hw|Hw];
      destruct batch as [|b0 [|b1 [|b2 [|b3 [|b4 rest]]]]];
      simpl in Hlen; try lia.
    1,2: destruct rest as [|b5 [|b6 rest]]; simpl in Hlen; try lia.
    all: eexists _, _; split; [reflexivity|]; split; [reflexivity|];
      split; [rewrite ?dom_insert_L, ?dom_delete_L, ?dom_insert_L, ?dom_singleton_L;
              set_solver|];
      repeat split; by simplify_map_eq.
Qed.

End facts.

(** A training tuple and an evaluation tuple of tensors that are told apart
    by a number. *)
Definition toy_train_batch : list nat := [0; 1; 2; 3; 4; 5; 6; 7]%nat.
Definition toy_eval_batch : list nat := [10; 11; 12; 13; 14; 15; 16]%nat.

Example toy_get_inputs_dict_distilbert :
  (λ m : gmap string nat, (m !! "input_ids", m !! "token_type_ids", m !! "end_positions")) <$>
    (match _get_inputs_dict "distilbert" toy_train_batch with
     | Ok m => Some m
     | Raise _ => None
     end)
  = Some (Some 1%nat, None, Some 5%nat).
Proof. vm_compute. reflexivity. Qed.

(** xlm loses ["token_type_ids"] and gains ["cls_index"] and ["p_mask"];
    a bert tuple of five entries is too short although only four of its
    entries would stay. *)
Lemma get_inputs_dict_spec_witness :
  (∃ inputs, _get_inputs_dict "xlm" toy_train_batch = Ok inputs ∧
     inputs !! "token_type_ids" = None ∧ inputs !! "cls_index" = Some 6%nat) ∧
  _get_inputs_dict "distilbert" [0; 1; 2; 3; 4]%nat = Raise IndexError.
Proof.
  split.
  - destruct (proj2 (get_inputs_dict_spec "xlm" toy_train_batch))
      as (inputs & Hrun & _ & _ & _ & Htt & _ & _ & Hcls & _).
    + vm_compute. lia.
    + exists inputs. split; [exact Hrun|]. split; [exact Htt|exact Hcls].
  - apply (proj1 (get_inputs_dict_spec "distilbert" [0; 1; 2; 3; 4]%nat)).
    vm_compute. lia.
Defined.

Lemma evaluate_inputs_spec_witness :
  (∃ inputs, evaluate_inputs "xlnet" toy_eval_batch = Ok (inputs, 14%nat) ∧
     inputs !! "token_type_ids" = Some 13%nat ∧ inputs !! "p_mask" = Some 16%nat) ∧
  evaluate_inputs "xlnet" [0; 1; 2; 3; 4; 5]%nat = Raise IndexError.
Proof.
  split.
  - destruct (proj2 (evaluate_inputs_spec "xlnet" toy_eval_batch))
      as (inputs & idx & Hrun & Hidx & _ & _ & _ & Htt & _ & Hp).
    + vm_compute. lia.
    + exists inputs. injection Hidx as <-.
      split; [exact Hrun|]. split; [exact Htt|exact Hp].
  - apply (proj1 (evaluate_inputs_spec "xlnet" [0; 1; 2; 3; 4; 5]%nat)).
    vm_compute. lia.
Defined.

End InputsFacts.

(** ** More about [calculate_results] *)

Module ResultsMoreFacts.

Import Trainer ResultsFacts.

Lemma contains_empty (s : string) : PyStr.contains "" s = true.
Proof. by destruct s. Qed.

(** A blank string on either side is never a mismatch. *)
Lemma classify_blank (prediction answer : string) :
  PyStr.strip prediction = "" ∨ PyStr.strip answer = "" →
  classify prediction answer ≠ IsIncorrect.
Proof.
  intros Hblank. unfold classify. case_decide; [done|].
  destruct Hblank as [-> | ->]; rewrite contains_empty; simpl; [done|].
  by rewrite orb_true_r.
Qed.

Section loop.

Variable predictions : gmap string string.
Variable questions_dict : list (string * string).

(** The prediction that the loop reads for a key. *)
Definition predicted_of (k : string) : string := default "" (predictions !! k).

Lemma tally_step_Ok (t : tally) (q_id answer prediction : string) :
  predictions !! q_id = Some prediction → q_id ∈ questions_dict.*1 →
  ∃ t', tally_step predictions questions_dict t (q_id, answer) = Ok t'.
Proof.
  intros Hp Hq. unfold tally_step, getitem. rewrite Hp. simpl.
  destruct (dict_get_is_ok questions_dict q_id Hq) as (question & -> & _).
  destruct (classify prediction answer); simpl; eauto.
Qed.

Lemma tally_step_KeyError (t : tally) (q_id answer : string) :
  predictions !! q_id = None →
  tally_step predictions questions_dict t (q_id, answer) = Raise KeyError.
Proof. intros Hp. unfold tally_step, getitem. by rewrite Hp. Qed.

(** The loop stops with [KeyError] at the first key without a prediction. *)
Lemma tally_loop_KeyError (items : list (string * string)) (t : tally) (k : string) :
  (∀ k', k' ∈ items.*1 → k' ∈ questions_dict.*1) →
  k ∈ items.*1 → predictions !! k = None →
  tally_loop predictions questions_dict t items = Raise KeyError.
Proof.
  revert t. induction items as [|[q_id answer] items IH]; intros t Hq Hk Hnone.
  - by apply elem_of_nil in Hk.
  - cbn [tally_loop]. destruct (predictions !! q_id) as [prediction|] eqn:Hp.
    + destruct (tally_step_Ok t q_id answer prediction Hp) as [t' ->].
      { apply Hq. rewrite fmap_cons. apply list_elem_of_here. }
      simpl. apply IH; [| |done].
      * intros k' Hk'. apply Hq. rewrite fmap_cons. by apply list_elem_of_further.
      * rewrite fmap_cons in Hk. apply elem_of_cons in Hk as [->|Hk]; [|done].
        simpl in Hnone. congruence.
    + by rewrite tally_step_KeyError.
Qed.

(** The two lists that are handed to the extra metrics. *)
Lemma tally_loop_answers (items : list (string * string)) (t t' : tally) :
  tally_loop predictions questions_dict t items = Ok t' →
  true_answers t' = true_answers t ++ items.*2 ∧
  predicted_answers t' = predicted_answers t ++ (predicted_of <$> items.*1) ∧
  ∀ k, k ∈ items.*1 → is_Some (predictions !! k).
Proof.
  revert t. induction items as [|[q_id answer] items IH]; intros t.
  - simpl. intros [= ->]. rewrite !app_nil_r. split; [done|]. split; [done|].
    by intros k ?%elem_of_nil.
  - cbn [tally_loop]. destruct (tally_step _ _ t _) as [t1|e] eqn:Hstep; [|done].
    simpl. intros Hloop. destruct (IH t1 Hloop) as (Hta & Hpa & Hsome).
    unfold tally_step, getitem in Hstep.
    destruct (predictions !! q_id) as [prediction|] eqn:Hp; [|done]. simpl in Hstep.
    assert (true_answers t1 = true_answers t ++ [answer] ∧
            predicted_answers t1 = predicted_answers t ++ [prediction]) as [Hta1 Hpa1].
    { destruct (classify prediction answer); simpl in Hstep;
        [|destruct (dict_get questions_dict q_id); simpl in Hstep..];
        try done; by injection Hstep as <-. }
    rewrite Hta, Hpa, Hta1, Hpa1, <-!app_assoc. simpl.
    unfold predicted_of at 2. rewrite Hp. simpl.
    split; [done|]. split; [done|].
    intros k [->|Hk]%elem_of_cons; [by rewrite Hp|by apply Hsome].
Qed.

End loop.

Section results.

Context {metric : Type}.
Implicit Types (kwargs : list (string * (list string → list string → metric))).

(** The run of the loop inside [calculate_results]. *)
Definition tallied (all_examples : list example) (predictions : gmap string string)
    : result tally :=
  tally_loop predictions (questions_dict_of all_examples) (Tally 0 0 0 [] [] [] [] [])
    (truth_dict_of all_examples).

Lemma calculate_results_tallied (all_examples : list example)
    (predictions : gmap string string) kwargs :
  calculate_results all_examples predictions kwargs
  = t ← tallied all_examples predictions;
    Ok (foldl (λ extra_metrics kw,
                 <[kw.1 := Metric (kw.2 (true_answers t) (predicted_answers t))]>
                   extra_metrics) ∅ kwargs ∪
        <["correct" := Count (correct t)]>
          (<["similar" := Count (similar t)]> {["incorrect" := Count (incorrect t)]}),
        {| texts_correct_text := correct_text t;
           texts_similar_text := similar_text t;
           texts_incorrect_text := incorrect_text t |}).
Proof. reflexivity. Qed.

Lemma tallied_Ok (all_examples : list example) (predictions : gmap string string) :
  (∀ e, e ∈ all_examples → is_Some (predictions !! guid e)) →
  ∃ t, tallied all_examples predictions = Ok t ∧
    correct t + similar t + incorrect t = Z.of_nat (distinct_guids all_examples) ∧
    correct t = Z.of_nat (List.length (correct_text t)) ∧
    similar t = Z.of_nat (List.length (similar_text t)) ∧
    incorrect t = Z.of_nat (List.length (incorrect_text t)) ∧
    ∀ b, (match b with
          | IsCorrect => (correct_text t).*1
          | IsSimilar => (similar_text t).*1
          | IsIncorrect => (incorrect_text t).*1
          end) = (in_bucket predictions b (truth_dict_of all_examples)).*1.
Proof.
  intros Hpred.
  destruct (truth_dict_keys all_examples) as [Hnodup Hkeys].
  destruct (tally_loop_spec predictions (questions_dict_of all_examples)
              (truth_dict_of all_examples) (Tally 0 0 0 [] [] [] [] [])) as
    (t & Hloop & Hc & Hs & Hi & Hct & Hst & Hit); [done| | |].
  { intros k Hk. split.
    - apply Hkeys, list_elem_of_fmap in Hk as (e & -> & He). by apply Hpred.
    - apply questions_dict_keys. by apply Hkeys. }
  { intros k _. repeat split; apply not_elem_of_nil. }
  simpl in Hc, Hs, Hi, Hct, Hst, Hit.
  exists t. split; [done|]. split; [|split; [|split; [|split]]].
  - rewrite Hc, Hs, Hi, <-length_truth_dict.
    rewrite <-(length_in_buckets predictions (truth_dict_of all_examples)). lia.
  - rewrite Hc. by rewrite <-(length_fmap fst (correct_text t)), Hct, length_fmap.
  - rewrite Hs. by rewrite <-(length_fmap fst (similar_text t)), Hst, length_fmap.
  - rewrite Hi. by rewrite <-(length_fmap fst (incorrect_text t)), Hit, length_fmap.
  - by intros [].
Qed.

Lemma tallied_KeyError (all_examples : list example) (predictions : gmap string string)
    (e : example) :
  e ∈ all_examples → predictions !! guid e = None →
  tallied all_examples predictions = Raise KeyError.
Proof.
  intros He Hnone. destruct (truth_dict_keys all_examples) as [_ Hkeys].
  apply (tally_loop_KeyError _ _ _ _ (guid e)); [| |done].
  - intros k Hk. apply questions_dict_keys. by apply Hkeys.
  - apply Hkeys, list_elem_of_fmap. by exists e.
Qed.

(** Either every example has a prediction or one of them has none. *)
Lemma predicted_or_not (all_examples : list example) (predictions : gmap string string) :
  (∀ e, e ∈ all_examples → is_Some (predictions !! guid e)) ∨
  (∃ e, e ∈ all_examples ∧ predictions !! guid e = None).
Proof.
  induction all_examples as [|e rest IH].
  - left. by intros e ?%elem_of_nil.
  - destruct (predictions !! guid e) as [p|] eqn:Hp.
    + destruct IH as [Hall|(e' & He' & Hnone)].
      * left. intros e' [->|He']%elem_of_cons; [by rewrite Hp|by apply Hall].
      * right. exists e'. split; [by apply list_elem_of_further|done].
    + right. exists e. split; [apply list_elem_of_here|done].
Qed.

(** X7.  [calculate_results] raises [KeyError] exactly when the guid of
    some example has no entry in [predictions], and returns otherwise: it
    raises nothing else, and predictions under other keys play no part. *)
Theorem calculate_results_KeyError (all_examples : list example)
    (predictions : gmap string string) kwargs :
  (calculate_results all_examples predictions kwargs = Raise KeyError ↔
     ∃ e, e ∈ all_examples ∧ predictions !! guid e = None) ∧
  (is_ok (calculate_results all_examples predictions kwargs) = true ↔
     ∀ e, e ∈ all_examples → is_Some (predictions !! guid e)).
Proof.
  rewrite calculate_results_tallied.
  destruct (predicted_or_not all_examples predictions) as [Hall|(e & He & Hnone)].
  - destruct (tallied_Ok all_examples predictions Hall) as (t & -> & _). simpl.
    split; split; try done.
    intros (e & He & Hnone). destruct (Hall e He) as [p Hp]. congruence.
  - rewrite (tallied_KeyError _ _ e He Hnone). simpl.
    split; split; try done; [by eauto|].
    intros Hall. destruct (Hall e He) as [p Hp]. congruence.
Qed.

Lemma calculate_results_Ok (all_examples : list example)
    (predictions : gmap string string) kwargs r :
  calculate_results all_examples predictions kwargs = Ok r →
  ∀ e, e ∈ all_examples → is_Some (predictions !! guid e).
Proof.
  rewrite calculate_results_tallied. intros Hrun.
  destruct (predicted_or_not all_examples predictions) as [Hall|(e & He & Hnone)]; [done|].
  by rewrite (tallied_KeyError _ _ e He Hnone) in Hrun.
Qed.

(** X8.  A prediction that is empty once stripped is never counted as
    incorrect, whatever the true answer: since the empty string is a
    substring of every string, its guid goes to [correct_text] (the
    answer is blank too) or to [similar_text].  The same holds for a blank
    true answer. *)
Theorem calculate_results_blank (all_examples : list example)
    (predictions : gmap string string) kwargs result texts
    (q_id answer prediction : string) :
  calculate_results all_examples predictions kwargs = Ok (result, texts) →
  dict_get (truth_dict_of all_examples) q_id = Ok answer →
  predictions !! q_id = Some prediction →
  PyStr.strip prediction = "" ∨ PyStr.strip answer = "" →
  (q_id ∉ (texts_incorrect_text texts).*1) ∧
  (q_id ∈ (texts_correct_text texts).*1 ∨ q_id ∈ (texts_similar_text texts).*1).
Proof.
  intros Hrun Hget Hp Hblank.
  pose proof (calculate_results_Ok _ _ _ _ Hrun) as Hall.
  rewrite calculate_results_tallied in Hrun.
  destruct (tallied_Ok all_examples predictions Hall) as (t & Ht & _ & _ & _ & _ & Hkeys).
  rewrite Ht in Hrun. simpl in Hrun. injection Hrun as _ <-. simpl.
  destruct (truth_dict_keys all_examples) as [Hnodup _].
  assert ((q_id, answer) ∈ truth_dict_of all_examples) as Hin.
  { clear -Hget. induction (truth_dict_of all_examples) as [|[k v] d IH]; [done|].
    simpl in Hget. case_decide; simplify_eq.
    - apply list_elem_of_here.
    - by apply list_elem_of_further, IH. }
  rewrite (Hkeys IsIncorrect), (Hkeys IsCorrect), (Hkeys IsSimilar).
  rewrite !(in_bucket_key predictions _ _ q_id answer Hnodup Hin).
  unfold bucket_of. simpl. rewrite Hp. simpl.
  pose proof (classify_blank prediction answer Hblank).
  destruct (classify prediction answer); [split; [done|by left]|split; [done|by right]|done].
Qed.

Lemma extra_metrics_lookup (ta pa : list string) kwargs
    (m : gmap string (result_value (metric:=metric))) (name : string)
    (f : list string → list string → metric) :
  NoDup kwargs.*1 → (name, f) ∈ kwargs →
  foldl (λ extra_metrics kw, <[kw.1 := Metric (kw.2 ta pa)]> extra_metrics) m kwargs
    !! name = Some (Metric (f ta pa)).
Proof.
  revert m. induction kwargs as [|[name' f'] kwargs IH]; intros m Hnodup Hin.
  - by apply elem_of_nil in Hin.
  - rewrite fmap_cons in Hnodup. apply NoDup_cons in Hnodup as [Hfresh Hnodup].
    simpl. apply elem_of_cons in Hin as [[= -> ->]|Hin]; [|by apply IH].
    simpl in Hfresh. clear IH.
    assert (∀ m' : gmap string (result_value (metric:=metric)),
              m' !! name' = Some (Metric (f' ta pa)) →
              foldl (λ extra_metrics kw, <[kw.1 := Metric (kw.2 ta pa)]> extra_metrics)
                m' kwargs !! name' = Some (Metric (f' ta pa))) as Hkeep.
    { clear Hnodup. induction kwargs as [|[n g] kwargs IH]; intros m' Hm'; [done|].
      rewrite fmap_cons, not_elem_of_cons in Hfresh. destruct Hfresh as [Hne Hfresh].
      simpl. apply IH; [done|]. by rewrite lookup_insert_ne. }
    apply Hkeep. by rewrite lookup_insert_eq.
Qed.

(** X9.  Every function passed in [kwargs] is applied to the true answers
    and the predicted answers of the distinct guids, two lists of equal
    length in the order in which the guids first appear among the
    examples (a guid that appears again keeps its place and takes the
    later answer), and its value is stored under its name in [result];
    a metric named ["correct"], ["similar"] or ["incorrect"] replaces that
    count. *)
Theorem calculate_results_extra_metrics (all_examples : list example)
    (predictions : gmap string string) kwargs (name : string)
    (f : list string → list string → metric) :
  (∀ e, e ∈ all_examples → is_Some (predictions !! guid e)) →
  NoDup kwargs.*1 → (name, f) ∈ kwargs →
  let true_answers := (truth_dict_of all_examples).*2 in
  let predicted_answers := predicted_of predictions <$> (truth_dict_of all_examples).*1 in
  List.length true_answers = distinct_guids all_examples ∧
  List.length predicted_answers = distinct_guids all_examples ∧
  ∃ result texts,
    calculate_results all_examples predictions kwargs = Ok (result, texts) ∧
    result !! name = Some (Metric (f true_answers predicted_answers)).
Proof.
  intros Hall Hnodup Hin ta pa. subst ta pa.
  rewrite !length_fmap, length_truth_dict. split; [done|]. split; [done|].
  rewrite calculate_results_tallied.
  destruct (tallied_Ok all_examples predictions Hall) as (t & Ht & _).
  rewrite Ht. simpl. eexists _, _. split; [reflexivity|].
  apply tally_loop_answers in Ht as (Hta & Hpa & _). simpl in Hta, Hpa.
  rewrite Hta, Hpa. apply lookup_union_Some_l.
  by apply extra_metrics_lookup.
Qed.

End results.

(** A blank prediction for the moon landing, and an accuracy that is
    passed under the name of a count. *)
Definition blank_predictions : gmap string string :=
  {["q1" := " Paris"; "q2" := "Nile"; "q3" := "  "]}.

Definition matches (true_answers predicted_answers : list string) : Z :=
  Z.of_nat (List.length (filter (λ ap, ap.1 = ap.2) (zip true_answers predicted_answers))).

Lemma toy_examples_predicted (e : example) :
  e ∈ toy_examples → is_Some (blank_predictions !! guid e).
Proof.
  intros He. refine (bool_decide_unpack _ _). unfold toy_examples in He.
  repeat (apply elem_of_cons in He as [->|He]; [vm_compute; exact I|]).
  by apply elem_of_nil in He.
Qed.

Lemma calculate_results_blank_witness :
  ∃ result texts,
    calculate_results (metric:=unit) toy_examples blank_predictions [] = Ok (result, texts) ∧
    ("q3" ∉ (texts_incorrect_text texts).*1) ∧
    ("q3" ∈ (texts_correct_text texts).*1 ∨ "q3" ∈ (texts_similar_text texts).*1).
Proof.
  destruct (calculate_results (metric:=unit) toy_examples blank_predictions [])
    as [[result texts]|e] eqn:Hrun; [|vm_compute in Hrun; discriminate].
  exists result, texts. split; [reflexivity|].
  apply (calculate_results_blank toy_examples blank_predictions [] result texts
           "q3" "1969" "  " Hrun); [reflexivity|reflexivity|].
  left. reflexivity.
Defined.

Lemma calculate_results_extra_metrics_witness :
  ∃ result texts,
    calculate_results toy_examples blank_predictions [("correct", matches)]
    = Ok (result, texts) ∧
    result !! "correct" = Some (Metric 0).
Proof.
  destruct (calculate_results_extra_metrics toy_examples blank_predictions
              [("correct", matches)] "correct" matches)
    as (_ & _ & result & texts & Hrun & Hcorrect).
  - exact toy_examples_predicted.
  - apply NoDup_singleton.
  - apply list_elem_of_here.
  - exists result, texts. split; [exact Hrun|]. rewrite Hcorrect. reflexivity.
Defined.

End ResultsMoreFacts.

(** ** [evaluate] and [eval_model] *)

Module EvaluationFacts.

Import Inputs Evaluation.

Lemma py_bind_Ok {E A B} (m : Py E A) (f : A → Py E B) (tr : list E) (b : B) :
  m ≫= f = MkPy tr (Ok b) →
  ∃ tr1 a tr2, m = MkPy tr1 (Ok a) ∧ f a = MkPy tr2 (Ok b) ∧ tr = tr1 ++ tr2.
Proof.
  destruct m as [tr1 [a|e]]; unfold mbind, Py_bind; simpl; [|done].
  destruct (f a) as [tr2 o] eqn:Hf. simpl. intros [= <- ->].
  by exists tr1, a, tr2.
Qed.

Lemma py_lift_Ok {E A} (r : result A) (tr : list E) (a : A) :
  lift r = MkPy tr (Ok a) → r = Ok a ∧ tr = [].
Proof. unfold lift. by intros [= <- ->]. Qed.

Lemma result_bind_Ok {A B} (r : result A) (f : A → result B) (b : B) :
  r ≫= f = Ok b → ∃ a, r = Ok a ∧ f a = Ok b.
Proof. destruct r as [a|e]; [|done]. intros H. by exists a. Qed.

Section facts.

Context {tensor logits nbest scores out_eval tokenizer : Type}.
Variable model_outputs : bool → gmap string tensor → list tensor.
Variable mean_item : tensor → Qc.
Variable to_list_at : tensor → nat → result logits.
Variable items : tensor → list Z.
Variable os_path_join : string → string → string.
Variable model_config : bool → result (Z * Z).
Variable write_predictions :
  write_predictions_args (logits:=logits) → gmap string string * nbest * scores.
Variable write_predictions_extended :
  write_predictions_extended_args (logits:=logits) (tokenizer:=tokenizer)
  → gmap string string * nbest * scores * out_eval.

Abbreviation event := (eval_event (tensor:=tensor) (logits:=logits) (tokenizer:=tokenizer)).
Abbreviation example_loop := (example_loop (tensor:=tensor) to_list_at).
Abbreviation eval_batch := (eval_batch (tokenizer:=tokenizer) model_outputs mean_item
  to_list_at items).
Abbreviation evaluate := (evaluate model_outputs mean_item to_list_at items os_path_join
  model_config write_predictions write_predictions_extended).
Abbreviation eval_model := (eval_model model_outputs mean_item to_list_at items os_path_join
  model_config write_predictions write_predictions_extended).

(** The unique id of the feature that an example index selects. *)
Definition feature_id (features : list feature) (example_index : Z) : Z :=
  match py_list_getitem features example_index with
  | Ok f => unique_id f
  | Raise _ => 0
  end.

(** What one batch adds to [eval_loss], and the unique ids of the results
    it adds to [all_results]. *)
Definition batch_loss (args : Args) (batch : list tensor) : Qc :=
  match evaluate_inputs (model_type args) batch with
  | Ok (inputs, _) =>
      match model_outputs (fp16 args) inputs with
      | loss :: _ => mean_item loss
      | [] => 0%Qc
      end
  | Raise _ => 0%Qc
  end.

Definition batch_ids (args : Args) (features : list feature) (batch : list tensor)
    : list Z :=
  match evaluate_inputs (model_type args) batch with
  | Ok (_, example_indices) => feature_id features <$> items example_indices
  | Raise _ => []
  end.

Definition is_model_call (e : event) : bool :=
  match e with
  | model_call _ _ => true
  | _ => false
  end.

(** The results handed to a writer, and which writer it is. *)
Definition written (e : event) : option (bool * list (raw_result (logits:=logits))) :=
  match e with
  | write_predictions_call a => Some (false, wp_all_results a)
  | write_predictions_extended_call a => Some (true, wpe_all_results a)
  | _ => None
  end.

Lemma example_loop_ids (args : Args) (features : list feature) (outputs : list tensor)
    (es : list Z) (acc res : list raw_result) (i : nat) :
  example_loop args features outputs acc i es = Ok res →
  raw_unique_id <$> res = (raw_unique_id <$> acc) ++ (feature_id features <$> es).
Proof.
  revert acc i. induction es as [|e es IH]; intros acc i.
  - simpl. intros [= ->]. by rewrite app_nil_r.
  - cbn [Evaluation.example_loop].
    intros (acc' & Hstep & Hloop)%result_bind_Ok.
    rewrite (IH _ _ Hloop). rewrite fmap_cons, (cons_middle _ (_ <$> acc)), app_assoc.
    f_equal. unfold example_step in Hstep.
    apply result_bind_Ok in Hstep as (f & Hf & Hstep).
    apply result_bind_Ok in Hstep as (r & Hr & [= <-]).
    rewrite fmap_app. f_equal. simpl. f_equal.
    unfold feature_id. rewrite Hf.
    case_decide.
    + repeat (apply result_bind_Ok in Hr as (? & _ & Hr)). by injection Hr as <-.
    + repeat (apply result_bind_Ok in Hr as (? & _ & Hr)). by injection Hr as <-.
Qed.

Lemma eval_batch_Ok (args : Args) (features : list feature) (st st' : eval_state)
    (batch : list tensor) (tr : list event) :
  eval_batch args features st batch = MkPy tr (Ok st') →
  (∃ inputs, tr = [model_call (fp16 args) inputs]) ∧
  nb_eval_steps st' = nb_eval_steps st + 1 ∧
  eval_loss st' = (eval_loss st + batch_loss args batch)%Qc ∧
  raw_unique_id <$> all_results st'
  = (raw_unique_id <$> all_results st) ++ batch_ids args features batch.
Proof.
  unfold Evaluation.eval_batch, batch_loss, batch_ids.
  intros (tr1 & [inputs idx] & tr2 & [Hin ->]%py_lift_Ok & Hrest & ->)%py_bind_Ok.
  rewrite Hin.
  apply py_bind_Ok in Hrest as (tr1 & [] & tr3 & [= <-] & Hrest & ->).
  apply py_bind_Ok in Hrest as (tr1 & loss & tr4 & [Hloss ->]%py_lift_Ok & Hrest & ->).
  apply py_bind_Ok in Hrest as (tr1 & res & tr5 & [Hres ->]%py_lift_Ok & [= <- <-] & ->).
  simpl. split; [by eexists|]. split; [done|]. split.
  - f_equal. unfold tuple_getitem in Hloss.
    destruct (model_outputs (fp16 args) inputs) as [|o rest]; [done|].
    simpl in Hloss. by injection Hloss as ->.
  - by apply example_loop_ids in Hres.
Qed.

Lemma eval_loop_Ok (args : Args) (features : list feature) (test_dl : list (list tensor))
    (st st' : eval_state) (tr : list event) :
  Trainer.py_fold (eval_batch args features) st test_dl = MkPy tr (Ok st') →
  List.length tr = List.length test_dl ∧ forallb is_model_call tr = true ∧
  nb_eval_steps st' = nb_eval_steps st + Z.of_nat (List.length test_dl) ∧
  eval_loss st' = (eval_loss st + sum_Qc (batch_loss args <$> test_dl))%Qc ∧
  raw_unique_id <$> all_results st'
  = (raw_unique_id <$> all_results st) ++ flat_map (batch_ids args features) test_dl.
Proof.
  revert st tr. induction test_dl as [|batch rest IH]; intros st tr.
  - simpl. intros [= <- <-]. rewrite app_nil_r, Z.add_0_r.
    repeat split. simpl. ring.
  - cbn [Trainer.py_fold].
    intros (tr1 & st1 & tr2 & Hbatch & Hrest & ->)%py_bind_Ok.
    apply eval_batch_Ok in Hbatch as ([inputs ->] & Hnb & Hloss & Hids).
    apply IH in Hrest as (Hlen & Hcalls & Hnb' & Hloss' & Hids').
    split; [simpl; by rewrite Hlen|]. split; [done|].
    split; [rewrite Hnb', Hnb; cbn [List.length]; lia|].
    split.
    + rewrite Hloss', Hloss, fmap_cons. simpl. ring.
    + rewrite Hids', Hids. simpl. by rewrite app_assoc.
Qed.

(** X10.  [evaluate] divides the summed loss by the number of batches: on
    an empty [self.test_dl] it raises [ZeroDivisionError] after
    [model.eval()], before the output directory is made or anything is
    written.  When it returns, [self.test_dl] was not empty; the model was
    called once per batch; the loss returned is the mean over the batches of
    [outputs[0].mean().item()]; the predictions are those of the writer,
    which is called once, last, after [os.makedirs(output_dir)], on one raw
    result per example index of every batch, in order, each with the
    unique id of the feature at that index; and the writer is
    [write_predictions_extended] exactly for the model types xlnet and
    xlm. *)
Theorem evaluate_spec (args : Args) (self_tokenizer : tokenizer)
    (examples : list Trainer.example) (features : list feature)
    (test_dl : list (list tensor)) (output_dir : string) (verbose_logging : bool) :
  (test_dl = [] →
     evaluate args self_tokenizer examples features test_dl output_dir verbose_logging
     = MkPy (model_eval :: if bool_decide (n_gpu args > 1) then [DataParallel] else [])
         (Raise ZeroDivisionError)) ∧
  (∀ tr all_predictions all_nbest_json scores_diff_json eval_loss,
     evaluate args self_tokenizer examples features test_dl output_dir verbose_logging
     = MkPy tr (Ok (all_predictions, all_nbest_json, scores_diff_json, eval_loss)) →
     test_dl ≠ [] ∧
     eval_loss = (sum_Qc (batch_loss args <$> test_dl) /
                  Q2Qc (inject_Z (Z.of_nat (List.length test_dl))))%Qc ∧
     ∃ calls w results,
       tr = (model_eval :: if bool_decide (n_gpu args > 1) then [DataParallel] else [])
            ++ calls ++ [os_makedirs output_dir; w] ∧
       List.length calls = List.length test_dl ∧ forallb is_model_call calls = true ∧
       written w = Some (bool_decide (model_type args ∈ with_cls_index), results) ∧
       raw_unique_id <$> results = flat_map (batch_ids args features) test_dl ∧
       (model_type args ∉ with_cls_index →
          ∃ a, w = write_predictions_call a ∧
               (all_predictions, all_nbest_json, scores_diff_json) = write_predictions a)).
Proof.
  split.
  - intros ->. unfold Evaluation.evaluate, py_when.
    destruct (bool_decide (n_gpu args > 1)); reflexivity.
  - intros tr preds nb sc loss. unfold Evaluation.evaluate.
    intros (tr1 & [] & tr2 & [= <-] & Hrun & ->)%py_bind_Ok.
    apply py_bind_Ok in Hrun as (tr1 & [] & tr3 & Hdp & Hrun & ->).
    assert (tr1 = if bool_decide (n_gpu args > 1) then [DataParallel] else []) as ->.
    { unfold py_when in Hdp. destruct (bool_decide (n_gpu args > 1)); by injection Hdp. }
    apply py_bind_Ok in Hrun as (calls & st & tr4 & Hloop & Hrun & ->).
    apply eval_loop_Ok in Hloop as (Hlen & Hcalls & Hnb & Hloss & Hids).
    simpl in Hnb, Hloss, Hids. rewrite Qcplus_0_l in Hloss.
    apply py_bind_Ok in Hrun as (tr1 & loss' & tr5 & Hdiv & Hrun & ->).
    destruct (decide (nb_eval_steps st = 0)) as [Hz|Hnz]; [done|].
    injection Hdiv as <- <-.
    apply py_bind_Ok in Hrun as (tr1 & [] & tr6 & [= <-] & Hrun & ->).
    split; [intros ->; simpl in Hnb; lia|].
    split.
    { assert (loss = (eval_loss st / Q2Qc (inject_Z (nb_eval_steps st)))%Qc) as ->.
      { case_decide.
        - apply py_bind_Ok in Hrun as (? & [? ?] & ? & _ & Hrun & _).
          apply py_bind_Ok in Hrun as (? & [] & ? & _ & Hrun & _).
          destruct (write_predictions_extended _) as [[[? ?] ?] ?].
          by injection Hrun as _ _ _ <-.
        - apply py_bind_Ok in Hrun as (? & [] & ? & _ & Hrun & _).
          destruct (write_predictions _) as [[? ?] ?].
          by injection Hrun as _ _ _ <-. }
      by rewrite Hloss, Hnb. }
    case_decide as Hmt.
    + apply py_bind_Ok in Hrun as (tr1 & [s e] & tr7 & [_ ->]%py_lift_Ok & Hrun & ->).
      apply py_bind_Ok in Hrun as (tr1 & [] & tr8 & [= <-] & Hrun & ->).
      destruct (write_predictions_extended _) as [[[? ?] ?] ?] eqn:Hw.
      injection Hrun as <- _ _ _.
      eexists calls, _, _. split; [simpl; by rewrite ?app_nil_r|].
      split; [done|]. split; [done|].
      split; [simpl; by rewrite bool_decide_eq_true_2|].
      split; [done|]. done.
    + apply py_bind_Ok in Hrun as (tr1 & [] & tr8 & [= <-] & Hrun & ->).
      destruct (write_predictions _) as [[? ?] ?] eqn:Hw.
      injection Hrun as <- <- <- <- _.
      eexists calls, _, _. split; [simpl; by rewrite ?app_nil_r|].
      split; [done|]. split; [done|].
      split; [simpl; by rewrite bool_decide_eq_false_2|].
      split; [done|]. intros _. eexists. split; [reflexivity|]. by rewrite Hw.
Qed.

Lemma elem_of_result_keys (k : string) :
  k ∈ ({["correct"; "similar"; "incorrect"; "eval_loss"]} : gset string) ↔
  k ∈ ["correct"; "similar"; "incorrect"; "eval_loss"].
Proof.
  rewrite !elem_of_union, !elem_of_singleton, !elem_of_cons, elem_of_nil. tauto.
Qed.

(** X11.  [eval_model] evaluates, then scores the predictions that were
    written: when the writer's predictions lack the guid of some example it
    raises [KeyError], after the files were written; otherwise it returns
    the dictionary with exactly the keys ["correct"], ["similar"],
    ["incorrect"] and ["eval_loss"], the three counts adding up to the
    number of distinct guids, together with the predictions and the
    incorrect texts, one per incorrect count; and [self.results] takes the
    four new values and keeps its other entries. *)
Theorem eval_model_spec (args : Args) (self_tokenizer : tokenizer)
    (examples : list Trainer.example) (features : list feature)
    (test_dl : list (list tensor)) (self_results : gmap string (Trainer.result_value (metric:=Qc)))
    (tr : list event) (all_predictions : gmap string string) (all_nbest_json : nbest)
    (scores_diff_json : scores) (eval_loss : Qc) :
  evaluate args self_tokenizer examples features test_dl (output_dir args) false
  = MkPy tr (Ok (all_predictions, all_nbest_json, scores_diff_json, eval_loss)) →
  ((∃ e, e ∈ examples ∧ all_predictions !! Trainer.guid e = None) →
     eval_model args self_tokenizer examples features test_dl self_results
     = MkPy (model_to_device :: tr) (Raise KeyError)) ∧
  ((∀ e, e ∈ examples → is_Some (all_predictions !! Trainer.guid e)) →
     ∃ result incorrect_text c s i,
       eval_model args self_tokenizer examples features test_dl self_results
       = MkPy (model_to_device :: tr)
           (Ok (result ∪ self_results, (result, all_predictions, incorrect_text))) ∧
       dom result = {["correct"; "similar"; "incorrect"; "eval_loss"]} ∧
       result !! "correct" = Some (Trainer.Count c) ∧
       result !! "similar" = Some (Trainer.Count s) ∧
       result !! "incorrect" = Some (Trainer.Count i) ∧
       result !! "eval_loss" = Some (Trainer.Metric eval_loss) ∧
       c + s + i = Z.of_nat (ResultsFacts.distinct_guids examples) ∧
       i = Z.of_nat (List.length incorrect_text) ∧
       ∀ k, (result ∪ self_results) !! k
            = if decide (k ∈ ["correct"; "similar"; "incorrect"; "eval_loss"])
              then result !! k else self_results !! k).
Proof.
  intros Hev. unfold Evaluation.eval_model. rewrite Hev.
  cbn [mbind Py_bind emit trace outcome app].
  rewrite ResultsMoreFacts.calculate_results_tallied.
  split.
  - intros (e & He & Hnone).
    rewrite (ResultsMoreFacts.tallied_KeyError _ _ e He Hnone). simpl.
    by rewrite app_nil_r.
  - intros Hall.
    destruct (ResultsMoreFacts.tallied_Ok examples all_predictions Hall)
      as (t & -> & Hsum & _ & _ & Hi & _).
    cbn. rewrite !app_nil_r.
    set (result := <["eval_loss" := _]> _).
    assert (dom result = {["correct"; "similar"; "incorrect"; "eval_loss"]}) as Hdom.
    { subst result.
      rewrite dom_insert_L, dom_union_L, dom_empty_L, !dom_insert_L, dom_singleton_L.
      set_solver. }
    exists result, (Trainer.incorrect_text t), (Trainer.correct t), (Trainer.similar t),
      (Trainer.incorrect t).
    split; [done|]. split; [done|].
    split; [subst result; by simplify_map_eq|].
    split; [subst result; by simplify_map_eq|].
    split; [subst result; by simplify_map_eq|].
    split; [subst result; by simplify_map_eq|].
    split; [done|]. split; [done|].
    intros k. case_decide as Hk.
    + assert (is_Some (result !! k)) as [v Hv].
      { apply elem_of_dom. rewrite Hdom. by apply elem_of_result_keys. }
      rewrite Hv. by apply lookup_union_Some_l.
    + apply lookup_union_r. apply not_elem_of_dom. rewrite Hdom.
      by rewrite elem_of_result_keys.
Qed.

End facts.

(** An evaluation loader of two batches over three features.  A tensor
    is the list of its integer entries; the model answers with two tensors
    whatever it is given. *)
Definition toy_eval_args (mt : string) : Args :=
  {| output_dir := "/tmp/squad_1.1"; model_type := mt; n_gpu := 1; fp16 := false;
     n_best_size := 20; max_answer_length := 100; do_lower_case := false;
     null_score_diff_threshold := 0%Qc |}.

Definition toy_features : list feature :=
  [{| unique_id := 1000 |}; {| unique_id := 1001 |}; {| unique_id := 1002 |}].

Definition toy_test_dl : list (list (list Z)) :=
  [[[7]; [101; 102]; [1; 1]; [0; 0]; [0; 1]];
   [[8]; [103]; [1]; [0]; [2]]].

Definition toy_to_list_at (t : list Z) (i : nat) : result Z :=
  match t !! i with
  | Some z => Ok z
  | None => Raise IndexError
  end.

Definition toy_writer (a : write_predictions_args (logits:=Z))
    : gmap string string * unit * unit :=
  ({["q1" := " Paris"; "q2" := "Nile"; "q3" := "1972"]}, (), ()).

Definition toy_writer_extended
    (a : write_predictions_extended_args (logits:=Z) (tokenizer:=unit))
    : gmap string string * unit * unit * unit :=
  (∅, (), (), ()).

Definition toy_model_outputs (autocast : bool) (inputs : gmap string (list Z))
    : list (list Z) :=
  [[5; 6; 7]; [8; 9; 10]].

Definition toy_mean_item (t : list Z) : Qc := Q2Qc (3 # 2).

Definition toy_path_join (d f : string) : string := d +:+ "/" +:+ f.

Definition toy_model_config (wrapped : bool) : result (Z * Z) := Ok (5, 5).

Definition toy_evaluate (mt : string) (test_dl : list (list (list Z))) :=
  evaluate toy_model_outputs toy_mean_item toy_to_list_at id toy_path_join
    toy_model_config toy_writer toy_writer_extended
    (toy_eval_args mt) () ResultsFacts.toy_examples toy_features test_dl
    "/tmp/squad_1.1" false.

Definition toy_eval_model (mt : string) (test_dl : list (list (list Z))) :=
  eval_model toy_model_outputs toy_mean_item toy_to_list_at id toy_path_join
    toy_model_config toy_writer toy_writer_extended
    (toy_eval_args mt) () ResultsFacts.toy_examples toy_features test_dl.

Example toy_evaluate_loss :
  (λ r, r.2) <$> (match outcome (toy_evaluate "distilbert" toy_test_dl) with
                  | Ok r => Some r
                  | Raise _ => None
                  end)
  = Some (Q2Qc (3 # 2)).
Proof. vm_compute. reflexivity. Qed.

(** Two batches with the example indices 0, 1 and 2: three raw results,
    with the unique ids of the three features; no batch: no division. *)
Lemma evaluate_spec_witness :
  outcome (toy_evaluate "distilbert" []) = Raise ZeroDivisionError ∧
  ∃ w results,
    last (trace (toy_evaluate "distilbert" toy_test_dl)) = Some w ∧
    written w = Some (false, results) ∧
    raw_unique_id <$> results = [1000; 1001; 1002].
Proof.
  split.
  - unfold toy_evaluate.
    rewrite (proj1 (evaluate_spec toy_model_outputs toy_mean_item toy_to_list_at id
                      toy_path_join toy_model_config toy_writer toy_writer_extended
                      (toy_eval_args "distilbert") () ResultsFacts.toy_examples
                      toy_features [] "/tmp/squad_1.1" false)); reflexivity.
  - assert (is_ok (outcome (toy_evaluate "distilbert" toy_test_dl)) = true)
      as Hout by (vm_compute; reflexivity).
    destruct (toy_evaluate "distilbert" toy_test_dl) as [tr [[[[preds nb] sc] loss]|e]] eqn:Hrun;
      [|discriminate Hout].
    unfold toy_evaluate in Hrun.
    destruct (proj2 (evaluate_spec toy_model_outputs toy_mean_item toy_to_list_at id
                       toy_path_join toy_model_config toy_writer toy_writer_extended
                       (toy_eval_args "distilbert") () ResultsFacts.toy_examples
                       toy_features toy_test_dl "/tmp/squad_1.1" false) _ _ _ _ _ Hrun)
      as (_ & _ & calls & w & results & -> & _ & _ & Hw & Hids & _).
    exists w, results. split; [|split].
    + cbn [trace]. rewrite (cons_middle (os_makedirs _)), !app_assoc. apply last_snoc.
    + exact Hw.
    + rewrite Hids. reflexivity.
Defined.

(** The writer's predictions cover the three guids: one answer of each
    kind, and the loss is stored beside the counts. *)
Lemma eval_model_spec_witness :
  ∃ result incorrect_text c s i,
    outcome (toy_eval_model "distilbert" toy_test_dl {["train_loss" := Trainer.Metric 1%Qc]})
    = Ok (result ∪ {["train_loss" := Trainer.Metric 1%Qc]},
          (result, {["q1" := " Paris"; "q2" := "Nile"; "q3" := "1972"]}, incorrect_text)) ∧
    result !! "eval_loss" = Some (Trainer.Metric (Q2Qc (3 # 2))) ∧
    result !! "correct" = Some (Trainer.Count c) ∧
    result !! "similar" = Some (Trainer.Count s) ∧
    result !! "incorrect" = Some (Trainer.Count i) ∧
    c + s + i = 3.
Proof.
  assert (outcome (toy_evaluate "distilbert" toy_test_dl)
          = Ok ({["q1" := " Paris"; "q2" := "Nile"; "q3" := "1972"]}, (), (), Q2Qc (3 # 2)))
    as Hout by (vm_compute; reflexivity).
  destruct (toy_evaluate "distilbert" toy_test_dl) as [tr o] eqn:Hrun.
  cbn [outcome] in Hout. subst o.
  unfold toy_evaluate in Hrun.
  destruct (proj2 (eval_model_spec toy_model_outputs toy_mean_item toy_to_list_at id
                     toy_path_join toy_model_config toy_writer toy_writer_extended
                     (toy_eval_args "distilbert") () ResultsFacts.toy_examples
                     toy_features toy_test_dl {["train_loss" := Trainer.Metric 1%Qc]}
                     _ _ _ _ _ Hrun))
    as (result & incorrect_text & c & s & i & Hmodel & _ & Hc & Hs & Hi & Hloss & Hsum & _).
  - intros e He. refine (bool_decide_unpack _ _).
    unfold ResultsFacts.toy_examples in He.
    repeat (apply elem_of_cons in He as [->|He]; [vm_compute; exact I|]).
    by apply elem_of_nil in He.
  - exists result, incorrect_text, c, s, i. unfold toy_eval_model. rewrite Hmodel.
    split; [reflexivity|]. split; [exact Hloss|]. split; [exact Hc|].
    split; [exact Hs|]. split; [exact Hi|]. rewrite Hsum. reflexivity.
Defined.

End EvaluationFacts.

(** ** More about the optimizer grouping *)

Module GroupingMoreFacts.

Import Trainer GroupingFacts.

(** *** The groups, one by one *)

(** The group that a custom group dictionary becomes. *)
Definition custom_param_group (named : list (string * nat)) (group : custom_group)
    : param_group :=
  ParamGroup (filter (λ np : string * nat, np.1 ∈ cg_params group) named).*2
    (cg_options group).

Lemma custom_groups_groups (named : list (string * nat)) (groups : list custom_group)
    (st : grouping) :
  optimizer_grouped_parameters (foldl (custom_group_step named) st groups)
  = optimizer_grouped_parameters st ++ (custom_param_group named <$> groups).
Proof.
  revert st. induction groups as [|group rest IH]; intros st.
  - simpl. by rewrite app_nil_r.
  - simpl. rewrite IH. simpl. by rewrite <-app_assoc.
Qed.

(** The options of the two groups of a layer group. *)
Definition layer_options (group : layer_group) : list (gmap string Qc) :=
  [lg_options group; <["weight_decay" := 0%Qc]> (lg_options group)].

Lemma layer_groups_groups (named : list (string * nat)) (groups : list layer_group)
    (st : grouping) :
  ∃ new, optimizer_grouped_parameters (foldl (layer_group_step named) st groups)
         = optimizer_grouped_parameters st ++ new ∧
         pg_options <$> new = flat_map layer_options groups.
Proof.
  revert st. induction groups as [|group rest IH]; intros st.
  - exists []. simpl. by rewrite app_nil_r.
  - simpl. destruct (IH (layer_group_step named st group)) as (new & -> & Hnew).
    eexists (_ :: _ :: new). split.
    + unfold layer_group_step. cbn [optimizer_grouped_parameters].
      rewrite <-app_assoc. reflexivity.
    + rewrite !fmap_cons, Hnew. reflexivity.
Qed.

Lemma length_layer_options (groups : list layer_group) :
  List.length (flat_map layer_options groups) = (2 * List.length groups)%nat.
Proof.
  induction groups as [|g gs IH]; [done|].
  cbn [flat_map layer_options app List.length]. rewrite IH. lia.
Qed.

(** The options of the groups that lines 105-125 add. *)
Definition default_options (args : Args) : list (gmap string Qc) :=
  if train_custom_parameters_only args then []
  else [{["weight_decay" := weight_decay args]}; {["weight_decay" := 0%Qc]}].

Lemma group_parameters_groups (named : list (string * nat)) (args : Args) :
  ∃ rest, optimizer_grouped_parameters (group_parameters named args)
          = (custom_param_group named <$> custom_parameter_groups args) ++ rest ∧
          pg_options <$> rest
          = flat_map layer_options (custom_layer_parameters args) ++ default_options args.
Proof.
  unfold group_parameters, default_options. cbv zeta.
  destruct (layer_groups_groups named (custom_layer_parameters args)
              (foldl (custom_group_step named) (Grouping [] ∅) (custom_parameter_groups args)))
    as (new & Hgroups & Hnew).
  rewrite custom_groups_groups in Hgroups. simpl in Hgroups.
  destruct (train_custom_parameters_only args).
  - exists new. rewrite Hgroups. split; [done|]. by rewrite app_nil_r.
  - eexists (new ++ _). cbn [optimizer_grouped_parameters].
    rewrite Hgroups, <-app_assoc. split; [reflexivity|].
    by rewrite fmap_app, Hnew.
Qed.

(** X12.  [optimizer_grouped_parameters] lists one group per custom group,
    in order, then two groups per layer group, then (unless
    [train_custom_parameters_only]) the two default groups.  The group of
    a custom group holds every model parameter the group names, whatever
    the other groups say, and carries the group's other keys; a layer
    group gives a group with its options and one with the same options but
    ["weight_decay"] set to 0.0. *)
Theorem group_parameters_layout (named : list (string * nat)) (args : Args) :
  let groups := optimizer_grouped_parameters (group_parameters named args) in
  (∀ i group, custom_parameter_groups args !! i = Some group →
     groups !! i = Some (custom_param_group named group)) ∧
  pg_options <$> groups
  = (cg_options <$> custom_parameter_groups args) ++
    flat_map layer_options (custom_layer_parameters args) ++ default_options args ∧
  List.length groups
  = (List.length (custom_parameter_groups args) +
     2 * List.length (custom_layer_parameters args) +
     (if train_custom_parameters_only args then 0 else 2))%nat.
Proof.
  intros groups. subst groups.
  destruct (group_parameters_groups named args) as (rest & -> & Hrest).
  assert (pg_options <$> (custom_param_group named <$> custom_parameter_groups args) ++ rest
          = (cg_options <$> custom_parameter_groups args) ++
            flat_map layer_options (custom_layer_parameters args) ++ default_options args)
    as Hoptions.
  { rewrite fmap_app, Hrest, <-list_fmap_compose. done. }
  split; [|split; [done|]].
  - intros i group Hi. rewrite lookup_app_l.
    + by rewrite list_lookup_fmap, Hi.
    + rewrite length_fmap. by eapply lookup_lt_Some.
  - rewrite <-(length_fmap pg_options), Hoptions, !length_app, length_fmap.
    rewrite length_layer_options.
    unfold default_options. destruct (train_custom_parameters_only args); simpl; lia.
Qed.

(** X13.  A name that two custom groups list puts its parameter in two
    groups of [optimizer_grouped_parameters]: the custom groups have to be
    disjoint for the groups to be a partition. *)
Theorem group_parameters_overlap (named : list (string * nat)) (args : Args)
    (i j : nat) (group1 group2 : custom_group) (n : string) (p : nat) :
  i ≠ j →
  custom_parameter_groups args !! i = Some group1 →
  custom_parameter_groups args !! j = Some group2 →
  n ∈ cg_params group1 → n ∈ cg_params group2 → (n, p) ∈ named →
  ∃ g1 g2,
    optimizer_grouped_parameters (group_parameters named args) !! i = Some g1 ∧
    optimizer_grouped_parameters (group_parameters named args) !! j = Some g2 ∧
    p ∈ pg_params g1 ∧ p ∈ pg_params g2.
Proof.
  intros _ Hi Hj Hn1 Hn2 Hin.
  destruct (group_parameters_groups named args) as (rest & -> & _).
  assert (∀ k group, custom_parameter_groups args !! k = Some group → n ∈ cg_params group →
            ∃ g, ((custom_param_group named <$> custom_parameter_groups args) ++ rest) !! k
                 = Some g ∧ p ∈ pg_params g) as Hgroup.
  { intros k group Hk Hn. exists (custom_param_group named group). split.
    - rewrite lookup_app_l.
      + by rewrite list_lookup_fmap, Hk.
      + rewrite length_fmap. by eapply lookup_lt_Some.
    - simpl. apply list_elem_of_fmap. exists (n, p). split; [done|].
      by apply list_elem_of_filter. }
  destruct (Hgroup i group1 Hi Hn1) as (g1 & Hg1 & Hp1).
  destruct (Hgroup j group2 Hj Hn2) as (g2 & Hg2 & Hp2).
  by exists g1, g2.
Qed.

(** *** Training the custom parameters only *)

Lemma layer_groups_names (named : list (string * nat)) (groups : list layer_group)
    (st : grouping) (n : string) :
  NoDup named.*1 →
  n ∈ custom_parameter_names (foldl (layer_group_step named) st groups) ↔
  n ∈ custom_parameter_names st ∨
  ∃ group p, group ∈ groups ∧ (n, p) ∈ named ∧
             PyStr.contains (layer_pattern (lg_layer group)) n.
Proof.
  intros Hnodup. revert st. induction groups as [|group rest IH]; intros st.
  - simpl. split; [by left|]. intros [?|(g & p & []%elem_of_nil & _)]. done.
  - simpl. rewrite IH.
    destruct (layer_group_step_spec named Hnodup st group) as [_ Hnames].
    cbv zeta in Hnames. rewrite Hnames. unfold matched. simpl. split.
    + intros [[?|(p & Hin & _ & Hc)]|(g & p & Hg & Hin & Hc)].
      * by left.
      * right. exists group, p. split; [apply list_elem_of_here|done].
      * right. exists g, p. split; [by apply list_elem_of_further|done].
    + intros [?|(g & p & [->|Hg]%elem_of_cons & Hin & Hc)].
      * by left; left.
      * destruct (decide (n ∈ custom_parameter_names st)); [by left; left|].
        left. right. by exists p.
      * right. by exists g, p.
Qed.

(** A parameter that the two loops look for: a custom group names it or its
    name contains the pattern of a layer group. *)
Definition selected (args : Args) (n : string) : Prop :=
  is_custom args n ∨
  ∃ group, group ∈ custom_layer_parameters args ∧
           PyStr.contains (layer_pattern (lg_layer group)) n.

(** X14.  With [train_custom_parameters_only] the groups hold the
    parameters that a custom group names or whose name contains
    ["layer.<number>."] for a layer group, each once, and no other
    parameter of the model: the rest is left out of the list
    [optimizer_grouped_parameters] that [train_model] computes.  (The
    optimizer itself is built from [model.parameters()], whatever this
    list holds.) *)
Theorem group_parameters_custom_only (named : list (string * nat)) (args : Args) :
  NoDup named.*1 → NoDup named.*2 →
  train_custom_parameters_only args = true →
  pairwise_disjoint (custom_parameter_groups args) →
  let groups := optimizer_grouped_parameters (group_parameters named args) in
  NoDup (placed groups) ∧
  ∀ n p, (n, p) ∈ named → p ∈ placed groups ↔ selected args n.
Proof.
  intros Hnames Hparams Honly Hdisj groups. subst groups.
  unfold group_parameters. rewrite Honly. cbv zeta.
  set (st1 := foldl (custom_group_step named) (Grouping [] ∅) (custom_parameter_groups args)).
  set (st2 := foldl (layer_group_step named) st1 (custom_layer_parameters args)).
  destruct (custom_groups_spec named (custom_parameter_groups args) (Grouping [] ∅))
    as [Hinv1 Hnames1]; [done| |by rewrite taken_empty|].
  { intros group n _ _. apply not_elem_of_empty. }
  fold st1 in Hinv1, Hnames1.
  pose proof (layer_groups_taken named Hnames (custom_layer_parameters args) st1 Hinv1)
    as Hinv2.
  fold st2 in Hinv2.
  assert (NoDup (taken named (custom_parameter_names st2))) as Htaken.
  { unfold taken. apply (sublist_NoDup _ named.*2); [done|].
    apply fmap_sublist, sublist_filter. }
  split; [by rewrite Hinv2|].
  intros n p Hin. rewrite Hinv2. unfold taken. rewrite list_elem_of_fmap.
  assert (n ∈ custom_parameter_names st2 ↔ selected args n) as Hsel.
  { unfold st2. rewrite (layer_groups_names named _ _ _ Hnames), Hnames1.
    unfold selected, is_custom. split.
    - intros [[[]%not_elem_of_empty|?]|(g & p' & Hg & _ & Hc)]; [by left|right; eauto].
    - intros [?|(g & Hg & Hc)]; [by left; right|]. right. by exists g, p. }
  rewrite <-Hsel. split.
  - intros ([n' p'] & -> & [Hn' Hin']%list_elem_of_filter). simpl in *.
    assert (n' = n) as ->; [|done].
    assert (∀ l : list (string * nat), NoDup l.*2 → (n, p') ∈ l → (n', p') ∈ l → n' = n)
      as Huniq; [|by apply (Huniq named)].
    clear. intros l Hl H1 H2.
    apply list_elem_of_lookup in H1 as [i Hi]. apply list_elem_of_lookup in H2 as [j Hj].
    assert (i = j) as ->; [|congruence].
    eapply (NoDup_lookup l.*2 i j p'); [done|by rewrite list_lookup_fmap, Hi..|].
    by rewrite list_lookup_fmap, Hj.
  - intros Hn. exists (n, p). split; [done|]. by apply list_elem_of_filter.
Qed.

(** *** What [train_model] does to the dictionaries of [args] *)

Lemma custom_groups_loop_fresh (named : list (string * nat)) (groups : list custom_group)
    (st : grouping) :
  GroupDicts.custom_groups_loop named st (GroupDicts.custom_group_dict_of <$> groups)
  = GroupDicts.Consumed
      ((λ g, GroupDicts.CustomGroupDict None (cg_options g)) <$> groups)
      (Ok (foldl (custom_group_step named) st groups)).
Proof.
  revert st. induction groups as [|[params options] rest IH]; intros st; [done|].
  simpl. by rewrite IH.
Qed.

Lemma layer_groups_loop_fresh (named : list (string * nat)) (groups : list layer_group)
    (st : grouping) :
  GroupDicts.layer_groups_loop named st (GroupDicts.layer_group_dict_of <$> groups)
  = GroupDicts.Consumed
      ((λ g, GroupDicts.LayerGroupDict None (lg_options g)) <$> groups)
      (Ok (foldl (layer_group_step named) st groups)).
Proof.
  revert st. induction groups as [|[layer options] rest IH]; intros st; [done|].
  simpl. by rewrite IH.
Qed.

(** X15.  The grouping of [train_model] uses up its configuration.  On
    the dictionaries as configured the loops build the groups of lines
    73-125, and they leave every dictionary of
    [args.custom_parameter_groups] without ["params"] and every dictionary
    of [args.custom_layer_parameters] without ["layer"] (the other keys
    stay).  A second call of [train_model] on the same [args] with a
    custom group or a layer group therefore raises [KeyError] at the first
    [pop]. *)
Theorem group_parameters_consumes (named : list (string * nat)) (args : Args) :
  let customs := GroupDicts.custom_group_dict_of <$> custom_parameter_groups args in
  let layers := GroupDicts.layer_group_dict_of <$> custom_layer_parameters args in
  ∃ customs' layers',
    GroupDicts.group_parameters named args customs layers
    = (customs', layers', Ok (group_parameters named args)) ∧
    GroupDicts.cgd_params <$> customs' = (λ _, None) <$> custom_parameter_groups args ∧
    GroupDicts.cgd_options <$> customs' = cg_options <$> custom_parameter_groups args ∧
    GroupDicts.lgd_layer <$> layers' = (λ _, None) <$> custom_layer_parameters args ∧
    GroupDicts.lgd_options <$> layers' = lg_options <$> custom_layer_parameters args ∧
    (custom_parameter_groups args ≠ [] ∨ custom_layer_parameters args ≠ [] →
       (GroupDicts.group_parameters named args customs' layers').2 = Raise KeyError).
Proof.
  intros customs layers. subst customs layers.
  unfold GroupDicts.group_parameters.
  rewrite custom_groups_loop_fresh. cbn [GroupDicts.loop_result GroupDicts.dicts_after].
  rewrite layer_groups_loop_fresh. cbn [GroupDicts.loop_result GroupDicts.dicts_after].
  eexists _, _. split; [reflexivity|].
  rewrite <-!list_fmap_compose.
  split; [done|]. split; [done|]. split; [done|]. split; [done|].
  intros Hsome.
  destruct (custom_parameter_groups args) as [|group groups]; simpl; [|done].
  destruct (custom_layer_parameters args) as [|layer layers]; simpl; [|done].
  by destruct Hsome.
Qed.

(** The example of the grouping, with the span head's bias named by a
    second custom group too. *)
Definition overlapping_args : Args :=
  {| custom_parameter_groups :=
       [{| cg_params := ["qa_outputs.bias"];
           cg_options := {["lr" := Q2Qc (1 # 1000)]} |};
        {| cg_params := ["qa_outputs.weight"; "qa_outputs.bias"];
           cg_options := {["lr" := Q2Qc (1 # 100)]} |}];
     custom_layer_parameters :=
       [{| lg_layer := 0; lg_options := {["weight_decay" := Q2Qc (5 # 100)]} |}];
     train_custom_parameters_only := true;
     weight_decay := Q2Qc (1 # 100);
     learning_rate := Q2Qc (4 # 100000);
     adam_epsilon := Q2Qc (1 # 100000000);
     warmup_ratio := Q2Qc (6 # 100); warmup_steps := 0;
     max_grad_norm := 1%Qc;
     gradient_accumulation_steps := 1;
     num_train_epochs := 1; n_gpu := 1; fp16 := false;
     evaluate_during_training := false; evaluate_during_training_steps := 2000;
     model_type := "distilbert" |}.

(** The example of the grouping, training the custom parameters only. *)
Definition custom_only_args : Args :=
  {| custom_parameter_groups :=
       [{| cg_params := ["qa_outputs.bias"];
           cg_options := {["lr" := Q2Qc (1 # 1000)]} |}];
     custom_layer_parameters :=
       [{| lg_layer := 0; lg_options := {["weight_decay" := Q2Qc (5 # 100)]} |}];
     train_custom_parameters_only := true;
     weight_decay := Q2Qc (1 # 100);
     learning_rate := Q2Qc (4 # 100000);
     adam_epsilon := Q2Qc (1 # 100000000);
     warmup_ratio := Q2Qc (6 # 100); warmup_steps := 0;
     max_grad_norm := 1%Qc;
     gradient_accumulation_steps := 1;
     num_train_epochs := 1; n_gpu := 1; fp16 := false;
     evaluate_during_training := false; evaluate_during_training_steps := 2000;
     model_type := "distilbert" |}.

Example custom_only_groups :
  pg_params <$> optimizer_grouped_parameters (group_parameters example_model custom_only_args)
  = [[4%nat]; [1%nat]; [0%nat]].
Proof. vm_compute. reflexivity. Qed.

Lemma group_parameters_overlap_witness :
  ∃ g1 g2,
    optimizer_grouped_parameters (group_parameters example_model overlapping_args) !! 0%nat
    = Some g1 ∧
    optimizer_grouped_parameters (group_parameters example_model overlapping_args) !! 1%nat
    = Some g2 ∧
    4%nat ∈ pg_params g1 ∧ 4%nat ∈ pg_params g2.
Proof.
  eapply (group_parameters_overlap example_model overlapping_args 0 1 _ _ "qa_outputs.bias").
  - discriminate.
  - reflexivity.
  - reflexivity.
  - apply list_elem_of_here.
  - apply list_elem_of_further, list_elem_of_here.
  - do 4 apply list_elem_of_further. apply list_elem_of_here.
Defined.

(** The span head's weight is left out, the layer norm of layer 1 too. *)
Lemma group_parameters_custom_only_witness :
  4%nat ∈ placed (optimizer_grouped_parameters (group_parameters example_model custom_only_args)) ∧
  3%nat ∉ placed (optimizer_grouped_parameters (group_parameters example_model custom_only_args)).
Proof.
  destruct (group_parameters_custom_only example_model custom_only_args) as [_ Hsel].
  - refine (bool_decide_unpack _ _). vm_compute. exact I.
  - refine (bool_decide_unpack _ _). vm_compute. exact I.
  - reflexivity.
  - simpl. split; [|exact I]. intros group' n Hin. by apply elem_of_nil in Hin.
  - split.
    + apply (Hsel "qa_outputs.bias").
      * do 4 apply list_elem_of_further. apply list_elem_of_here.
      * left. eexists. split; [apply list_elem_of_here|apply list_elem_of_here].
    + rewrite (Hsel "qa_outputs.weight");
        [|do 3 apply list_elem_of_further; apply list_elem_of_here].
      intros [(group & Hgroup & Hn)|(group & Hgroup & Hc)].
      * simpl in Hgroup. apply list_elem_of_singleton in Hgroup as ->. simpl in Hn.
        apply list_elem_of_singleton in Hn. discriminate Hn.
      * simpl in Hgroup. apply list_elem_of_singleton in Hgroup as ->.
        vm_compute in Hc. exact Hc.
Defined.

(** After one call the second call fails. *)
Lemma group_parameters_consumes_witness :
  ∃ customs' layers',
    GroupDicts.group_parameters example_model custom_only_args
      (GroupDicts.custom_group_dict_of <$> custom_parameter_groups custom_only_args)
      (GroupDicts.layer_group_dict_of <$> custom_layer_parameters custom_only_args)
    = (customs', layers', Ok (group_parameters example_model custom_only_args)) ∧
    (GroupDicts.group_parameters example_model custom_only_args customs' layers').2
    = Raise KeyError.
Proof.
  destruct (group_parameters_consumes example_model custom_only_args)
    as (customs' & layers' & Hfirst & _ & _ & _ & _ & Hsecond).
  exists customs', layers'. split; [exact Hfirst|].
  apply Hsecond. left. discriminate.
Defined.

End GroupingMoreFacts.

(** ** More about [train_model] and [build_optimizer] *)

Module TrainerMoreFacts.

Import Inputs Trainer TrainerFacts.

Lemma length_filter_steps (args : Args) (len_train_dl : Z) :
  gradient_accumulation_steps args >= 1 → 0 ≤ len_train_dl →
  Z.of_nat (List.length (filter (steps args) (range len_train_dl)))
  = len_train_dl / gradient_accumulation_steps args.
Proof.
  intros Hgas Hlen. rewrite <-(Z2Nat.id len_train_dl) by done.
  induction (Z.to_nat len_train_dl) as [|n IH].
  - simpl. by rewrite Z.div_0_l by lia.
  - rewrite range_succ, filter_app, length_app, Nat2Z.inj_add, IH.
    rewrite Nat2Z.inj_succ, <-Z.add_1_r, div_succ by lia.
    f_equal. rewrite filter_cons, filter_nil. unfold steps.
    destruct (decide ((Z.of_nat n + 1) mod gradient_accumulation_steps args = 0)); done.
Qed.

Lemma total_steps_div (args : Args) (len_train_dl : Z) :
  gradient_accumulation_steps args >= 1 → 0 ≤ len_train_dl → 0 ≤ num_train_epochs args →
  Z.of_nat (total_steps args len_train_dl)
  = len_train_dl / gradient_accumulation_steps args * num_train_epochs args.
Proof.
  intros Hgas Hlen Hepochs. unfold total_steps.
  rewrite Nat2Z.inj_mul, length_filter_steps, length_range by done.
  rewrite Z2Nat.id by done. ring.
Qed.

(** Case on every condition of a trace, then count. *)
Ltac count_in_trace :=
  intros; unfold batch_events, setup_events; cbv zeta;
  repeat match goal with
         | |- context [if ?b then _ else _] => destruct b
         end;
  rewrite ?occurrences_app, ?occurrences_same; cbn; try reflexivity; try lia.

Section loop.

Context {tensor : Type}.
Variable batch_of : Z → Z → list tensor.
Variable loss_of : Z → Z → Qc.
Variable eval_model_at : Z → Z → result unit.

Abbreviation batch_body := (batch_body batch_of loss_of eval_model_at).
Abbreviation train_model := (train_model batch_of loss_of eval_model_at).
Abbreviation calls_return := (calls_return batch_of eval_model_at).
Abbreviation batch_events := (batch_events loss_of).
Abbreviation batch_next := (batch_next loss_of).

(** The scheduler steps of any run are its batches that end a window. *)
Lemma scheduler_steps (named_parameters : list (string * nat)) (args : Args)
    (len_train_dl : Z) :
  gradient_accumulation_steps args ≠ 0 →
  occurrences scheduler_step (trace (train_model named_parameters args len_train_dl))
  = windows_run args (trace (train_model named_parameters args len_train_dl)).
Proof.
  intros Hgas. rewrite (occurrences_run _ _ _ _ 0 1); [lia|done|count_in_trace|done|].
  count_in_trace.
Qed.

(** X16.  With [gradient_accumulation_steps >= 1] the scheduler is told
    the number of steps of a run that is not cut short:
    [len(self.train_dl) // gradient_accumulation_steps * num_train_epochs]
    is the [num_training_steps] given to
    [get_linear_schedule_with_warmup]; no run calls [scheduler.step()]
    more often; a run that returns has called it exactly that often and
    returns that number as [global_step]; and a run in which no call of
    the loop raises calls it that often and returns, or raises
    [ZeroDivisionError] when the number is 0.  The batches left over at the
    end of an epoch take no step. *)
Theorem train_model_schedule (named_parameters : list (string * nat)) (args : Args)
    (len_train_dl : Z) :
  gradient_accumulation_steps args >= 1 → 0 ≤ len_train_dl → 0 ≤ num_train_epochs args →
  let total := len_train_dl / gradient_accumulation_steps args * num_train_epochs args in
  let run := train_model named_parameters args len_train_dl in
  (∃ w, get_linear_schedule_with_warmup w total ∈ trace run) ∧
  Z.of_nat (occurrences scheduler_step (trace run)) ≤ total ∧
  (∀ global_step avg, outcome run = Ok (global_step, avg) →
     global_step = total ∧ total ≠ 0 ∧
     Z.of_nat (occurrences scheduler_step (trace run)) = total) ∧
  (calls_return args len_train_dl →
     Z.of_nat (occurrences scheduler_step (trace run)) = total ∧
     (total ≠ 0 → ∃ avg, outcome run = Ok (total, avg)) ∧
     (total = 0 → outcome run = Raise ZeroDivisionError)).
Proof.
  intros Hgas Hlen Hepochs total run. subst run.
  pose proof (total_steps_div args len_train_dl Hgas Hlen Hepochs) as Htotal.
  fold total in Htotal.
  assert (gradient_accumulation_steps args ≠ 0) as Hgas' by lia.
  split; [|split; [|split]].
  - rewrite train_model_loop by done. cbn [trace]. unfold setup_events. cbv zeta.
    eexists. apply elem_of_app. left.
    do 2 apply list_elem_of_further. apply list_elem_of_here.
  - rewrite scheduler_steps by done.
    pose proof (windows_run_le batch_of loss_of eval_model_at named_parameters args
                  len_train_dl Hgas'). lia.
  - intros gs avg Hok. rewrite scheduler_steps by done.
    apply train_model_returned in Hok as Hrun. destruct Hrun as (_ & Hsteps & Hrun).
    rewrite Hrun in Hok |- *. cbn [outcome trace] in *.
    rewrite (proj2 (ideal_totals loss_of named_parameters args len_train_dl)).
    injection Hok as <- _. lia.
  - intros Hreturn. rewrite scheduler_steps by done.
    rewrite (proj2 (run_totals batch_of loss_of eval_model_at named_parameters args
                      len_train_dl Hgas' Hreturn)).
    split; [done|]. rewrite train_model_outcome by done. split.
    + intros Hnz. rewrite decide_False by (intros [?|?]; lia). rewrite Htotal. eauto.
    + intros Hz. rewrite decide_True; [done|]. right. lia.
Qed.

(** *** Evaluating during training *)

Definition is_eval_model (e : event) : bool :=
  match e with
  | eval_model _ _ => true
  | _ => false
  end.

Lemma setup_events_no_eval (named_parameters : list (string * nat)) (args : Args)
    (len_train_dl : Z) :
  filter is_eval_model (setup_events named_parameters args len_train_dl) = [].
Proof.
  unfold setup_events. cbv zeta.
  repeat match goal with
         | |- context [if ?b then _ else _] => destruct b
         end; reflexivity.
Qed.

(** The evaluations of one batch. *)
Lemma batch_events_eval (args : Args) (epoch : Z) (st : progress) (batch_idx : Z) :
  filter is_eval_model (batch_events args epoch st batch_idx)
  = if evaluates loss_of args epoch st batch_idx
    then [eval_model epoch (global_step (batch_next args epoch st batch_idx))]
    else [].
Proof.
  unfold TrainerFacts.batch_events. rewrite !filter_app.
  assert (∀ l1 l2 l3 l4 l5 l6 : list event,
            l1 = [] → l2 = [] → l3 = [] → l4 = [] → l5 = [] →
            l1 ++ l2 ++ l3 ++ l4 ++ l5 ++ l6 = l6) as Happ.
  { by intros ? ? ? ? ? ? -> -> -> -> ->. }
  rewrite Happ; [by destruct (evaluates _ _ _ _ _)|..];
    repeat match goal with
           | |- context [if ?b then _ else _] => destruct b
           end; reflexivity.
Qed.

(** The first batch of the first epoch, with more than one batch to a
    step, is evaluated at [global_step] 0. *)
Lemma first_batch_evaluates (args : Args) :
  evaluate_during_training args = true → evaluate_during_training_steps args > 0 →
  gradient_accumulation_steps args > 1 →
  global_step (batch_next args 0 (Progress 0 0%Qc) 0) = 0 ∧
  evaluates loss_of args 0 (Progress 0 0%Qc) 0 = true.
Proof.
  intros Hon Hsteps Hacc.
  assert (global_step (batch_next args 0 (Progress 0 0%Qc) 0) = 0) as Hzero.
  { unfold TrainerFacts.batch_next, steps. simpl. rewrite decide_False; [done|].
    rewrite Z.mod_small by lia. lia. }
  split; [done|]. unfold evaluates. rewrite Hzero, Hon, Z.mod_0_l by lia.
  by rewrite !bool_decide_eq_true_2 by lia.
Qed.

(** X18.  The evaluation during training is tested after every batch, not
    after every optimizer step.  Without [evaluate_during_training], or
    with [evaluate_during_training_steps <= 0], [eval_model] is never
    called.  With [evaluate_during_training_steps = 1] it is called once
    for every batch on which the model is called, however many batches
    make a step; these are all batches of all epochs when no call of the
    loop raises.  With [gradient_accumulation_steps > 1] the first call
    comes after the first batch, at [global_step] 0, before any optimizer
    step (if the tuple of that batch is long enough for
    [_get_inputs_dict]), and when that call raises, its exception ends
    [train_model] there. *)
Theorem train_model_evaluations (named_parameters : list (string * nat)) (args : Args)
    (len_train_dl : Z) :
  gradient_accumulation_steps args ≠ 0 →
  let run := train_model named_parameters args len_train_dl in
  let evals := filter is_eval_model (trace run) in
  (evaluate_during_training args = false ∨ evaluate_during_training_steps args ≤ 0 →
     evals = []) ∧
  (evaluate_during_training args = true → evaluate_during_training_steps args = 1 →
     List.length evals = batches_run (trace run) ∧
     (calls_return args len_train_dl →
        List.length evals = total_batches args len_train_dl)) ∧
  (evaluate_during_training args = true → evaluate_during_training_steps args > 0 →
   gradient_accumulation_steps args > 1 → 0 < len_train_dl → 0 < num_train_epochs args →
   is_ok (_get_inputs_dict (model_type args) (batch_of 0 0)) = true →
     head evals = Some (eval_model 0 0) ∧
     ∀ e, eval_model_at 0 0 = Raise e →
          evals = [eval_model 0 0] ∧ last (trace run) = Some (eval_model 0 0) ∧
          outcome run = Raise e).
Proof.
  intros Hgas run evals. subst evals run. split; [|split].
  - intros Hoff. rewrite train_model_loop by done. cbn [trace].
    rewrite filter_app, setup_events_no_eval, app_nil_l.
    apply (filter_epochs_loop_nil _ _ _ is_eval_model); [done|by intros []|].
    intros epoch st idx. rewrite batch_events_eval. unfold evaluates.
    destruct Hoff as [-> | Hle]; [done|].
    rewrite (bool_decide_eq_false_2 (evaluate_during_training_steps args > 0)) by lia.
    by rewrite andb_false_r.
  - intros Hon Hone.
    assert (List.length (filter is_eval_model
                           (trace (train_model named_parameters args len_train_dl)))
            = batches_run (trace (train_model named_parameters args len_train_dl)))
      as Hcount.
    { apply (run_measures batch_of loss_of eval_model_at
               (λ tr, List.length (filter is_eval_model tr)) batches_run);
        [apply (additive_filter is_eval_model)|apply additive_batches_run|done| |done|].
      - rewrite setup_events_no_eval.
        by rewrite (proj1 (run_setup named_parameters args len_train_dl)).
      - intros epoch st idx. rewrite batch_events_eval, batches_run_batch.
        unfold evaluates. by rewrite Hon, Hone, Z.mod_1_r. }
    split; [done|]. intros Hreturn. rewrite Hcount.
    by apply run_totals.
  - intros Hon Hsteps Hacc Hlen Hepochs Hinputs.
    destruct (first_batch_evaluates args Hon Hsteps Hacc) as [Hzero Hfirst].
    destruct (epochs_loop_first batch_of loss_of eval_model_at args len_train_dl
                Hepochs Hlen) as (rest & Htrace & Hraise).
    rewrite batch_body_cases in Htrace, Hraise by done.
    destruct (_get_inputs_dict _ _) as [inputs|e0]; [|done].
    cbn [trace outcome] in Htrace, Hraise. rewrite Hfirst in Hraise.
    rewrite train_model_loop by done. cbn [trace outcome]. rewrite Htrace.
    assert (filter is_eval_model
              (setup_events named_parameters args len_train_dl ++
               model_train :: batch_events args 0 (Progress 0 0%Qc) 0 ++ rest)
            = eval_model 0 0 :: filter is_eval_model rest) as ->.
    { rewrite filter_app, setup_events_no_eval, app_nil_l, filter_cons.
      rewrite decide_False by (by intros []).
      by rewrite filter_app, batch_events_eval, Hfirst, Hzero. }
    split; [done|]. intros e He. rewrite He in Hraise.
    destruct (Hraise e eq_refl) as [-> ->]. split; [done|split; [|done]].
    rewrite app_nil_r. unfold TrainerFacts.batch_events. rewrite Hfirst, Hzero.
    rewrite (cons_middle model_train), !app_assoc. apply last_snoc.
Qed.

End loop.

(** *** The warm-up of the schedule *)

Lemma math_ceil_bounds (total : Z) (ratio : Qc) :
  0 ≤ total → (0 <= ratio)%Qc → (ratio <= 1)%Qc →
  0 ≤ math_ceil (Q2Qc (inject_Z total) * ratio)%Qc ≤ total.
Proof.
  intros Htotal Hlo Hhi. unfold math_ceil.
  assert (this (Q2Qc (inject_Z total) * ratio)%Qc == inject_Z total * this ratio) as Heq.
  { simpl. rewrite !Qred_correct. reflexivity. }
  rewrite (Qceiling_comp _ _ Heq).
  assert (0 <= inject_Z total)%Q as Ht by (unfold Qle; simpl; lia).
  split.
  - rewrite <-(Qceiling_Z 0). apply Qceiling_resp_le.
    apply Qmult_le_0_compat; [done|]. exact Hlo.
  - rewrite <-(Qceiling_Z total) at 2. apply Qceiling_resp_le.
    rewrite <-(Qmult_1_r (inject_Z total)) at 2.
    rewrite (Qmult_comm _ ratio), (Qmult_comm _ 1).
    apply Qmult_le_compat_r; [exact Hhi|done].
Qed.

(** X19.  [build_optimizer] leaves a configured [args.warmup_steps]
    alone, whatever the number of iterations, so the value it computes on
    the first call is kept by the later calls on the same [args].  When
    [args.warmup_steps] is 0 it takes the ceiling of
    [iteration_in_total * warmup_ratio], which for a ratio between 0 and 1
    lies between 0 and [iteration_in_total]; the scheduler gets that
    number. *)
Theorem build_optimizer_warmup (args : Args) (model_parameters : list nat)
    (iteration_in_total : Z) :
  (warmup_steps args ≠ 0 →
     build_optimizer args model_parameters iteration_in_total
     = MkPy [AdamW (Tensors model_parameters) (learning_rate args) (adam_epsilon args);
             get_linear_schedule_with_warmup (warmup_steps args) iteration_in_total]
         (Ok (warmup_steps args))) ∧
  (warmup_steps args = 0 → 0 ≤ iteration_in_total →
   (0 <= warmup_ratio args)%Qc → (warmup_ratio args <= 1)%Qc →
     ∃ w, 0 ≤ w ≤ iteration_in_total ∧
       build_optimizer args model_parameters iteration_in_total
       = MkPy [AdamW (Tensors model_parameters) (learning_rate args) (adam_epsilon args);
               get_linear_schedule_with_warmup w iteration_in_total]
           (Ok w)).
Proof.
  unfold build_optimizer. cbv zeta. split.
  - intros Hset. by rewrite decide_False by done.
  - intros Hzero Htotal Hlo Hhi. rewrite decide_True by done.
    eexists. split; [by apply math_ceil_bounds|]. reflexivity.
Qed.

(** *** Example runs *)

(** Two epochs, accumulating over two batches; the loss of batch [i] of
    epoch [e] is [e + i]. *)
Definition toy_loss_of (epoch batch_idx : Z) : Qc := Qc_of_Z (epoch + batch_idx).

Definition toy_args (evaluate : bool) : Args :=
  {| custom_parameter_groups := []; custom_layer_parameters := [];
     train_custom_parameters_only := false;
     weight_decay := Q2Qc (1 # 100);
     learning_rate := Q2Qc (4 # 100000);
     adam_epsilon := Q2Qc (1 # 100000000);
     warmup_ratio := Q2Qc (6 # 100); warmup_steps := 0;
     max_grad_norm := 1%Qc;
     gradient_accumulation_steps := 2;
     num_train_epochs := 2; n_gpu := 1; fp16 := false;
     evaluate_during_training := evaluate; evaluate_during_training_steps := 1;
     model_type := "distilbert" |}.

(** A run over [len_train_dl] tuples of six tensors in which the
    evaluations return. *)
Definition run_evaluating (evaluate : bool) (len_train_dl : Z) : Py event (Z * Qc) :=
  train_model (λ _ _, six_tensors) toy_loss_of (λ _ _, Ok ()) toy_model
    (toy_args evaluate) len_train_dl.

Lemma run_evaluating_calls_return (evaluate : bool) (len_train_dl : Z) :
  calls_return (λ _ _, six_tensors) (λ _ _, Ok ()) (toy_args evaluate) len_train_dl.
Proof. intros epoch batch_idx _ _. split; [vm_compute; reflexivity|done]. Qed.

(** Whether a run of [eval_model] returns. *)
Definition returns {E A} (run : Py E A) : result unit :=
  match outcome run with
  | Ok _ => Ok ()
  | Raise e => Raise e
  end.

(** The same run with the evaluation of [EvaluationFacts.toy_eval_model]
    on a test loader without batches. *)
Definition run_without_test_batches : Py event (Z * Qc) :=
  train_model (λ _ _, six_tensors) toy_loss_of
    (λ _ _, returns (EvaluationFacts.toy_eval_model "distilbert" [] ∅)) toy_model
    (toy_args true) 4.

(** Five batches in windows of two: two steps per epoch, the fifth batch
    takes none. *)
Lemma train_model_schedule_witness :
  (∃ w, get_linear_schedule_with_warmup w 4 ∈ trace (run_evaluating false 5)) ∧
  occurrences scheduler_step (trace (run_evaluating false 5)) = 4%nat ∧
  ∃ avg, outcome (run_evaluating false 5) = Ok (4, avg).
Proof.
  destruct (train_model_schedule (λ _ _, six_tensors) toy_loss_of (λ _ _, Ok ())
              toy_model (toy_args false) 5)
    as (Hsched & _ & _ & Hreturn).
  - simpl. lia.
  - lia.
  - simpl. lia.
  - destruct (Hreturn (run_evaluating_calls_return false 5)) as (Hsteps & Hout & _).
    split; [exact Hsched|]. split.
    + apply Nat2Z.inj. unfold run_evaluating. rewrite Hsteps. reflexivity.
    + apply Hout. discriminate.
Defined.

(** Eight batches and eight evaluations, the first at [global_step] 0; and
    with a test loader without batches the first evaluation raises
    [ZeroDivisionError] and ends the run after one batch. *)
Lemma train_model_evaluations_witness :
  List.length (filter is_eval_model (trace (run_evaluating true 4))) = 8%nat ∧
  head (filter is_eval_model (trace (run_evaluating true 4))) = Some (eval_model 0 0) ∧
  filter is_eval_model (trace (run_evaluating false 4)) = [] ∧
  filter is_eval_model (trace run_without_test_batches) = [eval_model 0 0] ∧
  outcome run_without_test_batches = Raise ZeroDivisionError.
Proof.
  destruct (train_model_evaluations (λ _ _, six_tensors) toy_loss_of (λ _ _, Ok ())
              toy_model (toy_args true) 4)
    as (_ & Hcount & Hfirst); [discriminate|].
  destruct (train_model_evaluations (λ _ _, six_tensors) toy_loss_of (λ _ _, Ok ())
              toy_model (toy_args false) 4)
    as (Hnone & _); [discriminate|].
  destruct (train_model_evaluations (λ _ _, six_tensors) toy_loss_of
              (λ _ _, returns (EvaluationFacts.toy_eval_model "distilbert" [] ∅))
              toy_model (toy_args true) 4)
    as (_ & _ & Hraise); [discriminate|].
  split; [|split; [|split]].
  - destruct Hcount as [_ Htotal]; [reflexivity..|].
    unfold run_evaluating. rewrite Htotal; [reflexivity|].
    apply run_evaluating_calls_return.
  - apply Hfirst; try reflexivity; simpl; lia.
  - apply Hnone. by left.
  - destruct Hraise as [_ Hends]; try reflexivity; try (simpl; lia).
    destruct (Hends ZeroDivisionError) as (Hevals & _ & Hout); [vm_compute; reflexivity|].
    split; [exact Hevals|exact Hout].
Defined.

Lemma build_optimizer_warmup_witness :
  outcome (build_optimizer (toy_args false) [0; 1; 2; 3]%nat 100) = Ok 6 ∧
  ∃ w, 0 ≤ w ≤ 7 ∧
       outcome (build_optimizer (toy_args false) [0; 1; 2; 3]%nat 7) = Ok w.
Proof.
  split; [reflexivity|].
  destruct (proj2 (build_optimizer_warmup (toy_args false) [0; 1; 2; 3]%nat 7))
    as (w & Hw & Hrun); [reflexivity|lia|discriminate|discriminate|].
  exists w. split; [exact Hw|]. by rewrite Hrun.
Defined.

End TrainerMoreFacts.

(** ** More about [preprocess_data] *)

Module PreprocessMoreFacts.

Import Preprocess PreprocessFacts.

Lemma py_max_spec (lengths : list Z) (m : Z) :
  py_max lengths = Ok m → m ∈ lengths ∧ ∀ n, n ∈ lengths → n ≤ m.
Proof.
  destruct lengths as [|n0 rest]; [done|]. simpl. intros [= <-].
  assert (∀ l a, (foldl Z.max a l = a ∨ foldl Z.max a l ∈ l) ∧
                 a ≤ foldl Z.max a l ∧ ∀ n, n ∈ l → n ≤ foldl Z.max a l) as Hmax.
  { induction l as [|b l IH]; intros a.
    - simpl. split; [by left|]. split; [lia|]. by intros n ?%elem_of_nil.
    - simpl. destruct (IH (Z.max a b)) as (Hin & Hle & Hall). split; [|split].
      + destruct Hin as [->|Hin].
        * destruct (Z.max_spec a b) as [[_ ->]|[_ ->]];
            [right; apply list_elem_of_here|by left].
        * right. by apply list_elem_of_further.
      + lia.
      + intros n [->|Hn]%elem_of_cons; [lia|by apply Hall]. }
  destruct (Hmax rest n0) as (Hin & Hle & Hall). split.
  - destruct Hin as [->|Hin]; [apply list_elem_of_here|by apply list_elem_of_further].
  - intros n [->|Hn]%elem_of_cons; [done|by apply Hall].
Qed.

Section facts.

Context {tvocab weights token_idx label_idx : Type}.
Variable build_freq_vocab : list (list string) → gmap string Z.
Variable remove_words : list (list string) → gset string → list (list string).
Variable build_vocab : list (list string) → gmap string Z.
Variable load_word2vec_embedding :
  string → gmap string Z → result (gmap string Z * weights).
Variable load_glove_embedding :
  string → gmap string Z → Z → result (gmap string Z * weights).
Variable padding_data : list (list string) → Z → list (list string) * list Z.
Variable token_to_idx : list (list string) → gmap string Z → token_idx.
Variable label_to_idx : list string → tvocab → label_idx.
Variable STOP_WORDS : gset string.
Variable abspath : string → string.

Abbreviation remove_in := (remove_in remove_words).
Abbreviation remove_in_clients := (remove_in_clients (tvocab:=tvocab) remove_words).
Abbreviation remove_words_all := (__remove_words (tvocab:=tvocab) remove_words).
Abbreviation remove_stage := (remove_stage (tvocab:=tvocab) build_freq_vocab remove_words
  STOP_WORDS).
Abbreviation embedding_stage := (embedding_stage load_word2vec_embedding
  load_glove_embedding abspath).
Abbreviation pad_list := (pad_list (tvocab:=tvocab) padding_data token_to_idx label_to_idx).
Abbreviation pad_clients := (pad_clients (tvocab:=tvocab) padding_data token_to_idx
  label_to_idx).
Abbreviation finish_stage := (finish_stage load_word2vec_embedding load_glove_embedding
  padding_data token_to_idx label_to_idx abspath).
Abbreviation preprocess_data := (preprocess_data build_freq_vocab remove_words build_vocab
  load_word2vec_embedding load_glove_embedding padding_data token_to_idx label_to_idx
  STOP_WORDS abspath).

(** *** What the removals leave alone *)

(** Going from [h] to [h'] changes at most the ["X"] of the batches that
    satisfy [touched]. *)
Definition frames (touched : loc → Prop) (h h' : store) : Prop :=
  (∀ l, Y (h' l) = Y (h l)) ∧ (∀ l, ¬ touched l → h' l = h l).

Lemma frames_refl (touched : loc → Prop) (h : store) : frames touched h h.
Proof. by split. Qed.

Lemma frames_trans (touched : loc → Prop) (h1 h2 h3 : store) :
  frames touched h1 h2 → frames touched h2 h3 → frames touched h1 h3.
Proof.
  intros [HY1 Hf1] [HY2 Hf2]. split.
  - intros l. by rewrite HY2, HY1.
  - intros l Hl. by rewrite Hf2, Hf1.
Qed.

Lemma frames_weaken (P Q : loc → Prop) (h h' : store) :
  (∀ l, P l → Q l) → frames P h h' → frames Q h h'.
Proof. intros HPQ [HY Hf]. split; [done|]. intros l Hl. apply Hf. auto. Qed.

Lemma remove_in_frames (W : gset string) (bs : list loc) (h : store) :
  frames (λ l, l ∈ bs) h (remove_in W bs h).
Proof.
  revert h. induction bs as [|b rest IH]; intros h; [apply frames_refl|].
  unfold Preprocess.remove_in. simpl.
  eapply frames_trans; [|eapply frames_weaken; [|apply IH]].
  - split.
    + intros l. unfold set_X. destruct (decide (b = l)) as [->|Hne].
      * by rewrite fn_lookup_insert.
      * by rewrite fn_lookup_insert_ne.
    + intros l Hl. unfold set_X. rewrite fn_lookup_insert_ne; [done|].
      intros ->. apply Hl, list_elem_of_here.
  - intros l Hl. by apply list_elem_of_further.
Qed.

Lemma remove_in_clients_frames (W : gset string) (ds : dataset tvocab) (clients : list Z)
    (h h' : store) :
  remove_in_clients W ds clients h = Ok h' →
  frames (λ l, ∃ c bs, c ∈ clients ∧ l ∈ bs ∧
                 (train_data_local_dict ds !! c = Some bs ∨
                  test_data_local_dict ds !! c = Some bs)) h h'.
Proof.
  revert h. induction clients as [|c rest IH]; intros h.
  - simpl. intros [= ->]. apply frames_refl.
  - simpl. unfold getitem.
    destruct (train_data_local_dict ds !! c) as [train|] eqn:Htrain; [|done].
    destruct (test_data_local_dict ds !! c) as [test|] eqn:Htest; [|done].
    simpl. intros Hrest%IH.
    eapply frames_trans; [|eapply frames_trans]; [| |eapply frames_weaken; [|exact Hrest]].
    + eapply frames_weaken; [|apply (remove_in_frames W train)].
      intros l Hl. exists c, train. split; [apply list_elem_of_here|auto].
    + eapply frames_weaken; [|apply (remove_in_frames W test)].
      intros l Hl. exists c, test. split; [apply list_elem_of_here|auto].
    + intros l (c' & bs & Hc' & Hl & Hbs). exists c', bs.
      split; [by apply list_elem_of_further|done].
Qed.

Lemma remove_words_all_frames (W : gset string) (ds : dataset tvocab) (h h' : store) :
  remove_words_all ds W h = Ok h' → frames (walked ds) h h'.
Proof.
  unfold __remove_words. intros Hclients%remove_in_clients_frames.
  eapply frames_trans; [|eapply frames_trans]; [| |eapply frames_weaken; [|exact Hclients]].
  - eapply frames_weaken; [|apply remove_in_frames]. intros l Hl. left. exact Hl.
  - eapply frames_weaken; [|apply remove_in_frames]. intros l Hl. right. left. exact Hl.
  - intros l Hl. right. right. exact Hl.
Qed.

Lemma remove_stage_frames (args : Args) (ds : dataset tvocab) (h h' : store) :
  remove_stage args ds h = Ok h' →
  frames (walked ds) h h' ∧
  (do_remove_low_freq_words args ≤ 0 → do_remove_stop_words args = false → h' = h).
Proof.
  unfold Preprocess.remove_stage. cbv zeta.
  case_decide as Hk.
  - destruct (__remove_words _ _ _ h) as [h1|e] eqn:H1; [|done]. simpl.
    apply remove_words_all_frames in H1.
    destruct (do_remove_stop_words args).
    + intros H2%remove_words_all_frames. split; [by eapply frames_trans|lia].
    + intros [= <-]. split; [done|lia].
  - simpl. destruct (do_remove_stop_words args).
    + intros H2%remove_words_all_frames. split; [done|done].
    + intros [= <-]. split; [apply frames_refl|done].
Qed.

Lemma finish_stage_store (args : Args) (ds : dataset tvocab) (h h' : store)
    (sv : gmap string Z) (out : preprocessed) :
  finish_stage args ds h sv = Ok (h', out) → h' = h.
Proof.
  unfold Preprocess.finish_stage.
  destruct (Preprocess.embedding_stage _ _ _ _ _) as [[v w]|e]; [|done]. simpl.
  destruct (if decide (max_seq_len args = -1) then _ else _) as [m|e]; [|done]. simpl.
  destruct (Preprocess.pad_clients _ _ _ _ _ _ _ _ _) as [[d1 d2]|e]; [|done]. simpl.
  by intros [= <- _].
Qed.

(** X20.  [preprocess_data] changes nothing but the ["X"] of the batches
    it walks: the labels ["Y"] of every batch stay as they were, a batch
    that is in none of the global lists and in no list of an iterated
    client is untouched, and with both removals switched off no batch is
    changed at all. *)
Theorem preprocess_data_frame (args : Args) (ds : dataset tvocab) (h h' : store)
    (out : preprocessed) :
  preprocess_data args ds h = Ok (h', out) →
  (∀ l, Y (h' l) = Y (h l)) ∧
  (∀ l, ¬ walked ds l → h' l = h l) ∧
  (do_remove_low_freq_words args ≤ 0 → do_remove_stop_words args = false →
   ∀ l, h' l = h l).
Proof.
  unfold Preprocess.preprocess_data.
  destruct (Preprocess.remove_stage _ _ _ _ _ h) as [h1|e] eqn:Hrm; [|done]. simpl.
  intros ->%finish_stage_store.
  apply remove_stage_frames in Hrm as [[HY Hframe] Hoff].
  split; [done|]. split; [done|]. intros Hk Hstop l. by rewrite Hoff.
Qed.

(** *** The clients and their lists *)

Lemma remove_in_clients_KeyError (W : gset string) (ds : dataset tvocab) (clients : list Z)
    (h : store) (c : Z) :
  c ∈ clients →
  train_data_local_dict ds !! c = None ∨ test_data_local_dict ds !! c = None →
  remove_in_clients W ds clients h = Raise KeyError.
Proof.
  intros Hc Hmissing. revert h. induction clients as [|c0 rest IH]; intros h.
  - by apply elem_of_nil in Hc.
  - simpl. unfold getitem.
    destruct (train_data_local_dict ds !! c0) as [train|] eqn:Htrain; [|done].
    destruct (test_data_local_dict ds !! c0) as [test|] eqn:Htest; [|done].
    simpl. apply IH. apply elem_of_cons in Hc as [->|Hc]; [|done].
    destruct Hmissing; congruence.
Qed.

Lemma pad_clients_spec (m : Z) (sv : gmap string Z) (ds : dataset tvocab) (h : store)
    (clients : list Z) acc r :
  pad_clients m sv ds h clients acc = Ok r →
  (∀ c, c ∈ clients →
        is_Some (train_data_local_dict ds !! c) ∧ is_Some (test_data_local_dict ds !! c)) ∧
  (∀ c, r.1 !! c = if decide (c ∈ clients)
                   then pad_list m sv (target_vocab ds) h <$> train_data_local_dict ds !! c
                   else acc.1 !! c) ∧
  (∀ c, r.2 !! c = if decide (c ∈ clients)
                   then pad_list m sv (target_vocab ds) h <$> test_data_local_dict ds !! c
                   else acc.2 !! c).
Proof.
  revert acc. induction clients as [|c0 rest IH]; intros acc.
  - simpl. intros [= ->]. split; [by intros c ?%elem_of_nil|].
    done.
  - cbn [Preprocess.pad_clients]. unfold getitem.
    destruct (train_data_local_dict ds !! c0) as [train|] eqn:Htrain; [|done].
    destruct (test_data_local_dict ds !! c0) as [test|] eqn:Htest; [|done].
    simpl. intros (Hkeys & H1 & H2)%IH. simpl in H1, H2.
    split; [|split].
    + intros c [->|Hc]%elem_of_cons; [by rewrite Htrain, Htest|by apply Hkeys].
    + intros c. rewrite H1. destruct (decide (c ∈ rest)) as [Hin|Hnin].
      * by rewrite decide_True by by apply list_elem_of_further.
      * destruct (decide (c = c0)) as [->|Hne].
        -- rewrite decide_True by apply list_elem_of_here.
           by rewrite lookup_insert_eq, Htrain.
        -- rewrite decide_False by (by intros [?|?]%elem_of_cons).
           by rewrite lookup_insert_ne.
    + intros c. rewrite H2. destruct (decide (c ∈ rest)) as [Hin|Hnin].
      * by rewrite decide_True by by apply list_elem_of_further.
      * destruct (decide (c = c0)) as [->|Hne].
        -- rewrite decide_True by apply list_elem_of_here.
           by rewrite lookup_insert_eq, Htest.
        -- rewrite decide_False by (by intros [?|?]%elem_of_cons).
           by rewrite lookup_insert_ne.
Qed.

(** The lengths of the sequences of the global train batches. *)
Definition train_lengths (ds : dataset tvocab) (h : store) : list Z :=
  flat_map (λ l, (λ single_x, Z.of_nat (List.length single_x)) <$> X (h l))
    (train_data_global ds).

(** What the last part of [preprocess_data] returns, when it returns. *)
Lemma finish_stage_spec (args : Args) (ds : dataset tvocab) (h h' : store)
    (sv : gmap string Z) (out : preprocessed) :
  finish_stage args ds h sv = Ok (h', out) →
  keys_consistent ds ∧
  ∃ m, (if decide (max_seq_len args = -1) then py_max (train_lengths ds h)
        else Ok (max_seq_len args)) = Ok m ∧
    new_train_data_global out
    = pad_list m (source_vocab out) (target_vocab ds) h (train_data_global ds) ∧
    new_test_data_global out
    = pad_list m (source_vocab out) (target_vocab ds) h (test_data_global ds) ∧
    (∀ c, new_train_data_local_dict out !! c
          = if decide (c ∈ (train_data_local_num_dict ds).*1)
            then pad_list m (source_vocab out) (target_vocab ds) h
                   <$> train_data_local_dict ds !! c
            else None) ∧
    (∀ c, new_test_data_local_dict out !! c
          = if decide (c ∈ (train_data_local_num_dict ds).*1)
            then pad_list m (source_vocab out) (target_vocab ds) h
                   <$> test_data_local_dict ds !! c
            else None) ∧
    out_train_data_num out = train_data_num ds ∧
    out_test_data_num out = test_data_num ds ∧
    out_train_data_local_num_dict out = train_data_local_num_dict ds ∧
    out_target_vocab out = target_vocab ds.
Proof.
  unfold Preprocess.finish_stage. fold (train_lengths ds h).
  destruct (Preprocess.embedding_stage _ _ _ _ _) as [[v w]|e]; [|done]. simpl.
  destruct (if decide (max_seq_len args = -1) then _ else _) as [m|e] eqn:Hm; [|done].
  simpl.
  destruct (Preprocess.pad_clients _ _ _ _ _ _ _ _ _) as [[d1 d2]|e] eqn:Hpad; [|done].
  simpl. intros [= _ <-]. simpl.
  apply pad_clients_spec in Hpad as (Hkeys & H1 & H2). simpl in H1, H2.
  split; [done|]. exists m. split; [done|].
  repeat split; done.
Qed.

(** X21.  [preprocess_data] returns only for a dataset in which every key
    of [train_data_local_num_dict] has a list in [train_data_local_dict]
    and in [test_data_local_dict]; with a removal switched on, a key
    without one of its lists makes it raise [KeyError] in the removal,
    before the vocabulary is built. *)
Theorem preprocess_data_keys (args : Args) (ds : dataset tvocab) (h : store) :
  (∀ r, preprocess_data args ds h = Ok r → keys_consistent ds) ∧
  (∀ c, c ∈ (train_data_local_num_dict ds).*1 →
        train_data_local_dict ds !! c = None ∨ test_data_local_dict ds !! c = None →
        do_remove_low_freq_words args > 0 ∨ do_remove_stop_words args = true →
        remove_stage args ds h = Raise KeyError ∧
        preprocess_data args ds h = Raise KeyError).
Proof.
  split.
  - intros [h' out]. unfold Preprocess.preprocess_data.
    destruct (Preprocess.remove_stage _ _ _ _ _ h) as [h1|e]; [|done]. simpl.
    by intros [Hkeys _]%finish_stage_spec.
  - intros c Hc Hmissing Hon.
    assert (remove_stage args ds h = Raise KeyError) as Hrm.
    { unfold Preprocess.remove_stage, __remove_words. cbv zeta.
      case_decide as Hk.
      - by rewrite (remove_in_clients_KeyError _ ds _ _ c Hc Hmissing).
      - simpl. destruct Hon as [?|Hstop]; [lia|]. rewrite Hstop.
        by rewrite (remove_in_clients_KeyError _ ds _ _ c Hc Hmissing). }
    split; [done|]. unfold Preprocess.preprocess_data. by rewrite Hrm.
Qed.

(** X22.  When [preprocess_data] returns, the numbers, the keys of the
    clients and the target vocabulary come out as they went in; every
    batch of every list is padded and indexed with one and the same
    length and with the returned source vocabulary, so each list keeps its
    number of batches, and the two new dictionaries have exactly the keys
    of [train_data_local_num_dict].  The length is [args.max_seq_len], or
    for [-1] the length of the longest sequence of the global train
    batches as the removals leave them: no such sequence is longer, but a
    test or a client sequence may be. *)
Theorem preprocess_data_output (args : Args) (ds : dataset tvocab) (h h' : store)
    (out : preprocessed) :
  preprocess_data args ds h = Ok (h', out) →
  ∃ m,
    (max_seq_len args ≠ -1 → m = max_seq_len args) ∧
    (max_seq_len args = -1 →
       m ∈ train_lengths ds h' ∧ ∀ n, n ∈ train_lengths ds h' → n ≤ m) ∧
    new_train_data_global out
    = pad_list m (source_vocab out) (target_vocab ds) h' (train_data_global ds) ∧
    new_test_data_global out
    = pad_list m (source_vocab out) (target_vocab ds) h' (test_data_global ds) ∧
    List.length (new_train_data_global out) = List.length (train_data_global ds) ∧
    List.length (new_test_data_global out) = List.length (test_data_global ds) ∧
    (∀ c, new_train_data_local_dict out !! c
          = if decide (c ∈ (train_data_local_num_dict ds).*1)
            then pad_list m (source_vocab out) (target_vocab ds) h'
                   <$> train_data_local_dict ds !! c
            else None) ∧
    (∀ c, new_test_data_local_dict out !! c
          = if decide (c ∈ (train_data_local_num_dict ds).*1)
            then pad_list m (source_vocab out) (target_vocab ds) h'
                   <$> test_data_local_dict ds !! c
            else None) ∧
    out_train_data_num out = train_data_num ds ∧
    out_test_data_num out = test_data_num ds ∧
    out_train_data_local_num_dict out = train_data_local_num_dict ds ∧
    out_target_vocab out = target_vocab ds.
Proof.
  unfold Preprocess.preprocess_data.
  destruct (Preprocess.remove_stage _ _ _ _ _ h) as [h1|e] eqn:Hrm; [|done]. simpl.
  intros Hfinish. pose proof (finish_stage_store _ _ _ _ _ _ Hfinish) as ->.
  apply finish_stage_spec in Hfinish
    as (_ & m & Hm & Htrain & Htest & Hltrain & Hltest & Hn1 & Hn2 & Hnum & Htv).
  exists m. split; [|split].
  - intros Hne. rewrite decide_False in Hm by done. by injection Hm.
  - intros Heq. rewrite decide_True in Hm by done. by apply py_max_spec.
  - rewrite Htrain, Htest. unfold Preprocess.pad_list. rewrite !length_fmap. done.
Qed.

(** X23.  With [args.max_seq_len = -1] and no global train batch at all
    there is no length to take the maximum of: [preprocess_data] raises
    [ValueError] (here without embeddings, which would be loaded
    first). *)
Theorem preprocess_data_no_train_batches (args : Args) (ds : dataset tvocab) (h : store) :
  keys_consistent ds → truthy (embedding_name args) = false →
  max_seq_len args = -1 → train_data_global ds = [] →
  preprocess_data args ds h = Raise ValueError.
Proof.
  intros Hkeys Hname Hmax Hnil. unfold Preprocess.preprocess_data.
  destruct (remove_stage_ok build_freq_vocab remove_words STOP_WORDS args ds h Hkeys)
    as [h1 ->].
  simpl. unfold Preprocess.finish_stage.
  rewrite (embedding_stage_not_given _ _ _ _ _ Hname). simpl.
  by rewrite decide_True, Hnil by done.
Qed.

(** X24.  With [args.embedding_name] ["word2vec"] or ["glove"] and no
    [args.embedding_file], [os.path.abspath(None)] raises [TypeError]
    before the loader is called. *)
Theorem preprocess_data_no_embedding_file (args : Args) (ds : dataset tvocab) (h : store) :
  keys_consistent ds →
  embedding_name args = Some "word2vec" ∨ embedding_name args = Some "glove" →
  embedding_file args = None →
  preprocess_data args ds h = Raise TypeError.
Proof.
  intros Hkeys Hname Hfile. unfold Preprocess.preprocess_data.
  destruct (remove_stage_ok build_freq_vocab remove_words STOP_WORDS args ds h Hkeys)
    as [h1 ->].
  simpl. unfold Preprocess.finish_stage, Preprocess.embedding_stage.
  rewrite Hfile. by destruct Hname as [-> | ->].
Qed.

End facts.

(** *** Example runs *)

(** The example of the removal with other switches. *)
Definition switches (k : Z) (name file : option string) (len : Z) : Args :=
  {| do_remove_low_freq_words := k; do_remove_stop_words := false;
     embedding_name := name; embedding_file := file;
     embedding_length := 300; max_seq_len := len |}.

Definition run_preprocess_data (args : Args) (ds : dataset unit) :=
  preprocess_data ref_build_freq_vocab ref_remove_words ref_build_vocab
    toy_word2vec toy_glove (λ x n, (x, [n])) (λ x _, x) (λ y _, y) ∅ id
    args ds toy_store.

(** The example without the lists of its client, and without global train
    batches. *)
Definition dataset_without_lists : dataset unit :=
  {| train_data_num := 2; test_data_num := 1;
     train_data_global := [0%nat]; test_data_global := [1%nat];
     train_data_local_num_dict := [(0, 2)];
     train_data_local_dict := ∅;
     test_data_local_dict := {[0 := [1%nat]]};
     target_vocab := () |}.

Definition dataset_without_train : dataset unit :=
  {| train_data_num := 0; test_data_num := 1;
     train_data_global := []; test_data_global := [1%nat];
     train_data_local_num_dict := [(0, 2)];
     train_data_local_dict := {[0 := [0%nat]]};
     test_data_local_dict := {[0 := [1%nat]]};
     target_vocab := () |}.

Lemma dataset_without_train_consistent : keys_consistent dataset_without_train.
Proof.
  intros c. simpl. intros ->%list_elem_of_singleton.
  by rewrite !lookup_singleton_eq.
Qed.

Lemma run_preprocess_data_returns :
  is_ok (run_preprocess_data (switches 1 None None (-1)) toy_dataset) = true.
Proof. vm_compute. reflexivity. Qed.

(** The labels of batch 0 survive the removal of ["b"], and batch 7, which
    is in no list, is as it was. *)
Lemma preprocess_data_frame_witness :
  ∃ h' out, run_preprocess_data (switches 1 None None (-1)) toy_dataset = Ok (h', out) ∧
    Y (h' 0%nat) = ["pos"; "neg"] ∧ h' 7%nat = toy_store 7%nat.
Proof.
  pose proof run_preprocess_data_returns as Hok.
  destruct (run_preprocess_data (switches 1 None None (-1)) toy_dataset)
    as [[h' out]|e] eqn:Hrun; [|discriminate Hok].
  exists h', out. split; [reflexivity|].
  destruct (preprocess_data_frame _ _ _ _ _ _ _ _ _ _ _ _ _ _ _ Hrun) as (HY & Hframe & _).
  split; [by rewrite HY|]. apply Hframe.
  intros [Hl|[Hl|(c & bs & Hc & Hl & Hbs)]].
  - simpl in Hl. apply list_elem_of_singleton in Hl. discriminate.
  - simpl in Hl. apply list_elem_of_singleton in Hl. discriminate.
  - simpl in Hc. apply list_elem_of_singleton in Hc as ->. simpl in Hbs.
    rewrite !lookup_singleton_eq in Hbs.
    destruct Hbs as [[= <-]|[= <-]]; apply list_elem_of_singleton in Hl; discriminate.
Defined.

Lemma preprocess_data_keys_witness :
  run_preprocess_data (switches 1 None None 512) dataset_without_lists = Raise KeyError.
Proof.
  apply (proj2 (preprocess_data_keys ref_build_freq_vocab ref_remove_words ref_build_vocab
                  toy_word2vec toy_glove (λ x n, (x, [n])) (λ x _, x) (λ y _, y) ∅ id
                  (switches 1 None None 512) dataset_without_lists toy_store) 0).
  - apply list_elem_of_here.
  - left. reflexivity.
  - left. reflexivity.
Defined.

(** After the removal the train sequences are ["a"; "a"] and ["a"]: the
    length is 2, although the test sequence had two tokens as well. *)
Lemma preprocess_data_output_witness :
  ∃ h' out, run_preprocess_data (switches 1 None None (-1)) toy_dataset = Ok (h', out) ∧
    seq_lens <$> new_train_data_global out = [[2]] ∧
    List.length (new_test_data_global out) = 1%nat.
Proof.
  pose proof run_preprocess_data_returns as Hok.
  destruct (run_preprocess_data (switches 1 None None (-1)) toy_dataset)
    as [[h' out]|e] eqn:Hrun; [|discriminate Hok].
  exists h', out. split; [reflexivity|].
  destruct (preprocess_data_output _ _ _ _ _ _ _ _ _ _ _ _ _ _ _ Hrun)
    as (m & _ & _ & _ & _ & _ & Hlen & _).
  split; [|exact Hlen].
  unfold run_preprocess_data in Hrun. vm_compute in Hrun. injection Hrun as _ <-.
  reflexivity.
Defined.

Lemma preprocess_data_no_train_batches_witness :
  run_preprocess_data (switches 0 None None (-1)) dataset_without_train = Raise ValueError.
Proof.
  apply preprocess_data_no_train_batches; [|reflexivity..].
  apply dataset_without_train_consistent.
Defined.

Lemma preprocess_data_no_embedding_file_witness :
  run_preprocess_data (switches 1 (Some "glove") None 512) toy_dataset = Raise TypeError.
Proof.
  apply preprocess_data_no_embedding_file; [apply toy_keys_consistent| |reflexivity].
  right. reflexivity.
Defined.

End PreprocessMoreFacts.

(** ** More about the distributed entry points *)

Module ScriptsMoreFacts.

Import Device Loaders Scripts ScriptsFacts.

Definition is_wandb_init (c : call) : bool :=
  match c with
  | wandb_init => true
  | _ => false
  end.

Definition count_wandb (tr : list call) : nat := List.length (filter is_wandb_init tr).

(** How often a run initialises wandb. *)
Definition wandb_calls (m : Py call unit) : nat := count_wandb (trace m).

Lemma count_wandb_app (tr1 tr2 : list call) :
  count_wandb (tr1 ++ tr2) = (count_wandb tr1 + count_wandb tr2)%nat.
Proof. unfold count_wandb. by rewrite filter_app, length_app. Qed.

Lemma count_wandb_loaders (tr : list loader) : count_wandb (new_loader <$> tr) = 0%nat.
Proof. induction tr as [|l tr IH]; [done|]. by rewrite fmap_cons. Qed.

Lemma count_wandb_bind {A B} (m : Py call A) (f : A → Py call B) (n : nat) :
  count_wandb (trace m) = 0%nat →
  (∀ a, outcome m = Ok a → count_wandb (trace (f a)) = n) →
  (∀ e, outcome m = Raise e → n = 0%nat) →
  count_wandb (trace (m ≫= f)) = n.
Proof.
  intros Hm Hf Hraise. rewrite trace_bind, count_wandb_app, Hm.
  destruct (outcome m) as [a|e]; [by apply Hf|]. symmetry. by eapply Hraise.
Qed.

Section facts.

Context {attrs tvocab weights token_idx label_idx : Type}.
Variable abspath : string → string.
Variable get_attributes : Loaders.loader → attrs.
Variable n_clients : attrs → Z.
Variable attr_target_vocab : attrs → tvocab.
Variable get_train_data_num get_test_data_num : Loaders.loader → Z.
Variable get_train_batch_data get_test_batch_data : Loaders.loader → option Z → list nat.
Variable batches : nat → Preprocess.batch.
Variable build_freq_vocab : list (list string) → gmap string Z.
Variable remove_words : list (list string) → gset string → list (list string).
Variable build_vocab : list (list string) → gmap string Z.
Variable load_word2vec_embedding :
  string → gmap string Z → result (gmap string Z * weights).
Variable load_glove_embedding :
  string → gmap string Z → Z → result (gmap string Z * weights).
Variable padding_data : list (list string) → Z → list (list string) * list Z.
Variable token_to_idx : list (list string) → gmap string Z → token_idx.
Variable label_to_idx : list string → tvocab → label_idx.
Variable STOP_WORDS : gset string.
Variable cuda_is_available : bool.

Abbreviation bilstm_script := (main_fedavg abspath get_attributes n_clients attr_target_vocab
  get_train_data_num get_test_data_num get_train_batch_data get_test_batch_data batches
  build_freq_vocab remove_words build_vocab load_word2vec_embedding load_glove_embedding
  padding_data token_to_idx label_to_idx STOP_WORDS cuda_is_available).
Abbreviation transformer_script := (text_classification_fedavg get_attributes n_clients
  get_train_data_num get_test_data_num get_train_batch_data get_test_batch_data).
Abbreviation load_data := (bilstm_load_data abspath get_attributes n_clients
  get_train_data_num get_test_data_num get_train_batch_data get_test_batch_data).
Abbreviation preprocess_data := (Preprocess.preprocess_data build_freq_vocab remove_words
  build_vocab load_word2vec_embedding load_glove_embedding padding_data token_to_idx
  label_to_idx STOP_WORDS abspath).
Abbreviation unpack := (unpack attr_target_vocab).

(** What [main_fedavg] has done when it comes to the device. *)
Definition before_device (process_id : Z) : list call :=
  [FedML_init; add_args; setproctitle; logging_basicConfig]
  ++ (if decide (process_id = 0) then [wandb_init] else []) ++ [manual_seeds].

(** The part of [main_fedavg] from the device on. *)
Definition from_device (process_id worker_number : Z) (args : Args) : Py call unit :=
  device ← lift (init_training_device cuda_is_available process_id (worker_number - 1)
                   (gpu_num_per_server args));
  dataset ← py_embed new_loader (load_data (loader_args args) (dataset args));
  dataset ← lift (preprocess_data (preprocess_args args) (unpack dataset) batches);
  create_model (model args) ;;
  emit TextClassificationBiLSTMTrainer ;;
  emit (FedML_FedAvg_distributed process_id worker_number (comm_round args)).

Lemma main_fedavg_from_device (process_id worker_number : Z) (args : Args) :
  trace (bilstm_script process_id worker_number args)
  = before_device process_id ++ trace (from_device process_id worker_number args) ∧
  outcome (bilstm_script process_id worker_number args)
  = outcome (from_device process_id worker_number args).
Proof.
  unfold main_fedavg, before_device. fold (from_device process_id worker_number args).
  rewrite !trace_bind, !outcome_bind. cbn [emit outcome trace].
  case_bool_decide; case_decide; done.
Qed.

Lemma from_device_no_wandb (process_id worker_number : Z) (args : Args) :
  count_wandb (trace (from_device process_id worker_number args)) = 0%nat.
Proof.
  unfold from_device.
  apply count_wandb_bind; [done| |done]. intros dev _.
  apply count_wandb_bind; [apply count_wandb_loaders| |done]. intros d _.
  apply count_wandb_bind; [done| |done]. intros r _.
  destruct (create_model_cases (model args)) as [->|[attention ->]]; done.
Qed.

Lemma main_no_wandb (process_id worker_number : Z) (args : Args) :
  count_wandb (trace (main get_attributes n_clients get_train_data_num get_test_data_num
                        get_train_batch_data get_test_batch_data
                        process_id worker_number args)) = 0%nat.
Proof.
  unfold main.
  apply count_wandb_bind; [done| |done]. intros _ _.
  apply count_wandb_bind; [apply count_wandb_loaders| |done]. intros d _. done.
Qed.

Lemma text_classification_fedavg_trace (process_id worker_number : Z) (args : Args) :
  trace (transformer_script process_id worker_number args)
  = [add_args; manual_seeds; FedML_init; logging_basicConfig]
    ++ (if decide (process_id = 0) then [wandb_init] else [])
    ++ trace (main get_attributes n_clients get_train_data_num get_test_data_num
                get_train_batch_data get_test_batch_data process_id worker_number args).
Proof.
  unfold text_classification_fedavg. rewrite !trace_bind. cbn [emit outcome trace].
  case_bool_decide; case_decide; done.
Qed.

(** X25.  Each distributed entry point initialises wandb exactly once in
    process 0 and never in another process, however the run ends. *)
Theorem entry_points_wandb (process_id worker_number : Z) (args : Args) :
  wandb_calls (bilstm_script process_id worker_number args)
  = (if decide (process_id = 0) then 1%nat else 0%nat) ∧
  wandb_calls (transformer_script process_id worker_number args)
  = (if decide (process_id = 0) then 1%nat else 0%nat).
Proof.
  unfold wandb_calls. split.
  - rewrite (proj1 (main_fedavg_from_device _ _ _)), count_wandb_app, from_device_no_wandb.
    unfold before_device. by case_decide.
  - rewrite text_classification_fedavg_trace, !count_wandb_app, main_no_wandb.
    by case_decide.
Qed.

(** X26.  With [--gpu_num_per_server 0] and at least one worker, every
    process of main_fedavg.py but process 0 stops with
    [ZeroDivisionError] in [init_training_device], on a machine without
    CUDA as well, before a single data loader is made. *)
Theorem main_fedavg_zero_gpus (process_id worker_number : Z) (args : Args) :
  gpu_num_per_server args = 0 → process_id ≠ 0 → 2 ≤ worker_number →
  bilstm_script process_id worker_number args
  = MkPy [FedML_init; add_args; setproctitle; logging_basicConfig; manual_seeds]
      (Raise ZeroDivisionError).
Proof.
  intros Hg Hpid Hn.
  destruct (main_fedavg_from_device process_id worker_number args) as [Htrace Hout].
  destruct (bilstm_script process_id worker_number args) as [tr out].
  simpl in Htrace, Hout. subst tr out.
  unfold from_device, before_device. rewrite decide_False by done.
  rewrite Hg, DeviceFacts.init_training_device_zero_gpus by (done || lia). done.
Qed.

(** X27.  main_fedavg.py looks at [--model] last: with a name other than
    ["bilstm"] and ["bilstm_attention"] the run cannot return, and when
    the device, the loading and the preprocessing go through it raises
    [Exception("No such model")] only after the server's and every
    client's loader have been made and the data preprocessed; no model, no
    trainer and no federated averaging follow. *)
Theorem main_fedavg_unknown_model (process_id worker_number : Z) (args : Args) :
  model args ≠ "bilstm" → model args ≠ "bilstm_attention" →
  outcome (bilstm_script process_id worker_number args) ≠ Ok () ∧
  ∀ dev d r,
    init_training_device cuda_is_available process_id (worker_number - 1)
      (gpu_num_per_server args) = Ok dev →
    outcome (load_data (loader_args args) (dataset args)) = Ok d →
    preprocess_data (preprocess_args args) (unpack d) batches = Ok r →
    bilstm_script process_id worker_number args
    = MkPy (before_device process_id
            ++ (new_loader <$> trace (load_data (loader_args args) (dataset args))))
        (Raise (Exception "No such model")).
Proof.
  intros Hm1 Hm2.
  assert (create_model (model args) = MkPy [] (Raise (Exception "No such model"))) as Hcreate.
  { unfold create_model. by rewrite !decide_False by done. }
  destruct (main_fedavg_from_device process_id worker_number args) as [Htrace Hout].
  split.
  - rewrite Hout. unfold from_device. rewrite !outcome_bind, Hcreate. simpl.
    destruct (init_training_device _ _ _ _); [|done].
    destruct (outcome (Loaders.bilstm_load_data _ _ _ _ _ _ _ _ _)); [|done].
    by destruct (Preprocess.preprocess_data _ _ _ _ _ _ _ _ _ _ _ _ _).
  - intros dev d r Hdev Hload Hpre.
    destruct (bilstm_script process_id worker_number args) as [tr out].
    simpl in Htrace, Hout. subst tr out. unfold from_device.
    rewrite !trace_bind, !outcome_bind, Hdev. simpl.
    rewrite Hload, Hpre, Hcreate. simpl. by rewrite app_nil_r.
Qed.

End facts.

(** *** Example runs *)

Definition script_args_with (model_name : string) (gpus : Z) : Args :=
  {| model := model_name; dataset := "sst_2"; gpu_num_per_server := gpus; comm_round := 10;
     loader_args := LoadersFacts.toy_loader_args;
     preprocess_args := PreprocessFacts.toy_preprocess_args None |}.

(** Process [process_id] of three, two clients, no CUDA. *)
Definition run_main_fedavg (process_id : Z) (args : Args) : Py call unit :=
  main_fedavg id (λ _, ()) (λ _, 2) (λ _, ()) (λ _, 0) (λ _, 0)
    (λ _ _, [0%nat]) (λ _ _, [1%nat]) PreprocessFacts.toy_store
    PreprocessFacts.ref_build_freq_vocab PreprocessFacts.ref_remove_words
    PreprocessFacts.ref_build_vocab PreprocessFacts.toy_word2vec PreprocessFacts.toy_glove
    (λ x n, (x, [])) (λ x _, x) (λ y _, y) ∅ false process_id 3 args.

Lemma main_fedavg_zero_gpus_witness :
  outcome (run_main_fedavg 2 (script_args_with "bilstm" 0)) = Raise ZeroDivisionError.
Proof.
  unfold run_main_fedavg.
  rewrite main_fedavg_zero_gpus; [reflexivity|reflexivity|lia|lia].
Defined.

(** The loaders of the server and of the two clients, then the
    exception. *)
Lemma main_fedavg_unknown_model_witness :
  loader_client_idx <$> omap (λ c, match c with new_loader l => Some l | _ => None end)
                          (trace (run_main_fedavg 1 (script_args_with "lstm" 4)))
  = [None; Some 0; Some 1] ∧
  outcome (run_main_fedavg 1 (script_args_with "lstm" 4))
  = Raise (Exception "No such model").
Proof.
  pose proof (main_fedavg_unknown_model id (λ _, ()) (λ _, 2) (λ _, ()) (λ _, 0) (λ _, 0)
    (λ _ _, [0%nat]) (λ _ _, [1%nat]) PreprocessFacts.toy_store
    PreprocessFacts.ref_build_freq_vocab PreprocessFacts.ref_remove_words
    PreprocessFacts.ref_build_vocab PreprocessFacts.toy_word2vec PreprocessFacts.toy_glove
    (λ x n, (x, [])) (λ x _, x) (λ y _, y) ∅ false 1 3 (script_args_with "lstm" 4))
    as Hmodel.
  destruct Hmodel as [_ Hrun]; [discriminate|discriminate|].
  unfold run_main_fedavg.
  destruct (outcome (bilstm_load_data id (λ _, ()) (λ _, 2) (λ _, 0) (λ _, 0)
                       (λ _ _, [0%nat]) (λ _ _, [1%nat])
                       (loader_args (script_args_with "lstm" 4)) "sst_2"))
    as [d|e] eqn:Hload; [|vm_compute in Hload; discriminate].
  destruct (Preprocess.preprocess_data PreprocessFacts.ref_build_freq_vocab
              PreprocessFacts.ref_remove_words PreprocessFacts.ref_build_vocab
              PreprocessFacts.toy_word2vec PreprocessFacts.toy_glove
              (λ x n, (x, [])) (λ x _, x) (λ y _, y) ∅ id
              (preprocess_args (script_args_with "lstm" 4))
              (Scripts.unpack (λ _, ()) d) PreprocessFacts.toy_store)
    as [r|e] eqn:Hpre;
    [|vm_compute in Hload; injection Hload as <-; vm_compute in Hpre; discriminate].
  rewrite (Hrun Cpu d r); [|reflexivity|exact Hload|exact Hpre].
  split; [|reflexivity]. vm_compute. reflexivity.
Defined.

End ScriptsMoreFacts.
